(** * EuphoriaParties for Endstone: the party state registry

    A shallow embedding of [models.py] (the [Party] entity and its snapshot
    codec), [party_manager.py] (the [PartyManager] registry) and the loader of
    [storage.py], followed by the properties the specification states about
    them.

    Conventions of the embedding.
    - Python sets and dicts keyed by identifiers are stdpp's [gset] and [gmap];
      their equality is extensional, which is the "set/map equality, not
      ordering" of the specification.
    - [now_ms()] and [uuid4()] are inputs of the functions that call them.
    - A method that mutates [self] returns the new value.
    - An exception is the [Raised] result of the [result] monad.
    - Builtins of the Python runtime whose exact behaviour is outside the
      repository ([str] of an identifier, [uuid.UUID], [int] of a string, the
      iteration order of a set, ...) are the fields of the class [PyRuntime]:
      every theorem holds for every runtime. *)

From Stdlib Require Import ZArith NArith Floats String Ascii.
From stdpp Require Import gmap strings list fin_maps sorting pretty.

Set Warnings "-register-all,-clear-no-such-hyp".

(** ** Values of the Python runtime *)

(** [uuid.UUID]: the 128-bit integer value of the identifier. *)
Abbreviation UUID := N (only parsing).

(** What [json.load] produces, which is what [from_dict] receives: [None],
    [bool], [int], [float], [str], [list], and [dict] with [str] keys in
    insertion order. *)
Inductive PyVal : Type :=
| VNone
| VBool (b : bool)
| VInt (n : Z)
| VFloat (f : float)
| VStr (s : string)
| VList (l : list PyVal)
| VDict (d : list (string * PyVal)).

(** The outcome of a call that may raise. *)
Inductive result (A : Type) : Type :=
| Ok (a : A)
| Raised.
Arguments Ok {A} a.
Arguments Raised {A}.

Global Instance result_ret : MRet result := λ A a, Ok a.
Global Instance result_bind : MBind result := λ A B f r,
  match r with Ok a => f a | Raised => Raised end.

Definition of_option {A} (o : option A) : result A :=
  match o with Some a => Ok a | None => Raised end.

(** The part of the runtime the repository calls and does not define. [None]
    in a result means the call raises. *)
Class PyRuntime := {
  (** [str(u)] of a [UUID]. *)
  uuid_str : UUID → string;
  (** [uuid.UUID(s)]. *)
  uuid_parse : string → option UUID;
  (** The order in which [for x in s] visits a set. *)
  set_iter : gset UUID → list UUID;
  (** [str(v)] of a value that is not a [str]. *)
  py_repr : PyVal → string;
  (** [int(s)] and [float(s)] of a [str], [int(f)] of a [float], [float(n)] of
      an [int]. *)
  int_of_str : string → option Z;
  int_of_float : float → option Z;
  float_of_str : string → option float;
  float_of_int : Z → option float;
  (** [dict(v)] of a non-empty [list] or [str]: a sequence of pairs. *)
  dict_of_seq : PyVal → option (list (PyVal * PyVal));
  (** Iterating a set visits every element once. *)
  set_iter_perm : ∀ s, set_iter s ≡ₚ elements s;
}.

(** ** Builtins *)

Module Py.

(** A [str] is the [string] of its UTF-8 bytes. [str.strip()] removes, at
    both ends, the characters [str.isspace()] holds of: U+0009-000D,
    U+001C-0020, U+0085, U+00A0, U+1680, U+2000-200A, U+2028, U+2029, U+202F,
    U+205F and U+3000. The first ten are one byte long. *)
Definition is_space (c : ascii) : bool :=
  let n := nat_of_ascii c in
  ((9 <=? n) && (n <=? 13)) || ((28 <=? n) && (n <=? 32)).

(** U+0085 and U+00A0: the bytes C2 85 and C2 A0. *)
Definition is_space2 (c1 c2 : ascii) : bool :=
  let n1 := nat_of_ascii c1 in
  let n2 := nat_of_ascii c2 in
  (n1 =? 194) && ((n2 =? 133) || (n2 =? 160)).

(** U+1680 (E1 9A 80); U+2000-200A, U+2028, U+2029 and U+202F (E2 80 and
    80-8A, A8, A9, AF); U+205F (E2 81 9F); U+3000 (E3 80 80). *)
Definition is_space3 (c1 c2 c3 : ascii) : bool :=
  let n1 := nat_of_ascii c1 in
  let n2 := nat_of_ascii c2 in
  let n3 := nat_of_ascii c3 in
  ((n1 =? 225) && (n2 =? 154) && (n3 =? 128))
  || ((n1 =? 226) && (n2 =? 128)
      && (((128 <=? n3) && (n3 <=? 138)) || (n3 =? 168) || (n3 =? 169) || (n3 =? 175)))
  || ((n1 =? 226) && (n2 =? 129) && (n3 =? 159))
  || ((n1 =? 227) && (n2 =? 128) && (n3 =? 128)).

(** [s.lstrip()]. *)
Fixpoint lstrip (s : string) : string :=
  match s with
  | EmptyString => EmptyString
  | String c1 s1 =>
      if is_space c1 then lstrip s1
      else
        match s1 with
        | EmptyString => s
        | String c2 s2 =>
            if is_space2 c1 c2 then lstrip s2
            else
              match s2 with
              | EmptyString => s
              | String c3 s3 => if is_space3 c1 c2 c3 then lstrip s3 else s
              end
        end
  end.

(** [s.rstrip()]: [s] up to the point from which only white space follows. No
    white-space character starts with a byte that continues another
    character, so the point is never inside a character. *)
Fixpoint rstrip (s : string) : string :=
  match s with
  | EmptyString => EmptyString
  | String c s' =>
      match lstrip s with
      | EmptyString => EmptyString
      | _ => String c (rstrip s')
      end
  end.

Definition strip (s : string) : string := rstrip (lstrip s).

(** [s.lower()] on the ASCII range. Outside it [str.lower()] follows the
    Unicode case mappings, under which the one character that becomes an
    ASCII letter is U+212A, which becomes [k]. [PartyRole.parse] and
    [_resolve_storage_provider] compare the result with [leader], [officer],
    [member], [recruit], [json] and [mysql], words without [k]: the
    comparisons come out as they do with [str.lower()]. The name lookups of
    the plugin compare two names, and take [lower] as a parameter. *)
Definition lower_char (c : ascii) : ascii :=
  let n := nat_of_ascii c in
  if (65 <=? n) && (n <=? 90) then ascii_of_nat (n + 32) else c.

Fixpoint lower (s : string) : string :=
  match s with
  | EmptyString => EmptyString
  | String c s' => String (lower_char c) (lower s')
  end.

(** [for c in s]: the one-character strings of [s] (one per byte; Python
    yields one per code point). *)
Fixpoint chars (s : string) : list string :=
  match s with
  | EmptyString => []
  | String c s' => String c EmptyString :: chars s'
  end.

(** [bool(v)]. *)
Definition truthy (v : PyVal) : bool :=
  match v with
  | VNone => false
  | VBool b => b
  | VInt n => negb (n =? 0)%Z
  | VFloat f => negb (PrimFloat.eqb f 0%float)
  | VStr s => negb (String.eqb s "")
  | VList l => match l with [] => false | _ => true end
  | VDict d => match d with [] => false | _ => true end
  end.

(** [d.get(key)] and [d.get(key, default)] on a [dict] with [str] keys. *)
Fixpoint get_opt (key : string) (d : list (string * PyVal)) : option PyVal :=
  match d with
  | [] => None
  | (k, v) :: d' => if String.eqb k key then Some v else get_opt key d'
  end.

Definition get (key : string) (d : list (string * PyVal)) : PyVal :=
  default VNone (get_opt key d).

Definition get_default (key : string) (dflt : PyVal) (d : list (string * PyVal)) : PyVal :=
  default dflt (get_opt key d).

(** [s.split(sep)] for a one-character separator. *)
Fixpoint split (sep : ascii) (s : string) : list string :=
  match s with
  | EmptyString => [EmptyString]
  | String c s' =>
      if Ascii.eqb c sep then EmptyString :: split sep s'
      else match split sep s' with
           | [] => [String c EmptyString]
           | word :: words => String c word :: words
           end
  end.

(** [l[:limit]]. *)
Definition slice_to {A} (limit : Z) (l : list A) : list A :=
  if (0 <=? limit)%Z then take (Z.to_nat limit) l
  else take (Z.to_nat (Z.of_nat (length l) + limit)) l.

(** [sorted(l, key=key, reverse=True)] for integer keys: descending keys, and
    the elements with equal keys in the order they have in [l] (the sort is
    stable, also when reversed). *)
Fixpoint insert_reverse {A} (key : A → Z) (x : A) (l : list A) : list A :=
  match l with
  | [] => [x]
  | y :: l' => if (key y <=? key x)%Z then x :: l else y :: insert_reverse key x l'
  end.

Definition sorted_reverse {A} (key : A → Z) (l : list A) : list A :=
  foldr (insert_reverse key) [] l.

Section Builtins.
Context `{PyRuntime}.

(** [str(v)]. *)
Definition str (v : PyVal) : string :=
  match v with VStr s => s | _ => py_repr v end.

(** [int(v)]: [TypeError] on [None], a list or a dict. *)
Definition int (v : PyVal) : result Z :=
  match v with
  | VInt n => Ok n
  | VBool b => Ok (if b then 1 else 0)%Z
  | VFloat f => of_option (int_of_float f)
  | VStr s => of_option (int_of_str s)
  | VNone | VList _ | VDict _ => Raised
  end.

(** [float(v)]. *)
Definition float (v : PyVal) : result PrimFloat.float :=
  match v with
  | VFloat f => Ok f
  | VInt n => of_option (float_of_int n)
  | VBool b => of_option (float_of_int (if b then 1 else 0)%Z)
  | VStr s => of_option (float_of_str s)
  | VNone | VList _ | VDict _ => Raised
  end.

(** [for x in v]: the elements of a list, the keys of a dict, the characters
    of a string; [TypeError] otherwise. *)
Definition iter (v : PyVal) : result (list PyVal) :=
  match v with
  | VList l => Ok l
  | VDict d => Ok (VStr <$> d.*1)
  | VStr s => Ok (VStr <$> chars s)
  | VNone | VBool _ | VInt _ | VFloat _ => Raised
  end.

(** [dict(v).items()]. *)
Definition dict_items (v : PyVal) : result (list (PyVal * PyVal)) :=
  match v with
  | VDict d => Ok (prod_map VStr (λ x, x) <$> d)
  | VList [] => Ok []
  | VStr EmptyString => Ok []
  | VList _ | VStr _ => of_option (dict_of_seq v)
  | VNone | VBool _ | VInt _ | VFloat _ => Raised
  end.

(** [_parse_uuid(value)] of models.py: [UUID(str(value))], [None] when that
    raises. *)
Definition _parse_uuid (value : PyVal) : option UUID := uuid_parse (str value).

(** The relation [sorted(..., key=lambda i: str(i))] sorts by: code-point order
    of the canonical strings. *)
Definition str_le (a b : UUID) : Prop := String.leb (uuid_str a) (uuid_str b) = true.

Global Instance str_le_dec a b : Decision (str_le a b).
Proof. unfold str_le. apply _. Defined.

(** [sorted(s, key=lambda i: str(i))] for a set [s] of identifiers. *)
Definition sorted_by_str (s : gset UUID) : list UUID := merge_sort str_le (set_iter s).

End Builtins.

Definition string_le (a b : string) : Prop := String.leb a b = true.

Global Instance string_le_dec a b : Decision (string_le a b).
Proof. unfold string_le. apply _. Defined.

(** [sorted(s)] for a set of strings. *)
Definition sorted_strings (s : gset string) : list string := merge_sort string_le (elements s).

End Py.

(** ** __init__.py: the configuration *)

Module EuphoriaPartiesPlugin.

(** The loop of [get_config] over the segments of the path. On a [dict],
    [segment not in cursor] tests the keys. On a [str] or a [list] the test
    either holds or is followed by [cursor[segment]], which raises
    [TypeError]; on the other values the test itself raises: all these return
    [default]. *)
Fixpoint walk (cursor : PyVal) (segments : list string) (dflt : PyVal) : PyVal :=
  match segments with
  | [] => cursor
  | segment :: rest =>
      match cursor with
      | VDict d =>
          match Py.get_opt segment d with
          | None => dflt
          | Some v => walk v rest dflt
          end
      | VStr _ | VList _ => dflt
      | VNone | VBool _ | VInt _ | VFloat _ => dflt
      end
  end.

(** [get_config(path, default)]; [config] is [self.config]. *)
Definition get_config (config : PyVal) (path : string) (dflt : PyVal) : PyVal :=
  walk config (Py.split "." path) dflt.

End EuphoriaPartiesPlugin.

(** ** models.py *)

Definition MILLIS_PER_DAY : Z := 24 * 60 * 60 * 1000.

Module PartyRole.

Inductive t : Type := LEADER | OFFICER | MEMBER | RECRUIT.

Global Instance eq_dec : EqDecision t.
Proof. solve_decision. Defined.

(** The enumeration's values, in declaration order. *)
Definition all : list t := [LEADER; OFFICER; MEMBER; RECRUIT].

Definition value (r : t) : string :=
  match r with
  | LEADER => "leader"
  | OFFICER => "officer"
  | MEMBER => "member"
  | RECRUIT => "recruit"
  end.

Definition level (r : t) : Z :=
  match r with
  | LEADER => 3
  | OFFICER => 2
  | MEMBER => 1
  | RECRUIT => 0
  end.

Definition can_ban_players (r : t) : bool := (level OFFICER <=? level r)%Z.

Definition can_invite (r : t) : bool := (level OFFICER <=? level r)%Z.

Definition can_kick (r : t) : bool := (level OFFICER <=? level r)%Z.

Definition can_set_home (r : t) : bool := (level OFFICER <=? level r)%Z.

Definition can_promote (r : t) : bool := (level LEADER <=? level r)%Z.

(** [PartyRole.parse(value)]: a falsy value is [MEMBER]; [value.strip()] raises
    [AttributeError] on a truthy value that is not a string. *)
Definition parse (v : PyVal) : result t :=
  if negb (Py.truthy v) then Ok MEMBER
  else match v with
       | VStr s =>
           let normalized := Py.lower (Py.strip s) in
           Ok (default MEMBER (List.find (λ role, String.eqb (value role) normalized) all))
       | _ => Raised
       end.

End PartyRole.

Module LocationData.

Record t : Type := mk {
  level : string;
  dimension : string;
  x : float;
  y : float;
  z : float;
  pitch : float;
  yaw : float;
}.

Definition to_dict (self : t) : list (string * PyVal) :=
  [ ("level", VStr (level self));
    ("dimension", VStr (dimension self));
    ("x", VFloat (x self));
    ("y", VFloat (y self));
    ("z", VFloat (z self));
    ("pitch", VFloat (pitch self));
    ("yaw", VFloat (yaw self)) ].

Definition from_dict `{PyRuntime} (data : list (string * PyVal)) : result t :=
  x ← Py.float (Py.get_default "x" (VFloat 0) data);
  y ← Py.float (Py.get_default "y" (VFloat 0) data);
  z ← Py.float (Py.get_default "z" (VFloat 0) data);
  pitch ← Py.float (Py.get_default "pitch" (VFloat 0) data);
  yaw ← Py.float (Py.get_default "yaw" (VFloat 0) data);
  Ok {| level := Py.str (Py.get_default "level" (VStr "") data);
        dimension := Py.str (Py.get_default "dimension" (VStr "overworld") data);
        x := x; y := y; z := z; pitch := pitch; yaw := yaw |}.

End LocationData.

Module Party.

(** The dataclass [Party]. [name] is declared [str | None]; [from_dict] stores
    whatever truthy value the snapshot holds, so the field is a [PyVal]
    ([VNone] for [None]). *)
Record t : Type := mk {
  id : UUID;
  leader : UUID;
  members : gset UUID;
  invites : gmap UUID Z;
  join_requests : gmap UUID Z;
  home : option LocationData.t;
  created_at : Z;
  name : PyVal;
  is_public : bool;
  roles : gmap UUID PartyRole.t;
  banned_players : gset UUID;
  total_play_time_ms : Z;
  total_kills : Z;
  total_deaths : Z;
  color : string;
  icon : string;
  allies : gset UUID;
  last_daily_reward : gmap UUID Z;
  consecutive_days : Z;
  last_reward_date : Z;
  achievements : gset string;
  last_seen : gmap UUID Z;
}.

(** Field assignments [self.f = v]. *)
Definition set_leader (v : UUID) (p : t) : t :=
  mk (id p) v (members p) (invites p) (join_requests p) (home p) (created_at p) (name p)
     (is_public p) (roles p) (banned_players p) (total_play_time_ms p) (total_kills p)
     (total_deaths p) (color p) (icon p) (allies p) (last_daily_reward p)
     (consecutive_days p) (last_reward_date p) (achievements p) (last_seen p).

Definition set_members (v : gset UUID) (p : t) : t :=
  mk (id p) (leader p) v (invites p) (join_requests p) (home p) (created_at p) (name p)
     (is_public p) (roles p) (banned_players p) (total_play_time_ms p) (total_kills p)
     (total_deaths p) (color p) (icon p) (allies p) (last_daily_reward p)
     (consecutive_days p) (last_reward_date p) (achievements p) (last_seen p).

Definition set_invites (v : gmap UUID Z) (p : t) : t :=
  mk (id p) (leader p) (members p) v (join_requests p) (home p) (created_at p) (name p)
     (is_public p) (roles p) (banned_players p) (total_play_time_ms p) (total_kills p)
     (total_deaths p) (color p) (icon p) (allies p) (last_daily_reward p)
     (consecutive_days p) (last_reward_date p) (achievements p) (last_seen p).

Definition set_join_requests (v : gmap UUID Z) (p : t) : t :=
  mk (id p) (leader p) (members p) (invites p) v (home p) (created_at p) (name p)
     (is_public p) (roles p) (banned_players p) (total_play_time_ms p) (total_kills p)
     (total_deaths p) (color p) (icon p) (allies p) (last_daily_reward p)
     (consecutive_days p) (last_reward_date p) (achievements p) (last_seen p).

Definition set_roles (v : gmap UUID PartyRole.t) (p : t) : t :=
  mk (id p) (leader p) (members p) (invites p) (join_requests p) (home p) (created_at p) (name p)
     (is_public p) v (banned_players p) (total_play_time_ms p) (total_kills p)
     (total_deaths p) (color p) (icon p) (allies p) (last_daily_reward p)
     (consecutive_days p) (last_reward_date p) (achievements p) (last_seen p).

Definition set_banned_players (v : gset UUID) (p : t) : t :=
  mk (id p) (leader p) (members p) (invites p) (join_requests p) (home p) (created_at p) (name p)
     (is_public p) (roles p) v (total_play_time_ms p) (total_kills p)
     (total_deaths p) (color p) (icon p) (allies p) (last_daily_reward p)
     (consecutive_days p) (last_reward_date p) (achievements p) (last_seen p).

Definition set_last_daily_reward (v : gmap UUID Z) (p : t) : t :=
  mk (id p) (leader p) (members p) (invites p) (join_requests p) (home p) (created_at p) (name p)
     (is_public p) (roles p) (banned_players p) (total_play_time_ms p) (total_kills p)
     (total_deaths p) (color p) (icon p) (allies p) v
     (consecutive_days p) (last_reward_date p) (achievements p) (last_seen p).

Definition set_consecutive_days (v : Z) (p : t) : t :=
  mk (id p) (leader p) (members p) (invites p) (join_requests p) (home p) (created_at p) (name p)
     (is_public p) (roles p) (banned_players p) (total_play_time_ms p) (total_kills p)
     (total_deaths p) (color p) (icon p) (allies p) (last_daily_reward p)
     v (last_reward_date p) (achievements p) (last_seen p).

Definition set_last_reward_date (v : Z) (p : t) : t :=
  mk (id p) (leader p) (members p) (invites p) (join_requests p) (home p) (created_at p) (name p)
     (is_public p) (roles p) (banned_players p) (total_play_time_ms p) (total_kills p)
     (total_deaths p) (color p) (icon p) (allies p) (last_daily_reward p)
     (consecutive_days p) v (achievements p) (last_seen p).

Definition set_last_seen (v : gmap UUID Z) (p : t) : t :=
  mk (id p) (leader p) (members p) (invites p) (join_requests p) (home p) (created_at p) (name p)
     (is_public p) (roles p) (banned_players p) (total_play_time_ms p) (total_kills p)
     (total_deaths p) (color p) (icon p) (allies p) (last_daily_reward p)
     (consecutive_days p) (last_reward_date p) (achievements p) v.

(** [Party.create(leader_id)]; [party_id] is the result of [uuid4()] and [now]
    of the [created_at] default. *)
Definition create (party_id : UUID) (now : Z) (leader_id : UUID) : t :=
  let party :=
    mk party_id leader_id ∅ ∅ ∅ None now VNone true ∅ ∅ 0 0 0 "§6" "*" ∅ ∅ 0 0 ∅ ∅ in
  let party := set_members ({[leader_id]} ∪ members party) party in
  set_roles (<[leader_id := PartyRole.LEADER]> (roles party)) party.

Definition is_member (self : t) (player_id : UUID) : bool :=
  bool_decide (player_id ∈ members self).

Definition is_leader (self : t) (player_id : UUID) : bool :=
  bool_decide (leader self = player_id).

Definition get_role (self : t) (player_id : UUID) : PartyRole.t :=
  default PartyRole.MEMBER (roles self !! player_id).

Definition set_role (self : t) (player_id : UUID) (role : PartyRole.t) : t :=
  if bool_decide (player_id = leader self) then
    set_roles (<[player_id := PartyRole.LEADER]> (roles self)) self
  else if bool_decide (player_id ∈ members self) then
    set_roles (<[player_id := role]> (roles self)) self
  else self.

Definition transfer_leadership (self : t) (new_leader_id : UUID) : bool * t :=
  if bool_decide (new_leader_id ∉ members self) then (false, self)
  else
    let self :=
      if bool_decide (leader self ≠ new_leader_id) then
        let self := set_roles (<[leader self := PartyRole.OFFICER]> (roles self)) self in
        set_leader new_leader_id self
      else self in
    (true, set_roles (<[leader self := PartyRole.LEADER]> (roles self)) self).

(** [self.roles.setdefault(player_id, PartyRole.MEMBER)]. *)
Definition setdefault_role (player_id : UUID) (roles : gmap UUID PartyRole.t) :=
  match roles !! player_id with
  | Some _ => roles
  | None => <[player_id := PartyRole.MEMBER]> roles
  end.

Definition add_member (self : t) (player_id : UUID) : t :=
  let self := set_members ({[player_id]} ∪ members self) self in
  let self := set_invites (delete player_id (invites self)) self in
  let self := set_join_requests (delete player_id (join_requests self)) self in
  set_roles (setdefault_role player_id (roles self)) self.

Definition remove_member (self : t) (player_id : UUID) : t :=
  let self := set_members (members self ∖ {[player_id]}) self in
  let self := set_invites (delete player_id (invites self)) self in
  let self := set_join_requests (delete player_id (join_requests self)) self in
  let self := set_roles (delete player_id (roles self)) self in
  let self := set_last_daily_reward (delete player_id (last_daily_reward self)) self in
  set_last_seen (delete player_id (last_seen self)) self.

Definition invite_player (now : Z) (self : t) (player_id : UUID) : t :=
  set_invites (<[player_id := now]> (invites self)) self.

Definition has_invite (self : t) (player_id : UUID) : bool :=
  bool_decide (is_Some (invites self !! player_id)).

Definition remove_invite (self : t) (player_id : UUID) : t :=
  set_invites (delete player_id (invites self)) self.

(** The entries a sweep removes: those with [sent_at < cutoff]. *)
Definition expired_at (cutoff : Z) (entries : gmap UUID Z) : gmap UUID Z :=
  filter (λ kv, (kv.2 < cutoff)%Z) entries.

Definition live_at (cutoff : Z) (entries : gmap UUID Z) : gmap UUID Z :=
  filter (λ kv, ¬ (kv.2 < cutoff)%Z) entries.

(** [clean_expired_invites(expiration_ms)]: the set returned and the party
    left. *)
Definition clean_expired_invites (now : Z) (self : t) (expiration_ms : Z) : gset UUID * t :=
  let cutoff := (now - expiration_ms)%Z in
  (dom (expired_at cutoff (invites self)), set_invites (live_at cutoff (invites self)) self).

Definition add_join_request (now : Z) (self : t) (player_id : UUID) : t :=
  set_join_requests (<[player_id := now]> (join_requests self)) self.

Definition has_join_request (self : t) (player_id : UUID) : bool :=
  bool_decide (is_Some (join_requests self !! player_id)).

Definition remove_join_request (self : t) (player_id : UUID) : t :=
  set_join_requests (delete player_id (join_requests self)) self.

Definition clean_expired_join_requests (now : Z) (self : t) (expiration_ms : Z) : gset UUID * t :=
  let cutoff := (now - expiration_ms)%Z in
  (dom (expired_at cutoff (join_requests self)),
   set_join_requests (live_at cutoff (join_requests self)) self).

Definition ban_player (self : t) (player_id : UUID) : t :=
  let self := set_banned_players ({[player_id]} ∪ banned_players self) self in
  remove_member self player_id.

Definition unban_player (self : t) (player_id : UUID) : t :=
  set_banned_players (banned_players self ∖ {[player_id]}) self.

(** [can_claim_daily_reward(player_id, timestamp_ms)], with the timestamp
    given. *)
Definition can_claim_daily_reward (self : t) (player_id : UUID) (timestamp_ms : Z) : bool :=
  match last_daily_reward self !! player_id with
  | None => true
  | Some last_claim => (MILLIS_PER_DAY <=? timestamp_ms - last_claim)%Z
  end.

Definition claim_daily_reward (self : t) (player_id : UUID) (timestamp_ms : Z) : t :=
  let now := timestamp_ms in
  let self := set_last_daily_reward (<[player_id := now]> (last_daily_reward self)) self in
  let self :=
    if (0 <? last_reward_date self)%Z then
      let days_since := ((now - last_reward_date self) `div` MILLIS_PER_DAY)%Z in
      if (days_since =? 1)%Z then set_consecutive_days (consecutive_days self + 1)%Z self
      else if (1 <? days_since)%Z then set_consecutive_days 1%Z self
      else self
    else set_consecutive_days 1%Z self in
  set_last_reward_date now self.

Definition set_total_play_time_ms (v : Z) (p : t) : t :=
  mk (id p) (leader p) (members p) (invites p) (join_requests p) (home p) (created_at p) (name p)
     (is_public p) (roles p) (banned_players p) v (total_kills p)
     (total_deaths p) (color p) (icon p) (allies p) (last_daily_reward p)
     (consecutive_days p) (last_reward_date p) (achievements p) (last_seen p).

Definition set_total_kills (v : Z) (p : t) : t :=
  mk (id p) (leader p) (members p) (invites p) (join_requests p) (home p) (created_at p) (name p)
     (is_public p) (roles p) (banned_players p) (total_play_time_ms p) v
     (total_deaths p) (color p) (icon p) (allies p) (last_daily_reward p)
     (consecutive_days p) (last_reward_date p) (achievements p) (last_seen p).

Definition set_total_deaths (v : Z) (p : t) : t :=
  mk (id p) (leader p) (members p) (invites p) (join_requests p) (home p) (created_at p) (name p)
     (is_public p) (roles p) (banned_players p) (total_play_time_ms p) (total_kills p)
     v (color p) (icon p) (allies p) (last_daily_reward p)
     (consecutive_days p) (last_reward_date p) (achievements p) (last_seen p).

Definition set_achievements (v : gset string) (p : t) : t :=
  mk (id p) (leader p) (members p) (invites p) (join_requests p) (home p) (created_at p) (name p)
     (is_public p) (roles p) (banned_players p) (total_play_time_ms p) (total_kills p)
     (total_deaths p) (color p) (icon p) (allies p) (last_daily_reward p)
     (consecutive_days p) (last_reward_date p) v (last_seen p).

Definition set_allies (v : gset UUID) (p : t) : t :=
  mk (id p) (leader p) (members p) (invites p) (join_requests p) (home p) (created_at p) (name p)
     (is_public p) (roles p) (banned_players p) (total_play_time_ms p) (total_kills p)
     (total_deaths p) (color p) (icon p) v (last_daily_reward p)
     (consecutive_days p) (last_reward_date p) (achievements p) (last_seen p).

Definition has_home (self : t) : bool :=
  match home self with Some _ => true | None => false end.

Definition add_play_time (self : t) (milliseconds : Z) : t :=
  set_total_play_time_ms (total_play_time_ms self + Z.max 0 milliseconds)%Z self.

Definition increment_kills (self : t) : t :=
  set_total_kills (total_kills self + 1)%Z self.

Definition increment_deaths (self : t) : t :=
  set_total_deaths (total_deaths self + 1)%Z self.

Definition unlock_achievement (self : t) (achievement_id : string) : t :=
  set_achievements ({[achievement_id]} ∪ achievements self) self.

Definition has_achievement (self : t) (achievement_id : string) : bool :=
  bool_decide (achievement_id ∈ achievements self).

Section Snapshot.
Context `{PyRuntime}.

(** [{str(k): v for k, v in d.items()}] for a dict of timestamps. *)
Definition timestamps_to_dict (d : gmap UUID Z) : PyVal :=
  VDict ((λ kv, (uuid_str kv.1, VInt kv.2)) <$> map_to_list d).

(** [[str(i) for i in sorted(s, key=lambda i: str(i))]]. *)
Definition ids_to_list (s : gset UUID) : PyVal :=
  VList ((λ i, VStr (uuid_str i)) <$> Py.sorted_by_str s).

Definition to_dict (self : t) : list (string * PyVal) :=
  [ ("id", VStr (uuid_str (id self)));
    ("leader", VStr (uuid_str (leader self)));
    ("members", ids_to_list (members self));
    ("invites", timestamps_to_dict (invites self));
    ("join_requests", timestamps_to_dict (join_requests self));
    ("home", match home self with
             | Some h => VDict (LocationData.to_dict h)
             | None => VNone
             end);
    ("created_at", VInt (created_at self));
    ("name", name self);
    ("is_public", VBool (is_public self));
    ("roles", VDict ((λ kv, (uuid_str kv.1, VStr (PartyRole.value kv.2)))
                       <$> map_to_list (roles self)));
    ("banned_players", ids_to_list (banned_players self));
    ("total_play_time_ms", VInt (total_play_time_ms self));
    ("total_kills", VInt (total_kills self));
    ("total_deaths", VInt (total_deaths self));
    ("color", VStr (color self));
    ("icon", VStr (icon self));
    ("allies", ids_to_list (allies self));
    ("last_daily_reward", timestamps_to_dict (last_daily_reward self));
    ("consecutive_days", VInt (consecutive_days self));
    ("last_reward_date", VInt (last_reward_date self));
    ("achievements", VList (VStr <$> Py.sorted_strings (achievements self)));
    ("last_seen", timestamps_to_dict (last_seen self)) ].

(** [{p for raw in v if (p := _parse_uuid(raw)) is not None}]: entries that do
    not parse are left out; iterating [v] may raise. *)
Definition decode_ids (v : PyVal) : result (gset UUID) :=
  raws ← Py.iter v; Ok (list_to_set (omap Py._parse_uuid raws)).

(** [{p: conv(x) for raw, x in items if (p := _parse_uuid(raw)) is not None}]:
    the condition is evaluated first, so [conv] runs only on entries whose
    identifier parses; a later entry replaces an earlier one with the same
    identifier. *)
Fixpoint decode_items {V} (conv : PyVal → result V) (items : list (PyVal * PyVal))
    (acc : gmap UUID V) : result (gmap UUID V) :=
  match items with
  | [] => Ok acc
  | (raw, x) :: rest =>
      match Py._parse_uuid raw with
      | None => decode_items conv rest acc
      | Some p => c ← conv x; decode_items conv rest (<[p := c]> acc)
      end
  end.

Definition decode_dict {V} (conv : PyVal → result V) (v : PyVal) : result (gmap UUID V) :=
  items ← Py.dict_items v; decode_items conv items ∅.

(** [Party.from_dict(data)]; [now] is the value of [now_ms()] for the
    [created_at] default. [Ok None] is the [return None]. *)
Definition from_dict (now : Z) (data : list (string * PyVal)) : result (option t) :=
  match Py._parse_uuid (Py.get "id" data), Py._parse_uuid (Py.get "leader" data) with
  | Some party_id, Some leader_id =>
      members ← decode_ids (Py.get_default "members" (VList []) data);
      invites ← decode_dict Py.int (Py.get_default "invites" (VDict []) data);
      join_requests ← decode_dict Py.int (Py.get_default "join_requests" (VDict []) data);
      home ← match Py.get "home" data with
             | VDict d => h ← LocationData.from_dict d; Ok (Some h)
             | _ => Ok None
             end;
      created_at ← Py.int (Py.get_default "created_at" (VInt now) data);
      let name := if Py.truthy (Py.get "name" data) then Py.get "name" data else VNone in
      let is_public := Py.truthy (Py.get_default "is_public" (VBool true) data) in
      roles ← decode_dict PartyRole.parse (Py.get_default "roles" (VDict []) data);
      banned_players ← decode_ids (Py.get_default "banned_players" (VList []) data);
      total_play_time_ms ← Py.int (Py.get_default "total_play_time_ms" (VInt 0) data);
      total_kills ← Py.int (Py.get_default "total_kills" (VInt 0) data);
      total_deaths ← Py.int (Py.get_default "total_deaths" (VInt 0) data);
      let color := Py.str (Py.get_default "color" (VStr "§6") data) in
      let icon := Py.str (Py.get_default "icon" (VStr "*") data) in
      allies ← decode_ids (Py.get_default "allies" (VList []) data);
      last_daily_reward ← decode_dict Py.int (Py.get_default "last_daily_reward" (VDict []) data);
      consecutive_days ← Py.int (Py.get_default "consecutive_days" (VInt 0) data);
      last_reward_date ← Py.int (Py.get_default "last_reward_date" (VInt 0) data);
      entries ← Py.iter (Py.get_default "achievements" (VList []) data);
      let achievements : gset string := list_to_set (Py.str <$> entries) in
      last_seen ← decode_dict Py.int (Py.get_default "last_seen" (VDict []) data);
      let party :=
        mk party_id leader_id members invites join_requests home created_at name is_public
           roles banned_players total_play_time_ms total_kills total_deaths color icon allies
           last_daily_reward consecutive_days last_reward_date achievements last_seen in
      let party :=
        if bool_decide (leader_id ∉ Party.members party)
        then set_members ({[leader_id]} ∪ Party.members party) party
        else party in
      let party := set_roles (<[leader_id := PartyRole.LEADER]> (Party.roles party)) party in
      (* Keep roles only for current members. *)
      let party :=
        set_roles (filter (λ kv, kv.1 ∈ Party.members party) (Party.roles party)) party in
      Ok (Some party)
  | _, _ => Ok None
  end.

End Snapshot.

End Party.

(** ** achievement_manager.py *)

Module PartyAchievement.

Record t : Type := mk {
  id : string;
  name : string;
  description : string;
  requirement : Z;
  reward_type : string;
  reward_amount : Z;
}.

End PartyAchievement.

(** Arithmetic of the Python runtime on mixed operands. *)
Class PyNumbers := {
  (** [a / b] of two [int]s, [b] positive: the nearest [float], [None] when
      the quotient is too large for one ([OverflowError]). *)
  int_truediv : Z → Z → option float;
  (** [n >= f] of an [int] and a [float]. *)
  int_ge_float : Z → float → bool;
}.

Module PartyAchievementManager.

(** The calls made on the players of the server. *)
Inductive call : Type :=
| send_message (member : UUID) (message : string)
| give_exp (member : UUID) (amount : Z).

(** [self._achievements] after [_register_defaults()], in insertion order. *)
Definition _register_defaults : list (string * PartyAchievement.t) :=
  [ ("party_started",
     PartyAchievement.mk "party_started" "§6Party Started" "§7Create your first party"
       1 "xp" 100);
    ("team_player",
     PartyAchievement.mk "team_player" "§6Team Player" "§7Have 5 members in your party"
       5 "xp" 250);
    ("full_house",
     PartyAchievement.mk "full_house" "§6Full House" "§7Fill your party to max capacity"
       8 "xp" 500);
    ("dedicated",
     PartyAchievement.mk "dedicated" "§6Dedicated" "§710 hours of party playtime"
       36000000 "xp" 500);
    ("veteran",
     PartyAchievement.mk "veteran" "§6Veteran" "§750 hours of party playtime"
       180000000 "xp" 2000);
    ("first_blood",
     PartyAchievement.mk "first_blood" "§6First Blood" "§7Get 10 party kills"
       10 "xp" 200);
    ("slayer",
     PartyAchievement.mk "slayer" "§6Slayer" "§7Get 100 party kills"
       100 "xp" 1000);
    ("survivor",
     PartyAchievement.mk "survivor" "§6Survivor" "§7Reach 2.0 K/D ratio"
       0 "xp" 750);
    ("consistent",
     PartyAchievement.mk "consistent" "§6Consistent" "§7Claim rewards for 7 days straight"
       7 "xp" 500);
    ("devoted",
     PartyAchievement.mk "devoted" "§6Devoted" "§7Claim rewards for 30 days straight"
       30 "xp" 2500) ].

(** [self._achievements.get(achievement_id)]. *)
Definition get (_achievements : list (string * PartyAchievement.t)) (achievement_id : string)
    : option PartyAchievement.t :=
  snd <$> List.find (λ entry, String.eqb entry.1 achievement_id) _achievements.

Definition get_all (_achievements : list (string * PartyAchievement.t))
    : list PartyAchievement.t :=
  _achievements.*2.

(** [member_count >= v] for the value [v] of a configuration key: [TypeError]
    when [v] is not a number. *)
Definition int_ge `{PyNumbers} (n : Z) (v : PyVal) : result bool :=
  match v with
  | VInt m => Ok (m <=? n)%Z
  | VBool b => Ok ((if b then 1 else 0) <=? n)%Z
  | VFloat f => Ok (int_ge_float n f)
  | VNone | VStr _ | VList _ | VDict _ => Raised
  end.

Section WithRuntime.
Context `{PyRuntime} `{PyNumbers}.

(** [online id] is [self.plugin.server.get_player(id) is not None]. *)
Variable online : UUID → bool.
Variable _achievements : list (string * PartyAchievement.t).

(** One round of the loop over [party.members] in [_try_unlock]. *)
Definition reward (achievement : PartyAchievement.t) (member_id : UUID) : list call :=
  if online member_id then
    [ send_message member_id "§8[§6Party§8] §eAchievement Unlocked!";
      send_message member_id
        (PartyAchievement.name achievement +:+ " §7- "
           +:+ PartyAchievement.description achievement) ]
    ++ (if String.eqb (PartyAchievement.reward_type achievement) "xp" then
          [ give_exp member_id (PartyAchievement.reward_amount achievement);
            send_message member_id
              ("§7Reward: §e+" +:+ pretty (PartyAchievement.reward_amount achievement)
                 +:+ " XP") ]
        else [])
  else [].

(** [_try_unlock(party, achievement_id, condition)]: the party left, and the
    calls made so far with those of this call added. *)
Definition _try_unlock (st : Party.t * list call) (achievement_id : string) (condition : bool)
    : Party.t * list call :=
  let '(party, calls) := st in
  if negb condition || Party.has_achievement party achievement_id then st
  else
    match get _achievements achievement_id with
    | None => st
    | Some achievement =>
        let party := Party.unlock_achievement party achievement_id in
        (party, calls ++ flat_map (reward achievement) (set_iter (Party.members party)))
    end.

(** [check(party)]: the party left, the calls made, and whether [check]
    returned ([true]) or raised; [config] is [self.plugin.config]. *)
Definition check (config : PyVal) (party : Party.t) : Party.t * list call * bool :=
  let member_count := Z.of_nat (size (Party.members party)) in
  let play_time := Party.total_play_time_ms party in
  let kills := Party.total_kills party in
  let st := (party, []) in
  let st := _try_unlock st "party_started" (1 <=? member_count)%Z in
  let st := _try_unlock st "team_player" (5 <=? member_count)%Z in
  match int_ge member_count
          (EuphoriaPartiesPlugin.get_config config "party.max-members" (VInt 8)) with
  | Raised => (st, false)
  | Ok full =>
      let st := _try_unlock st "full_house" full in
      let st := _try_unlock st "dedicated" (36000000 <=? play_time)%Z in
      let st := _try_unlock st "veteran" (180000000 <=? play_time)%Z in
      let st := _try_unlock st "first_blood" (10 <=? kills)%Z in
      let st := _try_unlock st "slayer" (100 <=? kills)%Z in
      let survivor :=
        if (0 <? Party.total_deaths st.1)%Z then
          match int_truediv kills (Party.total_deaths st.1) with
          | None => Raised
          | Some kd_ratio => Ok (_try_unlock st "survivor" (PrimFloat.leb 2 kd_ratio))
          end
        else Ok st in
      match survivor with
      | Raised => (st, false)
      | Ok st =>
          let streak := Party.consecutive_days st.1 in
          let st := _try_unlock st "consistent" (7 <=? streak)%Z in
          let st := _try_unlock st "devoted" (30 <=? streak)%Z in
          (st, true)
      end
  end.

End WithRuntime.

End PartyAchievementManager.

(** ** leaderboard_manager.py *)

Module PartyLeaderboardManager.

(** The methods take [self.plugin.party_manager.parties.values()], here
    [values], in the order the dict yields them. *)
Definition top_by_kills (values : list Party.t) (limit : Z) : list Party.t :=
  Py.slice_to limit (Py.sorted_reverse Party.total_kills values).

Definition top_by_playtime (values : list Party.t) (limit : Z) : list Party.t :=
  Py.slice_to limit (Py.sorted_reverse Party.total_play_time_ms values).

Definition top_by_members (values : list Party.t) (limit : Z) : list Party.t :=
  Py.slice_to limit (Py.sorted_reverse (λ party, Z.of_nat (size (Party.members party))) values).

Definition top_by_achievements (values : list Party.t) (limit : Z) : list Party.t :=
  Py.slice_to limit
    (Py.sorted_reverse (λ party, Z.of_nat (size (Party.achievements party))) values).

End PartyLeaderboardManager.

(** ** storage.py *)

Module PartyStorage.

(** What [load] finds at [data_file]: no file, a file [json.load] rejects, or
    the decoded document. *)
Inductive file_state : Type :=
| Missing
| Unreadable
| Parsed (payload : PyVal).

Section WithRuntime.
Context `{PyRuntime}.

(** One round of the loop over [raw_names.items()]. *)
Definition load_name (player_names : gmap UUID string) (item : string * PyVal)
    : gmap UUID string :=
  match uuid_parse (Py.str (VStr item.1)) with
  | None => player_names
  | Some player_id =>
      let name := Py.strip (Py.str item.2) in
      if String.eqb name "" then player_names else <[player_id := name]> player_names
  end.

(** The loop [for entry in entries] of [load]. *)
Fixpoint load_entries (now : Z) (entries : list PyVal) (parties : gmap UUID Party.t)
    : result (gmap UUID Party.t) :=
  match entries with
  | [] => Ok parties
  | VDict entry :: rest =>
      party ← Party.from_dict now entry;
      match party with
      | None => load_entries now rest parties
      | Some party => load_entries now rest (<[Party.id party := party]> parties)
      end
  | _ :: rest => load_entries now rest parties
  end.

(** [PartyStorage.load()]; [now] is the clock [Party.from_dict] reads. *)
Definition load (now : Z) (file : file_state)
    : result (gmap UUID Party.t * gmap UUID string) :=
  match file with
  | Missing | Unreadable => Ok (∅, ∅)
  | Parsed (VList entries) =>
      parties ← load_entries now entries ∅; Ok (parties, ∅)
  | Parsed (VDict payload) =>
      let player_names :=
        match Py.get_default "player_names" (VDict []) payload with
        | VDict raw_names => foldl load_name ∅ raw_names
        | _ => ∅
        end in
      entries ← Py.iter (Py.get_default "parties" (VList []) payload);
      parties ← load_entries now entries ∅;
      Ok (parties, player_names)
  | Parsed _ => Ok (∅, ∅)
  end.

(** [PartyStorage.save(parties, player_names)]: the [payload] handed to
    [json.dump], which is the document [data_file] holds once the temporary
    file has replaced it. *)
Definition save (parties : list Party.t) (player_names : gmap UUID string) : PyVal :=
  let serialized := (λ party, VDict (Party.to_dict party)) <$> parties in
  let names_payload :=
    (λ kv : UUID * string, (uuid_str kv.1, VStr kv.2))
      <$> filter (λ kv : UUID * string, kv.2 ≠ "") (map_to_list player_names) in
  VDict [("parties", VList serialized); ("player_names", VDict names_payload)].

End WithRuntime.

End PartyStorage.

Module MySQLPartyStorage.

Definition DEFAULT_CONNECT_TIMEOUT : Z := 5.
Definition MAX_TABLE_PREFIX_LENGTH : nat := 32.

(** The fields [__init__] sets before it calls [_ensure_schema()]. *)
Record t : Type := mk {
  _table_name : string;
  _names_table : string;
  host : string;
  port : Z;
  user : string;
  password : string;
  database : string;
  connection_timeout : Z;
}.

(** A character the class [[a-zA-Z0-9_]] matches. *)
Definition word_char (c : ascii) : bool :=
  let n := nat_of_ascii c in
  ((97 <=? n) && (n <=? 122)) || ((65 <=? n) && (n <=? 90)) || ((48 <=? n) && (n <=? 57))
  || (n =? 95).

(** [re.sub(r"[^a-zA-Z0-9_]", "", s)]. *)
Fixpoint strip_non_word (s : string) : string :=
  match s with
  | EmptyString => EmptyString
  | String c s' => if word_char c then String c (strip_non_word s') else strip_non_word s'
  end.

(** [MySQLPartyStorage(...)] up to the call of [_ensure_schema()];
    [available] is [mysql_connector is not None]. The result is [Raised] for
    the two [RuntimeError]s. *)
Definition __init__ (available : bool) (host : string) (port : Z) (database : string)
    (username : string) (password : string) (table_prefix : string) (connect_timeout : Z)
    : result t :=
  if negb available then Raised
  else if String.eqb database "" || String.eqb username "" then Raised
  else
    let normalized_prefix := strip_non_word table_prefix in
    let normalized_prefix :=
      if (MAX_TABLE_PREFIX_LENGTH <? String.length normalized_prefix)%nat
      then String.substring 0 MAX_TABLE_PREFIX_LENGTH normalized_prefix
      else normalized_prefix in
    let normalized_prefix :=
      if String.eqb normalized_prefix "" then "euphoria_" else normalized_prefix in
    let safe_timeout := connect_timeout in
    let safe_timeout :=
      if (safe_timeout <? 1)%Z then DEFAULT_CONNECT_TIMEOUT else safe_timeout in
    Ok {| _table_name := normalized_prefix +:+ "parties";
          _names_table := normalized_prefix +:+ "player_names";
          host := host; port := port; user := username; password := password;
          database := database; connection_timeout := safe_timeout |}.

End MySQLPartyStorage.

(** The module-level functions of storage.py. *)
Module Storage.

Section WithRuntime.
Context `{PyRuntime}.

Definition _resolve_storage_provider (config : PyVal) : string :=
  let provider :=
    Py.lower (Py.strip (Py.str
      (EuphoriaPartiesPlugin.get_config config "storage.provider" (VStr "")))) in
  let provider :=
    if String.eqb provider "" then
      Py.lower (Py.strip (Py.str
        (EuphoriaPartiesPlugin.get_config config "storage.storage" (VStr "json"))))
    else provider in
  let provider :=
    if Py.truthy (EuphoriaPartiesPlugin.get_config config "storage.mysql.enabled" (VBool false))
    then "mysql" else provider in
  if negb (String.eqb provider "json" || String.eqb provider "mysql") then "json"
  else provider.

(** What [create_storage] returns: the JSON backend, or the MySQL backend
    with the fields its constructor set. *)
Inductive backend : Type :=
| Json
| MySQL (storage : MySQLPartyStorage.t).

(** [create_storage(plugin)], up to the path of the JSON file; [available] is
    [mysql_connector is not None], and [ensure_schema storage] tells whether
    [_ensure_schema()] returns ([true]) or raises. *)
Definition create_storage (available : bool) (ensure_schema : MySQLPartyStorage.t → bool)
    (config : PyVal) : backend :=
  let provider := _resolve_storage_provider config in
  if negb (String.eqb provider "mysql") then Json
  else
    let username :=
      Py.strip (Py.str
        (EuphoriaPartiesPlugin.get_config config "storage.mysql.username" (VStr ""))) in
    let username :=
      if String.eqb username "" then
        Py.strip (Py.str
          (EuphoriaPartiesPlugin.get_config config "storage.mysql.user" (VStr "root")))
      else username in
    let port :=
      match Py.int (EuphoriaPartiesPlugin.get_config config "storage.mysql.port" (VInt 3306)) with
      | Ok port => port
      | Raised => 3306%Z
      end in
    let port := if (port <? 1)%Z || (65535 <? port)%Z then 3306%Z else port in
    let connect_timeout :=
      match Py.int
              (EuphoriaPartiesPlugin.get_config config "storage.mysql.connect-timeout" (VInt 5))
      with
      | Ok connect_timeout => connect_timeout
      | Raised => 5%Z
      end in
    match
      MySQLPartyStorage.__init__ available
        (Py.str (EuphoriaPartiesPlugin.get_config config "storage.mysql.host" (VStr "127.0.0.1")))
        port
        (Py.strip (Py.str
           (EuphoriaPartiesPlugin.get_config config "storage.mysql.database" (VStr ""))))
        username
        (Py.str (EuphoriaPartiesPlugin.get_config config "storage.mysql.password" (VStr "")))
        (Py.str
           (EuphoriaPartiesPlugin.get_config config "storage.mysql.table-prefix"
              (VStr "euphoria_")))
        connect_timeout
    with
    | Raised => Json
    | Ok storage => if ensure_schema storage then MySQL storage else Json
    end.

End WithRuntime.

End Storage.

(** ** party_manager.py *)

(** What the registry reads of an [endstone.Player]. *)
Module Player.
Record t : Type := mk { unique_id : UUID; name : string }.
End Player.

(** The values [plugin.get_config] returns for the keys the registry reads,
    after [int(...)]. *)
Module Config.
Record t : Type := mk {
  invite_expiration_ms : Z;   (* party.invite-expiration-ms, default 300_000 *)
  max_pending_invites : Z;    (* party.max-pending-invites, default 10 *)
  max_members : Z;            (* party.max-members, default 8 *)
}.
Definition defaults : t := mk 300000 10 8.
End Config.

Module PartyManager.

(** The registry's state. A [Party] object is held by [parties] and handed to
    the operations by reference: the model names it by the key it is stored
    under, reads it with [deref] and writes the mutated object back with
    [store]. *)
Record t : Type := mk {
  parties : gmap UUID Party.t;
  player_to_party : gmap UUID UUID;
  player_invites : gmap UUID UUID;
  last_marker_positions : gmap UUID (float * float * float);
  player_names : gmap UUID string;
  _dirty : bool;
}.

Definition set_parties (v : gmap UUID Party.t) (m : t) : t :=
  mk v (player_to_party m) (player_invites m) (last_marker_positions m) (player_names m) (_dirty m).
Definition set_player_to_party (v : gmap UUID UUID) (m : t) : t :=
  mk (parties m) v (player_invites m) (last_marker_positions m) (player_names m) (_dirty m).
Definition set_player_invites (v : gmap UUID UUID) (m : t) : t :=
  mk (parties m) (player_to_party m) v (last_marker_positions m) (player_names m) (_dirty m).
Definition set_last_marker_positions (v : gmap UUID (float * float * float)) (m : t) : t :=
  mk (parties m) (player_to_party m) (player_invites m) v (player_names m) (_dirty m).
Definition set_player_names (v : gmap UUID string) (m : t) : t :=
  mk (parties m) (player_to_party m) (player_invites m) (last_marker_positions m) v (_dirty m).
Definition set_dirty (v : bool) (m : t) : t :=
  mk (parties m) (player_to_party m) (player_invites m) (last_marker_positions m) (player_names m) v.

(** The registry of [__init__] before [load_all]. *)
Definition empty : t := mk ∅ ∅ ∅ ∅ ∅ false.

Definition deref (self : t) (party : UUID) : option Party.t := parties self !! party.

Definition store (party : UUID) (obj : Party.t) (self : t) : t :=
  set_parties (<[party := obj]> (parties self)) self.

Definition mark_dirty (self : t) : t := set_dirty true self.

Definition record_player_name (self : t) (player : Player.t) : t :=
  let current := player_names self !! Player.unique_id player in
  if bool_decide (current ≠ Some (Player.name player)) then
    mark_dirty
      (set_player_names (<[Player.unique_id player := Player.name player]> (player_names self)) self)
  else self.

Definition get_party (self : t) (party_id : UUID) : option Party.t := parties self !! party_id.

Definition get_player_party (self : t) (player_id : UUID) : option Party.t :=
  match player_to_party self !! player_id with
  | None => None
  | Some party_id => parties self !! party_id
  end.

Definition is_in_party (self : t) (player_id : UUID) : bool :=
  match get_player_party self player_id with
  | Some party => Party.is_member party player_id
  | None => false
  end.

(** [create_party(leader)]; [party_id] is what [uuid4()] returns inside
    [Party.create]. *)
Definition create_party (now : Z) (party_id : UUID) (self : t) (leader : Player.t)
    : option Party.t * t :=
  if is_in_party self (Player.unique_id leader) then (None, self)
  else
    let party := Party.create party_id now (Player.unique_id leader) in
    let self := store (Party.id party) party self in
    let self :=
      set_player_to_party
        (<[Player.unique_id leader := Party.id party]> (player_to_party self)) self in
    let self := record_player_name self leader in
    (Some party, mark_dirty self).

Section WithRuntime.
Context `{PyRuntime}.

(** One round of the loop over [party.members] in [disband_party]. *)
Definition disband_member (party_id : UUID) (self : t) (member_id : UUID) : t :=
  let self :=
    if bool_decide (player_to_party self !! member_id = Some party_id)
    then set_player_to_party (delete member_id (player_to_party self)) self
    else self in
  set_last_marker_positions (delete member_id (last_marker_positions self)) self.

(** One round of the loop over [list(self.player_invites)]. *)
Definition disband_invite (party_id : UUID) (self : t) (invited_id : UUID) : t :=
  if bool_decide (player_invites self !! invited_id = Some party_id)
  then set_player_invites (delete invited_id (player_invites self)) self
  else self.

Definition disband_party (self : t) (party_id : UUID) : bool * t :=
  match parties self !! party_id with
  | None => (false, self)
  | Some party =>
      let self := set_parties (delete party_id (parties self)) self in
      let self := foldl (disband_member party_id) self (set_iter (Party.members party)) in
      let self :=
        foldl (disband_invite party_id) self (map_to_list (player_invites self)).*1 in
      (true, mark_dirty self)
  end.

(** One round of the loop over [expired] in [invite_player]. *)
Definition drop_expired (party_id : UUID) (self : t) (expired_id : UUID) : t :=
  if bool_decide (player_invites self !! expired_id = Some party_id)
  then set_player_invites (delete expired_id (player_invites self)) self
  else self.

(** [invite_player(party, player_id)]. The result is [None] when [party] is not
    an object of the registry, which the model does not cover. *)
Definition invite_player (cfg : Config.t) (now : Z) (self : t) (party : UUID) (player_id : UUID)
    : option (bool * t) :=
  obj ← deref self party;
  let expiration_ms := Config.invite_expiration_ms cfg in
  let max_pending := Config.max_pending_invites cfg in
  let '(expired, obj) := Party.clean_expired_invites now obj expiration_ms in
  let self := store party obj self in
  let self := foldl (drop_expired (Party.id obj)) self (set_iter expired) in
  if Party.has_invite obj player_id then Some (false, self)
  else if (max_pending <=? Z.of_nat (size (Party.invites obj)))%Z then Some (false, self)
  else
    let obj := Party.invite_player now obj player_id in
    let self := store party obj self in
    let self := set_player_invites (<[player_id := Party.id obj]> (player_invites self)) self in
    Some (true, mark_dirty self).

Definition get_pending_invite (self : t) (player_id : UUID) : option Party.t * t :=
  match player_invites self !! player_id with
  | None => (None, self)
  | Some party_id =>
      match parties self !! party_id with
      | None => (None, set_player_invites (delete player_id (player_invites self)) self)
      | Some party => (Some party, self)
      end
  end.

Definition accept_invite (cfg : Config.t) (now : Z) (self : t) (player : Player.t) (party : UUID)
    : option (bool * t) :=
  obj ← deref self party;
  let player_id := Player.unique_id player in
  if negb (Party.has_invite obj player_id) then Some (false, self)
  else
    let expiration_ms := Config.invite_expiration_ms cfg in
    let sent_at := default 0%Z (Party.invites obj !! player_id) in
    if (expiration_ms <? now - sent_at)%Z then
      let self := store party (Party.remove_invite obj player_id) self in
      let self := set_player_invites (delete player_id (player_invites self)) self in
      Some (false, mark_dirty self)
    else
      let max_members := Config.max_members cfg in
      if (max_members <=? Z.of_nat (size (Party.members obj)))%Z then Some (false, self)
      else if bool_decide (player_id ∈ Party.banned_players obj) then Some (false, self)
      else if is_in_party self player_id then Some (false, self)
      else
        let obj := Party.add_member obj player_id in
        let self := store party obj self in
        let self :=
          set_player_to_party (<[player_id := Party.id obj]> (player_to_party self)) self in
        let self := set_player_invites (delete player_id (player_invites self)) self in
        let self := record_player_name self player in
        Some (true, mark_dirty self).

(** [_pick_new_leader(party)]; [online id] is
    [self.plugin.server.get_player(id) is not None]. *)
Definition _pick_new_leader (online : UUID → bool) (party : Party.t) : option UUID :=
  match List.find online (set_iter (Party.members party)) with
  | Some member_id => Some member_id
  | None => head (Py.sorted_by_str (Party.members party))
  end.

(** [leave_party(player_id)]: the pair returned, and the registry left. *)
Definition leave_party (online : UUID → bool) (self : t) (player_id : UUID)
    : (option Party.t * option UUID) * t :=
  match player_to_party self !! player_id with
  | None => ((None, None), self)
  | Some party =>
      match deref self party with
      | None => ((None, None), self)
      | Some obj =>
          let was_leader := Party.is_leader obj player_id in
          let obj := Party.remove_member obj player_id in
          let self := store party obj self in
          let self := set_player_to_party (delete player_id (player_to_party self)) self in
          let self :=
            set_last_marker_positions (delete player_id (last_marker_positions self)) self in
          let self := mark_dirty self in
          if bool_decide (Party.members obj = ∅) then
            ((Some obj, None), (disband_party self (Party.id obj)).2)
          else if was_leader then
            match _pick_new_leader online obj with
            | Some new_leader =>
                let obj := (Party.transfer_leadership obj new_leader).2 in
                ((Some obj, Some new_leader), mark_dirty (store party obj self))
            | None => ((Some obj, None), self)
            end
          else ((Some obj, None), self)
      end
  end.

Definition kick_player (self : t) (party : UUID) (player_id : UUID) : option (bool * t) :=
  obj ← deref self party;
  if bool_decide (player_id ∉ Party.members obj) then Some (false, self)
  else
    let obj := Party.remove_member obj player_id in
    let self := store party obj self in
    let self := set_player_to_party (delete player_id (player_to_party self)) self in
    let self :=
      set_last_marker_positions (delete player_id (last_marker_positions self)) self in
    let self := mark_dirty self in
    if bool_decide (Party.members obj = ∅)
    then Some (true, (disband_party self (Party.id obj)).2)
    else Some (true, self).

Definition add_player_to_party (cfg : Config.t) (self : t) (player : Player.t) (party : UUID)
    : option (bool * t) :=
  obj ← deref self party;
  if is_in_party self (Player.unique_id player) then Some (false, self)
  else
    let max_members := Config.max_members cfg in
    if (max_members <=? Z.of_nat (size (Party.members obj)))%Z then Some (false, self)
    else
      let obj := Party.add_member obj (Player.unique_id player) in
      let self := store party obj self in
      let self :=
        set_player_to_party
          (<[Player.unique_id player := Party.id obj]> (player_to_party self)) self in
      let self :=
        set_player_invites (delete (Player.unique_id player) (player_invites self)) self in
      let self := record_player_name self player in
      Some (true, mark_dirty self).

Definition request_to_join (now : Z) (self : t) (requester_id : UUID) (target_party : UUID)
    : option (bool * t) :=
  obj ← deref self target_party;
  if bool_decide (requester_id ∈ Party.banned_players obj) then Some (false, self)
  else if Party.has_join_request obj requester_id then Some (false, self)
  else
    let self := store target_party (Party.add_join_request now obj requester_id) self in
    Some (true, mark_dirty self).

Definition accept_join_request (cfg : Config.t) (self : t) (target_party : UUID)
    (requester : Player.t) : option (bool * t) :=
  obj ← deref self target_party;
  let requester_id := Player.unique_id requester in
  if negb (Party.has_join_request obj requester_id) then Some (false, self)
  else
    let self := store target_party (Party.remove_join_request obj requester_id) self in
    let self := mark_dirty self in
    add_player_to_party cfg self requester target_party.

Definition deny_join_request (self : t) (target_party : UUID) (requester_id : UUID)
    : option (bool * t) :=
  obj ← deref self target_party;
  if negb (Party.has_join_request obj requester_id) then Some (false, self)
  else
    let self := store target_party (Party.remove_join_request obj requester_id) self in
    Some (true, mark_dirty self).

(** The state change of the [/party ban] handler ([_party_ban] in
    [__init__.py]): [party.ban_player(target_id)],
    [player_to_party.pop(target_id, None)], [mark_dirty()]. *)
Definition ban (self : t) (party : UUID) (target_id : UUID) : option t :=
  obj ← deref self party;
  let self := store party (Party.ban_player obj target_id) self in
  let self := set_player_to_party (delete target_id (player_to_party self)) self in
  Some (mark_dirty self).

(** The state change of [/party ally add] ([_party_ally] in [__init__.py]):
    [party.allies.add(target_party.id)],
    [target_party.allies.add(party.id)], [mark_dirty()]. The second object is
    read after the first was written: the handler rejects a target party
    with the [id] of [party], and for one object the two writes add the same
    [id]. *)
Definition ally_add (self : t) (party target_party : UUID) : option t :=
  obj ← deref self party;
  target ← deref self target_party;
  let self :=
    store party (Party.set_allies ({[Party.id target]} ∪ Party.allies obj) obj) self in
  target ← deref self target_party;
  let self :=
    store target_party
      (Party.set_allies ({[Party.id obj]} ∪ Party.allies target) target) self in
  Some (mark_dirty self).

(** The state change of [/party ally remove]:
    [party.allies.discard(target_party.id)],
    [target_party.allies.discard(party.id)], [mark_dirty()]. *)
Definition ally_remove (self : t) (party target_party : UUID) : option t :=
  obj ← deref self party;
  target ← deref self target_party;
  let self :=
    store party (Party.set_allies (Party.allies obj ∖ {[Party.id target]}) obj) self in
  target ← deref self target_party;
  let self :=
    store target_party
      (Party.set_allies (Party.allies target ∖ {[Party.id obj]}) target) self in
  Some (mark_dirty self).

(** [save_all(force)]. [storage_save] tells whether [self.storage.save]
    returns ([true]) or raises; the second component is the list of calls made
    to the storage backend. *)
Definition save_all (storage_save : list Party.t → gmap UUID string → bool)
    (self : t) (force : bool) : t * list (list Party.t * gmap UUID string) :=
  if negb force && negb (_dirty self) then (self, [])
  else
    let values := (map_to_list (parties self)).*2 in
    let call := (values, player_names self) in
    if storage_save values (player_names self)
    then (set_dirty false self, [call])
    else (self, [call]).

(** One round of the loop over [self.parties.values()] in
    [_rebuild_indexes]: the registry and the [changed] flag. The loop visits
    the parties in the order of [map_to_list]; Python visits them in insertion
    order, which matters only to the index entry of a player listed by two
    parties. *)
Definition rebuild_party (st : t * bool) (entry : UUID * Party.t) : t * bool :=
  let '(self, changed) := st in
  let '(key, party) := entry in
  let '(party, changed) :=
    if bool_decide (Party.leader party ∉ Party.members party)
    then (Party.set_members ({[Party.leader party]} ∪ Party.members party) party, true)
    else (party, changed) in
  let changed :=
    if bool_decide (Party.roles party !! Party.leader party ≠ Some PartyRole.LEADER)
    then true else changed in
  let party :=
    Party.set_roles (<[Party.leader party := PartyRole.LEADER]> (Party.roles party)) party in
  let self := store key party self in
  let self :=
    foldl (λ self member_id,
             set_player_to_party (<[member_id := Party.id party]> (player_to_party self)) self)
          self (set_iter (Party.members party)) in
  let self :=
    foldl (λ self invited_id,
             set_player_invites (<[invited_id := Party.id party]> (player_invites self)) self)
          self (map_to_list (Party.invites party)).*1 in
  (self, changed).

Definition _rebuild_indexes (self : t) : t :=
  let self := set_player_to_party ∅ self in
  let self := set_player_invites ∅ self in
  let '(self, changed) := foldl rebuild_party (self, false) (map_to_list (parties self)) in
  if changed then mark_dirty self else self.

(** [load_all()], given what [self.storage.load()] returns or that it
    raises. *)
Definition load_all (loaded : result (gmap UUID Party.t * gmap UUID string)) (self : t) : t :=
  let '(parties, player_names) :=
    match loaded with
    | Ok r => r
    | Raised => (∅, ∅)
    end in
  let self := set_player_names player_names (set_parties parties self) in
  let self := set_dirty false self in
  _rebuild_indexes self.

(** [get_player_name(player_id)]: the name returned and the registry left;
    [get_player id] is [self.plugin.server.get_player(id)]. *)
Definition get_player_name (get_player : UUID → option Player.t) (self : t) (player_id : UUID)
    : string * t :=
  match get_player player_id with
  | Some player =>
      (Player.name player,
       set_player_names (<[player_id := Player.name player]> (player_names self)) self)
  | None =>
      (default (String.substring 0 8 (uuid_str player_id)) (player_names self !! player_id), self)
  end.

Definition remove_player_from_party (online : UUID → bool) (self : t) (player_id : UUID) : t :=
  (leave_party online self player_id).2.

(** One round of the loop over [self.parties.values()] in
    [cleanup_expired_invites]: the registry and the [dirty] flag. [now_ms key]
    holds the two readings of [now_ms()] made while the party stored under
    [key] is swept, the first by [clean_expired_invites] and the second by
    [clean_expired_join_requests]. *)
Definition sweep_party (expiration_ms : Z) (now_ms : UUID → Z * Z) (st : t * bool)
    (entry : UUID * Party.t) : t * bool :=
  let '(self, dirty) := st in
  let '(key, party) := entry in
  let '(expired, party) := Party.clean_expired_invites (now_ms key).1 party expiration_ms in
  let dirty := dirty || bool_decide (expired ≠ ∅) in
  let self := store key party self in
  let self := foldl (drop_expired (Party.id party)) self (set_iter expired) in
  let '(expired_requests, party) :=
    Party.clean_expired_join_requests (now_ms key).2 party expiration_ms in
  let dirty := dirty || bool_decide (expired_requests ≠ ∅) in
  let self := store key party self in
  (self, dirty).

Definition cleanup_expired_invites (cfg : Config.t) (now_ms : UUID → Z * Z) (self : t) : t :=
  let expiration_ms := Config.invite_expiration_ms cfg in
  let '(self, dirty) :=
    foldl (sweep_party expiration_ms now_ms) (self, false) (map_to_list (parties self)) in
  if dirty then mark_dirty self else self.

(** [check_party_cleanup(party_id)]; [disband_when_all_offline] is
    [bool(get_config("party.disband-when-all-offline", False))]. *)
Definition check_party_cleanup (disband_when_all_offline : bool) (online : UUID → bool)
    (self : t) (party_id : UUID) : t :=
  if negb disband_when_all_offline then self
  else
    match parties self !! party_id with
    | None => self
    | Some party =>
        let any_online := existsb online (set_iter (Party.members party)) in
        if negb any_online then (disband_party self party_id).2 else self
    end.

(** [broadcast_to_party(party, message)]: the [send_message] calls made, as
    the players they are made on. *)
Definition broadcast_to_party (online : UUID → bool) (party : Party.t) : list UUID :=
  List.filter online (set_iter (Party.members party)).

Definition online_party_member_count (online : UUID → bool) (party : Party.t) : Z :=
  Z.of_nat (length (List.filter online (set_iter (Party.members party)))).

End WithRuntime.

(** [all_parties()], up to the order of the list. *)
Definition all_parties (self : t) : list Party.t := (map_to_list (parties self)).*2.

(** The two dicts of [PartyManager] that the record [t] leaves out: they are
    read and written by the cooldown methods, [cleanup_player_state] and
    [_cleanup_memory] only. *)
Record cooldowns : Type := mk_cooldowns {
  last_command_use_ms : gmap UUID Z;
  last_teleport_ms : gmap UUID Z;
}.

(** [remaining_command_cooldown(player_id)]; [cooldown_seconds] is
    [int(get_config("security.command-cooldown", 3))] and [now] the value of
    [now_ms()]. *)
Definition remaining_command_cooldown (cooldown_seconds : Z) (now : Z) (self : cooldowns)
    (player_id : UUID) : Z :=
  match last_command_use_ms self !! player_id with
  | None => 0
  | Some last_used =>
      let elapsed_seconds := ((now - last_used) `div` 1000)%Z in
      Z.max 0 (cooldown_seconds - elapsed_seconds)
  end.

Definition is_on_command_cooldown (cooldown_seconds : Z) (now : Z) (self : cooldowns)
    (player_id : UUID) : bool :=
  if (cooldown_seconds <=? 0)%Z then false
  else (0 <? remaining_command_cooldown cooldown_seconds now self player_id)%Z.

Definition update_command_cooldown (now : Z) (self : cooldowns) (player_id : UUID) : cooldowns :=
  mk_cooldowns (<[player_id := now]> (last_command_use_ms self)) (last_teleport_ms self).

(** [remaining_teleport_cooldown(player_id)]; [cooldown_seconds] is
    [int(get_config("security.teleport-cooldown", 30))]. *)
Definition remaining_teleport_cooldown (cooldown_seconds : Z) (now : Z) (self : cooldowns)
    (player_id : UUID) : Z :=
  match last_teleport_ms self !! player_id with
  | None => 0
  | Some last_used =>
      let elapsed_seconds := ((now - last_used) `div` 1000)%Z in
      Z.max 0 (cooldown_seconds - elapsed_seconds)
  end.

Definition is_on_teleport_cooldown (cooldown_seconds : Z) (now : Z) (self : cooldowns)
    (player_id : UUID) : bool :=
  if (cooldown_seconds <=? 0)%Z then false
  else (0 <? remaining_teleport_cooldown cooldown_seconds now self player_id)%Z.

Definition update_teleport_cooldown (now : Z) (self : cooldowns) (player_id : UUID) : cooldowns :=
  mk_cooldowns (last_command_use_ms self) (<[player_id := now]> (last_teleport_ms self)).

Definition cleanup_player_state (timers : cooldowns) (self : t) (player_id : UUID)
    : cooldowns * t :=
  (mk_cooldowns (delete player_id (last_command_use_ms timers))
                (delete player_id (last_teleport_ms timers)),
   set_last_marker_positions (delete player_id (last_marker_positions self)) self).

(** [_cleanup_memory()]; [online_ids] is the set built from
    [self.plugin.server.online_players]. *)
Definition _cleanup_memory (now : Z) (online_ids : gset UUID) (timers : cooldowns) (self : t)
    : cooldowns * t :=
  let cutoff := (now - 60 * 60 * 1000)%Z in
  (mk_cooldowns
     (filter (λ kv : UUID * Z, (cutoff ≤ kv.2)%Z) (last_command_use_ms timers))
     (filter (λ kv : UUID * Z, (cutoff ≤ kv.2)%Z) (last_teleport_ms timers)),
   set_last_marker_positions
     (filter (λ kv : UUID * (float * float * float), kv.1 ∈ online_ids)
        (last_marker_positions self)) self).

Section Playtime.
Context `{PyRuntime} `{PyNumbers}.

(** [config] is [self.plugin.config], [online id] is
    [self.plugin.server.get_player(id) is not None], and [_achievements] is
    the dict of the achievement manager. *)
Variable config : PyVal.
Variable online : UUID → bool.
Variable _achievements : list (string * PartyAchievement.t).

(** One round of the loop over [self.parties.values()] in
    [_update_playtime]: the registry, the calls made on players, the
    [updated] flag, and whether the loop still runs ([false] once [check]
    has raised, which ends [_update_playtime]). *)
Definition playtime_party (st : t * list PartyAchievementManager.call * bool * bool)
    (entry : UUID * Party.t)
    : t * list PartyAchievementManager.call * bool * bool :=
  let '(self, calls, updated, running) := st in
  let '(key, party) := entry in
  if negb running then st
  else if existsb online (set_iter (Party.members party)) then
    let party := Party.add_play_time party 60000 in
    let '(party, made, returned) :=
      PartyAchievementManager.check online _achievements config party in
    (store key party self, calls ++ made, if returned then true else updated, returned)
  else st.

(** [_update_playtime()]: the registry left, the calls made on players, and
    whether it returned ([true]) or raised. [entries] is
    [self.parties.items()], in the order of the dict. *)
Definition _update_playtime (entries : list (UUID * Party.t)) (self : t)
    : t * list PartyAchievementManager.call * bool :=
  let '(self, calls, updated, running) :=
    foldl playtime_party (self, [], false, true) entries in
  (if running && updated then mark_dirty self else self, calls, running).

End Playtime.

End PartyManager.

(** ** __init__.py: event handlers and helpers of [EuphoriaPartiesPlugin] *)

Module Plugin.

(** [on_actor_damage(event)]. [victim] and [attacker] are the [unique_id]s of
    [event.actor] and of the damaging actor when these are [Player]s;
    [prevent] is [bool(get_config("party.prevent-friendly-fire", True))],
    [cooldown_ms] is
    [int(get_config("party.friendly-fire-message-cooldown-ms", 1500))] and
    [now] is [now_ms()]. The result is [event.is_cancelled],
    [self._last_friendly_fire_notice_ms], and the players sent the notice. *)
Definition on_actor_damage (prevent : bool) (cooldown_ms : Z) (now : Z)
    (party_manager : PartyManager.t) (_last_friendly_fire_notice_ms : gmap UUID Z)
    (is_cancelled : bool) (victim attacker : option UUID)
    : bool * gmap UUID Z * list UUID :=
  let unchanged := (is_cancelled, _last_friendly_fire_notice_ms, []) in
  if negb prevent then unchanged
  else
    match victim, attacker with
    | Some victim, Some attacker =>
        match PartyManager.get_player_party party_manager victim with
        | None => unchanged
        | Some victim_party =>
            match PartyManager.get_player_party party_manager attacker with
            | None => unchanged
            | Some attacker_party =>
                if bool_decide (Party.id attacker_party ≠ Party.id victim_party) then unchanged
                else
                  let cooldown_ms := Z.max 0 cooldown_ms in
                  if (cooldown_ms <=? 0)%Z
                  then (true, _last_friendly_fire_notice_ms, [attacker])
                  else
                    let current_ms := now in
                    let last_notice_ms :=
                      default 0%Z (_last_friendly_fire_notice_ms !! attacker) in
                    if (cooldown_ms <=? current_ms - last_notice_ms)%Z
                    then (true, <[attacker := current_ms]> _last_friendly_fire_notice_ms,
                          [attacker])
                    else (true, _last_friendly_fire_notice_ms, [])
            end
        end
    | _, _ => unchanged
    end.

Section WithRuntime.
Context `{PyRuntime} `{PyNumbers}.

(** [config] is [self.config], [online id] is
    [self.server.get_player(id) is not None], and [_achievements] is the
    dict of the achievement manager. *)
Variable config : PyVal.
Variable online : UUID → bool.
Variable _achievements : list (string * PartyAchievement.t).

(** [on_actor_death(event)]; [attacker] is the [unique_id] of the damaging
    actor when that is a [Player]. The result: the registry left, the calls
    made on players, and whether the handler returned ([true]) or raised. *)
Definition on_actor_death (party_manager : PartyManager.t) (attacker : option UUID)
    : PartyManager.t * list PartyAchievementManager.call * bool :=
  match attacker with
  | None => (party_manager, [], true)
  | Some attacker =>
      match PartyManager.player_to_party party_manager !! attacker with
      | None => (party_manager, [], true)
      | Some party_id =>
          match PartyManager.deref party_manager party_id with
          | None => (party_manager, [], true)
          | Some party =>
              let party := Party.increment_kills party in
              let '(party, calls, returned) :=
                PartyAchievementManager.check online _achievements config party in
              let party_manager := PartyManager.store party_id party party_manager in
              if returned then (PartyManager.mark_dirty party_manager, calls, true)
              else (party_manager, calls, false)
          end
      end
  end.

(** [on_player_death(event)]; [player] is [event.player.unique_id] and
    [respawn_at_home] is [bool(get_config("party.respawn-at-home", False))].
    The result: the registry and [self._pending_respawns] left, the calls
    made on players, and whether the handler returned or raised. *)
Definition on_player_death (respawn_at_home : bool) (party_manager : PartyManager.t)
    (_pending_respawns : gmap UUID LocationData.t) (player : UUID)
    : PartyManager.t * gmap UUID LocationData.t * list PartyAchievementManager.call * bool :=
  match PartyManager.player_to_party party_manager !! player with
  | None => (party_manager, _pending_respawns, [], true)
  | Some party_id =>
      match PartyManager.deref party_manager party_id with
      | None => (party_manager, _pending_respawns, [], true)
      | Some party =>
          let party := Party.increment_deaths party in
          let '(party, calls, returned) :=
            PartyAchievementManager.check online _achievements config party in
          let party_manager := PartyManager.store party_id party party_manager in
          if returned then
            let party_manager := PartyManager.mark_dirty party_manager in
            match Party.home party with
            | Some home =>
                if respawn_at_home
                then (party_manager, <[player := home]> _pending_respawns, calls, true)
                else (party_manager, _pending_respawns, calls, true)
            | None => (party_manager, _pending_respawns, calls, true)
            end
          else (party_manager, _pending_respawns, calls, false)
      end
  end.

End WithRuntime.

Section Lookup.
Context `{PyRuntime}.

(** [lower s] is [s.lower()], which follows the Unicode case mappings: the
    lookups compare what it returns for two names, and use nothing else of
    it. [get_player id] is [self.server.get_player(id)] and [player_names]
    is [self.party_manager.player_names]. *)
Variable lower : string → string.
Variable get_player : UUID → option Player.t.
Variable player_names : gmap UUID string.

(** The test the loops of [_find_member_id_by_name], [_find_requester_id] and
    [_find_banned_player_id] make on an identifier: the name of the online
    player or the recorded name is [normalized], in lower case. *)
Definition name_matches (normalized : string) (id : UUID) : bool :=
  match get_player id with
  | Some member => String.eqb (lower (Player.name member)) normalized
  | None => false
  end
  || match player_names !! id with
     | Some known_name => String.eqb (lower known_name) normalized
     | None => false
     end.

(** [_find_member_id_by_name(party, token)]. *)
Definition _find_member_id_by_name (party : Party.t) (token : string) : option UUID :=
  let normalized := lower (Py.strip token) in
  match List.find (name_matches normalized) (set_iter (Party.members party)) with
  | Some member_id => Some member_id
  | None =>
      match uuid_parse token with
      | None => None
      | Some parsed => if bool_decide (parsed ∈ Party.members party) then Some parsed else None
      end
  end.

(** [_find_requester_id(party, token)]; [requesters] is
    [list(party.join_requests)], the keys in the order of the dict. *)
Definition _find_requester_id (requesters : list UUID) (party : Party.t) (token : string)
    : option UUID :=
  let normalized := lower (Py.strip token) in
  match List.find (name_matches normalized) requesters with
  | Some requester_id => Some requester_id
  | None =>
      match uuid_parse token with
      | None => None
      | Some parsed =>
          if bool_decide (is_Some (Party.join_requests party !! parsed)) then Some parsed
          else None
      end
  end.

(** [_find_banned_player_id(party, token)]. *)
Definition _find_banned_player_id (party : Party.t) (token : string) : option UUID :=
  let normalized := lower (Py.strip token) in
  match List.find (name_matches normalized) (set_iter (Party.banned_players party)) with
  | Some banned_id => Some banned_id
  | None =>
      match uuid_parse token with
      | None => None
      | Some parsed =>
          if bool_decide (parsed ∈ Party.banned_players party) then Some parsed else None
      end
  end.

End Lookup.

End Plugin.

(** ** Sequences of registry operations *)

Module Registry.

(** A call of one of the registry's operations. *)
Inductive op : Type :=
| CreateParty (leader : Player.t) (party_id : UUID)
| InvitePlayer (party : UUID) (player_id : UUID)
| AcceptInvite (player : Player.t) (party : UUID)
| LeaveParty (player_id : UUID)
| KickPlayer (party : UUID) (player_id : UUID)
| RequestToJoin (requester_id : UUID) (target_party : UUID)
| AcceptJoinRequest (target_party : UUID) (requester : Player.t)
| DenyJoinRequest (target_party : UUID) (requester_id : UUID)
| AddPlayerToParty (player : Player.t) (party : UUID)
| Ban (party : UUID) (target_id : UUID)
| DisbandParty (party_id : UUID).

(** A call and what it reads of the world: the clock and who is online. *)
Record call : Type := mk_call {
  what : op;
  now : Z;
  online : UUID → bool;
}.

Section WithRuntime.
Context `{PyRuntime}.

(** Runs a call. The boolean is [false] when the operation rejects: it returns
    [False], or [None] in place of a party. The result is [None] when the call
    names a party that is not an object of the registry. *)
Definition step (cfg : Config.t) (c : call) (self : PartyManager.t)
    : option (bool * PartyManager.t) :=
  match what c with
  | CreateParty leader party_id =>
      let '(party, self) := PartyManager.create_party (now c) party_id self leader in
      Some (bool_decide (is_Some party), self)
  | InvitePlayer party player_id =>
      PartyManager.invite_player cfg (now c) self party player_id
  | AcceptInvite player party =>
      PartyManager.accept_invite cfg (now c) self player party
  | LeaveParty player_id =>
      let '((party, _), self) := PartyManager.leave_party (online c) self player_id in
      Some (bool_decide (is_Some party), self)
  | KickPlayer party player_id => PartyManager.kick_player self party player_id
  | RequestToJoin requester_id target_party =>
      PartyManager.request_to_join (now c) self requester_id target_party
  | AcceptJoinRequest target_party requester =>
      PartyManager.accept_join_request cfg self target_party requester
  | DenyJoinRequest target_party requester_id =>
      PartyManager.deny_join_request self target_party requester_id
  | AddPlayerToParty player party =>
      PartyManager.add_player_to_party cfg self player party
  | Ban party target_id =>
      self ← PartyManager.ban self party target_id; Some (true, self)
  | DisbandParty party_id => Some (PartyManager.disband_party self party_id)
  end.

(** The registry after each call of a sequence. *)
Fixpoint run (cfg : Config.t) (calls : list call) (self : PartyManager.t)
    : option (list PartyManager.t) :=
  match calls with
  | [] => Some []
  | c :: rest =>
      r ← step cfg c self;
      states ← run cfg rest r.2;
      Some (r.2 :: states)
  end.

End WithRuntime.

(** What the command handlers of [__init__.py] check before they call the
    registry: an invited player or a requester is not a member of the party
    ([_party_invite], [_party_join]), a kicked or banned player is not its
    leader ([_party_kick], [_party_ban]), and a player added directly is not
    banned from it ([_party_join]). *)
Definition guard (self : PartyManager.t) (o : op) : Prop :=
  match o with
  | InvitePlayer party player_id | RequestToJoin player_id party =>
      match PartyManager.deref self party with
      | Some obj => player_id ∉ Party.members obj
      | None => True
      end
  | KickPlayer party player_id | Ban party player_id =>
      match PartyManager.deref self party with
      | Some obj => player_id ≠ Party.leader obj
      | None => True
      end
  | AddPlayerToParty player party =>
      match PartyManager.deref self party with
      | Some obj => Player.unique_id player ∉ Party.banned_players obj
      | None => True
      end
  | _ => True
  end.

Global Instance guard_dec (self : PartyManager.t) (o : op) : Decision (guard self o).
Proof. destruct o; cbn; try destruct (PartyManager.deref self _); apply _. Defined.

(** Every call of the sequence meets [guard] in the state it runs in. *)
Fixpoint guarded `{PyRuntime} (cfg : Config.t) (calls : list call) (self : PartyManager.t)
    : Prop :=
  match calls with
  | [] => True
  | c :: rest =>
      guard self (what c) ∧
      match step cfg c self with
      | Some r => guarded cfg rest r.2
      | None => True
      end
  end.

Global Instance guarded_dec `{PyRuntime} (cfg : Config.t) (calls : list call)
    (self : PartyManager.t) : Decision (guarded cfg calls self).
Proof.
  revert self. induction calls as [|c rest IH]; intros self; cbn; [apply _|].
  destruct (step cfg c self) as [r|]; apply _.
Defined.

(** Two more facts the callers provide: the identifier [uuid4()] returns inside
    [Party.create] is not the key of a stored party, and the player
    [_party_ban] bans is the member [_find_member_id_by_name] found. *)
Definition index_guard (self : PartyManager.t) (o : op) : Prop :=
  match o with
  | CreateParty _ party_id => PartyManager.parties self !! party_id = None
  | Ban party target_id =>
      match PartyManager.deref self party with
      | Some obj => target_id ∈ Party.members obj
      | None => True
      end
  | _ => True
  end.

Global Instance index_guard_dec (self : PartyManager.t) (o : op) : Decision (index_guard self o).
Proof. destruct o; cbn; try destruct (PartyManager.deref self _); apply _. Defined.

(** Every call of the sequence meets [guard] and [index_guard] in the state it
    runs in. *)
Fixpoint handled `{PyRuntime} (cfg : Config.t) (calls : list call) (self : PartyManager.t)
    : Prop :=
  match calls with
  | [] => True
  | c :: rest =>
      guard self (what c) ∧ index_guard self (what c) ∧
      match step cfg c self with
      | Some r => handled cfg rest r.2
      | None => True
      end
  end.

Global Instance handled_dec `{PyRuntime} (cfg : Config.t) (calls : list call)
    (self : PartyManager.t) : Decision (handled cfg calls self).
Proof.
  revert self. induction calls as [|c rest IH]; intros self; cbn; [apply _|].
  destruct (step cfg c self) as [r|]; apply _.
Defined.

End Registry.

(** ** Sequences of daily claims *)

Module Claims.

(** The party after a sequence of [claim_daily_reward(player_id, timestamp_ms)]
    calls, made in order. *)
Definition run (self : Party.t) (claims : list (UUID * Z)) : Party.t :=
  foldl (λ self claim, Party.claim_daily_reward self claim.1 claim.2) self claims.

(** Every claim of the sequence is one [can_claim_daily_reward] allows in the
    state it is made in. *)
Fixpoint allowed (self : Party.t) (claims : list (UUID * Z)) : bool :=
  match claims with
  | [] => true
  | claim :: rest =>
      Party.can_claim_daily_reward self claim.1 claim.2
      && allowed (Party.claim_daily_reward self claim.1 claim.2) rest
  end.

(** Every claim of the sequence is made at a positive time less than a day
    after the one before it; [last] is the time of the claim before the
    first. *)
Fixpoint within_a_day (last : Z) (claims : list (UUID * Z)) : Prop :=
  match claims with
  | [] => True
  | claim :: rest =>
      (0 < claim.2 ∧ claim.2 < last + MILLIS_PER_DAY)%Z ∧ within_a_day claim.2 rest
  end.

End Claims.

(** ** The invariants of the data model (specification, section 3) *)

Module Invariant.

(** 1. [leader ∈ members]. *)
Definition leader_is_member (p : Party.t) : Prop := Party.leader p ∈ Party.members p.

(** 2, first half. [roles[leader] == Leader]. *)
Definition leader_has_role (p : Party.t) : Prop :=
  Party.roles p !! Party.leader p = Some PartyRole.LEADER.

(** 2, second half. [roles] has no entries outside [members]. *)
Definition roles_within_members (p : Party.t) : Prop :=
  ∀ player_id, is_Some (Party.roles p !! player_id) → player_id ∈ Party.members p.

(** 3. [members] is disjoint from [invites], [joinRequests] and
    [bannedPlayers]. *)
Definition members_disjoint (p : Party.t) : Prop :=
  (∀ player_id, player_id ∈ Party.members p → Party.invites p !! player_id = None) ∧
  (∀ player_id, player_id ∈ Party.members p → Party.join_requests p !! player_id = None) ∧
  (∀ player_id, player_id ∈ Party.members p → player_id ∉ Party.banned_players p).

(** 4. A party with no members does not exist. *)
Definition has_members (p : Party.t) : Prop := Party.members p ≠ ∅.

(** Invariants 1-4. *)
Definition all (p : Party.t) : Prop :=
  leader_is_member p ∧ leader_has_role p ∧ roles_within_members p ∧
  members_disjoint p ∧ has_members p.

(** Invariants 1-4 without the second half of 2. *)
Definition core (p : Party.t) : Prop :=
  leader_is_member p ∧ leader_has_role p ∧ members_disjoint p ∧ has_members p.

(** No join request of a banned player (data model: [joinRequests] is
    disjoint from [banned]). *)
Definition requests_not_banned (p : Party.t) : Prop :=
  ∀ player_id, player_id ∈ Party.banned_players p → Party.join_requests p !! player_id = None.

(** What every operation keeps of a party when its caller's checks hold. *)
Definition kept (p : Party.t) : Prop := core p ∧ requests_not_banned p.

(** [P] holds of every party in [parties]. *)
Definition every_party (P : Party.t → Prop) (self : PartyManager.t) : Prop :=
  ∀ key p, PartyManager.parties self !! key = Some p → P p.

(** Every party is stored under its own [id]. *)
Definition keyed_by_id (self : PartyManager.t) : Prop :=
  ∀ key p, PartyManager.parties self !! key = Some p → Party.id p = key.

(** What a guarded sequence of calls preserves. *)
Definition registry (self : PartyManager.t) : Prop :=
  every_party core self ∧ every_party requests_not_banned self ∧ keyed_by_id self.

(** [player_to_party] is exact: it maps a player to a party identifier if and
    only if the party stored under that identifier has the player as a
    member. *)
Definition index_exact (self : PartyManager.t) : Prop :=
  ∀ player_id party_id,
    PartyManager.player_to_party self !! player_id = Some party_id ↔
    ∃ p, PartyManager.parties self !! party_id = Some p ∧ player_id ∈ Party.members p.

(** [player_to_party] is sound: an entry leads to a stored party that has the
    player as a member. *)
Definition index_sound (self : PartyManager.t) : Prop :=
  ∀ player_id party_id,
    PartyManager.player_to_party self !! player_id = Some party_id →
    ∃ key p, PartyManager.parties self !! key = Some p ∧ Party.id p = party_id ∧
             player_id ∈ Party.members p.

(** [player_to_party] is complete: every member of a stored party has an
    entry. *)
Definition index_complete (self : PartyManager.t) : Prop :=
  ∀ key p player_id,
    PartyManager.parties self !! key = Some p → player_id ∈ Party.members p →
    is_Some (PartyManager.player_to_party self !! player_id).

(** [player_invites] leads to invites only: an entry names the [id] of a
    stored party that holds an invite for the player. *)
Definition invites_sound (self : PartyManager.t) : Prop :=
  ∀ player_id party_id,
    PartyManager.player_invites self !! player_id = Some party_id →
    ∃ key p, PartyManager.parties self !! key = Some p ∧ Party.id p = party_id ∧
             is_Some (Party.invites p !! player_id).

(** Alliances are mutual among the stored parties. *)
Definition allies_mutual (self : PartyManager.t) : Prop :=
  ∀ key1 key2 p1 p2,
    PartyManager.parties self !! key1 = Some p1 →
    PartyManager.parties self !! key2 = Some p2 →
    (key2 ∈ Party.allies p1 ↔ key1 ∈ Party.allies p2).

End Invariant.

(** ** A runtime to evaluate examples with

    [Ref.runtime] prints an identifier in the canonical form of [str(uuid)]
    (32 lowercase hexadecimal digits grouped 8-4-4-4-12; a value past 128 bits
    gets a longer last group, which keeps the printer injective on the whole
    of [N]) and parses that form only; it visits a set in the order of
    [elements]. The remaining fields behave as Python does on [None], booleans
    and decimal integers, and raise elsewhere. The theorems do not depend on
    it. *)

Module Ref.

Definition hex_char (d : N) : ascii :=
  match d with
  | 0 => "0" | 1 => "1" | 2 => "2" | 3 => "3" | 4 => "4" | 5 => "5" | 6 => "6" | 7 => "7"
  | 8 => "8" | 9 => "9" | 10 => "a" | 11 => "b" | 12 => "c" | 13 => "d" | 14 => "e" | _ => "f"
  end%N%char.

Definition hex_value (c : ascii) : option N :=
  let n := N_of_ascii c in
  if ((48 <=? n) && (n <=? 57))%N then Some (n - 48)%N
  else if ((97 <=? n) && (n <=? 102))%N then Some (n - 87)%N
  else None.

(** The [k] low hexadecimal digits of [n], least significant first. *)
Fixpoint digits (k : nat) (n : N) : list N :=
  match k with
  | O => []
  | S k' => (n mod 16)%N :: digits k' (n / 16)%N
  end.

Definition number (ds : list N) : N := foldr (λ d acc, (d + 16 * acc)%N) 0%N ds.

(** How many digits [n] is printed with. *)
Definition width (n : N) : nat := Nat.max 32 (N.to_nat ((N.size n + 3) / 4)).

Definition dash : ascii := "-"%char.

Definition group (l : list ascii) : list ascii :=
  take 8 l ++ dash :: take 4 (drop 8 l) ++ dash :: take 4 (drop 12 l)
    ++ dash :: take 4 (drop 16 l) ++ dash :: drop 20 l.

Definition ungroup (l : list ascii) : list ascii :=
  filter (λ c, c ≠ dash) l.

Definition str (n : UUID) : string :=
  string_of_list_ascii (group (hex_char <$> rev (digits (width n) n))).

Definition parse (s : string) : option UUID :=
  ds ← mapM hex_value (ungroup (list_ascii_of_string s));
  let n := number (rev ds) in
  if String.eqb (str n) s then Some n else None.

Fixpoint all_digits (s : string) : bool :=
  match s with
  | EmptyString => true
  | String c s' => (48 <=? N_of_ascii c)%N && (N_of_ascii c <=? 57)%N && all_digits s'
  end.

Fixpoint decimal (acc : N) (s : string) : N :=
  match s with
  | EmptyString => acc
  | String c s' => decimal (10 * acc + (N_of_ascii c - 48))%N s'
  end.

Definition decimal_int (s : string) : option Z :=
  match s with
  | EmptyString => None
  | String "-" s' =>
      if all_digits s' && negb (String.eqb s' "") then Some (- Z.of_N (decimal 0 s'))%Z else None
  | _ => if all_digits s then Some (Z.of_N (decimal 0 s)) else None
  end.

Definition repr (v : PyVal) : string :=
  match v with
  | VNone => "None"
  | VBool true => "True"
  | VBool false => "False"
  | VInt n => pretty n
  | _ => "<object>"
  end.

Global Instance runtime : PyRuntime := {|
  uuid_str := str;
  uuid_parse := parse;
  set_iter := elements;
  py_repr := repr;
  int_of_str := decimal_int;
  int_of_float := λ _, None;
  float_of_str := λ _, None;
  float_of_int := λ _, None;
  dict_of_seq := λ _, None;
  set_iter_perm := λ s, reflexivity (elements s);
|}.

(** Numbers for the examples: on operands that a [float] holds exactly (below
    [2^53] in absolute value) the quotient of the two floats is the correctly
    rounded quotient, and the comparison is exact. *)
Definition float_of_Z (n : Z) : float :=
  if (n <? 0)%Z then PrimFloat.opp (PrimFloat.of_uint63 (Uint63.of_Z (- n)))
  else PrimFloat.of_uint63 (Uint63.of_Z n).

Global Instance numbers : PyNumbers := {|
  int_truediv := λ a b, Some (PrimFloat.div (float_of_Z a) (float_of_Z b));
  int_ge_float := λ n f, PrimFloat.leb f (float_of_Z n);
|}.

End Ref.

(** ** Sample data *)

Module Sample.

Definition A : UUID := 1%N.
Definition B : UUID := 2%N.
Definition C : UUID := 3%N.
Definition alice : Player.t := Player.mk A "Alice".
Definition bob : Player.t := Player.mk B "Bob".
Definition carol : Player.t := Player.mk C "Carol".

(** The key and [id] of the sample party. *)
Definition P : UUID := 100%N.

Definition offline : UUID → bool := λ _, false.

(** A snapshot that encodes three violations: the leader [A] is not in
    [members], the role recorded for the leader is [member], and [roles] has
    an entry for [C], who is not a member. *)
Definition inconsistent_snapshot : list (string * PyVal) :=
  [ ("id", VStr "00000000-0000-0000-0000-000000000064");
    ("leader", VStr "00000000-0000-0000-0000-000000000001");
    ("members", VList [VStr "00000000-0000-0000-0000-000000000002"]);
    ("roles", VDict [ ("00000000-0000-0000-0000-000000000001", VStr "member");
                      ("00000000-0000-0000-0000-000000000002", VStr "officer");
                      ("00000000-0000-0000-0000-000000000003", VStr "officer") ]) ].

Definition call_at (now : Z) (o : Registry.op) : Registry.call :=
  Registry.mk_call o now offline.

(** The registry after a sequence of calls on the empty registry, run with
    [Ref.runtime] and the default configuration. *)
Definition after (calls : list Registry.call) : PartyManager.t :=
  default PartyManager.empty
    (Registry.run Config.defaults calls PartyManager.empty ≫= last).

(** The party stored under [P]. *)
Definition party_of (self : PartyManager.t) : Party.t :=
  default (Party.create 0 0 0) (PartyManager.deref self P).

(** [alice] creates the party [P] at time 1000. *)
Definition created : PartyManager.t :=
  after [call_at 1000 (Registry.CreateParty alice P)].

(** ... and invites [bob] at time 2000. *)
Definition invited : PartyManager.t :=
  after [call_at 1000 (Registry.CreateParty alice P);
         call_at 2000 (Registry.InvitePlayer P B)].

(** [alice] creates the party and [bob] joins it. *)
Definition pair : PartyManager.t :=
  after [call_at 1000 (Registry.CreateParty alice P);
         call_at 2000 (Registry.AddPlayerToParty bob P)].

(** ... and [carol] joins it too. *)
Definition trio : PartyManager.t :=
  after [call_at 1000 (Registry.CreateParty alice P);
         call_at 2000 (Registry.AddPlayerToParty bob P);
         call_at 3000 (Registry.AddPlayerToParty carol P)].

Definition only_carol_online : UUID → bool := λ x, bool_decide (x = C).

(** The key and [id] of a second party. *)
Definition Q : UUID := 200%N.

(** [bob] asks to join the party [P] and then creates a party of his own. *)
Definition requested : PartyManager.t :=
  after [call_at 1000 (Registry.CreateParty alice P);
         call_at 2000 (Registry.RequestToJoin B P);
         call_at 3000 (Registry.CreateParty bob Q)].


(** [alice] creates the party, [bob] joins, [alice] leaves. *)
Definition leader_leaves : list Registry.call :=
  [call_at 1000 (Registry.CreateParty alice P);
   call_at 2000 (Registry.AddPlayerToParty bob P);
   call_at 3000 (Registry.LeaveParty A)].

(** A party of [alice] alone whose name is the empty string. *)
Definition blank_name : Party.t :=
  Party.mk P A {[A]} ∅ ∅ None 1000 (VStr "") true {[A := PartyRole.LEADER]} ∅ 0 0 0
    "§6" "*" ∅ ∅ 0 0 ∅ ∅.

(** A snapshot entry with two malformed nested entries: a member that is not
    an identifier, and an invite whose key is not an identifier (and whose
    value is [null]). *)
Definition good_entry : list (string * PyVal) :=
  [ ("id", VStr "00000000-0000-0000-0000-000000000064");
    ("leader", VStr "00000000-0000-0000-0000-000000000001");
    ("members", VList [VStr "00000000-0000-0000-0000-000000000001"; VStr "not-a-uuid"]);
    ("invites", VDict [ ("bogus", VNone);
                        ("00000000-0000-0000-0000-000000000002", VInt 2000) ]) ].

(** An entry without a leader. *)
Definition no_leader_entry : list (string * PyVal) :=
  [ ("id", VStr "00000000-0000-0000-0000-0000000000c8") ].

(** An entry whose invite for [C] has a [null] timestamp. *)
Definition null_timestamp_entry : list (string * PyVal) :=
  [ ("id", VStr "00000000-0000-0000-0000-0000000000c8");
    ("leader", VStr "00000000-0000-0000-0000-000000000002");
    ("invites", VDict [ ("00000000-0000-0000-0000-000000000003", VNone) ]) ].

Definition document (entries : list PyVal) : PartyStorage.file_state :=
  PartyStorage.Parsed (VDict [("parties", VList entries)]).

(** A registry whose one party satisfies invariants 1-4 and holds a join
    request of [bob], whom it has banned. *)
Definition banned_requester : PartyManager.t :=
  PartyManager.mk
    {[ P := Party.mk P A {[A]} ∅ {[B := 1000%Z]} None 1000 VNone true
              {[A := PartyRole.LEADER]} {[B]} 0 0 0 "§6" "*" ∅ ∅ 0 0 ∅ ∅ ]}
    {[ A := P ]} ∅ ∅ ∅ false.

End Sample.

(** * Properties *)

Local Open Scope Z_scope.

(** ** Daily reward (models.py, [can_claim_daily_reward] and
       [claim_daily_reward]) *)

Lemma claim_daily_reward_fields (p : Party.t) (player_id : UUID) (now : Z) :
  Party.last_reward_date (Party.claim_daily_reward p player_id now) = now ∧
  Party.last_daily_reward (Party.claim_daily_reward p player_id now)
    = <[player_id := now]> (Party.last_daily_reward p) ∧
  Party.consecutive_days (Party.claim_daily_reward p player_id now) =
    if 0 <? Party.last_reward_date p then
      if (now - Party.last_reward_date p) `div` MILLIS_PER_DAY =? 1
      then Party.consecutive_days p + 1
      else if 1 <? (now - Party.last_reward_date p) `div` MILLIS_PER_DAY then 1
      else Party.consecutive_days p
    else 1.
Proof.
  unfold Party.claim_daily_reward. cbn zeta.
  destruct p as [? ? ? ? ? ? ? ? ? ? ? ? ? ? ? ? ? ldr cd lrd ? ?]; cbn.
  destruct (0 <? lrd); cbn; [|done].
  destruct (_ =? 1); cbn; [done|].
  by destruct (1 <? _).
Qed.

(** C7. [claim_daily_reward] sets [consecutive_days] to 1 on the first claim
    (no reward date recorded yet); on a later claim, with
    [days_since = floor((now - last_reward_date) / 86,400,000)], it increments
    [consecutive_days] when [days_since = 1] and resets it to 1 when
    [days_since > 1]; claims at [t0], [t0 + 1 day] and [t0 + 3 days] on a party
    that has never claimed give 1, 2, 1 (timestamps are milliseconds since the
    epoch, so [t0 > 0]); and [can_claim_daily_reward] is true exactly when the
    player has no prior claim or at least 86,400,000 ms have passed since
    it. *)
Theorem daily_reward_streak (p : Party.t) (player_id : UUID) (now : Z) :
  (Party.last_reward_date p ≤ 0 →
     Party.consecutive_days (Party.claim_daily_reward p player_id now) = 1) ∧
  (0 < Party.last_reward_date p →
     let days_since := (now - Party.last_reward_date p) `div` 86400000 in
     (days_since = 1 →
        Party.consecutive_days (Party.claim_daily_reward p player_id now)
        = Party.consecutive_days p + 1) ∧
     (1 < days_since →
        Party.consecutive_days (Party.claim_daily_reward p player_id now) = 1)) ∧
  (∀ a b c t0, Party.last_reward_date p = 0 → 0 < t0 →
     let p1 := Party.claim_daily_reward p a t0 in
     let p2 := Party.claim_daily_reward p1 b (t0 + 86400000) in
     let p3 := Party.claim_daily_reward p2 c (t0 + 3 * 86400000) in
     Party.consecutive_days p1 = 1 ∧ Party.consecutive_days p2 = 2 ∧
     Party.consecutive_days p3 = 1) ∧
  (Party.can_claim_daily_reward p player_id now = true ↔
     Party.last_daily_reward p !! player_id = None ∨
     ∃ last_claim, Party.last_daily_reward p !! player_id = Some last_claim ∧
                   86400000 ≤ now - last_claim).
Proof.
  split_and!.
  - intros Hfirst.
    destruct (claim_daily_reward_fields p player_id now) as (_ & _ & ->).
    by rewrite (proj2 (Z.ltb_ge _ _) Hfirst).
  - intros Hlater days_since. subst days_since.
    destruct (claim_daily_reward_fields p player_id now) as (_ & _ & ->).
    rewrite (proj2 (Z.ltb_lt _ _) Hlater). change MILLIS_PER_DAY with 86400000.
    split.
    + intros ->. done.
    + intros Hgt. rewrite (proj2 (Z.eqb_neq _ _)) by lia.
      by rewrite (proj2 (Z.ltb_lt _ _) Hgt).
  - intros a b c t0 Hnever Ht0. cbn zeta.
    destruct (claim_daily_reward_fields p a t0) as (Hd1 & _ & Hc1).
    rewrite Hnever in Hc1. change (0 <? 0) with false in Hc1. cbv iota in Hc1.
    set (p1 := Party.claim_daily_reward p a t0) in *. clearbody p1.
    destruct (claim_daily_reward_fields p1 b (t0 + 86400000)) as (Hd2 & _ & Hc2).
    rewrite Hd1, Hc1, (proj2 (Z.ltb_lt _ _) Ht0) in Hc2.
    change MILLIS_PER_DAY with 86400000 in Hc2.
    replace (t0 + 86400000 - t0) with 86400000 in Hc2 by lia.
    change (86400000 `div` 86400000) with 1 in Hc2.
    change (1 =? 1) with true in Hc2. cbv iota in Hc2.
    set (p2 := Party.claim_daily_reward p1 b (t0 + 86400000)) in *. clearbody p2.
    destruct (claim_daily_reward_fields p2 c (t0 + 3 * 86400000)) as (_ & _ & Hc3).
    rewrite Hd2 in Hc3.
    rewrite (proj2 (Z.ltb_lt 0 (t0 + 86400000))) in Hc3 by lia.
    change MILLIS_PER_DAY with 86400000 in Hc3.
    replace (t0 + 3 * 86400000 - (t0 + 86400000)) with (2 * 86400000) in Hc3 by lia.
    change (2 * 86400000 `div` 86400000) with 2 in Hc3.
    change (2 =? 1) with false in Hc3. change (1 <? 2) with true in Hc3. cbv iota in Hc3.
    done.
  - unfold Party.can_claim_daily_reward. change MILLIS_PER_DAY with 86400000.
    destruct (Party.last_daily_reward p !! player_id) as [last_claim|]; [|naive_solver].
    rewrite Z.leb_le. split.
    + intros Hle. right. by exists last_claim.
    + intros [Hnone | (? & [= <-] & Hle)]; done.
Qed.

(** ** Persistence flush (party_manager.py, [save_all]) *)

(** C9. [save_all(force)] calls the storage backend exactly when the dirty
    flag is set or [force] is true; when the save returns, the dirty flag is
    cleared; when the save raises, the dirty flag is left as it was, so a flag
    that was set stays set for the next flush; nothing else of the registry
    changes. *)
Theorem save_all_dirty_flag (storage_save : list Party.t → gmap UUID string → bool)
    (self : PartyManager.t) (force : bool) :
  let values := (map_to_list (PartyManager.parties self)).*2 in
  let names := PartyManager.player_names self in
  let self' := (PartyManager.save_all storage_save self force).1 in
  let calls := (PartyManager.save_all storage_save self force).2 in
  (calls = [(values, names)] ∨ calls = []) ∧
  (calls ≠ [] ↔ PartyManager._dirty self = true ∨ force = true) ∧
  (calls ≠ [] → storage_save values names = true → PartyManager._dirty self' = false) ∧
  (calls ≠ [] → storage_save values names = false →
     PartyManager._dirty self' = PartyManager._dirty self) ∧
  (calls = [] → self' = self) ∧
  PartyManager.set_dirty (PartyManager._dirty self) self' = self.
Proof.
  unfold PartyManager.save_all.
  destruct self as [ps p2p inv mk nm dirty], force, dirty; cbn;
    destruct (storage_save _ _); cbn; split_and!; try done; intuition congruence.
Qed.

(** ** Invite expiry (party_manager.py, [accept_invite]; models.py,
       [clean_expired_invites]) *)

Section InviteExpiry.
Context `{PyRuntime}.

Lemma has_invite_true (obj : Party.t) (player_id : UUID) (sent_at : Z) :
  Party.invites obj !! player_id = Some sent_at → Party.has_invite obj player_id = true.
Proof. intros Hsent. unfold Party.has_invite. apply bool_decide_eq_true. by eexists. Qed.

Lemma has_invite_false (obj : Party.t) (player_id : UUID) :
  Party.invites obj !! player_id = None → Party.has_invite obj player_id = false.
Proof.
  intros Hnone. unfold Party.has_invite. apply bool_decide_eq_false.
  rewrite Hnone. by intros [? ?].
Qed.

(** What [accept_invite] does with a party that holds an invite for the
    player. *)
Lemma accept_invite_invited (cfg : Config.t) (now : Z) (self : PartyManager.t)
    (player : Player.t) (party : UUID) (obj : Party.t) (sent_at : Z) :
  PartyManager.deref self party = Some obj →
  Party.invites obj !! Player.unique_id player = Some sent_at →
  PartyManager.accept_invite cfg now self player party =
    let player_id := Player.unique_id player in
    if Config.invite_expiration_ms cfg <? now - sent_at then
      Some (false,
            PartyManager.mark_dirty
              (PartyManager.set_player_invites
                 (delete player_id (PartyManager.player_invites self))
                 (PartyManager.store party (Party.remove_invite obj player_id) self)))
    else if Config.max_members cfg <=? Z.of_nat (size (Party.members obj)) then Some (false, self)
    else if bool_decide (player_id ∈ Party.banned_players obj) then Some (false, self)
    else if PartyManager.is_in_party self player_id then Some (false, self)
    else
      Some (true,
            PartyManager.mark_dirty
              (PartyManager.record_player_name
                 (PartyManager.set_player_invites
                    (delete player_id (PartyManager.player_invites self))
                    (PartyManager.set_player_to_party
                       (<[player_id := Party.id (Party.add_member obj player_id)]>
                          (PartyManager.player_to_party self))
                       (PartyManager.store party (Party.add_member obj player_id) self)))
                 player)).
Proof.
  intros Hobj Hsent. unfold PartyManager.accept_invite. rewrite Hobj. cbn [mbind option_bind].
  rewrite (has_invite_true _ _ _ Hsent), Hsent. reflexivity.
Qed.

End InviteExpiry.

(** C4, as the code has it. With invite TTL [T], an invite recorded at time
    [t] is accepted by [accept_invite] at time [t + T] (the party below
    capacity, the player not banned and in no party) and rejected at
    [t + T + 1]: the check at accept time rejects exactly when the elapsed
    time exceeds [T], and so does the sweep [clean_expired_invites]. *)
Theorem invite_expiry_boundary `{PyRuntime} (cfg : Config.t) (self : PartyManager.t)
    (player : Player.t) (party : UUID) (obj : Party.t) (t : Z) :
  PartyManager.deref self party = Some obj →
  Party.invites obj !! Player.unique_id player = Some t →
  Z.of_nat (size (Party.members obj)) < Config.max_members cfg →
  Player.unique_id player ∉ Party.banned_players obj →
  PartyManager.is_in_party self (Player.unique_id player) = false →
  let T := Config.invite_expiration_ms cfg in
  (∀ now, fst <$> PartyManager.accept_invite cfg now self player party = Some false
          ↔ T < now - t) ∧
  (∀ now, fst <$> PartyManager.accept_invite cfg now self player party = Some true
          ↔ now - t ≤ T) ∧
  fst <$> PartyManager.accept_invite cfg (t + T) self player party = Some true ∧
  fst <$> PartyManager.accept_invite cfg (t + T + 1) self player party = Some false ∧
  (∀ now, Player.unique_id player ∈ (Party.clean_expired_invites now obj T).1
          ↔ T < now - t).
Proof.
  intros Hobj Hsent Hroom Hban Hfree T.
  assert (Hacc : ∀ now,
    fst <$> PartyManager.accept_invite cfg now self player party = Some (negb (T <? now - t))).
  { intros now. rewrite (accept_invite_invited _ _ _ _ _ _ _ Hobj Hsent). cbn zeta. fold T.
    destruct (T <? now - t); [done|].
    rewrite (proj2 (Z.leb_gt _ _) Hroom), (bool_decide_eq_false_2 _ Hban), Hfree. done. }
  split_and!.
  - intros now. rewrite Hacc. destruct (Z.ltb_spec T (now - t)); cbn; split; (done || lia).
  - intros now. rewrite Hacc. destruct (Z.ltb_spec T (now - t)); cbn; split; (done || lia).
  - rewrite Hacc. by rewrite (proj2 (Z.ltb_ge _ _)) by lia.
  - rewrite Hacc. by rewrite (proj2 (Z.ltb_lt _ _)) by lia.
  - intros now. unfold Party.clean_expired_invites, Party.expired_at. cbn.
    rewrite elem_of_dom. unfold is_Some. setoid_rewrite map_lookup_filter_Some. cbn.
    split.
    + intros (sent & Hs & Hlt). rewrite Hsent in Hs. injection Hs as <-. lia.
    + intros Hlt. exists t. split; [done|lia].
Qed.

(** On the sample registry: [bob], invited at 2000 with the default TTL of
    300,000 ms, is accepted at 302,000 and rejected at 302,001. *)
Lemma invite_expiry_boundary_witness :
  fst <$> PartyManager.accept_invite Config.defaults 302000 Sample.invited Sample.bob Sample.P
    = Some true ∧
  fst <$> PartyManager.accept_invite Config.defaults 302001 Sample.invited Sample.bob Sample.P
    = Some false.
Proof.
  destruct (invite_expiry_boundary Config.defaults Sample.invited Sample.bob Sample.P
              (Sample.party_of Sample.invited) 2000) as (_ & _ & Hat & Hafter & _).
  - vm_compute. reflexivity.
  - vm_compute. reflexivity.
  - vm_compute. reflexivity.
  - apply (bool_decide_unpack _). vm_compute. exact I.
  - vm_compute. reflexivity.
  - split; [exact Hat|exact Hafter].
Defined.

(** C4, as the specification states it, fails: with [T = 300,000], the invite
    recorded at [t = 2000] is not rejected at [t + T]; [accept_invite]
    returns [True] and [bob] is a member afterwards. *)
Lemma invite_accepted_at_ttl :
  ∃ self',
    PartyManager.accept_invite Config.defaults (2000 + 300000) Sample.invited Sample.bob Sample.P
      = Some (true, self') ∧
    Sample.B ∈ Party.members (Sample.party_of self').
Proof.
  eexists. split; [vm_compute; reflexivity|].
  apply (bool_decide_unpack _). vm_compute. exact I.
Qed.

(** ** Leadership election (party_manager.py, [_pick_new_leader] and
       [leave_party]) *)

Lemma string_compare_lt_trans (s1 s2 s3 : string) :
  String.compare s1 s2 = Lt → String.compare s2 s3 = Lt → String.compare s1 s3 = Lt.
Proof.
  revert s2 s3. induction s1 as [|c1 s1 IH]; intros [|c2 s2] [|c3 s3]; cbn; try congruence.
  unfold Ascii.compare.
  destruct (N.compare_spec (N_of_ascii c1) (N_of_ascii c2)) as [E12|L12|L12];
    destruct (N.compare_spec (N_of_ascii c2) (N_of_ascii c3)) as [E23|L23|L23];
    try congruence; intros H12 H23.
  - rewrite E12, E23, N.compare_refl. by apply (IH s2).
  - rewrite E12, (proj2 (N.compare_lt_iff _ _) L23). done.
  - rewrite <- E23, (proj2 (N.compare_lt_iff _ _) L12). done.
  - rewrite (proj2 (N.compare_lt_iff (N_of_ascii c1) (N_of_ascii c3))) by lia. done.
Qed.

Lemma string_leb_trans (s1 s2 s3 : string) :
  String.leb s1 s2 = true → String.leb s2 s3 = true → String.leb s1 s3 = true.
Proof.
  unfold String.leb.
  destruct (String.compare s1 s2) eqn:E12; [|destruct (String.compare s2 s3) eqn:E23|done].
  - apply String.compare_eq_iff in E12 as ->. done.
  - apply String.compare_eq_iff in E23 as <-. by rewrite E12.
  - by rewrite (string_compare_lt_trans _ _ _ E12 E23).
  - done.
Qed.

Section Election.
Context `{PyRuntime}.

Global Instance str_le_trans : Transitive Py.str_le.
Proof. intros a b c. apply string_leb_trans. Qed.

Global Instance str_le_total : Total Py.str_le.
Proof. intros a b. apply String.leb_total. Qed.

(** The first element of [sorted(s, key=str)] is an element of [s] whose
    string is least. *)
Lemma sorted_by_str_head (s : gset UUID) (first : UUID) :
  head (Py.sorted_by_str s) = Some first →
  first ∈ s ∧ ∀ other, other ∈ s → Py.str_le first other.
Proof.
  unfold Py.sorted_by_str. intros Hhead.
  pose proof (StronglySorted_merge_sort Py.str_le (set_iter s)) as Hsorted.
  pose proof (merge_sort_Permutation Py.str_le (set_iter s)) as Hperm.
  destruct (merge_sort Py.str_le (set_iter s)) as [|x rest]; [done|].
  injection Hhead as ->.
  apply StronglySorted_inv in Hsorted as [_ Hall].
  assert (Hin : ∀ y, y ∈ s ↔ y ∈ first :: rest).
  { intros y. by rewrite Hperm, set_iter_perm, elem_of_elements. }
  split.
  - apply Hin. left.
  - intros other Hother. apply Hin in Hother.
    apply elem_of_cons in Hother as [->|Hother].
    + destruct (total Py.str_le first first); done.
    + rewrite Forall_forall in Hall. by apply Hall.
Qed.

Lemma sorted_by_str_nonempty (s : gset UUID) :
  s ≠ ∅ → is_Some (head (Py.sorted_by_str s)).
Proof.
  intros Hne. unfold Py.sorted_by_str.
  pose proof (merge_sort_Permutation Py.str_le (set_iter s)) as Hperm.
  destruct (merge_sort Py.str_le (set_iter s)) as [|x rest]; [|by eexists].
  symmetry in Hperm. apply Permutation_nil_r in Hperm.
  pose proof (set_iter_perm s) as Hiter. rewrite Hperm in Hiter.
  symmetry in Hiter. apply Permutation_nil_r in Hiter.
  apply elements_empty_inv in Hiter. apply leibniz_equiv in Hiter. done.
Qed.

(** [_pick_new_leader] returns a member: an online one if there is one, and
    otherwise one whose string is least. *)
Lemma pick_new_leader_spec (online : UUID → bool) (party : Party.t) :
  Party.members party ≠ ∅ →
  ∃ new_leader,
    PartyManager._pick_new_leader online party = Some new_leader ∧
    new_leader ∈ Party.members party ∧
    ((∃ m, m ∈ Party.members party ∧ online m = true) → online new_leader = true) ∧
    ((∀ m, m ∈ Party.members party → online m = false) →
       ∀ m, m ∈ Party.members party → Py.str_le new_leader m).
Proof.
  intros Hne. unfold PartyManager._pick_new_leader.
  destruct (List.find online (set_iter (Party.members party))) as [m|] eqn:Hfind.
  - apply find_some in Hfind as [Hin Hon]. exists m.
    apply list_elem_of_In in Hin. rewrite set_iter_perm, elem_of_elements in Hin.
    split_and!; [done|done|done|].
    intros Hoff. rewrite (Hoff m Hin) in Hon. done.
  - destruct (sorted_by_str_nonempty _ Hne) as [first Hfirst].
    destruct (sorted_by_str_head _ _ Hfirst) as [Hin Hleast].
    exists first. split_and!; [done|done| |done].
    intros (m & Hm & Hon).
    pose proof (find_none _ _ Hfind m) as Hoff.
    rewrite Hoff in Hon; [done|].
    apply list_elem_of_In. by rewrite set_iter_perm, elem_of_elements.
Qed.

End Election.

(** C5. When the leader leaves a party that still has members, [leave_party]
    returns a new leader who is one of the remaining members and is the
    party's leader afterwards; the new leader is online whenever some remaining
    member is online; and when no remaining member is online, the canonical
    string of the new leader is the least among the remaining members. In
    particular, for members [{A, B, C}] with leader [A]: if only [C] is
    online the new leader is [C], and if none is online the new leader is the
    one of [B], [C] with the least string. *)
Theorem leave_party_elects_leader `{PyRuntime} (online : UUID → bool) (self : PartyManager.t)
    (A : UUID) (party : UUID) (obj : Party.t) :
  PartyManager.player_to_party self !! A = Some party →
  PartyManager.deref self party = Some obj →
  Party.leader obj = A →
  Party.members obj ∖ {[A]} ≠ ∅ →
  ∃ new_leader obj',
    (PartyManager.leave_party online self A).1 = (Some obj', Some new_leader) ∧
    PartyManager.deref (PartyManager.leave_party online self A).2 party = Some obj' ∧
    Party.leader obj' = new_leader ∧
    Party.members obj' = Party.members obj ∖ {[A]} ∧
    new_leader ∈ Party.members obj ∖ {[A]} ∧
    ((∃ m, m ∈ Party.members obj ∖ {[A]} ∧ online m = true) → online new_leader = true) ∧
    ((∀ m, m ∈ Party.members obj ∖ {[A]} → online m = false) →
       ∀ m, m ∈ Party.members obj ∖ {[A]} →
            String.leb (uuid_str new_leader) (uuid_str m) = true) ∧
    (∀ B C, Party.members obj = {[A; B; C]} → B ≠ A → C ≠ A →
       (online B = false → online C = true → new_leader = C) ∧
       (online B = false → online C = false →
          (new_leader = B ∨ new_leader = C) ∧
          String.leb (uuid_str new_leader) (uuid_str B) = true ∧
          String.leb (uuid_str new_leader) (uuid_str C) = true)).
Proof.
  intros Hindex Hobj Hleader Hrest.
  set (obj1 := Party.remove_member obj A).
  assert (Hmem1 : Party.members obj1 = Party.members obj ∖ {[A]}) by done.
  destruct (pick_new_leader_spec online obj1) as (nl & Hpick & Hin & Hon & Hoff).
  { by rewrite Hmem1. }
  rewrite Hmem1 in Hin, Hon, Hoff.
  exists nl, (Party.transfer_leadership obj1 nl).2.
  assert (Hrun : PartyManager.leave_party online self A =
    ((Some (Party.transfer_leadership obj1 nl).2, Some nl),
     PartyManager.mark_dirty
       (PartyManager.store party (Party.transfer_leadership obj1 nl).2
          (PartyManager.mark_dirty
             (PartyManager.set_last_marker_positions
                (delete A (PartyManager.last_marker_positions self))
                (PartyManager.set_player_to_party
                   (delete A (PartyManager.player_to_party self))
                   (PartyManager.store party obj1 self))))))).
  { unfold PartyManager.leave_party. rewrite Hindex, Hobj. cbn zeta. fold obj1.
    rewrite (bool_decide_eq_false_2 (Party.members obj1 = ∅)) by by rewrite Hmem1.
    unfold Party.is_leader. rewrite (bool_decide_eq_true_2 _ Hleader).
    rewrite Hpick. done. }
  rewrite Hrun. cbn [fst snd].
  assert (Htransfer : Party.leader (Party.transfer_leadership obj1 nl).2 = nl ∧
                      Party.members (Party.transfer_leadership obj1 nl).2 = Party.members obj1).
  { unfold Party.transfer_leadership.
    rewrite (bool_decide_eq_false_2 (nl ∉ Party.members obj1)) by (rewrite Hmem1; tauto).
    cbn [snd]. destruct (bool_decide (Party.leader obj1 ≠ nl)) eqn:Hne; cbn; [done|].
    apply bool_decide_eq_false in Hne. split; [|done]. by destruct (decide (Party.leader obj1 = nl)). }
  destruct Htransfer as [Hnl Hmem2].
  split_and!.
  - done.
  - unfold PartyManager.deref. cbn. apply lookup_insert_eq.
  - done.
  - by rewrite Hmem2.
  - done.
  - done.
  - intros Hnone m Hm. by apply Hoff.
  - intros B C Hthree HB HC.
    assert (Hrem : ∀ m, m ∈ Party.members obj ∖ {[A]} ↔ m = B ∨ m = C).
    { intros m. rewrite Hthree. set_solver. }
    split.
    + intros HoffB HonC.
      assert (Hnlon : online nl = true). { apply Hon. exists C. split; [apply Hrem; by right|done]. }
      apply Hrem in Hin as [->| ->]; [congruence|done].
    + intros HoffB HoffC.
      assert (Hall : ∀ m, m ∈ Party.members obj ∖ {[A]} → online m = false).
      { intros m Hm. apply Hrem in Hm as [->| ->]; done. }
      split_and!.
      * by apply Hrem.
      * apply (Hoff Hall). apply Hrem. by left.
      * apply (Hoff Hall). apply Hrem. by right.
Qed.

(** On the sample party [{A, B, C}] led by [A], with only [C] online, [A]'s
    leave elects [C]. *)
Lemma leave_party_elects_leader_witness :
  ∃ obj',
    (PartyManager.leave_party Sample.only_carol_online Sample.trio Sample.A).1
      = (Some obj', Some Sample.C).
Proof.
  destruct (leave_party_elects_leader Sample.only_carol_online Sample.trio Sample.A Sample.P
              (Sample.party_of Sample.trio))
    as (new_leader & obj' & Hresult & _ & _ & _ & _ & _ & _ & Hthree).
  - vm_compute. reflexivity.
  - vm_compute. reflexivity.
  - vm_compute. reflexivity.
  - apply (bool_decide_unpack _). vm_compute. exact I.
  - destruct (Hthree Sample.B Sample.C) as [Honly _].
    + vm_compute. reflexivity.
    + discriminate.
    + discriminate.
    + exists obj'. rewrite Hresult, Honly; reflexivity.
Defined.

(** ** Disbanding (party_manager.py, [disband_party] and [leave_party]) *)

Section Disband.
Context `{PyRuntime}.

Lemma set_iter_empty : set_iter ∅ = [].
Proof.
  pose proof (set_iter_perm ∅) as Hperm. rewrite elements_empty in Hperm.
  by apply Permutation_nil_r.
Qed.

Lemma elem_of_set_iter (s : gset UUID) (x : UUID) : x ∈ set_iter s ↔ x ∈ s.
Proof. by rewrite set_iter_perm, elem_of_elements. Qed.

(** The loop over the members touches the two per-player maps only. *)
Lemma disband_members_frame (party_id : UUID) (l : list UUID) (self : PartyManager.t) :
  let self' := foldl (PartyManager.disband_member party_id) self l in
  PartyManager.parties self' = PartyManager.parties self ∧
  PartyManager.player_invites self' = PartyManager.player_invites self ∧
  PartyManager.player_names self' = PartyManager.player_names self ∧
  PartyManager._dirty self' = PartyManager._dirty self.
Proof.
  revert self. induction l as [|x l IH]; intros self; [done|].
  cbn [foldl]. destruct (IH (PartyManager.disband_member party_id self x)) as (-> & -> & -> & ->).
  unfold PartyManager.disband_member. by case_bool_decide.
Qed.

Lemma disband_member_index (party_id : UUID) (self : PartyManager.t) (y : UUID) :
  PartyManager.player_to_party (PartyManager.disband_member party_id self y) =
    if bool_decide (PartyManager.player_to_party self !! y = Some party_id)
    then delete y (PartyManager.player_to_party self)
    else PartyManager.player_to_party self.
Proof. unfold PartyManager.disband_member. by case_bool_decide. Qed.

Lemma disband_members_index (party_id : UUID) (l : list UUID) (self : PartyManager.t)
    (x : UUID) :
  PartyManager.player_to_party (foldl (PartyManager.disband_member party_id) self l) !! x =
    if bool_decide (x ∈ l ∧ PartyManager.player_to_party self !! x = Some party_id)
    then None else PartyManager.player_to_party self !! x.
Proof.
  revert self. induction l as [|y l IH]; intros self.
  - cbn. rewrite bool_decide_eq_false_2; [done|]. intros [Hin _]. by apply elem_of_nil in Hin.
  - cbn [foldl]. rewrite IH, disband_member_index.
    destruct (decide (PartyManager.player_to_party self !! y = Some party_id)) as [Hy|Hy].
    + rewrite !(bool_decide_eq_true_2 _ Hy).
      destruct (decide (x = y)) as [->|Hne].
      * rewrite lookup_delete_eq.
        rewrite (bool_decide_eq_true_2 (y ∈ y :: l ∧ _)) by (split; [left|done]).
        by case_bool_decide.
      * rewrite lookup_delete_ne by done.
        repeat case_bool_decide; try done; set_solver.
    + rewrite !(bool_decide_eq_false_2 _ Hy).
      repeat case_bool_decide; try done; set_solver.
Qed.

(** The loop over the pending invites touches [player_invites] only, and drops
    the entries of the visited players that point at the party. *)
Lemma disband_invites_frame (party_id : UUID) (l : list UUID) (self : PartyManager.t) :
  let self' := foldl (PartyManager.disband_invite party_id) self l in
  PartyManager.parties self' = PartyManager.parties self ∧
  PartyManager.player_to_party self' = PartyManager.player_to_party self ∧
  PartyManager.last_marker_positions self' = PartyManager.last_marker_positions self ∧
  PartyManager.player_names self' = PartyManager.player_names self ∧
  PartyManager._dirty self' = PartyManager._dirty self.
Proof.
  revert self. induction l as [|x l IH]; intros self; [done|].
  cbn [foldl].
  destruct (IH (PartyManager.disband_invite party_id self x)) as (-> & -> & -> & -> & ->).
  unfold PartyManager.disband_invite. by case_bool_decide.
Qed.

Lemma disband_invite_index (party_id : UUID) (self : PartyManager.t) (y : UUID) :
  PartyManager.player_invites (PartyManager.disband_invite party_id self y) =
    if bool_decide (PartyManager.player_invites self !! y = Some party_id)
    then delete y (PartyManager.player_invites self)
    else PartyManager.player_invites self.
Proof. unfold PartyManager.disband_invite. by case_bool_decide. Qed.

Lemma disband_invites_index (party_id : UUID) (l : list UUID) (self : PartyManager.t)
    (x : UUID) :
  PartyManager.player_invites (foldl (PartyManager.disband_invite party_id) self l) !! x =
    if bool_decide (x ∈ l ∧ PartyManager.player_invites self !! x = Some party_id)
    then None else PartyManager.player_invites self !! x.
Proof.
  revert self. induction l as [|y l IH]; intros self.
  - cbn. rewrite bool_decide_eq_false_2; [done|]. intros [Hin _]. by apply elem_of_nil in Hin.
  - cbn [foldl]. rewrite IH, disband_invite_index.
    destruct (decide (PartyManager.player_invites self !! y = Some party_id)) as [Hy|Hy].
    + rewrite !(bool_decide_eq_true_2 _ Hy).
      destruct (decide (x = y)) as [->|Hne].
      * rewrite lookup_delete_eq.
        rewrite (bool_decide_eq_true_2 (y ∈ y :: l ∧ _)) by (split; [left|done]).
        by case_bool_decide.
      * rewrite lookup_delete_ne by done.
        repeat case_bool_decide; try done; set_solver.
    + rewrite !(bool_decide_eq_false_2 _ Hy).
      repeat case_bool_decide; try done; set_solver.
Qed.

(** [disband_party] on a party that is stored. *)
Lemma disband_party_stored (self : PartyManager.t) (party_id : UUID) (obj : Party.t) :
  PartyManager.parties self !! party_id = Some obj →
  let r := PartyManager.disband_party self party_id in
  r.1 = true ∧
  PartyManager.parties r.2 = delete party_id (PartyManager.parties self) ∧
  (∀ x, PartyManager.player_to_party r.2 !! x =
          if bool_decide (x ∈ Party.members obj ∧
                          PartyManager.player_to_party self !! x = Some party_id)
          then None else PartyManager.player_to_party self !! x) ∧
  (∀ x, PartyManager.player_invites r.2 !! x =
          if bool_decide (PartyManager.player_invites self !! x = Some party_id)
          then None else PartyManager.player_invites self !! x) ∧
  PartyManager._dirty r.2 = true.
Proof.
  intros Hobj. unfold PartyManager.disband_party. rewrite Hobj. cbn zeta. cbn [fst snd].
  set (self1 := PartyManager.set_parties _ self).
  set (self2 := foldl (PartyManager.disband_member party_id) self1 _).
  destruct (disband_members_frame party_id (set_iter (Party.members obj)) self1)
    as (Hp2 & Hi2 & _ & _). fold self2 in Hp2, Hi2.
  destruct (disband_invites_frame party_id (map_to_list (PartyManager.player_invites self2)).*1 self2)
    as (Hp3 & Hq3 & _ & _ & _).
  split_and!.
  - done.
  - cbn. rewrite Hp3, Hp2. done.
  - intros x. cbn. rewrite Hq3. unfold self2. rewrite disband_members_index. cbn.
    case_bool_decide as H1; case_bool_decide as H2; try done.
    + destruct H2. destruct H1 as [H1 ?]. by apply elem_of_set_iter in H1.
    + destruct H1. destruct H2 as [H2 ?]. by apply elem_of_set_iter in H2.
  - intros x. cbn. rewrite disband_invites_index, Hi2. cbn.
    case_bool_decide as H1; case_bool_decide as H2; try done.
    + by destruct H1.
    + destruct H1. split; [|done].
      apply list_elem_of_fmap. exists (x, party_id). split; [done|].
      by apply elem_of_map_to_list.
  - done.
Qed.

Lemma disband_party_absent (self : PartyManager.t) (party_id : UUID) :
  PartyManager.parties self !! party_id = None →
  PartyManager.disband_party self party_id = (false, self).
Proof. intros Hnone. unfold PartyManager.disband_party. by rewrite Hnone. Qed.

End Disband.

Lemma transfer_leadership_frame (obj : Party.t) (new_leader_id : UUID) :
  let obj' := (Party.transfer_leadership obj new_leader_id).2 in
  Party.id obj' = Party.id obj ∧
  Party.members obj' = Party.members obj ∧
  Party.invites obj' = Party.invites obj ∧
  Party.join_requests obj' = Party.join_requests obj ∧
  Party.banned_players obj' = Party.banned_players obj.
Proof.
  unfold Party.transfer_leadership.
  destruct (bool_decide (new_leader_id ∉ Party.members obj)); [done|].
  by destruct (bool_decide (Party.leader obj ≠ new_leader_id)).
Qed.

Lemma transfer_leadership_member (obj : Party.t) (new_leader_id : UUID) :
  new_leader_id ∈ Party.members obj →
  let obj' := (Party.transfer_leadership obj new_leader_id).2 in
  Party.leader obj' = new_leader_id ∧
  Party.roles obj' !! new_leader_id = Some PartyRole.LEADER ∧
  (Party.leader obj ≠ new_leader_id →
     Party.roles obj' !! Party.leader obj = Some PartyRole.OFFICER).
Proof.
  intros Hin. unfold Party.transfer_leadership.
  rewrite (bool_decide_eq_false_2 (new_leader_id ∉ Party.members obj)) by tauto.
  case_bool_decide as Hne; cbn.
  - split_and!; [done|apply lookup_insert_eq|].
    intros _. rewrite lookup_insert_ne by done. apply lookup_insert_eq.
  - assert (Party.leader obj = new_leader_id) as ->
      by by destruct (decide (Party.leader obj = new_leader_id)).
    split_and!; [done|apply lookup_insert_eq|done].
Qed.

Section Leave.
Context `{PyRuntime}.

(** A leave that leaves members behind keeps the party, with the player
    removed, and drops the player's index entry. *)
Lemma leave_party_remaining (online : UUID → bool) (self : PartyManager.t)
    (player_id : UUID) (party : UUID) (obj : Party.t) :
  PartyManager.player_to_party self !! player_id = Some party →
  PartyManager.deref self party = Some obj →
  Party.members obj ∖ {[player_id]} ≠ ∅ →
  ∃ obj',
    (PartyManager.leave_party online self player_id).1.1 = Some obj' ∧
    PartyManager.parties (PartyManager.leave_party online self player_id).2
      = <[party := obj']> (PartyManager.parties self) ∧
    PartyManager.player_to_party (PartyManager.leave_party online self player_id).2
      = delete player_id (PartyManager.player_to_party self) ∧
    PartyManager.player_invites (PartyManager.leave_party online self player_id).2
      = PartyManager.player_invites self ∧
    Party.id obj' = Party.id obj ∧
    Party.members obj' = Party.members obj ∖ {[player_id]} ∧
    Party.invites obj' = delete player_id (Party.invites obj) ∧
    Party.join_requests obj' = delete player_id (Party.join_requests obj) ∧
    Party.banned_players obj' = Party.banned_players obj ∧
    (Party.leader obj ≠ player_id →
       Party.leader obj' = Party.leader obj ∧
       Party.roles obj' = delete player_id (Party.roles obj)) ∧
    (Party.leader obj = player_id →
       Party.leader obj' ∈ Party.members obj ∖ {[player_id]} ∧
       Party.roles obj' !! Party.leader obj' = Some PartyRole.LEADER ∧
       Party.roles obj' !! player_id = Some PartyRole.OFFICER).
Proof.
  intros Hindex Hobj Hrest.
  set (obj1 := Party.remove_member obj player_id).
  assert (Hmem1 : Party.members obj1 = Party.members obj ∖ {[player_id]}) by done.
  unfold PartyManager.leave_party. rewrite Hindex, Hobj. cbn zeta. fold obj1.
  rewrite (bool_decide_eq_false_2 (Party.members obj1 = ∅)) by by rewrite Hmem1.
  unfold Party.is_leader. case_bool_decide as Hleader.
  - destruct (pick_new_leader_spec online obj1) as (nl & -> & Hin & _); [by rewrite Hmem1|].
    destruct (transfer_leadership_frame obj1 nl) as (Hid & Hmem & Hinv & Hjr & Hban).
    destruct (transfer_leadership_member obj1 nl Hin) as (Hnl & Hrole & Hold).
    cbn zeta in *.
    assert (Hstale : Party.roles (Party.transfer_leadership obj1 nl).2 !! player_id
                     = Some PartyRole.OFFICER).
    { change (Party.leader obj1) with (Party.leader obj) in Hold. rewrite Hleader in Hold.
      apply Hold. intros ->. rewrite Hmem1 in Hin. set_solver. }
    exists (Party.transfer_leadership obj1 nl).2. cbn [fst snd].
    rewrite Hid, Hmem, Hinv, Hjr, Hban, Hnl.
    split_and!; try done.
    cbn. by rewrite insert_insert_eq.
  - exists obj1. cbn [fst snd]. split_and!; done.
Qed.

(** A leave that empties the member set disbands the party. *)
Lemma leave_party_last (online : UUID → bool) (self : PartyManager.t)
    (player_id : UUID) (party : UUID) (obj : Party.t) :
  PartyManager.player_to_party self !! player_id = Some party →
  PartyManager.deref self party = Some obj →
  Party.id obj = party →
  Party.members obj ∖ {[player_id]} = ∅ →
  (PartyManager.leave_party online self player_id).1
    = (Some (Party.remove_member obj player_id), None) ∧
  PartyManager.parties (PartyManager.leave_party online self player_id).2
    = delete party (PartyManager.parties self) ∧
  PartyManager.player_to_party (PartyManager.leave_party online self player_id).2
    = delete player_id (PartyManager.player_to_party self) ∧
  (∀ x, PartyManager.player_invites (PartyManager.leave_party online self player_id).2 !! x =
          if bool_decide (PartyManager.player_invites self !! x = Some party)
          then None else PartyManager.player_invites self !! x).
Proof.
  intros Hindex Hobj Hid Hrest.
  set (obj1 := Party.remove_member obj player_id).
  assert (Hmem1 : Party.members obj1 = ∅) by done.
  assert (Hid1 : Party.id obj1 = party) by done.
  unfold PartyManager.leave_party. rewrite Hindex, Hobj. cbn zeta. fold obj1.
  rewrite (bool_decide_eq_true_2 _ Hmem1). cbn [fst snd]. rewrite Hid1.
  match goal with |- context [PartyManager.disband_party ?s party] => set (self1 := s) end.
  assert (Hstored : PartyManager.parties self1 !! party = Some obj1) by apply lookup_insert_eq.
  destruct (disband_party_stored self1 party obj1 Hstored) as (_ & Hps & Hp2p & Hinv & _).
  cbn zeta in *.
  split_and!.
  - done.
  - rewrite Hps. cbn. by rewrite delete_insert_eq.
  - apply map_eq. intros x. rewrite Hp2p. rewrite Hmem1.
    rewrite bool_decide_eq_false_2; [done|]. intros [Hin _]. by apply elem_of_empty in Hin.
  - intros x. by rewrite Hinv.
Qed.

End Leave.

(** C6. A leave that empties the member set disbands the party: the party is
    no longer in [parties], the leaving player has no entry in
    [player_to_party], no entry of [player_invites] points at the party, and
    (when the index listed members only) neither does any entry of
    [player_to_party]. In particular, after the two members [a] and [b] of a
    two-member party leave in sequence, the party is absent from [parties]
    and neither has an entry in [player_to_party]. *)
Theorem leave_party_disbands_empty `{PyRuntime} (online1 online2 : UUID → bool)
    (self : PartyManager.t) (a b : UUID) (party : UUID) (obj : Party.t) :
  PartyManager.deref self party = Some obj →
  Party.id obj = party →
  Party.members obj = {[a; b]} →
  a ≠ b →
  PartyManager.player_to_party self !! a = Some party →
  PartyManager.player_to_party self !! b = Some party →
  (∀ online self0 player_id obj0,
     PartyManager.player_to_party self0 !! player_id = Some party →
     PartyManager.deref self0 party = Some obj0 →
     Party.id obj0 = party →
     Party.members obj0 ∖ {[player_id]} = ∅ →
     let self' := (PartyManager.leave_party online self0 player_id).2 in
     PartyManager.parties self' !! party = None ∧
     PartyManager.player_to_party self' !! player_id = None ∧
     (∀ x, PartyManager.player_invites self' !! x ≠ Some party) ∧
     ((∀ x, PartyManager.player_to_party self0 !! x = Some party → x ∈ Party.members obj0) →
      ∀ x, PartyManager.player_to_party self' !! x ≠ Some party)) ∧
  let self1 := (PartyManager.leave_party online1 self a).2 in
  let self2 := (PartyManager.leave_party online2 self1 b).2 in
  PartyManager.parties self2 !! party = None ∧
  PartyManager.player_to_party self2 !! a = None ∧
  PartyManager.player_to_party self2 !! b = None ∧
  (∀ x, PartyManager.player_invites self2 !! x ≠ Some party).
Proof.
  intros Hobj Hid Hmem Hab Ha Hb.
  assert (Hgeneral : ∀ online self0 player_id obj0,
     PartyManager.player_to_party self0 !! player_id = Some party →
     PartyManager.deref self0 party = Some obj0 →
     Party.id obj0 = party →
     Party.members obj0 ∖ {[player_id]} = ∅ →
     PartyManager.parties (PartyManager.leave_party online self0 player_id).2 !! party = None ∧
     PartyManager.player_to_party (PartyManager.leave_party online self0 player_id).2
       !! player_id = None ∧
     (∀ x, PartyManager.player_invites (PartyManager.leave_party online self0 player_id).2 !! x
           ≠ Some party) ∧
     ((∀ x, PartyManager.player_to_party self0 !! x = Some party → x ∈ Party.members obj0) →
      ∀ x, PartyManager.player_to_party (PartyManager.leave_party online self0 player_id).2 !! x
           ≠ Some party)).
  { intros online self0 player_id obj0 Hi0 Ho0 Hid0 Hlast.
    destruct (leave_party_last online self0 player_id party obj0 Hi0 Ho0 Hid0 Hlast)
      as (_ & -> & -> & Hinv).
    split_and!.
    - apply lookup_delete_eq.
    - apply lookup_delete_eq.
    - intros x. rewrite Hinv. case_bool_decide; [done|congruence].
    - intros Hidx x. destruct (decide (x = player_id)) as [->|Hne].
      + by rewrite lookup_delete_eq.
      + rewrite lookup_delete_ne by done. intros Hx. apply Hidx in Hx. set_solver. }
  split; [exact Hgeneral|].
  cbn zeta.
  destruct (leave_party_remaining online1 self a party obj Ha Hobj)
    as (obj1 & _ & Hps1 & Hp2p1 & _ & Hid1 & Hmem1 & _); [rewrite Hmem; set_solver|].
  set (self1 := (PartyManager.leave_party online1 self a).2) in *.
  assert (Hb1 : PartyManager.player_to_party self1 !! b = Some party).
  { rewrite Hp2p1. by rewrite lookup_delete_ne. }
  assert (Hobj1 : PartyManager.deref self1 party = Some obj1).
  { unfold PartyManager.deref. rewrite Hps1. apply lookup_insert_eq. }
  assert (Hlast : Party.members obj1 ∖ {[b]} = ∅).
  { rewrite Hmem1, Hmem. set_solver. }
  destruct (Hgeneral online2 self1 b obj1 Hb1 Hobj1 (eq_trans Hid1 Hid) Hlast)
    as (Hgone & Hbgone & Hinv & _).
  split_and!; try done.
  destruct (leave_party_last online2 self1 b party obj1 Hb1 Hobj1 (eq_trans Hid1 Hid) Hlast)
    as (_ & _ & -> & _).
  rewrite lookup_delete_ne by done. rewrite Hp2p1. apply lookup_delete_eq.
Qed.

(** On the sample party [{A, B}]: after [A] and then [B] leave, the party and
    both index entries are gone. *)
Lemma leave_party_disbands_empty_witness :
  let self1 := (PartyManager.leave_party Sample.offline Sample.pair Sample.A).2 in
  let self2 := (PartyManager.leave_party Sample.offline self1 Sample.B).2 in
  PartyManager.parties self2 !! Sample.P = None ∧
  PartyManager.player_to_party self2 !! Sample.A = None ∧
  PartyManager.player_to_party self2 !! Sample.B = None.
Proof.
  destruct (leave_party_disbands_empty Sample.offline Sample.offline Sample.pair
              Sample.A Sample.B Sample.P (Sample.party_of Sample.pair))
    as (_ & Hgone & Ha & Hb & _).
  - vm_compute. reflexivity.
  - vm_compute. reflexivity.
  - vm_compute. reflexivity.
  - discriminate.
  - vm_compute. reflexivity.
  - vm_compute. reflexivity.
  - cbn zeta. split; [exact Hgone|]. split; [exact Ha|exact Hb].
Defined.

(** ** Decoding a snapshot (models.py, [from_dict]) *)

Lemma bind_Ok {A B} (f : A → result B) (r : result A) (b : B) :
  r ≫= f = Ok b → ∃ a, r = Ok a ∧ f a = Ok b.
Proof. destruct r as [a|]; [|done]. intros Hf. by exists a. Qed.

(** The three repairs at the end of [from_dict], on any decoded party. *)
Lemma from_dict_repair (q : Party.t) :
  let party :=
    if bool_decide (Party.leader q ∉ Party.members q)
    then Party.set_members ({[Party.leader q]} ∪ Party.members q) q
    else q in
  let party :=
    Party.set_roles (<[Party.leader q := PartyRole.LEADER]> (Party.roles party)) party in
  let party :=
    Party.set_roles (filter (λ kv, kv.1 ∈ Party.members party) (Party.roles party)) party in
  Invariant.leader_is_member party ∧ Invariant.leader_has_role party ∧
  Invariant.roles_within_members party.
Proof.
  cbn zeta.
  unfold Invariant.leader_is_member, Invariant.leader_has_role, Invariant.roles_within_members.
  case_bool_decide as Hleader; cbn.
  - split_and!.
    + set_solver.
    + apply map_lookup_filter_Some. split; [apply lookup_insert_eq|cbn; set_solver].
    + intros player_id [role Hrole]. apply map_lookup_filter_Some in Hrole as [_ Hin]. done.
  - rename Hleader into Hin. split_and!.
    + done.
    + apply map_lookup_filter_Some. split; [apply lookup_insert_eq|done].
    + intros player_id [role Hrole]. apply map_lookup_filter_Some in Hrole as [_ Hin']. done.
Qed.

(** C10. Whenever [from_dict] returns a party, the party has its leader among
    its members, the leader's role is [LEADER], and [roles] has entries for
    members only, whatever the input says: a leader missing from the members
    list is added, another role recorded for the leader is replaced, and role
    entries of non-members are dropped. *)
Theorem from_dict_establishes_invariants `{PyRuntime} (now : Z) (data : list (string * PyVal))
    (p : Party.t) :
  Party.from_dict now data = Ok (Some p) →
  Invariant.leader_is_member p ∧ Invariant.leader_has_role p ∧
  Invariant.roles_within_members p.
Proof.
  unfold Party.from_dict. intros Hdecode.
  destruct (Py._parse_uuid (Py.get "id" data)) as [party_id|]; [|done].
  destruct (Py._parse_uuid (Py.get "leader" data)) as [leader_id|]; [|done].
  repeat (apply bind_Ok in Hdecode as (? & _ & Hdecode); cbn beta zeta in Hdecode).
  injection Hdecode as <-.
  match goal with
  | |- context [Party.set_members _ ?q] => exact (from_dict_repair q)
  end.
Qed.

(** The sample snapshot decodes, and the decoded party is repaired. *)
Lemma from_dict_establishes_invariants_witness :
  ∃ p, Party.from_dict 0 Sample.inconsistent_snapshot = Ok (Some p) ∧
       Party.members p = {[Sample.A; Sample.B]} ∧
       Party.roles p = {[Sample.A := PartyRole.LEADER; Sample.B := PartyRole.OFFICER]} ∧
       Invariant.leader_is_member p ∧ Invariant.leader_has_role p ∧
       Invariant.roles_within_members p.
Proof.
  eexists. split; [vm_compute; reflexivity|].
  split; [vm_compute; reflexivity|]. split; [vm_compute; reflexivity|].
  eapply (from_dict_establishes_invariants 0 Sample.inconsistent_snapshot).
  vm_compute. reflexivity.
Defined.

(** ** Rejected operations (party_manager.py) *)

Section Rejections.
Context `{PyRuntime}.

Lemma store_same (self : PartyManager.t) (party : UUID) (obj : Party.t) :
  PartyManager.deref self party = Some obj → PartyManager.store party obj self = self.
Proof.
  intros Hobj. unfold PartyManager.store, PartyManager.set_parties.
  rewrite (insert_id _ _ _ Hobj). by destruct self.
Qed.

Lemma set_invites_same (obj : Party.t) : Party.set_invites (Party.invites obj) obj = obj.
Proof. by destruct obj. Qed.

(** The loop over the expired invites touches [player_invites] only. *)
Lemma drop_expired_frame (party_id : UUID) (l : list UUID) (self : PartyManager.t) :
  let self' := foldl (PartyManager.drop_expired party_id) self l in
  PartyManager.parties self' = PartyManager.parties self ∧
  PartyManager.player_to_party self' = PartyManager.player_to_party self ∧
  PartyManager.last_marker_positions self' = PartyManager.last_marker_positions self ∧
  PartyManager.player_names self' = PartyManager.player_names self ∧
  PartyManager._dirty self' = PartyManager._dirty self.
Proof.
  revert self. induction l as [|x l IH]; intros self; [done|].
  cbn [foldl].
  destruct (IH (PartyManager.drop_expired party_id self x)) as (-> & -> & -> & -> & ->).
  unfold PartyManager.drop_expired. by case_bool_decide.
Qed.

Lemma drop_expired_index (party_id : UUID) (l : list UUID) (self : PartyManager.t) (x : UUID) :
  PartyManager.player_invites (foldl (PartyManager.drop_expired party_id) self l) !! x =
    if bool_decide (x ∈ l ∧ PartyManager.player_invites self !! x = Some party_id)
    then None else PartyManager.player_invites self !! x.
Proof. exact (disband_invites_index party_id l self x). Qed.

(** [invite_player] when it rejects: the sweep it started with is kept. *)
Lemma invite_player_rejected (cfg : Config.t) (now : Z) (self self' : PartyManager.t)
    (party player_id : UUID) (obj : Party.t) :
  PartyManager.deref self party = Some obj →
  PartyManager.invite_player cfg now self party player_id = Some (false, self') →
  let cutoff := now - Config.invite_expiration_ms cfg in
  (Party.expired_at cutoff (Party.invites obj) = ∅ → self' = self) ∧
  PartyManager.parties self'
    = <[party := Party.set_invites (Party.live_at cutoff (Party.invites obj)) obj]>
        (PartyManager.parties self) ∧
  (∀ x, PartyManager.player_invites self' !! x =
          if bool_decide (is_Some (Party.expired_at cutoff (Party.invites obj) !! x) ∧
                          PartyManager.player_invites self !! x = Some (Party.id obj))
          then None else PartyManager.player_invites self !! x) ∧
  PartyManager.player_to_party self' = PartyManager.player_to_party self ∧
  PartyManager.last_marker_positions self' = PartyManager.last_marker_positions self ∧
  PartyManager.player_names self' = PartyManager.player_names self ∧
  PartyManager._dirty self' = PartyManager._dirty self.
Proof.
  intros Hobj. unfold PartyManager.invite_player. rewrite Hobj. cbn [mbind option_bind].
  unfold Party.clean_expired_invites. cbn zeta.
  set (cutoff := now - Config.invite_expiration_ms cfg).
  set (obj1 := Party.set_invites (Party.live_at cutoff (Party.invites obj)) obj).
  set (expired := dom (Party.expired_at cutoff (Party.invites obj))).
  set (self1 := foldl (PartyManager.drop_expired (Party.id obj1))
                  (PartyManager.store party obj1 self) (set_iter expired)).
  intros Hrun.
  assert (self' = self1) as ->.
  { destruct (Party.has_invite obj1 player_id); [by injection Hrun|].
    destruct (_ <=? _); [by injection Hrun|done]. }
  clear Hrun.
  destruct (drop_expired_frame (Party.id obj1) (set_iter expired)
              (PartyManager.store party obj1 self)) as (Hps & Hp2p & Hmk & Hnm & Hd).
  fold self1 in Hps, Hp2p, Hmk, Hnm, Hd.
  split_and!; try done.
  - intros Hnone. unfold self1, expired. rewrite Hnone, dom_empty_L, set_iter_empty. cbn.
    assert (obj1 = obj) as ->; [|by apply store_same].
    unfold obj1, Party.live_at. rewrite map_filter_id; [apply set_invites_same|].
    intros i x Hix Hlt.
    assert (Hin : Party.expired_at cutoff (Party.invites obj) !! i = Some x)
      by by apply map_lookup_filter_Some.
    rewrite Hnone in Hin. done.
  - intros x. unfold self1. rewrite drop_expired_index. cbn.
    case_bool_decide as H1; case_bool_decide as H2; try done.
    + destruct H2. destruct H1 as [H1 ?]. split; [|done].
      apply elem_of_set_iter in H1. by apply elem_of_dom in H1.
    + destruct H1. destruct H2 as [H2 ?]. split; [|done].
      apply elem_of_set_iter. by apply elem_of_dom.
Qed.

End Rejections.

(** C3, as the code has it. An operation that rejects leaves the registry
    exactly as it was, with three exceptions: [accept_invite] rejecting an
    expired invite removes that invite and the player's [player_invites]
    entry and sets the dirty flag; [accept_join_request] removes the join
    request it found (and sets the dirty flag) before the add that then
    rejects; and [invite_player] keeps the sweep it started with, so the
    party's expired invites and the [player_invites] entries that pointed at
    them are gone (when none had expired, nothing changes). *)
Theorem rejection_effect `{PyRuntime} (cfg : Config.t) (c : Registry.call)
    (self self' : PartyManager.t) :
  Registry.step cfg c self = Some (false, self') →
  self' = self
  ∨ (∃ player party obj sent_at,
       Registry.what c = Registry.AcceptInvite player party ∧
       PartyManager.deref self party = Some obj ∧
       Party.invites obj !! Player.unique_id player = Some sent_at ∧
       Config.invite_expiration_ms cfg < Registry.now c - sent_at ∧
       self' = PartyManager.mark_dirty
                 (PartyManager.set_player_invites
                    (delete (Player.unique_id player) (PartyManager.player_invites self))
                    (PartyManager.store party
                       (Party.remove_invite obj (Player.unique_id player)) self)))
  ∨ (∃ target_party requester obj,
       Registry.what c = Registry.AcceptJoinRequest target_party requester ∧
       PartyManager.deref self target_party = Some obj ∧
       is_Some (Party.join_requests obj !! Player.unique_id requester) ∧
       self' = PartyManager.mark_dirty
                 (PartyManager.store target_party
                    (Party.remove_join_request obj (Player.unique_id requester)) self))
  ∨ (∃ party player_id obj,
       let cutoff := Registry.now c - Config.invite_expiration_ms cfg in
       Registry.what c = Registry.InvitePlayer party player_id ∧
       PartyManager.deref self party = Some obj ∧
       Party.expired_at cutoff (Party.invites obj) ≠ ∅ ∧
       PartyManager.parties self'
         = <[party := Party.set_invites (Party.live_at cutoff (Party.invites obj)) obj]>
             (PartyManager.parties self) ∧
       (∀ x, PartyManager.player_invites self' !! x =
               if bool_decide (is_Some (Party.expired_at cutoff (Party.invites obj) !! x) ∧
                               PartyManager.player_invites self !! x = Some (Party.id obj))
               then None else PartyManager.player_invites self !! x) ∧
       PartyManager.player_to_party self' = PartyManager.player_to_party self ∧
       PartyManager.last_marker_positions self' = PartyManager.last_marker_positions self ∧
       PartyManager.player_names self' = PartyManager.player_names self ∧
       PartyManager._dirty self' = PartyManager._dirty self).
Proof.
  unfold Registry.step. destruct c as [o now online]. cbn [Registry.what Registry.now Registry.online].
  destruct o as [leader party_id|party player_id|player party|player_id|party player_id
                |requester_id party|party requester|party requester_id|player party
                |party target_id|party_id].
  - (* create_party *)
    unfold PartyManager.create_party. destruct (PartyManager.is_in_party _ _); cbv beta iota zeta.
    + rewrite bool_decide_eq_false_2 by by intros [? ?]. intros [= <-]. by left.
    + rewrite bool_decide_eq_true_2 by by eexists. done.
  - (* invite_player *)
    intros Hrun.
    destruct (PartyManager.deref self party) as [obj|] eqn:Hobj;
      [|by unfold PartyManager.invite_player in Hrun; rewrite Hobj in Hrun].
    destruct (invite_player_rejected cfg now self self' party player_id obj Hobj Hrun)
      as (Hsame & Hps & Hinv & Hp2p & Hmk & Hnm & Hd).
    destruct (decide (Party.expired_at (now - Config.invite_expiration_ms cfg)
                        (Party.invites obj) = ∅)) as [Hnone|Hsome].
    + left. by apply Hsame.
    + right. right. right. exists party, player_id, obj. cbn zeta. done.
  - (* accept_invite *)
    intros Hrun.
    destruct (PartyManager.deref self party) as [obj|] eqn:Hobj;
      [|by unfold PartyManager.accept_invite in Hrun; rewrite Hobj in Hrun].
    destruct (Party.invites obj !! Player.unique_id player) as [sent_at|] eqn:Hsent.
    + rewrite (accept_invite_invited cfg now self player party obj sent_at Hobj Hsent) in Hrun.
      cbv zeta in Hrun.
      destruct (Z.ltb_spec (Config.invite_expiration_ms cfg) (now - sent_at)).
      * injection Hrun as <-. right. left. by exists player, party, obj, sent_at.
      * destruct (_ <=? _); [injection Hrun as <-; by left|].
        destruct (bool_decide _); [injection Hrun as <-; by left|].
        destruct (PartyManager.is_in_party _ _); [injection Hrun as <-; by left|done].
    + unfold PartyManager.accept_invite in Hrun. rewrite Hobj in Hrun.
      cbn [mbind option_bind] in Hrun. rewrite (has_invite_false _ _ Hsent) in Hrun.
      injection Hrun as <-. by left.
  - (* leave_party *)
    unfold PartyManager.leave_party.
    assert (Hnone : bool_decide (is_Some (@None Party.t)) = false)
      by by apply bool_decide_eq_false_2; intros [? ?].
    assert (Hsome : ∀ p : Party.t, bool_decide (is_Some (Some p)) = true)
      by by intros p; apply bool_decide_eq_true_2; eexists.
    destruct (PartyManager.player_to_party self !! player_id) as [party|]; cbv beta iota zeta;
      [|rewrite Hnone; intros [= <-]; by left].
    destruct (PartyManager.deref self party) as [obj|]; cbv beta iota zeta;
      [|rewrite Hnone; intros [= <-]; by left].
    destruct (bool_decide (_ = ∅)); cbv beta iota zeta; [by rewrite Hsome|].
    destruct (Party.is_leader obj player_id); cbv beta iota zeta; [|by rewrite Hsome].
    destruct (PartyManager._pick_new_leader _ _); cbv beta iota zeta; by rewrite Hsome.
  - (* kick_player *)
    unfold PartyManager.kick_player.
    destruct (PartyManager.deref self party) as [obj|]; [|done]. cbn [mbind option_bind].
    destruct (bool_decide (player_id ∉ _)); [intros [= <-]; by left|].
    by destruct (bool_decide (_ = ∅)).
  - (* request_to_join *)
    unfold PartyManager.request_to_join.
    destruct (PartyManager.deref self party) as [obj|]; [|done]. cbn [mbind option_bind].
    destruct (bool_decide _); [intros [= <-]; by left|].
    destruct (Party.has_join_request _ _); [intros [= <-]; by left|done].
  - (* accept_join_request *)
    unfold PartyManager.accept_join_request.
    destruct (PartyManager.deref self party) as [obj|] eqn:Hobj; [|done]. cbn [mbind option_bind].
    unfold Party.has_join_request. case_bool_decide as Hjr; cbn [negb];
      [|intros [= <-]; by left].
    set (self1 := PartyManager.mark_dirty _).
    unfold PartyManager.add_player_to_party.
    assert (Hobj1 : PartyManager.deref self1 party
                    = Some (Party.remove_join_request obj (Player.unique_id requester)))
      by apply lookup_insert_eq.
    rewrite Hobj1. cbn [mbind option_bind].
    intros Hrun. right. right. left. exists party, requester, obj.
    split_and!; try done.
    destruct (PartyManager.is_in_party self1 _); [by injection Hrun|].
    destruct (_ <=? _); [by injection Hrun|done].
  - (* deny_join_request *)
    unfold PartyManager.deny_join_request.
    destruct (PartyManager.deref self party) as [obj|]; [|done]. cbn [mbind option_bind].
    destruct (negb _); [intros [= <-]; by left|done].
  - (* add_player_to_party *)
    unfold PartyManager.add_player_to_party.
    destruct (PartyManager.deref self party) as [obj|]; [|done]. cbn [mbind option_bind].
    destruct (PartyManager.is_in_party _ _); [intros [= <-]; by left|].
    destruct (_ <=? _); [intros [= <-]; by left|done].
  - (* ban *)
    unfold PartyManager.ban.
    destruct (PartyManager.deref self party) as [obj|]; done.
  - (* disband_party *)
    unfold PartyManager.disband_party.
    destruct (PartyManager.parties self !! party_id); [done|]. intros [= <-]. by left.
Qed.

(** On the sample registry, the rejected accept of the expired invite leaves
    the player index as it was. *)
Lemma rejection_effect_witness :
  ∃ self',
    Registry.step Config.defaults (Sample.call_at 302001 (Registry.AcceptInvite Sample.bob Sample.P))
      Sample.invited = Some (false, self') ∧
    PartyManager.player_to_party self' = PartyManager.player_to_party Sample.invited.
Proof.
  eexists. split; [vm_compute; reflexivity|].
  match goal with
  | |- PartyManager.player_to_party ?s = _ =>
      destruct (rejection_effect Config.defaults
                  (Sample.call_at 302001 (Registry.AcceptInvite Sample.bob Sample.P))
                  Sample.invited s)
        as [Hsame|[(? & ? & ? & ? & _ & _ & _ & _ & Hexpired)
                  |[(? & ? & ? & Hop & _)|(? & ? & ? & Hop & _)]]]
  end.
  - vm_compute. reflexivity.
  - rewrite Hsame. reflexivity.
  - rewrite Hexpired. reflexivity.
  - discriminate Hop.
  - discriminate Hop.
Defined.

(** C3, as the specification states it, fails. [accept_invite] at 302,001 on
    the invite sent at 2000 returns [False], and the invite and the
    [player_invites] entry of [bob] are gone; [accept_join_request] for [bob],
    who has meanwhile created a party of his own, returns [False], and his
    join request is gone. *)
Lemma rejection_mutates_registry :
  (∃ self',
     Registry.step Config.defaults
       (Sample.call_at 302001 (Registry.AcceptInvite Sample.bob Sample.P)) Sample.invited
       = Some (false, self') ∧
     Party.invites (Sample.party_of Sample.invited) !! Sample.B = Some 2000 ∧
     Party.invites (Sample.party_of self') !! Sample.B = None ∧
     PartyManager.player_invites Sample.invited !! Sample.B = Some Sample.P ∧
     PartyManager.player_invites self' !! Sample.B = None) ∧
  (∃ self',
     Registry.step Config.defaults
       (Sample.call_at 4000 (Registry.AcceptJoinRequest Sample.P Sample.bob)) Sample.requested
       = Some (false, self') ∧
     Party.join_requests (Sample.party_of Sample.requested) !! Sample.B = Some 2000 ∧
     Party.join_requests (Sample.party_of self') !! Sample.B = None).
Proof.
  split.
  - eexists. split; [vm_compute; reflexivity|]. vm_compute. done.
  - eexists. split; [vm_compute; reflexivity|]. vm_compute. done.
Qed.

(** ** Invariant preservation (models.py and party_manager.py) *)

Ltac unfold_invariants :=
  unfold Invariant.kept, Invariant.core, Invariant.leader_is_member, Invariant.leader_has_role,
    Invariant.members_disjoint, Invariant.has_members, Invariant.requests_not_banned in *.

Lemma kept_create (party_id : UUID) (now : Z) (leader_id : UUID) :
  Invariant.kept (Party.create party_id now leader_id).
Proof.
  unfold_invariants. unfold Party.create. cbn.
  split_and!; try done; try set_solver. apply lookup_insert_eq.
Qed.

Lemma kept_add_member (obj : Party.t) (player_id : UUID) :
  Invariant.kept obj → player_id ∉ Party.banned_players obj → Invariant.kept (Party.add_member obj player_id).
Proof.
  unfold_invariants. unfold Party.add_member, Party.setdefault_role. cbn.
  intros ((Hleader & Hrole & (Hinv & Hjr & Hban) & Hne) & Hrnb) Hnot.
  split_and!.
  - set_solver.
  - destruct (Party.roles obj !! player_id) eqn:Hp; cbn; [done|].
    rewrite lookup_insert_ne; [done|]. intros ->. congruence.
  - intros y Hy. apply lookup_delete_None.
    destruct (decide (player_id = y)); [by left|right]. apply Hinv. set_solver.
  - intros y Hy. apply lookup_delete_None.
    destruct (decide (player_id = y)); [by left|right]. apply Hjr. set_solver.
  - intros y Hy. destruct (decide (player_id = y)) as [<-|]; [done|]. apply Hban. set_solver.
  - set_solver.
  - intros y Hy. apply lookup_delete_None. right. by apply Hrnb.
Qed.

Lemma kept_remove_member (obj : Party.t) (player_id : UUID) :
  Invariant.kept obj → player_id ≠ Party.leader obj → Invariant.kept (Party.remove_member obj player_id).
Proof.
  unfold_invariants. unfold Party.remove_member. cbn.
  intros ((Hleader & Hrole & (Hinv & Hjr & Hban) & Hne) & Hrnb) Hnot.
  split_and!.
  - set_solver.
  - by rewrite lookup_delete_ne.
  - intros y Hy. apply lookup_delete_None. right. apply Hinv. set_solver.
  - intros y Hy. apply lookup_delete_None. right. apply Hjr. set_solver.
  - intros y Hy. apply Hban. set_solver.
  - set_solver.
  - intros y Hy. apply lookup_delete_None. right. by apply Hrnb.
Qed.

Lemma kept_invite (obj : Party.t) (invites : gmap UUID Z) :
  Invariant.kept obj →
  (∀ y, y ∈ Party.members obj → invites !! y = None) →
  Invariant.kept (Party.set_invites invites obj).
Proof. unfold_invariants. cbn. naive_solver. Qed.

Lemma kept_join_requests (obj : Party.t) (requests : gmap UUID Z) :
  Invariant.kept obj →
  (∀ y, y ∈ Party.members obj → requests !! y = None) →
  (∀ y, y ∈ Party.banned_players obj → requests !! y = None) →
  Invariant.kept (Party.set_join_requests requests obj).
Proof. unfold_invariants. cbn. naive_solver. Qed.

Lemma kept_ban_player (obj : Party.t) (player_id : UUID) :
  Invariant.kept obj → player_id ≠ Party.leader obj → Invariant.kept (Party.ban_player obj player_id).
Proof.
  unfold_invariants. unfold Party.ban_player, Party.remove_member. cbn.
  intros ((Hleader & Hrole & (Hinv & Hjr & Hban) & Hne) & Hrnb) Hnot.
  split_and!.
  - set_solver.
  - by rewrite lookup_delete_ne.
  - intros y Hy. apply lookup_delete_None. right. apply Hinv. set_solver.
  - intros y Hy. apply lookup_delete_None. right. apply Hjr. set_solver.
  - intros y Hy. assert (y ∉ Party.banned_players obj) by (apply Hban; set_solver). set_solver.
  - set_solver.
  - intros y Hy. apply lookup_delete_None.
    destruct (decide (player_id = y)); [by left|right]. apply Hrnb. set_solver.
Qed.

(** The registry invariant looks at [parties] only. *)
Lemma registry_kept (self : PartyManager.t) :
  Invariant.registry self ↔
  (∀ key p, PartyManager.parties self !! key = Some p → Invariant.kept p ∧ Party.id p = key).
Proof.
  unfold Invariant.registry, Invariant.every_party, Invariant.keyed_by_id, Invariant.kept.
  split.
  - intros (Hcore & Hrnb & Hkey) key p Hp. split_and!; eauto.
  - intros Hall. split_and!; intros key p Hp; by destruct (Hall key p Hp) as [[? ?] ?].
Qed.

Lemma registry_insert (self self' : PartyManager.t) (key : UUID) (obj : Party.t) :
  Invariant.registry self →
  PartyManager.parties self' = <[key := obj]> (PartyManager.parties self) →
  Invariant.kept obj → Party.id obj = key →
  Invariant.registry self'.
Proof.
  rewrite !registry_kept. intros Hall -> Hkept Hid k p.
  destruct (decide (key = k)) as [<-|Hne].
  - rewrite lookup_insert_eq. by intros [= <-].
  - rewrite lookup_insert_ne by done. apply Hall.
Qed.

Lemma registry_delete (self self' : PartyManager.t) (key : UUID) :
  Invariant.registry self →
  PartyManager.parties self' = delete key (PartyManager.parties self) →
  Invariant.registry self'.
Proof.
  rewrite !registry_kept. intros Hall -> k p Hp.
  apply lookup_delete_Some in Hp as [_ Hp]. by apply Hall.
Qed.

Lemma registry_same (self self' : PartyManager.t) :
  Invariant.registry self →
  PartyManager.parties self' = PartyManager.parties self →
  Invariant.registry self'.
Proof. rewrite !registry_kept. by intros Hall ->. Qed.

Lemma registry_deref (self : PartyManager.t) (party : UUID) (obj : Party.t) :
  Invariant.registry self → PartyManager.deref self party = Some obj →
  Invariant.kept obj ∧ Party.id obj = party.
Proof. rewrite registry_kept. intros Hall Hobj. by apply Hall. Qed.

Lemma record_player_name_parties (self : PartyManager.t) (player : Player.t) :
  PartyManager.parties (PartyManager.record_player_name self player) = PartyManager.parties self.
Proof. unfold PartyManager.record_player_name. by case_bool_decide. Qed.

Section Preservation.
Context `{PyRuntime}.

Lemma create_party_preserves (now : Z) (party_id : UUID) (self : PartyManager.t)
    (leader : Player.t) :
  Invariant.registry self →
  Invariant.registry (PartyManager.create_party now party_id self leader).2.
Proof.
  intros Hinv. unfold PartyManager.create_party.
  destruct (PartyManager.is_in_party _ _); [done|]. cbn [snd].
  apply (registry_insert self _ party_id
           (Party.create party_id now (Player.unique_id leader))); [done| |apply kept_create|done].
  cbn. by rewrite record_player_name_parties.
Qed.

Lemma invite_player_preserves (cfg : Config.t) (now : Z) (self self' : PartyManager.t)
    (party player_id : UUID) (b : bool) :
  Invariant.registry self →
  (∀ obj, PartyManager.deref self party = Some obj → player_id ∉ Party.members obj) →
  PartyManager.invite_player cfg now self party player_id = Some (b, self') →
  Invariant.registry self'.
Proof.
  intros Hinv Hguard. unfold PartyManager.invite_player.
  destruct (PartyManager.deref self party) as [obj|] eqn:Hobj; [|done]. cbn [mbind option_bind].
  destruct (registry_deref _ _ _ Hinv Hobj) as [Hkept Hid].
  specialize (Hguard obj eq_refl).
  unfold Party.clean_expired_invites. cbn zeta.
  set (cutoff := now - Config.invite_expiration_ms cfg).
  set (obj1 := Party.set_invites (Party.live_at cutoff (Party.invites obj)) obj).
  set (self1 := foldl _ _ _).
  assert (Hps1 : PartyManager.parties self1 = <[party := obj1]> (PartyManager.parties self)).
  { unfold self1. by destruct (drop_expired_frame (Party.id obj1) (set_iter
      (dom (Party.expired_at cutoff (Party.invites obj)))) (PartyManager.store party obj1 self))
      as (-> & _). }
  assert (Hlive : ∀ y, y ∈ Party.members obj → Party.live_at cutoff (Party.invites obj) !! y = None).
  { intros y Hy. apply map_lookup_filter_None. left.
    destruct Hkept as [(_ & _ & (Hdis & _) & _) _]. by apply Hdis. }
  assert (Hkept1 : Invariant.kept obj1) by by apply kept_invite.
  assert (Hinv1 : Invariant.registry self1) by by apply (registry_insert self _ party obj1).
  destruct (Party.has_invite obj1 player_id); [by intros [= _ <-]|].
  destruct (_ <=? _); [by intros [= _ <-]|].
  intros [= _ <-].
  apply (registry_insert self _ party
           (Party.set_invites (<[player_id := now]> (Party.live_at cutoff (Party.invites obj))) obj));
    [done| | |done].
  - cbn. rewrite Hps1. by rewrite insert_insert_eq.
  - apply kept_invite; [done|]. intros y Hy.
    rewrite lookup_insert_ne by (intros ->; done). by apply Hlive.
Qed.

Lemma accept_invite_preserves (cfg : Config.t) (now : Z) (self self' : PartyManager.t)
    (player : Player.t) (party : UUID) (b : bool) :
  Invariant.registry self →
  PartyManager.accept_invite cfg now self player party = Some (b, self') →
  Invariant.registry self'.
Proof.
  intros Hinv Hrun.
  destruct (PartyManager.deref self party) as [obj|] eqn:Hobj;
    [|by unfold PartyManager.accept_invite in Hrun; rewrite Hobj in Hrun].
  destruct (registry_deref _ _ _ Hinv Hobj) as [Hkept Hid].
  destruct (Party.invites obj !! Player.unique_id player) as [sent_at|] eqn:Hsent.
  - rewrite (accept_invite_invited cfg now self player party obj sent_at Hobj Hsent) in Hrun.
    cbv zeta in Hrun.
    destruct (_ <? _).
    + injection Hrun as _ <-.
      apply (registry_insert self _ party (Party.remove_invite obj (Player.unique_id player)));
        [done|done| |done].
      apply kept_invite; [done|]. intros y Hy. apply lookup_delete_None. right.
      destruct Hkept as [(_ & _ & (Hdis & _) & _) _]. by apply Hdis.
    + destruct (_ <=? _); [by injection Hrun as _ <-|].
      case_bool_decide as Hban; [by injection Hrun as _ <-|].
      destruct (PartyManager.is_in_party _ _); [by injection Hrun as _ <-|].
      injection Hrun as _ <-.
      apply (registry_insert self _ party (Party.add_member obj (Player.unique_id player)));
        [done| |by apply kept_add_member|done].
      cbn. by rewrite record_player_name_parties.
  - unfold PartyManager.accept_invite in Hrun. rewrite Hobj in Hrun.
    cbn [mbind option_bind] in Hrun. rewrite (has_invite_false _ _ Hsent) in Hrun.
    by injection Hrun as _ <-.
Qed.

Lemma leave_party_preserves (online : UUID → bool) (self : PartyManager.t) (player_id : UUID) :
  Invariant.registry self →
  Invariant.registry (PartyManager.leave_party online self player_id).2.
Proof.
  intros Hinv.
  destruct (PartyManager.player_to_party self !! player_id) as [party|] eqn:Hindex;
    [|by unfold PartyManager.leave_party; rewrite Hindex].
  destruct (PartyManager.deref self party) as [obj|] eqn:Hobj;
    [|by unfold PartyManager.leave_party; rewrite Hindex, Hobj].
  destruct (registry_deref _ _ _ Hinv Hobj) as [Hkept Hid].
  destruct (decide (Party.members obj ∖ {[player_id]} = ∅)) as [Hlast|Hrest].
  - destruct (leave_party_last online self player_id party obj Hindex Hobj Hid Hlast)
      as (_ & Hps & _).
    by apply (registry_delete self _ party).
  - destruct (leave_party_remaining online self player_id party obj Hindex Hobj Hrest)
      as (obj' & _ & Hps & _ & _ & Hid' & Hmem & Hinvites & Hjr & Hban & Hother & Hleader).
    apply (registry_insert self _ party obj'); [done|done| |congruence].
    revert Hkept. unfold_invariants.
    intros ((Hl & Hrole & (Hdi & Hdj & Hdb) & Hne) & Hrnb).
    rewrite Hmem, Hinvites, Hjr, Hban.
    assert (Hlead : Party.leader obj' ∈ Party.members obj ∖ {[player_id]} ∧
                    Party.roles obj' !! Party.leader obj' = Some PartyRole.LEADER).
    { destruct (decide (Party.leader obj = player_id)) as [Heq|Hneq].
      - destruct (Hleader Heq) as (? & ? & _). done.
      - destruct (Hother Hneq) as [-> ->]. split; [set_solver|]. by rewrite lookup_delete_ne. }
    destruct Hlead as [Hl' Hrole'].
    split_and!; try done.
    + intros y Hy. apply lookup_delete_None. right. apply Hdi. set_solver.
    + intros y Hy. apply lookup_delete_None. right. apply Hdj. set_solver.
    + intros y Hy. apply Hdb. set_solver.
    + intros y Hy. apply lookup_delete_None. right. by apply Hrnb.
Qed.

Lemma kick_player_preserves (self self' : PartyManager.t) (party player_id : UUID) (b : bool) :
  Invariant.registry self →
  (∀ obj, PartyManager.deref self party = Some obj → player_id ≠ Party.leader obj) →
  PartyManager.kick_player self party player_id = Some (b, self') →
  Invariant.registry self'.
Proof.
  intros Hinv Hguard. unfold PartyManager.kick_player.
  destruct (PartyManager.deref self party) as [obj|] eqn:Hobj; [|done]. cbn [mbind option_bind].
  destruct (registry_deref _ _ _ Hinv Hobj) as [Hkept Hid].
  specialize (Hguard obj eq_refl).
  destruct (bool_decide (player_id ∉ _)); [by intros [= _ <-]|].
  set (obj1 := Party.remove_member obj player_id).
  set (self1 := PartyManager.mark_dirty _).
  assert (Hinv1 : Invariant.registry self1).
  { apply (registry_insert self _ party obj1); [done|done|by apply kept_remove_member|done]. }
  destruct (bool_decide (Party.members obj1 = ∅)); [|by intros [= _ <-]].
  intros [= _ <-].
  assert (Hstored : PartyManager.parties self1 !! Party.id obj1 = Some obj1).
  { change (Party.id obj1) with (Party.id obj). rewrite Hid. apply lookup_insert_eq. }
  destruct (disband_party_stored self1 (Party.id obj1) obj1 Hstored) as (_ & Hps & _).
  by apply (registry_delete self1 _ (Party.id obj1)).
Qed.

Lemma add_player_to_party_preserves (cfg : Config.t) (self self' : PartyManager.t)
    (player : Player.t) (party : UUID) (b : bool) :
  Invariant.registry self →
  (∀ obj, PartyManager.deref self party = Some obj →
          Player.unique_id player ∉ Party.banned_players obj) →
  PartyManager.add_player_to_party cfg self player party = Some (b, self') →
  Invariant.registry self'.
Proof.
  intros Hinv Hguard. unfold PartyManager.add_player_to_party.
  destruct (PartyManager.deref self party) as [obj|] eqn:Hobj; [|done]. cbn [mbind option_bind].
  destruct (registry_deref _ _ _ Hinv Hobj) as [Hkept Hid].
  specialize (Hguard obj eq_refl).
  destruct (PartyManager.is_in_party _ _); [by intros [= _ <-]|].
  destruct (_ <=? _); [by intros [= _ <-]|].
  intros [= _ <-].
  apply (registry_insert self _ party (Party.add_member obj (Player.unique_id player)));
    [done| |by apply kept_add_member|done].
  cbn. by rewrite record_player_name_parties.
Qed.

Lemma request_to_join_preserves (now : Z) (self self' : PartyManager.t)
    (requester_id target_party : UUID) (b : bool) :
  Invariant.registry self →
  (∀ obj, PartyManager.deref self target_party = Some obj → requester_id ∉ Party.members obj) →
  PartyManager.request_to_join now self requester_id target_party = Some (b, self') →
  Invariant.registry self'.
Proof.
  intros Hinv Hguard. unfold PartyManager.request_to_join.
  destruct (PartyManager.deref self target_party) as [obj|] eqn:Hobj; [|done].
  cbn [mbind option_bind].
  destruct (registry_deref _ _ _ Hinv Hobj) as [Hkept Hid].
  specialize (Hguard obj eq_refl).
  case_bool_decide as Hban; [by intros [= _ <-]|].
  destruct (Party.has_join_request _ _); [by intros [= _ <-]|].
  intros [= _ <-].
  apply (registry_insert self _ target_party (Party.add_join_request now obj requester_id));
    [done|done| |done].
  pose proof Hkept as [(_ & _ & (_ & Hdj & _) & _) Hrnb].
  apply kept_join_requests; [done| |].
  - intros y Hy. rewrite lookup_insert_ne by (intros ->; done). by apply Hdj.
  - intros y Hy. rewrite lookup_insert_ne by (intros ->; done). by apply Hrnb.
Qed.

Lemma kept_remove_join_request (obj : Party.t) (requester_id : UUID) :
  Invariant.kept obj → Invariant.kept (Party.remove_join_request obj requester_id).
Proof.
  intros Hkept. pose proof Hkept as [(_ & _ & (_ & Hdj & _) & _) Hrnb].
  apply kept_join_requests; [done| |].
  - intros y Hy. apply lookup_delete_None. right. by apply Hdj.
  - intros y Hy. apply lookup_delete_None. right. by apply Hrnb.
Qed.

Lemma accept_join_request_preserves (cfg : Config.t) (self self' : PartyManager.t)
    (target_party : UUID) (requester : Player.t) (b : bool) :
  Invariant.registry self →
  PartyManager.accept_join_request cfg self target_party requester = Some (b, self') →
  Invariant.registry self'.
Proof.
  intros Hinv. unfold PartyManager.accept_join_request.
  destruct (PartyManager.deref self target_party) as [obj|] eqn:Hobj; [|done].
  cbn [mbind option_bind].
  destruct (registry_deref _ _ _ Hinv Hobj) as [Hkept Hid].
  unfold Party.has_join_request. case_bool_decide as Hjr; cbn [negb]; [|by intros [= _ <-]].
  set (obj1 := Party.remove_join_request obj (Player.unique_id requester)).
  set (self1 := PartyManager.mark_dirty _).
  assert (Hinv1 : Invariant.registry self1).
  { apply (registry_insert self _ target_party obj1);
      [done|done|by apply kept_remove_join_request|done]. }
  apply add_player_to_party_preserves; [done|].
  intros obj2 Hobj2.
  assert (obj2 = obj1) as ->.
  { unfold PartyManager.deref, self1 in Hobj2. cbn in Hobj2.
    rewrite lookup_insert_eq in Hobj2. congruence. }
  change (Party.banned_players obj1) with (Party.banned_players obj).
  intros Hbanned. destruct Hkept as [_ Hrnb]. rewrite (Hrnb _ Hbanned) in Hjr.
  by destruct Hjr.
Qed.

Lemma deny_join_request_preserves (self self' : PartyManager.t)
    (target_party requester_id : UUID) (b : bool) :
  Invariant.registry self →
  PartyManager.deny_join_request self target_party requester_id = Some (b, self') →
  Invariant.registry self'.
Proof.
  intros Hinv. unfold PartyManager.deny_join_request.
  destruct (PartyManager.deref self target_party) as [obj|] eqn:Hobj; [|done].
  cbn [mbind option_bind].
  destruct (registry_deref _ _ _ Hinv Hobj) as [Hkept Hid].
  destruct (negb _); [by intros [= _ <-]|].
  intros [= _ <-].
  apply (registry_insert self _ target_party (Party.remove_join_request obj requester_id));
    [done|done|by apply kept_remove_join_request|done].
Qed.

Lemma ban_preserves (self self' : PartyManager.t) (party target_id : UUID) :
  Invariant.registry self →
  (∀ obj, PartyManager.deref self party = Some obj → target_id ≠ Party.leader obj) →
  PartyManager.ban self party target_id = Some self' →
  Invariant.registry self'.
Proof.
  intros Hinv Hguard. unfold PartyManager.ban.
  destruct (PartyManager.deref self party) as [obj|] eqn:Hobj; [|done]. cbn [mbind option_bind].
  destruct (registry_deref _ _ _ Hinv Hobj) as [Hkept Hid].
  intros [= <-].
  apply (registry_insert self _ party (Party.ban_player obj target_id));
    [done|done|by apply kept_ban_player; [|apply Hguard]|done].
Qed.

Lemma disband_party_preserves (self : PartyManager.t) (party_id : UUID) :
  Invariant.registry self →
  Invariant.registry (PartyManager.disband_party self party_id).2.
Proof.
  intros Hinv.
  destruct (PartyManager.parties self !! party_id) as [obj|] eqn:Hobj.
  - destruct (disband_party_stored self party_id obj Hobj) as (_ & Hps & _).
    by apply (registry_delete self _ party_id).
  - by rewrite disband_party_absent.
Qed.

Lemma guard_deref {P : Party.t → Prop} (self : PartyManager.t) (party : UUID) :
  match PartyManager.deref self party with Some obj => P obj | None => True end →
  ∀ obj, PartyManager.deref self party = Some obj → P obj.
Proof. intros Hguard obj Hobj. by rewrite Hobj in Hguard. Qed.

(** One call keeps the registry invariant when its caller's checks hold. *)
Lemma step_preserves (cfg : Config.t) (c : Registry.call) (self self' : PartyManager.t)
    (b : bool) :
  Invariant.registry self →
  Registry.guard self (Registry.what c) →
  Registry.step cfg c self = Some (b, self') →
  Invariant.registry self'.
Proof.
  intros Hinv Hguard. unfold Registry.step.
  destruct c as [o now online]. cbn [Registry.what Registry.now Registry.online] in *.
  destruct o; cbn [Registry.guard] in Hguard; try pose proof (guard_deref _ _ Hguard) as Hg.
  - pose proof (create_party_preserves now party_id self leader Hinv) as Hcreate.
    destruct (PartyManager.create_party now party_id self leader) as [? ?].
    by intros [= _ <-].
  - by apply invite_player_preserves.
  - by apply accept_invite_preserves.
  - pose proof (leave_party_preserves online self player_id Hinv) as Hleave.
    destruct (PartyManager.leave_party online self player_id) as [[? ?] ?].
    by intros [= _ <-].
  - by apply kick_player_preserves.
  - by apply request_to_join_preserves.
  - by apply accept_join_request_preserves.
  - by apply deny_join_request_preserves.
  - by apply add_player_to_party_preserves.
  - destruct (PartyManager.ban self party target_id) as [self1|] eqn:Hban; [|done].
    cbn [mbind option_bind]. intros [= _ <-]. by apply (ban_preserves self _ party target_id).
  - pose proof (disband_party_preserves self party_id Hinv) as Hdisband.
    destruct (PartyManager.disband_party self party_id) as [? ?].
    by intros [= _ <-].
Qed.

End Preservation.

(** A checkable form of the invariants, to establish them on sample data. *)
Lemma invariant_all_decide (p : Party.t) :
  Party.leader p ∈ Party.members p →
  Party.roles p !! Party.leader p = Some PartyRole.LEADER →
  dom (Party.roles p) ⊆ Party.members p →
  Party.members p ## dom (Party.invites p) →
  Party.members p ## dom (Party.join_requests p) →
  Party.members p ## Party.banned_players p →
  Party.members p ≠ ∅ →
  Invariant.all p.
Proof.
  intros H1 H2 H3 H4 H5 H6 H7. unfold Invariant.all. split_and!; try done.
  - intros x Hx. apply H3. by apply elem_of_dom.
  - unfold Invariant.members_disjoint. split_and!.
    + intros x Hx. apply not_elem_of_dom. set_solver.
    + intros x Hx. apply not_elem_of_dom. set_solver.
    + set_solver.
Qed.

Lemma registry_empty : Invariant.registry PartyManager.empty.
Proof. apply registry_kept. intros key p Hp. cbn in Hp. by rewrite lookup_empty in Hp. Qed.




(** The condition of C1 on join requests cannot be left out. A registry whose
    party satisfies invariants 1-4 but holds a join request of a player it
    has banned meets the checks of [/party acceptrequest], which do not look
    at the bans, and [accept_join_request] makes the banned player a member:
    invariant 3 is broken. *)
Lemma banned_requester_becomes_member :
  Invariant.every_party Invariant.all Sample.banned_requester ∧
  Invariant.keyed_by_id Sample.banned_requester ∧
  Registry.guarded Config.defaults
    [Sample.call_at 2000 (Registry.AcceptJoinRequest Sample.P Sample.bob)]
    Sample.banned_requester ∧
  ∃ final,
    Registry.run Config.defaults
      [Sample.call_at 2000 (Registry.AcceptJoinRequest Sample.P Sample.bob)]
      Sample.banned_requester = Some [final] ∧
    Sample.B ∈ Party.members (Sample.party_of final) ∧
    Sample.B ∈ Party.banned_players (Sample.party_of final) ∧
    ¬ Invariant.every_party Invariant.all final.
Proof.
  assert (Hstored : PartyManager.parties Sample.banned_requester
                    = {[Sample.P := Sample.party_of Sample.banned_requester]}).
  { vm_compute. reflexivity. }
  split_and!.
  - intros key p Hkey. rewrite Hstored in Hkey.
    apply lookup_singleton_Some in Hkey as [<- <-].
    apply invariant_all_decide;
      solve [ vm_compute; reflexivity | apply (bool_decide_unpack _); vm_compute; exact I ].
  - intros key p Hkey. rewrite Hstored in Hkey.
    apply lookup_singleton_Some in Hkey as [<- <-]. vm_compute. reflexivity.
  - apply (bool_decide_unpack _). vm_compute. exact I.
  - eexists. split; [vm_compute; reflexivity|].
    split; [apply (bool_decide_unpack _); vm_compute; exact I|].
    split; [apply (bool_decide_unpack _); vm_compute; exact I|].
    intros Hall.
    match type of Hall with
    | Invariant.every_party _ ?final =>
        destruct (Hall Sample.P (Sample.party_of final)) as (_ & _ & _ & (_ & _ & Hban) & _);
          [vm_compute; reflexivity|];
        apply (Hban Sample.B)
    end; apply (bool_decide_unpack _); vm_compute; exact I.
Qed.

(** ** Snapshot round trip (models.py, [to_dict] and [from_dict]) *)

Section RoundTrip.
Context `{PyRuntime}.

(** [uuid.UUID(str(u))] is [u]. *)
Hypothesis uuid_parse_str : ∀ u : UUID, uuid_parse (uuid_str u) = Some u.

Lemma parse_uuid_str (u : UUID) : Py._parse_uuid (VStr (uuid_str u)) = Some u.
Proof. apply uuid_parse_str. Qed.

Lemma omap_parse_uuid_str (l : list UUID) :
  omap Py._parse_uuid ((λ i, VStr (uuid_str i)) <$> l) = l.
Proof.
  induction l as [|u l IH]; [done|]. cbn. rewrite parse_uuid_str. cbn. by rewrite IH.
Qed.

Lemma decode_ids_to_list (s : gset UUID) : Party.decode_ids (Party.ids_to_list s) = Ok s.
Proof.
  unfold Party.decode_ids, Party.ids_to_list. cbn. f_equal.
  rewrite omap_parse_uuid_str. unfold Py.sorted_by_str.
  rewrite (list_to_set_perm_L _ _ (merge_sort_Permutation _ _)).
  rewrite (list_to_set_perm_L _ _ (set_iter_perm s)).
  apply list_to_set_elements_L.
Qed.

Lemma foldl_insert_union {V} (l : list (UUID * V)) (acc : gmap UUID V) :
  NoDup l.*1 →
  foldl (λ a kv, <[kv.1 := kv.2]> a) acc l = list_to_map l ∪ acc.
Proof.
  revert acc. induction l as [|[k v] l IH]; intros acc Hnodup; cbn.
  - by rewrite (left_id_L ∅ (∪)).
  - apply NoDup_cons in Hnodup as [Hk Hnodup]. rewrite IH by done.
    rewrite <- insert_union_l. apply symmetry, insert_union_r.
    by apply not_elem_of_list_to_map_1.
Qed.

Lemma decode_items_encoded {V} (conv : PyVal → result V) (enc : V → PyVal)
    (l : list (UUID * V)) (acc : gmap UUID V) :
  (∀ v, conv (enc v) = Ok v) →
  Party.decode_items conv
    (prod_map VStr (λ x, x) <$> ((λ kv, (uuid_str kv.1, enc kv.2)) <$> l)) acc
  = Ok (foldl (λ a kv, <[kv.1 := kv.2]> a) acc l).
Proof.
  intros Hconv. revert acc. induction l as [|[k v] l IH]; intros acc; [done|].
  cbn. rewrite parse_uuid_str, Hconv. cbn. apply IH.
Qed.

Lemma decode_dict_encoded {V} (conv : PyVal → result V) (enc : V → PyVal)
    (m : gmap UUID V) :
  (∀ v, conv (enc v) = Ok v) →
  Party.decode_dict conv (VDict ((λ kv, (uuid_str kv.1, enc kv.2)) <$> map_to_list m)) = Ok m.
Proof.
  intros Hconv. unfold Party.decode_dict. cbn.
  rewrite (decode_items_encoded conv enc _ _ Hconv). f_equal.
  rewrite foldl_insert_union by apply NoDup_fst_map_to_list.
  rewrite (right_id_L ∅ (∪)). apply list_to_map_to_list.
Qed.

Lemma decode_timestamps (m : gmap UUID Z) :
  Party.decode_dict Py.int (Party.timestamps_to_dict m) = Ok m.
Proof. by apply (decode_dict_encoded Py.int VInt). Qed.

Lemma role_parse_value (r : PartyRole.t) : PartyRole.parse (VStr (PartyRole.value r)) = Ok r.
Proof. by destruct r. Qed.

Lemma location_round_trip (h : LocationData.t) :
  LocationData.from_dict (LocationData.to_dict h) = Ok h.
Proof. by destruct h. Qed.

Lemma achievements_round_trip (a : gset string) :
  (list_to_set (Py.str <$> (VStr <$> Py.sorted_strings a)) : gset string) = a.
Proof.
  rewrite <- list_fmap_compose.
  rewrite (list_fmap_ext _ (λ x, x) (Py.sorted_strings a)) by done.
  rewrite list_fmap_id. unfold Py.sorted_strings.
  rewrite (list_to_set_perm_L _ _ (merge_sort_Permutation _ _)).
  apply list_to_set_elements_L.
Qed.

(** What decoding an encoded party gives, for any party: the party, with the
    three repairs of [from_dict] applied and an empty name read as no name. *)
Lemma from_dict_to_dict (now : Z) (p : Party.t) :
  Party.from_dict now (Party.to_dict p) =
    let members :=
      if bool_decide (Party.leader p ∉ Party.members p)
      then {[Party.leader p]} ∪ Party.members p else Party.members p in
    Ok (Some
      (Party.mk (Party.id p) (Party.leader p) members (Party.invites p) (Party.join_requests p)
         (Party.home p) (Party.created_at p)
         (if Py.truthy (Party.name p) then Party.name p else VNone)
         (Party.is_public p)
         (filter (λ kv, kv.1 ∈ members) (<[Party.leader p := PartyRole.LEADER]> (Party.roles p)))
         (Party.banned_players p) (Party.total_play_time_ms p) (Party.total_kills p)
         (Party.total_deaths p) (Party.color p) (Party.icon p) (Party.allies p)
         (Party.last_daily_reward p) (Party.consecutive_days p) (Party.last_reward_date p)
         (Party.achievements p) (Party.last_seen p))).
Proof.
  unfold Party.from_dict.
  change (Py.get "id" (Party.to_dict p)) with (VStr (uuid_str (Party.id p))).
  change (Py.get "leader" (Party.to_dict p)) with (VStr (uuid_str (Party.leader p))).
  rewrite !parse_uuid_str.
  change (Py.get_default "members" _ (Party.to_dict p)) with (Party.ids_to_list (Party.members p)).
  change (Py.get_default "invites" _ (Party.to_dict p))
    with (Party.timestamps_to_dict (Party.invites p)).
  change (Py.get_default "join_requests" _ (Party.to_dict p))
    with (Party.timestamps_to_dict (Party.join_requests p)).
  change (Py.get_default "last_daily_reward" _ (Party.to_dict p))
    with (Party.timestamps_to_dict (Party.last_daily_reward p)).
  change (Py.get_default "last_seen" _ (Party.to_dict p))
    with (Party.timestamps_to_dict (Party.last_seen p)).
  change (Py.get_default "banned_players" _ (Party.to_dict p))
    with (Party.ids_to_list (Party.banned_players p)).
  change (Py.get_default "allies" _ (Party.to_dict p)) with (Party.ids_to_list (Party.allies p)).
  change (Py.get_default "roles" _ (Party.to_dict p))
    with (VDict ((λ kv, (uuid_str kv.1, VStr (PartyRole.value kv.2)))
                   <$> map_to_list (Party.roles p))).
  change (Py.get_default "achievements" _ (Party.to_dict p))
    with (VList (VStr <$> Py.sorted_strings (Party.achievements p))).
  change (Py.get "home" (Party.to_dict p))
    with (match Party.home p with
          | Some h => VDict (LocationData.to_dict h)
          | None => VNone
          end).
  change (Py.get "name" (Party.to_dict p)) with (Party.name p).
  change (Py.get_default "created_at" _ (Party.to_dict p)) with (VInt (Party.created_at p)).
  change (Py.get_default "is_public" _ (Party.to_dict p)) with (VBool (Party.is_public p)).
  change (Py.get_default "total_play_time_ms" _ (Party.to_dict p))
    with (VInt (Party.total_play_time_ms p)).
  change (Py.get_default "total_kills" _ (Party.to_dict p)) with (VInt (Party.total_kills p)).
  change (Py.get_default "total_deaths" _ (Party.to_dict p)) with (VInt (Party.total_deaths p)).
  change (Py.get_default "color" _ (Party.to_dict p)) with (VStr (Party.color p)).
  change (Py.get_default "icon" _ (Party.to_dict p)) with (VStr (Party.icon p)).
  change (Py.get_default "consecutive_days" _ (Party.to_dict p))
    with (VInt (Party.consecutive_days p)).
  change (Py.get_default "last_reward_date" _ (Party.to_dict p))
    with (VInt (Party.last_reward_date p)).
  rewrite !decode_ids_to_list, !decode_timestamps.
  rewrite (decode_dict_encoded PartyRole.parse (λ r, VStr (PartyRole.value r)))
    by apply role_parse_value.
  cbn [mbind result_bind Py.int Py.iter Py.str Py.truthy].
  rewrite achievements_round_trip.
  assert (Hhome : match
                    match Party.home p with
                    | Some h => VDict (LocationData.to_dict h)
                    | None => VNone
                    end
                  with
                  | VDict d => h ← LocationData.from_dict d; Ok (Some h)
                  | _ => Ok None
                  end = Ok (Party.home p)).
  { destruct (Party.home p) as [h|]; [|done]. by rewrite location_round_trip. }
  rewrite Hhome. cbn [mbind result_bind].
  cbn [Party.members Party.roles Party.leader Party.set_roles Party.set_members].
  by case_bool_decide.
Qed.

End RoundTrip.

(** C2, as the code has it. For every party [p], [from_dict(to_dict(p))]
    returns a party equal to [p] in every field exactly when [p] has its
    leader among its members, [roles[leader]] is [LEADER], [roles] has no
    entries outside [members], and the name is [None] or truthy (for a name
    of the declared type [str | None]: not the empty string). Sets and maps
    are compared by their elements. The runtime is assumed to parse what it
    prints: [UUID(str(u)) == u]. *)
Theorem snapshot_round_trip `{PyRuntime} (now : Z) (p : Party.t) :
  (∀ u : UUID, uuid_parse (uuid_str u) = Some u) →
  Party.from_dict now (Party.to_dict p) = Ok (Some p) ↔
  Invariant.leader_is_member p ∧ Invariant.leader_has_role p ∧
  Invariant.roles_within_members p ∧
  (Party.name p = VNone ∨ Py.truthy (Party.name p) = true).
Proof.
  intros Hlaw. rewrite (from_dict_to_dict Hlaw). cbv zeta.
  unfold Invariant.leader_is_member, Invariant.leader_has_role, Invariant.roles_within_members.
  destruct p as [pid leader members invites jr home created name pub roles banned
                 tp tk td color icon allies ldr cd lrd ach seen].
  cbn [Party.id Party.leader Party.members Party.invites Party.join_requests Party.home
       Party.created_at Party.name Party.is_public Party.roles Party.banned_players
       Party.total_play_time_ms Party.total_kills Party.total_deaths Party.color Party.icon
       Party.allies Party.last_daily_reward Party.consecutive_days Party.last_reward_date
       Party.achievements Party.last_seen].
  split.
  - intros [= Hmembers Hname Hroles].
    assert (Hin : leader ∈ members).
    { destruct (decide (leader ∈ members)) as [|Hnot]; [done|].
      rewrite bool_decide_eq_true_2 in Hmembers by done. rewrite <- Hmembers. set_solver. }
    rewrite bool_decide_eq_false_2 in Hroles by tauto.
    split_and!.
    + done.
    + rewrite <- Hroles. apply map_lookup_filter_Some. split; [apply lookup_insert_eq|done].
    + intros k [r Hr]. rewrite <- Hroles in Hr.
      by apply map_lookup_filter_Some in Hr as [_ Hk].
    + destruct (Py.truthy name); [by right|by left].
  - intros (Hin & Hrole & Hwithin & Hname).
    rewrite bool_decide_eq_false_2 by tauto.
    do 2 f_equal. f_equal.
    + destruct Hname as [->| ->]; done.
    + rewrite (insert_id _ _ _ Hrole). apply map_filter_id.
      intros k r Hr. apply Hwithin. by exists r.
Qed.

(** [Ref.runtime] parses what it prints. *)

Lemma hex_value_char (d : N) : (d < 16)%N → Ref.hex_value (Ref.hex_char d) = Some d.
Proof.
  intros Hd.
  assert (Hcases : (d = 0 ∨ d = 1 ∨ d = 2 ∨ d = 3 ∨ d = 4 ∨ d = 5 ∨ d = 6 ∨ d = 7 ∨ d = 8 ∨
                    d = 9 ∨ d = 10 ∨ d = 11 ∨ d = 12 ∨ d = 13 ∨ d = 14 ∨ d = 15)%N) by lia.
  repeat (destruct Hcases as [->|Hcases]; [reflexivity|]). by subst.
Qed.

Lemma hex_char_not_dash (d : N) : Ref.hex_char d ≠ Ref.dash.
Proof.
  destruct d as [|p]; [done|].
  do 4 (destruct p as [p|p|]; try done).
Qed.

Lemma digits_bounded (k : nat) (n : N) : Forall (λ d, (d < 16)%N) (Ref.digits k n).
Proof.
  revert n. induction k as [|k IH]; intros n; cbn; constructor; [|apply IH].
  by apply N.mod_lt.
Qed.

Lemma number_digits (k : nat) (n : N) :
  Ref.number (Ref.digits k n) = (n mod 16 ^ N.of_nat k)%N.
Proof.
  revert n. induction k as [|k IH]; intros n.
  - cbn. by rewrite N.mod_1_r.
  - cbn [Ref.digits Ref.number foldr]. fold (Ref.number (Ref.digits k (n / 16))). rewrite IH.
    rewrite Nat2N.inj_succ, N.pow_succ_r'. by rewrite N.Div0.mod_mul_r.
Qed.

Lemma width_enough (n : N) : (n < 16 ^ N.of_nat (Ref.width n))%N.
Proof.
  pose proof (N.size_gt n) as Hsize.
  eapply N.lt_le_trans; [exact Hsize|].
  change 16%N with (2 ^ 4)%N. rewrite <- N.pow_mul_r.
  apply N.pow_le_mono_r; [done|].
  unfold Ref.width. rewrite Nat2N.inj_max, N2Nat.id.
  pose proof (N.mul_succ_div_gt (N.size n + 3) 4) as Hdiv.
  generalize dependent ((N.size n + 3) / 4)%N. intros q Hdiv. lia.
Qed.

Lemma mapM_hex_value (ds : list N) :
  Forall (λ d, (d < 16)%N) ds → mapM Ref.hex_value (Ref.hex_char <$> ds) = Some ds.
Proof.
  induction 1 as [|d ds Hd _ IH]; [done|].
  cbn. rewrite (hex_value_char d Hd). cbn. by rewrite IH.
Qed.

Lemma filter_all {A} (P : A → Prop) `{∀ x, Decision (P x)} (l : list A) :
  Forall P l → filter P l = l.
Proof.
  induction 1 as [|x l Hx _ IH]; [done|]. by rewrite filter_cons_True, IH.
Qed.

Lemma ungroup_group (l : list ascii) :
  Forall (λ c, c ≠ Ref.dash) l → Ref.ungroup (Ref.group l) = l.
Proof.
  intros Hall. unfold Ref.ungroup, Ref.group.
  assert (Hsub : ∀ l', l' ⊆ l → filter (λ c, c ≠ Ref.dash) l' = l').
  { intros l' Hl'. apply filter_all. rewrite Forall_forall in *. intros c Hc. by apply Hall, Hl'. }
  assert (Htake : ∀ k l', l' ⊆ l → take k l' ⊆ l).
  { intros k l' Hl'. etrans; [apply subseteq_take|done]. }
  assert (Hdrop : ∀ k, drop k l ⊆ l) by (intros k; apply subseteq_drop).
  repeat (rewrite filter_app || rewrite filter_cons_False by (intros Hc; by apply Hc)).
  rewrite !Hsub by auto.
  rewrite (app_assoc (take 8 l)), take_take_drop. change (8 + 4)%nat with 12%nat.
  rewrite (app_assoc (take 12 l)), take_take_drop. change (12 + 4)%nat with 16%nat.
  rewrite (app_assoc (take 16 l)), take_take_drop. change (16 + 4)%nat with 20%nat.
  apply take_drop.
Qed.

Lemma ref_parse_str (u : UUID) : Ref.parse (Ref.str u) = Some u.
Proof.
  unfold Ref.parse.
  assert (Hchars : list_ascii_of_string (Ref.str u)
                   = Ref.group (Ref.hex_char <$> rev (Ref.digits (Ref.width u) u)))
    by apply list_ascii_of_string_of_list_ascii.
  rewrite Hchars, ungroup_group.
  - rewrite mapM_hex_value by (apply Forall_rev, digits_bounded). cbn.
    rewrite rev_involutive, number_digits.
    rewrite (N.mod_small _ _ (width_enough u)). by rewrite String.eqb_refl.
  - apply Forall_fmap, Forall_forall. intros d _. apply hex_char_not_dash.
Qed.

(** The party of the sample registry [{A, B, C}] survives the round trip. *)
Lemma snapshot_round_trip_witness :
  Party.from_dict 0 (Party.to_dict (Sample.party_of Sample.trio))
    = Ok (Some (Sample.party_of Sample.trio)).
Proof.
  apply (@snapshot_round_trip Ref.runtime 0 (Sample.party_of Sample.trio) ref_parse_str).
  split_and!.
  - apply (bool_decide_unpack _). vm_compute. exact I.
  - vm_compute. reflexivity.
  - intros player_id [role Hrole].
    assert (Hall : map_Forall (λ k _, k ∈ Party.members (Sample.party_of Sample.trio))
                     (Party.roles (Sample.party_of Sample.trio)))
      by (apply (bool_decide_unpack _); vm_compute; exact I).
    exact (Hall player_id role Hrole).
  - left. vm_compute. reflexivity.
Defined.

(** C2, as the specification states it, fails. The party [alice] left behind
    when she, its leader, left (see [calls_break_invariants]) carries an
    [OFFICER] role for her; its snapshot decodes to a party without that role.
    And a party whose name is the empty string decodes to one with no
    name. *)
Lemma round_trip_changes_party :
  (∃ p',
     Party.from_dict 0 (Party.to_dict (Sample.party_of (Sample.after Sample.leader_leaves)))
       = Ok (Some p') ∧
     Party.roles (Sample.party_of (Sample.after Sample.leader_leaves)) !! Sample.A
       = Some PartyRole.OFFICER ∧
     Party.roles p' !! Sample.A = None) ∧
  (∃ p',
     Party.from_dict 0 (Party.to_dict Sample.blank_name) = Ok (Some p') ∧
     Party.name Sample.blank_name = VStr "" ∧
     Party.name p' = VNone).
Proof.
  split.
  - eexists. split; [vm_compute; reflexivity|]. split; vm_compute; reflexivity.
  - eexists. split; [vm_compute; reflexivity|]. split; vm_compute; reflexivity.
Qed.

(** ** Malformed snapshots (models.py, [from_dict]; storage.py, [load]) *)

Section Malformed.
Context `{PyRuntime}.

Lemma decode_ids_drop (l1 l2 : list PyVal) (bad : PyVal) :
  Py._parse_uuid bad = None →
  Party.decode_ids (VList (l1 ++ bad :: l2)) = Party.decode_ids (VList (l1 ++ l2)).
Proof.
  intros Hbad. unfold Party.decode_ids. cbn. rewrite !omap_app. cbn. by rewrite Hbad.
Qed.

Lemma decode_items_app {V} (conv : PyVal → result V) (l1 l2 : list (PyVal * PyVal))
    (acc : gmap UUID V) :
  Party.decode_items conv (l1 ++ l2) acc
  = Party.decode_items conv l1 acc ≫= Party.decode_items conv l2.
Proof.
  revert acc. induction l1 as [|[raw x] l1 IH]; intros acc; [done|]. cbn.
  destruct (Py._parse_uuid raw); [|apply IH].
  destruct (conv x); cbn; [apply IH|done].
Qed.

Lemma decode_dict_drop {V} (conv : PyVal → result V) (d1 d2 : list (string * PyVal))
    (raw : string) (x : PyVal) :
  uuid_parse raw = None →
  Party.decode_dict conv (VDict (d1 ++ (raw, x) :: d2)) = Party.decode_dict conv (VDict (d1 ++ d2)).
Proof.
  intros Hbad. unfold Party.decode_dict. cbn [Py.dict_items mbind result_bind].
  rewrite !fmap_app, fmap_cons, !decode_items_app.
  destruct (Party.decode_items conv _ ∅) as [acc|]; [|done].
  cbn. unfold Py._parse_uuid. cbn. by rewrite Hbad.
Qed.

Lemma get_opt_app (key : string) (d1 d2 : list (string * PyVal)) :
  Py.get_opt key (d1 ++ d2)
  = match Py.get_opt key d1 with Some v => Some v | None => Py.get_opt key d2 end.
Proof.
  induction d1 as [|[k v] d1 IH]; [done|]. cbn. by destruct (String.eqb k key).
Qed.

(** A field of a snapshot, wherever it stands, is read under its own key
    only. *)
Lemma get_opt_other (key field : string) (v v' : PyVal) (pre rest : list (string * PyVal)) :
  key ≠ field →
  Py.get_opt key (pre ++ (field, v) :: rest) = Py.get_opt key (pre ++ (field, v') :: rest).
Proof.
  intros Hne. rewrite !get_opt_app. cbn.
  destruct (String.eqb_spec field key) as [->|_]; done.
Qed.

Lemma get_opt_field (field : string) (v : PyVal) (pre rest : list (string * PyVal)) :
  Py.get_opt field (pre ++ (field, v) :: rest)
  = match Py.get_opt field pre with Some w => Some w | None => Some v end.
Proof. rewrite get_opt_app. cbn. by rewrite String.eqb_refl. Qed.

(** Rewrites the reads of [from_dict] under the keys that [Hother] covers. *)
Ltac reads_elsewhere Hother data :=
  repeat match goal with
  | |- context [Py.get_opt ?k data] => rewrite (Hother k) by done
  end.

(** [from_dict] reads a list field through [decode_ids] only, wherever the
    field stands in the snapshot. *)
Lemma from_dict_list_field_at (now : Z) (field : string) (v v' : PyVal)
    (pre rest : list (string * PyVal)) :
  field ∈ ["members"; "banned_players"; "allies"] →
  Party.decode_ids v = Party.decode_ids v' →
  Party.from_dict now (pre ++ (field, v) :: rest)
  = Party.from_dict now (pre ++ (field, v') :: rest).
Proof.
  intros Hfield Heq.
  pose proof (λ key, get_opt_other key field v v' pre rest) as Hother.
  assert (Hread : ∀ dflt,
    Party.decode_ids (default dflt (Py.get_opt field (pre ++ (field, v) :: rest)))
    = Party.decode_ids (default dflt (Py.get_opt field (pre ++ (field, v') :: rest)))).
  { intros dflt. rewrite !get_opt_field. by destruct (Py.get_opt field pre). }
  set (data := pre ++ (field, v) :: rest) in *.
  set (data' := pre ++ (field, v') :: rest) in *.
  unfold Party.from_dict, Py.get, Py.get_default.
  repeat (apply elem_of_cons in Hfield as [->|Hfield]);
    [..|by apply elem_of_nil in Hfield]; reads_elsewhere Hother data; by rewrite Hread.
Qed.

(** [from_dict] reads a dict field through [decode_dict] only, wherever the
    field stands in the snapshot. *)
Lemma from_dict_dict_field_at (now : Z) (field : string) (v v' : PyVal)
    (pre rest : list (string * PyVal)) :
  field ∈ ["invites"; "join_requests"; "roles"; "last_daily_reward"; "last_seen"] →
  (∀ V (conv : PyVal → result V), Party.decode_dict conv v = Party.decode_dict conv v') →
  Party.from_dict now (pre ++ (field, v) :: rest)
  = Party.from_dict now (pre ++ (field, v') :: rest).
Proof.
  intros Hfield Heq.
  pose proof (λ key, get_opt_other key field v v' pre rest) as Hother.
  assert (Hread : ∀ V (conv : PyVal → result V) dflt,
    Party.decode_dict conv (default dflt (Py.get_opt field (pre ++ (field, v) :: rest)))
    = Party.decode_dict conv (default dflt (Py.get_opt field (pre ++ (field, v') :: rest)))).
  { intros V conv dflt. rewrite !get_opt_field. by destruct (Py.get_opt field pre). }
  set (data := pre ++ (field, v) :: rest) in *.
  set (data' := pre ++ (field, v') :: rest) in *.
  unfold Party.from_dict, Py.get, Py.get_default.
  repeat (apply elem_of_cons in Hfield as [->|Hfield]);
    [..|by apply elem_of_nil in Hfield]; reads_elsewhere Hother data; by rewrite !Hread.
Qed.

(** The conversion of a value runs on every entry whose identifier parses,
    and the exception it raises is not caught. *)
Lemma decode_items_raises {V} (conv : PyVal → result V) (items : list (PyVal * PyVal))
    (acc : gmap UUID V) (raw x : PyVal) :
  (raw, x) ∈ items →
  is_Some (Py._parse_uuid raw) →
  conv x = Raised →
  Party.decode_items conv items acc = Raised.
Proof.
  intros Hin [p Hp] Hx. revert acc.
  induction items as [|[raw0 x0] items IH]; intros acc; [by apply elem_of_nil in Hin|].
  cbn. apply elem_of_cons in Hin as [[= <- <-]|Hin].
  - by rewrite Hp, Hx.
  - destruct (Py._parse_uuid raw0); [|by apply IH].
    destruct (conv x0); cbn; [by apply IH|done].
Qed.

Lemma decode_dict_raises {V} (conv : PyVal → result V) (d : list (string * PyVal))
    (raw : string) (x : PyVal) :
  (raw, x) ∈ d →
  is_Some (uuid_parse raw) →
  conv x = Raised →
  Party.decode_dict conv (VDict d) = Raised.
Proof.
  intros Hin Hraw Hx. unfold Party.decode_dict. cbn [Py.dict_items mbind result_bind].
  apply (decode_items_raises conv _ ∅ (VStr raw) x); [|done|done].
  apply list_elem_of_fmap. by exists (raw, x).
Qed.

(** A conversion that raises inside a dict field makes [from_dict] raise. *)
Lemma from_dict_raises (now : Z) (data : list (string * PyVal)) (field : string)
    (d : list (string * PyVal)) (raw : string) (x : PyVal) :
  (field ∈ ["invites"; "join_requests"; "last_daily_reward"; "last_seen"] ∧
   Py.int x = Raised) ∨
  (field = "roles" ∧ PartyRole.parse x = Raised) →
  Py.get_opt field data = Some (VDict d) →
  (raw, x) ∈ d →
  is_Some (uuid_parse raw) →
  is_Some (Py._parse_uuid (Py.get "id" data)) →
  is_Some (Py._parse_uuid (Py.get "leader" data)) →
  Party.from_dict now data = Raised.
Proof.
  intros Hconv Hfield Hin Hraw [party_id Hid] [leader_id Hleader].
  unfold Party.from_dict. rewrite Hid, Hleader.
  unfold Py.get_default.
  destruct Hconv as [[Hwhich Hint]|[-> Hrole]].
  - assert (Hdec : Party.decode_dict Py.int (VDict d) = Raised)
      by by apply (decode_dict_raises Py.int d raw x).
    repeat (apply elem_of_cons in Hwhich as [->|Hwhich]);
      [..|by apply elem_of_nil in Hwhich];
      rewrite Hfield; cbn [from_option id]; rewrite Hdec;
      repeat match goal with
      | |- (?e ≫= _) = Raised => destruct e; [cbn [mbind result_bind]|reflexivity]
      end; reflexivity.
  - assert (Hdec : Party.decode_dict PartyRole.parse (VDict d) = Raised)
      by by apply (decode_dict_raises PartyRole.parse d raw x).
    rewrite Hfield; cbn [from_option id]; rewrite Hdec;
      repeat match goal with
      | |- (?e ≫= _) = Raised => destruct e; [cbn [mbind result_bind]|reflexivity]
      end; reflexivity.
Qed.

(** An entry on which [from_dict] raises makes the loop of [load] raise. *)
Lemma load_entries_raises (now : Z) (entries : list PyVal) (d : list (string * PyVal))
    (acc : gmap UUID Party.t) :
  VDict d ∈ entries →
  Party.from_dict now d = Raised →
  PartyStorage.load_entries now entries acc = Raised.
Proof.
  intros Hin Hd. revert acc.
  induction entries as [|e entries IH]; intros acc; [by apply elem_of_nil in Hin|].
  apply elem_of_cons in Hin as [<-|Hin].
  - cbn. by rewrite Hd.
  - destruct e as [| | | | | |d0]; cbn; try by apply IH.
    destruct (Party.from_dict now d0) as [[p|]|]; cbn; [by apply IH|by apply IH|done].
Qed.

Lemma load_entries_app (now : Z) (entries1 entries2 : list PyVal) (acc : gmap UUID Party.t) :
  PartyStorage.load_entries now (entries1 ++ entries2) acc
  = PartyStorage.load_entries now entries1 acc ≫= PartyStorage.load_entries now entries2.
Proof.
  revert acc. induction entries1 as [|e entries1 IH]; intros acc; [done|]. cbn.
  destruct e as [| | | | | |d]; try apply IH.
  destruct (Party.from_dict now d) as [[p|]|]; cbn; [apply IH|apply IH|done].
Qed.

(** When no entry raises, [load_entries] returns the parties the entries
    decode to, and nothing else. *)
Lemma load_entries_total (now : Z) (entries : list PyVal) (acc : gmap UUID Party.t) :
  Forall (λ e, ∀ d, e = VDict d → Party.from_dict now d ≠ Raised) entries →
  ∃ parties,
    PartyStorage.load_entries now entries acc = Ok parties ∧
    (∀ k q, acc !! k = Some q → is_Some (parties !! k)) ∧
    (∀ d p, VDict d ∈ entries → Party.from_dict now d = Ok (Some p) →
            is_Some (parties !! Party.id p)) ∧
    (∀ k q, parties !! k = Some q →
            acc !! k = Some q ∨
            ∃ d, VDict d ∈ entries ∧ Party.from_dict now d = Ok (Some q) ∧ Party.id q = k).
Proof.
  revert acc. induction entries as [|e entries IH]; intros acc Hall.
  - exists acc. split_and!; [done|by eauto| |by eauto].
    intros d p Hin. by apply elem_of_nil in Hin.
  - apply Forall_cons in Hall as [He Hall].
    assert (Hskip : PartyStorage.load_entries now (e :: entries) acc
                    = PartyStorage.load_entries now entries acc →
                    (∀ d p, e = VDict d → Party.from_dict now d ≠ Ok (Some p)) →
                    ∃ parties,
                      PartyStorage.load_entries now (e :: entries) acc = Ok parties ∧
                      (∀ k q, acc !! k = Some q → is_Some (parties !! k)) ∧
                      (∀ d p, VDict d ∈ e :: entries → Party.from_dict now d = Ok (Some p) →
                              is_Some (parties !! Party.id p)) ∧
                      (∀ k q, parties !! k = Some q →
                              acc !! k = Some q ∨
                              ∃ d, VDict d ∈ e :: entries ∧
                                   Party.from_dict now d = Ok (Some q) ∧ Party.id q = k)).
    { intros -> Hnot. destruct (IH acc Hall) as (parties & Hrun & Hacc & Hloaded & Honly).
      exists parties. split_and!; [done|done| |].
      - intros d p Hin Hp. apply elem_of_cons in Hin as [<-|Hin]; [|by eauto].
        by destruct (Hnot d p eq_refl).
      - intros k q Hq. destruct (Honly k q Hq) as [?|(d & Hin & Hd & Hid)]; [by left|].
        right. exists d. split_and!; [by right|done|done]. }
    destruct e as [| | | | | |d]; try (apply Hskip; [done|by intros ? ? [=]]).
    destruct (Party.from_dict now d) as [[p|]|] eqn:Hd.
    + destruct (IH (<[Party.id p := p]> acc) Hall) as (parties & Hrun & Hacc & Hloaded & Honly).
      exists parties. cbn. rewrite Hd. cbn. split_and!; [done| | |].
      * intros k q Hk. destruct (decide (Party.id p = k)) as [<-|Hne].
        -- apply (Hacc _ p). apply lookup_insert_eq.
        -- apply (Hacc _ q). by rewrite lookup_insert_ne.
      * intros d' p' Hin Hp'. apply elem_of_cons in Hin as [[= <-]|Hin]; [|by eauto].
        rewrite Hd in Hp'. injection Hp' as <-. apply (Hacc _ p). apply lookup_insert_eq.
      * intros k q Hq. destruct (Honly k q Hq) as [Hk|(d' & Hin & Hd' & Hid)].
        -- destruct (decide (Party.id p = k)) as [<-|Hne].
           ++ rewrite lookup_insert_eq in Hk. injection Hk as <-.
              right. exists d. split_and!; [left|done|done].
           ++ rewrite lookup_insert_ne in Hk by done. by left.
        -- right. exists d'. split_and!; [by right|done|done].
    + apply Hskip; [by cbn; rewrite Hd|]. intros d' p' [= <-]. by rewrite Hd.
    + by destruct (He d eq_refl).
Qed.

End Malformed.

(** C8, as the code has it. An entry of a nested collection whose identifier
    does not parse is dropped, whatever its value, and the rest of the snapshot
    decodes as if the entry were not there: an element of [members],
    [banned_players] or [allies], and a key of [invites], [join_requests],
    [roles], [last_daily_reward] or [last_seen], wherever the field stands
    in the snapshot. A party id or leader id that does not parse, which
    includes a missing one when the runtime does not parse [str(None)], makes
    [from_dict] return [None]. The loader skips an entry for which
    [from_dict] returns [None] and an entry that is not a dict; and when no
    entry makes [from_dict] raise, it returns every party the entries decode
    to, and only those. A value under an identifier that parses is not
    checked but converted, by [int] for a timestamp and by [PartyRole.parse]
    for a role: when the conversion raises, as [int(None)] does, the entry
    is not dropped; [from_dict] raises, provided the party id and the leader
    id parse, and [load] raises with it, whatever the other entries are. *)
Theorem malformed_entries `{PyRuntime} (now : Z) :
  (∀ field pre l1 bad l2 rest,
     field ∈ ["members"; "banned_players"; "allies"] →
     Py._parse_uuid bad = None →
     Party.from_dict now (pre ++ (field, VList (l1 ++ bad :: l2)) :: rest)
     = Party.from_dict now (pre ++ (field, VList (l1 ++ l2)) :: rest)) ∧
  (∀ field pre d1 raw x d2 rest,
     field ∈ ["invites"; "join_requests"; "roles"; "last_daily_reward"; "last_seen"] →
     uuid_parse raw = None →
     Party.from_dict now (pre ++ (field, VDict (d1 ++ (raw, x) :: d2)) :: rest)
     = Party.from_dict now (pre ++ (field, VDict (d1 ++ d2)) :: rest)) ∧
  (∀ data,
     Py._parse_uuid (Py.get "id" data) = None ∨ Py._parse_uuid (Py.get "leader" data) = None →
     Party.from_dict now data = Ok None) ∧
  (∀ data,
     uuid_parse (py_repr VNone) = None →
     Py.get_opt "id" data = None ∨ Py.get_opt "leader" data = None →
     Party.from_dict now data = Ok None) ∧
  (∀ entries1 entry entries2 acc,
     match entry with
     | VDict d => Party.from_dict now d = Ok None
     | _ => True
     end →
     PartyStorage.load_entries now (entries1 ++ entry :: entries2) acc
     = PartyStorage.load_entries now (entries1 ++ entries2) acc) ∧
  (∀ entries,
     Forall (λ e, ∀ d, e = VDict d → Party.from_dict now d ≠ Raised) entries →
     ∃ parties,
       PartyStorage.load_entries now entries ∅ = Ok parties ∧
       (∀ d p, VDict d ∈ entries → Party.from_dict now d = Ok (Some p) →
               is_Some (parties !! Party.id p)) ∧
       (∀ k q, parties !! k = Some q →
               ∃ d, VDict d ∈ entries ∧ Party.from_dict now d = Ok (Some q) ∧ Party.id q = k)) ∧
  (∀ data field d raw x,
     (field ∈ ["invites"; "join_requests"; "last_daily_reward"; "last_seen"] ∧
      Py.int x = Raised) ∨
     (field = "roles" ∧ PartyRole.parse x = Raised) →
     Py.get_opt field data = Some (VDict d) →
     (raw, x) ∈ d →
     is_Some (uuid_parse raw) →
     is_Some (Py._parse_uuid (Py.get "id" data)) →
     is_Some (Py._parse_uuid (Py.get "leader" data)) →
     Party.from_dict now data = Raised) ∧
  (∀ data field d raw,
     field ∈ ["invites"; "join_requests"; "last_daily_reward"; "last_seen"] →
     Py.get_opt field data = Some (VDict d) →
     (raw, VNone) ∈ d →
     is_Some (uuid_parse raw) →
     is_Some (Py._parse_uuid (Py.get "id" data)) →
     is_Some (Py._parse_uuid (Py.get "leader" data)) →
     Party.from_dict now data = Raised) ∧
  (∀ entries d,
     VDict d ∈ entries →
     Party.from_dict now d = Raised →
     (∀ acc, PartyStorage.load_entries now entries acc = Raised) ∧
     PartyStorage.load now (PartyStorage.Parsed (VList entries)) = Raised ∧
     (∀ payload,
        Py.get_opt "parties" payload = Some (VList entries) →
        PartyStorage.load now (PartyStorage.Parsed (VDict payload)) = Raised)).
Proof.
  assert (Hnone : ∀ data,
    Py._parse_uuid (Py.get "id" data) = None ∨ Py._parse_uuid (Py.get "leader" data) = None →
    Party.from_dict now data = Ok None).
  { intros data Hbad. unfold Party.from_dict.
    destruct (Py._parse_uuid (Py.get "id" data)); [|done].
    destruct (Py._parse_uuid (Py.get "leader" data)); [|done].
    by destruct Hbad. }
  split_and!.
  - intros field pre l1 bad l2 rest Hfield Hbad.
    apply from_dict_list_field_at; [done|]. by apply decode_ids_drop.
  - intros field pre d1 raw x d2 rest Hfield Hbad.
    apply from_dict_dict_field_at; [done|]. intros V conv. by apply decode_dict_drop.
  - exact Hnone.
  - intros data Hrepr Hmissing. apply Hnone. unfold Py._parse_uuid, Py.get.
    destruct Hmissing as [-> | ->]; [left|right]; exact Hrepr.
  - intros entries1 entry entries2 acc Hentry. rewrite !load_entries_app.
    destruct (PartyStorage.load_entries now entries1 acc) as [acc1|]; [|done].
    cbn [mbind result_bind PartyStorage.load_entries].
    destruct entry; try done. by rewrite Hentry.
  - intros entries Hall.
    destruct (load_entries_total now entries ∅ Hall) as (parties & Hrun & _ & Hloaded & Honly).
    exists parties. split_and!; [done|done|].
    intros k q Hq. destruct (Honly k q Hq) as [Hempty|?]; [|done].
    by rewrite lookup_empty in Hempty.
  - intros data field d raw x Hconv Hfield Hin Hraw Hid Hleader.
    by apply (from_dict_raises now data field d raw x).
  - intros data field d raw Hwhich Hfield Hin Hraw Hid Hleader.
    apply (from_dict_raises now data field d raw VNone); try done. by left.
  - intros entries d Hin Hd.
    assert (Hloop : ∀ acc, PartyStorage.load_entries now entries acc = Raised).
    { intros acc. by apply (load_entries_raises now entries d). }
    split_and!; [done| |].
    + cbn. by rewrite Hloop.
    + intros payload Hparties. unfold PartyStorage.load, Py.get_default.
      rewrite Hparties. cbn. by rewrite Hloop.
Qed.

(** A document whose first entry has no leader, whose second entry is not an
    object, and whose third entry carries two malformed nested entries, loads
    as the one party of the third entry, without the malformed entries. *)
Example load_skips_malformed :
  ∃ party,
    PartyStorage.load 0
      (Sample.document [VDict Sample.no_leader_entry; VStr "junk"; VDict Sample.good_entry])
      = Ok ({[Sample.P := party]}, ∅) ∧
    Party.members party = {[Sample.A]} ∧
    Party.invites party = {[Sample.B := 2000]}.
Proof.
  eexists. split; [vm_compute; reflexivity|]. split; vm_compute; reflexivity.
Qed.

(** C8, as the specification states it, fails. A value of the wrong type
    under an identifier that parses is not dropped: on the entry whose invite
    has a [null] timestamp [from_dict] raises, [load] raises with it although
    the document's other entry is well formed, and [load_all] starts from an
    empty registry. *)
Lemma wrong_typed_value_aborts_load :
  Party.from_dict 0 Sample.null_timestamp_entry = Raised ∧
  (∃ party, Party.from_dict 0 Sample.good_entry = Ok (Some party)) ∧
  PartyStorage.load 0
    (Sample.document [VDict Sample.good_entry; VDict Sample.null_timestamp_entry]) = Raised ∧
  PartyManager.parties
    (PartyManager.load_all
       (PartyStorage.load 0
          (Sample.document [VDict Sample.good_entry; VDict Sample.null_timestamp_entry]))
       PartyManager.empty) = ∅.
Proof.
  split_and!.
  - vm_compute. reflexivity.
  - eexists. vm_compute. reflexivity.
  - vm_compute. reflexivity.
  - vm_compute. reflexivity.
Qed.

(** ** The role entry a departing leader leaves behind (party_manager.py,
       [leave_party]; models.py, [transfer_leadership]) *)

(** When the leader leaves a party that still has members, the party kept in
    the registry no longer has the departed leader among its members but has
    an [OFFICER] entry for that player in [roles]: [leave_party] removes the
    member first, and [transfer_leadership] then demotes [self.leader], which
    is still the departed player. The party does not satisfy the second half
    of invariant 2. *)
Theorem leader_leave_keeps_officer_entry `{PyRuntime} (online : UUID → bool)
    (self : PartyManager.t) (A : UUID) (party : UUID) (obj : Party.t) :
  PartyManager.player_to_party self !! A = Some party →
  PartyManager.deref self party = Some obj →
  Party.leader obj = A →
  Party.members obj ∖ {[A]} ≠ ∅ →
  ∃ obj',
    PartyManager.deref (PartyManager.leave_party online self A).2 party = Some obj' ∧
    (A ∉ Party.members obj') ∧
    Party.roles obj' !! A = Some PartyRole.OFFICER ∧
    ¬ Invariant.roles_within_members obj'.
Proof.
  intros Hindex Hobj Hleader Hrest.
  destruct (leave_party_remaining online self A party obj Hindex Hobj Hrest)
    as (obj' & _ & Hps & _ & _ & _ & Hmem & _ & _ & _ & _ & Hstale).
  destruct (Hstale Hleader) as (_ & _ & Hofficer).
  exists obj'. split_and!.
  - unfold PartyManager.deref. rewrite Hps. apply lookup_insert_eq.
  - rewrite Hmem. set_solver.
  - done.
  - intros Hwithin. specialize (Hwithin A (mk_is_Some _ _ Hofficer)).
    rewrite Hmem in Hwithin. set_solver.
Qed.

(** On the sample party [{A, B}] led by [A]. *)
Lemma leader_leave_keeps_officer_entry_witness :
  ∃ obj',
    PartyManager.deref (PartyManager.leave_party Sample.offline Sample.pair Sample.A).2 Sample.P
      = Some obj' ∧
    Party.roles obj' !! Sample.A = Some PartyRole.OFFICER.
Proof.
  destruct (leader_leave_keeps_officer_entry Sample.offline Sample.pair Sample.A Sample.P
              (Sample.party_of Sample.pair)) as (obj' & Hstored & _ & Hofficer & _).
  - vm_compute. reflexivity.
  - vm_compute. reflexivity.
  - vm_compute. reflexivity.
  - apply (bool_decide_unpack _). vm_compute. exact I.
  - exists obj'. split; [exact Hstored|exact Hofficer].
Defined.

(** * Further properties *)

Ltac decide_goal H :=
  match goal with
  | |- context [bool_decide ?P] =>
      destruct (decide P) as [H|H];
      [rewrite !(bool_decide_eq_true_2 P H)|rewrite !(bool_decide_eq_false_2 P H)]
  end.

Lemma registry_eq (a b : PartyManager.t) :
  PartyManager.parties a = PartyManager.parties b →
  PartyManager.player_to_party a = PartyManager.player_to_party b →
  PartyManager.player_invites a = PartyManager.player_invites b →
  PartyManager.last_marker_positions a = PartyManager.last_marker_positions b →
  PartyManager.player_names a = PartyManager.player_names b →
  PartyManager._dirty a = PartyManager._dirty b →
  a = b.
Proof. destruct a, b. cbn. by intros -> -> -> -> -> ->. Qed.

Lemma store_fields (key : UUID) (obj : Party.t) (self : PartyManager.t) :
  PartyManager.parties (PartyManager.store key obj self)
    = <[key := obj]> (PartyManager.parties self) ∧
  PartyManager.player_to_party (PartyManager.store key obj self)
    = PartyManager.player_to_party self ∧
  PartyManager.player_invites (PartyManager.store key obj self)
    = PartyManager.player_invites self ∧
  PartyManager.last_marker_positions (PartyManager.store key obj self)
    = PartyManager.last_marker_positions self ∧
  PartyManager.player_names (PartyManager.store key obj self)
    = PartyManager.player_names self ∧
  PartyManager._dirty (PartyManager.store key obj self) = PartyManager._dirty self.
Proof. done. Qed.

(** ** Promotion and ranks (models.py, [transfer_leadership] and [set_role]) *)

Lemma transfer_leadership_roles (obj : Party.t) (new_leader_id : UUID) :
  new_leader_id ∈ Party.members obj →
  Party.leader obj ≠ new_leader_id →
  Party.transfer_leadership obj new_leader_id =
    (true,
     Party.set_roles
       (<[new_leader_id := PartyRole.LEADER]>
          (<[Party.leader obj := PartyRole.OFFICER]> (Party.roles obj)))
       (Party.set_leader new_leader_id obj)).
Proof.
  intros Hin Hne. unfold Party.transfer_leadership.
  rewrite bool_decide_eq_false_2 by (intros Hn; by apply Hn).
  rewrite bool_decide_eq_true_2 by done. reflexivity.
Qed.

(** X2. Promotion. On a party that satisfies invariants 1-4,
    [transfer_leadership] to a player outside [members] returns [False] and
    changes nothing; to a member it returns [True] and keeps invariants 1-4:
    the member becomes the leader with the role [LEADER], the former leader
    stays a member with the role [OFFICER], and nobody else's role or
    membership changes. *)
Theorem transfer_leadership_keeps_invariants (obj : Party.t) (new_leader_id : UUID) :
  Invariant.all obj →
  let r := Party.transfer_leadership obj new_leader_id in
  (new_leader_id ∉ Party.members obj → r = (false, obj)) ∧
  (new_leader_id ∈ Party.members obj →
     r.1 = true ∧
     Invariant.all r.2 ∧
     Party.leader r.2 = new_leader_id ∧
     Party.members r.2 = Party.members obj ∧
     (Party.leader obj ≠ new_leader_id →
        Party.get_role r.2 (Party.leader obj) = PartyRole.OFFICER) ∧
     (∀ other, other ≠ new_leader_id → other ≠ Party.leader obj →
        Party.roles r.2 !! other = Party.roles obj !! other)).
Proof.
  intros (Hlead & Hrole & Hwithin & Hdisj & Hmem) r. subst r. split.
  - intros Hnot. unfold Party.transfer_leadership. by rewrite bool_decide_eq_true_2.
  - intros Hin.
    destruct (decide (Party.leader obj = new_leader_id)) as [Heq|Hne].
    + assert (Heq' : Party.transfer_leadership obj new_leader_id = (true, obj)).
      { unfold Party.transfer_leadership.
        rewrite bool_decide_eq_false_2 by (intros Hn; by apply Hn).
        rewrite bool_decide_eq_false_2 by (intros Hn; by apply Hn).
        f_equal. destruct obj; cbn in *. unfold Party.set_roles; cbn. f_equal.
        unfold Invariant.leader_has_role in Hrole. cbn in Hrole.
        by apply insert_id. }
      rewrite Heq'. cbn. split_and!; try done.
    + rewrite transfer_leadership_roles by done. cbn. split_and!; try done.
      * unfold Invariant.all. split_and!; try done.
        -- unfold Invariant.leader_has_role. cbn. apply lookup_insert_eq.
        -- intros x. cbn. intros Hx.
           destruct (decide (x = new_leader_id)) as [->|Hx1]; [done|].
           rewrite lookup_insert_ne in Hx by done.
           destruct (decide (x = Party.leader obj)) as [->|Hx2]; [done|].
           rewrite lookup_insert_ne in Hx by done. by apply Hwithin.
      * intros _. unfold Party.get_role. cbn.
        rewrite lookup_insert_ne by done. by rewrite lookup_insert_eq.
      * intros other H1 H2. by rewrite !lookup_insert_ne.
Qed.

(** On the sample party [{A, B}] led by [A]: [B] is promoted. *)
Lemma transfer_leadership_keeps_invariants_witness :
  (Party.transfer_leadership (Sample.party_of Sample.pair) Sample.B).1 = true ∧
  Party.leader (Party.transfer_leadership (Sample.party_of Sample.pair) Sample.B).2 = Sample.B ∧
  Party.get_role (Party.transfer_leadership (Sample.party_of Sample.pair) Sample.B).2 Sample.A
    = PartyRole.OFFICER.
Proof.
  assert (Hall : Invariant.all (Sample.party_of Sample.pair)).
  { apply invariant_all_decide;
      solve [ vm_compute; reflexivity | apply (bool_decide_unpack _); vm_compute; exact I ]. }
  destruct (transfer_leadership_keeps_invariants (Sample.party_of Sample.pair) Sample.B Hall)
    as [_ Hpromote].
  destruct Hpromote as (Hok & _ & Hleader & _ & Hold & _).
  - apply (bool_decide_unpack _). vm_compute. exact I.
  - split_and!; [exact Hok|exact Hleader|].
    apply Hold. apply (bool_decide_unpack _). vm_compute. exact I.
Defined.

(** X3. Ranks. On a party whose leader is a member with the role [LEADER] and
    whose [roles] has no entries outside [members], [set_role] keeps these
    three facts, whatever player and role it is given: the leader's role
    stays [LEADER], a player outside [members] gets no entry (the party is
    unchanged), a member other than the leader gets the role given, and no
    other entry changes. *)
Theorem set_role_keeps_leader (self : Party.t) (player_id : UUID) (role : PartyRole.t) :
  Invariant.leader_is_member self →
  Invariant.leader_has_role self →
  Invariant.roles_within_members self →
  let self' := Party.set_role self player_id role in
  Invariant.leader_is_member self' ∧ Invariant.leader_has_role self' ∧
  Invariant.roles_within_members self' ∧
  Party.leader self' = Party.leader self ∧
  Party.members self' = Party.members self ∧
  (player_id ∉ Party.members self → self' = self) ∧
  (player_id ∈ Party.members self → player_id ≠ Party.leader self →
     Party.get_role self' player_id = role) ∧
  (∀ other, other ≠ player_id → Party.roles self' !! other = Party.roles self !! other).
Proof.
  intros Hlead Hrole Hwithin self'. subst self'. unfold Party.set_role.
  unfold Invariant.leader_is_member, Invariant.leader_has_role in *.
  destruct (decide (player_id = Party.leader self)) as [->|Hne].
  - rewrite bool_decide_eq_true_2 by done.
    rewrite (insert_id _ _ _ Hrole).
    assert (Hsame : Party.set_roles (Party.roles self) self = self) by by destruct self.
    rewrite Hsame. split_and!; try done.
  - rewrite bool_decide_eq_false_2 by done.
    destruct (decide (player_id ∈ Party.members self)) as [Hin|Hnot].
    + rewrite bool_decide_eq_true_2 by done. cbn. split_and!; try done.
      * by rewrite lookup_insert_ne.
      * intros x Hx. cbn in Hx. destruct (decide (x = player_id)) as [->|Hx1]; [done|].
        rewrite lookup_insert_ne in Hx by done. by apply Hwithin.
      * intros _ _. unfold Party.get_role. cbn. by rewrite lookup_insert_eq.
      * intros other Hother. by rewrite lookup_insert_ne.
    + rewrite bool_decide_eq_false_2 by done. split_and!; try done.
Qed.

(** On the sample party [{A, B}] led by [A]: [RECRUIT] for the leader and for [B]. *)
Lemma set_role_keeps_leader_witness :
  Invariant.leader_has_role
    (Party.set_role (Sample.party_of Sample.pair) Sample.A PartyRole.RECRUIT) ∧
  Party.get_role (Party.set_role (Sample.party_of Sample.pair) Sample.B PartyRole.RECRUIT) Sample.B
    = PartyRole.RECRUIT.
Proof.
  assert (Hall : Invariant.all (Sample.party_of Sample.pair)).
  { apply invariant_all_decide;
      solve [ vm_compute; reflexivity | apply (bool_decide_unpack _); vm_compute; exact I ]. }
  destruct Hall as (H1 & H2 & H3 & _).
  split.
  - destruct (set_role_keeps_leader (Sample.party_of Sample.pair) Sample.A PartyRole.RECRUIT
                H1 H2 H3) as (_ & Hrole & _).
    exact Hrole.
  - destruct (set_role_keeps_leader (Sample.party_of Sample.pair) Sample.B PartyRole.RECRUIT
                H1 H2 H3) as (_ & _ & _ & _ & _ & _ & Hset & _).
    apply Hset; apply (bool_decide_unpack _); vm_compute; exact I.
Defined.

(** ** Bans (models.py, [ban_player] and [unban_player]) *)

(** X4. Bans. [ban_player] leaves no trace of the player but the ban itself:
    no membership, invite, join request, role, daily-reward time or last-seen
    time. [unban_player] lifts the ban and restores nothing: for a player who
    was not banned before, a ban followed by an unban is [remove_member]. *)
Theorem ban_then_unban (self : Party.t) (player_id : UUID) :
  let banned := Party.ban_player self player_id in
  (player_id ∈ Party.banned_players banned ∧
   (player_id ∉ Party.members banned) ∧
   Party.invites banned !! player_id = None ∧
   Party.join_requests banned !! player_id = None ∧
   Party.roles banned !! player_id = None ∧
   Party.last_daily_reward banned !! player_id = None ∧
   Party.last_seen banned !! player_id = None) ∧
  Party.banned_players (Party.unban_player banned player_id)
    = Party.banned_players self ∖ {[player_id]} ∧
  Party.members (Party.unban_player banned player_id) = Party.members self ∖ {[player_id]} ∧
  (player_id ∉ Party.banned_players self →
     Party.unban_player banned player_id = Party.remove_member self player_id).
Proof.
  cbn. split_and!.
  - set_solver.
  - set_solver.
  - apply lookup_delete_eq.
  - apply lookup_delete_eq.
  - apply lookup_delete_eq.
  - apply lookup_delete_eq.
  - apply lookup_delete_eq.
  - apply set_eq. intros x. set_solver.
  - done.
  - intros Hnot.
    assert (Hb : ({[player_id]} ∪ Party.banned_players self) ∖ {[player_id]}
                 = Party.banned_players self) by set_solver.
    unfold Party.unban_player, Party.ban_player, Party.remove_member. cbn.
    unfold Party.set_banned_players. cbn. rewrite Hb. by destruct self.
Qed.

(** ** Daily claims of several members (models.py, [claim_daily_reward] and
       [can_claim_daily_reward]) *)

Lemma claim_within_a_day (p : Party.t) (player_id : UUID) (now : Z) :
  0 < Party.last_reward_date p →
  now < Party.last_reward_date p + MILLIS_PER_DAY →
  Party.consecutive_days (Party.claim_daily_reward p player_id now) = Party.consecutive_days p.
Proof.
  intros Hpos Hnow.
  destruct (claim_daily_reward_fields p player_id now) as (_ & _ & ->).
  assert (Hdays : (now - Party.last_reward_date p) `div` MILLIS_PER_DAY ≤ 0).
  { unfold MILLIS_PER_DAY in *.
    change (24 * 60 * 60 * 1000) with 86400000 in *.
    assert ((now - Party.last_reward_date p) `div` 86400000 < 1); [|lia].
    apply Z.div_lt_upper_bound; lia. }
  rewrite (proj2 (Z.ltb_lt _ _) Hpos).
  destruct (Z.eqb_spec ((now - Party.last_reward_date p) `div` MILLIS_PER_DAY) 1); [lia|].
  destruct (Z.ltb_spec 1 ((now - Party.last_reward_date p) `div` MILLIS_PER_DAY)); [lia|done].
Qed.

(** X5. The streak belongs to the party and is measured from the party's
    last claim, whoever made it: a claim made less than a day after the
    previous claim moves [last_reward_date] and leaves [consecutive_days] as
    it is. So along any sequence of claims in which each comes less than a
    day after the one before, the streak never changes, however long the
    sequence lasts. *)
Theorem claims_within_a_day_freeze_streak (p : Party.t) (claims : list (UUID * Z)) :
  0 < Party.last_reward_date p →
  Claims.within_a_day (Party.last_reward_date p) claims →
  Party.consecutive_days (Claims.run p claims) = Party.consecutive_days p.
Proof.
  revert p. induction claims as [|[x t] claims IH]; intros p Hpos Hclaims; [done|].
  cbn in Hclaims. destruct Hclaims as [[Ht Hlt] Hrest].
  unfold Claims.run. cbn. fold (Claims.run (Party.claim_daily_reward p x t) claims).
  destruct (claim_daily_reward_fields p x t) as (Hdate & _ & _).
  rewrite IH.
  - by apply claim_within_a_day.
  - by rewrite Hdate.
  - by rewrite Hdate.
Qed.

(** Two members claim in turn, twelve hours apart, starting from a party
    whose streak is 1: each claim is allowed, and after four days the streak
    is still 1. *)
Lemma claims_within_a_day_freeze_streak_witness :
  let p := Party.claim_daily_reward (Sample.party_of Sample.pair) Sample.A 43200000 in
  let claims :=
    [ (Sample.B, 86400000); (Sample.A, 129600000); (Sample.B, 172800000);
      (Sample.A, 216000000); (Sample.B, 259200000); (Sample.A, 302400000);
      (Sample.B, 345600000) ] in
  Claims.allowed p claims = true ∧
  Party.consecutive_days p = 1 ∧
  Party.consecutive_days (Claims.run p claims) = 1.
Proof.
  intros p claims. split_and!.
  - vm_compute. reflexivity.
  - vm_compute. reflexivity.
  - rewrite (claims_within_a_day_freeze_streak p claims).
    + vm_compute. reflexivity.
    + vm_compute. reflexivity.
    + vm_compute. repeat split.
Defined.

(** X6. After [claim_daily_reward(player_id, t)] the same player can claim
    again exactly from [t + MILLIS_PER_DAY] on, and what
    [can_claim_daily_reward] answers for every other player is unchanged. *)
Theorem claim_blocks_next_claim (p : Party.t) (player_id : UUID) (t : Z) :
  let p' := Party.claim_daily_reward p player_id t in
  (∀ now, Party.can_claim_daily_reward p' player_id now = true ↔ t + MILLIS_PER_DAY ≤ now) ∧
  (∀ other now, other ≠ player_id →
     Party.can_claim_daily_reward p' other now = Party.can_claim_daily_reward p other now).
Proof.
  cbn. destruct (claim_daily_reward_fields p player_id t) as (_ & Hlast & _). split.
  - intros now. unfold Party.can_claim_daily_reward. rewrite Hlast, lookup_insert_eq.
    rewrite Z.leb_le. lia.
  - intros other now Hother. unfold Party.can_claim_daily_reward.
    by rewrite Hlast, lookup_insert_ne.
Qed.

(** ** The periodic sweep (party_manager.py, [cleanup_expired_invites]) *)

Section Sweep.
Context `{PyRuntime}.

(** What the sweep leaves of a party. *)
Lemma sweep_party_step (T : Z) (now_ms : UUID → Z * Z) (self : PartyManager.t) (dirty : bool)
    (key : UUID) (party : Party.t) :
  let c1 := (now_ms key).1 - T in
  let c2 := (now_ms key).2 - T in
  let r := PartyManager.sweep_party T now_ms (self, dirty) (key, party) in
  PartyManager.parties r.1 =
    <[key := Party.set_join_requests (Party.live_at c2 (Party.join_requests party))
               (Party.set_invites (Party.live_at c1 (Party.invites party)) party)]>
      (PartyManager.parties self) ∧
  (∀ x, PartyManager.player_invites r.1 !! x =
          if bool_decide (is_Some (Party.expired_at c1 (Party.invites party) !! x) ∧
                          PartyManager.player_invites self !! x = Some (Party.id party))
          then None else PartyManager.player_invites self !! x) ∧
  PartyManager.player_to_party r.1 = PartyManager.player_to_party self ∧
  PartyManager.last_marker_positions r.1 = PartyManager.last_marker_positions self ∧
  PartyManager.player_names r.1 = PartyManager.player_names self ∧
  PartyManager._dirty r.1 = PartyManager._dirty self ∧
  r.2 = dirty || bool_decide (Party.expired_at c1 (Party.invites party) ≠ ∅)
              || bool_decide (Party.expired_at c2 (Party.join_requests party) ≠ ∅).
Proof.
  intros c1 c2 r. subst r. unfold PartyManager.sweep_party.
  unfold Party.clean_expired_invites, Party.clean_expired_join_requests.
  cbv beta iota zeta. fold c1 c2.
  set (p1 := Party.set_invites (Party.live_at c1 (Party.invites party)) party).
  set (s1 := PartyManager.store key p1 self).
  set (l := set_iter (dom (Party.expired_at c1 (Party.invites party)))).
  destruct (drop_expired_frame (Party.id p1) l s1) as (Hp & Hi & Hm & Hn & Hd).
  cbn [fst snd].
  destruct (store_fields key
              (Party.set_join_requests (Party.live_at c2 (Party.join_requests p1)) p1)
              (foldl (PartyManager.drop_expired (Party.id p1)) s1 l))
    as (Sp & Si & Sv & Sm & Sn & Sd).
  rewrite Sp, Si, Sv, Sm, Sn, Sd, Hp, Hi, Hm, Hn, Hd. clear Sp Si Sv Sm Sn Sd.
  split_and!; try done.
  - subst s1. cbn. by rewrite insert_insert_eq.
  - intros x.
    rewrite (drop_expired_index (Party.id p1) l s1 x). subst s1 l. cbn.
    assert (Hx : x ∈ set_iter (dom (Party.expired_at c1 (Party.invites party)))
                 ↔ is_Some (Party.expired_at c1 (Party.invites party) !! x)).
    { rewrite elem_of_set_iter. apply elem_of_dom. }
    destruct (decide (is_Some (Party.expired_at c1 (Party.invites party) !! x) ∧
                      PartyManager.player_invites self !! x = Some (Party.id party)))
      as [Hyes|Hno].
    + rewrite (bool_decide_eq_true_2 _ Hyes).
      rewrite bool_decide_eq_true_2; [done|]. split; [apply Hx, Hyes|apply Hyes].
    + rewrite (bool_decide_eq_false_2 _ Hno).
      rewrite bool_decide_eq_false_2; [done|]. intros [H1 H2]. apply Hno.
      split; [apply Hx, H1|done].
  - f_equal; [f_equal|].
    + apply bool_decide_ext. by rewrite dom_empty_iff_L.
    + apply bool_decide_ext. by rewrite dom_empty_iff_L.
Qed.

Lemma sweep_fold (T : Z) (now_ms : UUID → Z * Z) (l : list (UUID * Party.t))
    (self : PartyManager.t) (dirty : bool) :
  NoDup l.*1 →
  let r := foldl (PartyManager.sweep_party T now_ms) (self, dirty) l in
  (∀ k, PartyManager.parties r.1 !! k =
          match (list_to_map l : gmap UUID Party.t) !! k with
          | Some p =>
              Some (Party.set_join_requests
                      (Party.live_at ((now_ms k).2 - T) (Party.join_requests p))
                      (Party.set_invites
                         (Party.live_at ((now_ms k).1 - T) (Party.invites p)) p))
          | None => PartyManager.parties self !! k
          end) ∧
  (∀ x, PartyManager.player_invites r.1 !! x =
          if bool_decide
               (Exists (λ kp : UUID * Party.t,
                          is_Some (Party.expired_at ((now_ms kp.1).1 - T)
                                     (Party.invites kp.2) !! x) ∧
                          PartyManager.player_invites self !! x = Some (Party.id kp.2)) l)
          then None else PartyManager.player_invites self !! x) ∧
  PartyManager.player_to_party r.1 = PartyManager.player_to_party self ∧
  PartyManager.last_marker_positions r.1 = PartyManager.last_marker_positions self ∧
  PartyManager.player_names r.1 = PartyManager.player_names self ∧
  PartyManager._dirty r.1 = PartyManager._dirty self ∧
  r.2 = dirty ||
        bool_decide
          (Exists (λ kp : UUID * Party.t,
                     Party.expired_at ((now_ms kp.1).1 - T) (Party.invites kp.2) ≠ ∅ ∨
                     Party.expired_at ((now_ms kp.1).2 - T) (Party.join_requests kp.2) ≠ ∅) l).
Proof.
  revert self dirty. induction l as [|[k p] l IH]; intros self dirty Hnodup r.
  - subst r. cbn [foldl fst snd]. split_and!; try reflexivity.
    rewrite bool_decide_eq_false_2; [by rewrite orb_false_r|].
    intros Hex. by apply Exists_nil in Hex.
  - apply NoDup_cons in Hnodup as [Hk Hnodup]. subst r. cbn [foldl].
    destruct (sweep_party_step T now_ms self dirty k p) as (Sp & Sv & Si & Sm & Sn & Sd & Sr).
    destruct (PartyManager.sweep_party T now_ms (self, dirty) (k, p)) as [s1 d1] eqn:Hstep.
    cbn [fst snd] in Sp, Sv, Si, Sm, Sn, Sd, Sr.
    destruct (IH s1 d1 Hnodup) as (Ip & Iv & Ii & Im & In & Id & Ir).
    split_and!.
    + intros k'. rewrite Ip, Sp. rewrite list_to_map_cons.
      destruct (decide (k' = k)) as [->|Hne].
      * rewrite (not_elem_of_list_to_map_1 _ _ Hk). by rewrite !lookup_insert_eq.
      * rewrite !lookup_insert_ne by done. done.
    + intros x. rewrite Iv, Sv.
      destruct (decide (is_Some (Party.expired_at ((now_ms k).1 - T) (Party.invites p) !! x) ∧
                        PartyManager.player_invites self !! x = Some (Party.id p)))
        as [Hyes|Hno].
      * rewrite (bool_decide_eq_true_2 _ Hyes).
        rewrite (bool_decide_eq_true_2 (Exists _ (_ :: _))) by (by apply Exists_cons_hd).
        match goal with |- (if ?b then _ else _) = _ => by destruct b end.
      * rewrite (bool_decide_eq_false_2 _ Hno).
        apply (f_equal (λ b : bool, if b then None else PartyManager.player_invites self !! x)).
        apply bool_decide_ext. rewrite Exists_cons. cbn [fst snd].
        split; [by right|]. by intros [Hhd|Hex].
    + by rewrite Ii.
    + by rewrite Im.
    + by rewrite In.
    + by rewrite Id.
    + rewrite Ir, Sr. rewrite <-!orb_assoc. f_equal.
      destruct (decide (Party.expired_at ((now_ms k).1 - T) (Party.invites p) ≠ ∅)) as [H1|H1];
        [rewrite (bool_decide_eq_true_2 _ H1)|rewrite (bool_decide_eq_false_2 _ H1)];
        (destruct (decide (Party.expired_at ((now_ms k).2 - T) (Party.join_requests p) ≠ ∅))
          as [H2|H2];
         [rewrite (bool_decide_eq_true_2 _ H2)|rewrite (bool_decide_eq_false_2 _ H2)]); cbn.
      * symmetry. apply bool_decide_eq_true_2. apply Exists_cons_hd. by left.
      * symmetry. apply bool_decide_eq_true_2. apply Exists_cons_hd. by left.
      * symmetry. apply bool_decide_eq_true_2. apply Exists_cons_hd. by right.
      * apply bool_decide_ext. rewrite Exists_cons. cbn [fst snd]. tauto.
Qed.

End Sweep.

Lemma live_at_all (cutoff : Z) (entries : gmap UUID Z) :
  Party.expired_at cutoff entries = ∅ → Party.live_at cutoff entries = entries.
Proof.
  intros Hempty. unfold Party.live_at. apply map_filter_id. intros i x Hix Hlt. cbn in Hlt.
  assert (Hin : Party.expired_at cutoff entries !! i = Some x).
  { unfold Party.expired_at. by apply map_lookup_filter_Some. }
  by rewrite Hempty, lookup_empty in Hin.
Qed.

(** X7. The periodic sweep. [cleanup_expired_invites] leaves every party as it
    was but for the invites and join requests older than the TTL at the time
    the party is swept, which it drops; it drops the [player_invites] entries
    that point at a party whose invite for that player it dropped, and no
    other; it marks the registry dirty exactly when it dropped something (or
    the registry was dirty already), and changes nothing at all when nothing
    had expired. *)
Theorem cleanup_expired_invites_effect `{PyRuntime} (cfg : Config.t) (now_ms : UUID → Z * Z)
    (self : PartyManager.t) :
  let T := Config.invite_expiration_ms cfg in
  let self' := PartyManager.cleanup_expired_invites cfg now_ms self in
  (∀ key,
     PartyManager.parties self' !! key =
       (λ p, Party.set_join_requests
               (Party.live_at ((now_ms key).2 - T) (Party.join_requests p))
               (Party.set_invites (Party.live_at ((now_ms key).1 - T) (Party.invites p)) p))
         <$> PartyManager.parties self !! key) ∧
  (∀ key p' x sent_at,
     PartyManager.parties self' !! key = Some p' →
     (Party.invites p' !! x = Some sent_at → (now_ms key).1 - sent_at ≤ T) ∧
     (Party.join_requests p' !! x = Some sent_at → (now_ms key).2 - sent_at ≤ T)) ∧
  (∀ x party_id,
     PartyManager.player_invites self !! x = Some party_id →
     (PartyManager.player_invites self' !! x = Some party_id ∨
      PartyManager.player_invites self' !! x = None) ∧
     (PartyManager.player_invites self' !! x = None ↔
      ∃ key p sent_at,
        PartyManager.parties self !! key = Some p ∧ Party.id p = party_id ∧
        Party.invites p !! x = Some sent_at ∧ T < (now_ms key).1 - sent_at)) ∧
  (∀ x, PartyManager.player_invites self !! x = None →
        PartyManager.player_invites self' !! x = None) ∧
  PartyManager.player_to_party self' = PartyManager.player_to_party self ∧
  PartyManager.last_marker_positions self' = PartyManager.last_marker_positions self ∧
  PartyManager.player_names self' = PartyManager.player_names self ∧
  (PartyManager._dirty self' = true ↔
   PartyManager._dirty self = true ∨
   ∃ key p x sent_at,
     PartyManager.parties self !! key = Some p ∧
     ((Party.invites p !! x = Some sent_at ∧ T < (now_ms key).1 - sent_at) ∨
      (Party.join_requests p !! x = Some sent_at ∧ T < (now_ms key).2 - sent_at))) ∧
  ((∀ key p x sent_at,
      PartyManager.parties self !! key = Some p →
      (Party.invites p !! x = Some sent_at → (now_ms key).1 - sent_at ≤ T) ∧
      (Party.join_requests p !! x = Some sent_at → (now_ms key).2 - sent_at ≤ T)) →
   self' = self).
Proof.
  intros T self'.
  pose proof (sweep_fold T now_ms (map_to_list (PartyManager.parties self)) self false
                (NoDup_fst_map_to_list _)) as Hfold.
  cbv zeta in Hfold. rewrite list_to_map_to_list in Hfold.
  assert (Hself' : ∃ s1 d1,
    foldl (PartyManager.sweep_party T now_ms) (self, false)
      (map_to_list (PartyManager.parties self)) = (s1, d1) ∧
    self' = if d1 then PartyManager.mark_dirty s1 else s1).
  { subst self'. unfold PartyManager.cleanup_expired_invites. fold T.
    destruct (foldl _ _ _) as [s1 d1]. by exists s1, d1. }
  destruct Hself' as (s1 & d1 & Hs1 & Hself'). rewrite Hs1 in Hfold. cbn [fst snd] in Hfold.
  destruct Hfold as (Fp & Fv & Fi & Fm & Fn & Fd & Fr). cbn [orb] in Fr.
  assert (Hfields :
    PartyManager.parties self' = PartyManager.parties s1 ∧
    PartyManager.player_to_party self' = PartyManager.player_to_party s1 ∧
    PartyManager.player_invites self' = PartyManager.player_invites s1 ∧
    PartyManager.last_marker_positions self' = PartyManager.last_marker_positions s1 ∧
    PartyManager.player_names self' = PartyManager.player_names s1 ∧
    PartyManager._dirty self' = d1 || PartyManager._dirty s1).
  { rewrite Hself'. by destruct d1. }
  destruct Hfields as (Hp & Hi & Hv & Hm & Hn & Hd). clearbody self'. clear Hself' Hs1.
  assert (Hexpired : ∀ cutoff entries,
    Party.expired_at cutoff entries ≠ ∅ ↔
    ∃ x sent_at, entries !! x = Some sent_at ∧ sent_at < cutoff).
  { intros cutoff entries. split.
    - intros Hne. apply map_choose in Hne as (x & sent_at & Hx).
      apply map_lookup_filter_Some in Hx as [Hx Hlt]. by exists x, sent_at.
    - intros (x & sent_at & Hx & Hlt) Hempty.
      assert (Hin : Party.expired_at cutoff entries !! x = Some sent_at)
        by by apply map_lookup_filter_Some.
      by rewrite Hempty, lookup_empty in Hin. }
  assert (Hparties : ∀ key,
     PartyManager.parties self' !! key =
       (λ p, Party.set_join_requests
               (Party.live_at ((now_ms key).2 - T) (Party.join_requests p))
               (Party.set_invites (Party.live_at ((now_ms key).1 - T) (Party.invites p)) p))
         <$> PartyManager.parties self !! key).
  { intros key. rewrite Hp, Fp. by destruct (PartyManager.parties self !! key). }
  assert (Hindex : ∀ x,
     PartyManager.player_invites self' !! x =
       if bool_decide
            (Exists (λ kp : UUID * Party.t,
                       is_Some (Party.expired_at ((now_ms kp.1).1 - T)
                                  (Party.invites kp.2) !! x) ∧
                       PartyManager.player_invites self !! x = Some (Party.id kp.2))
               (map_to_list (PartyManager.parties self)))
       then None else PartyManager.player_invites self !! x).
  { intros x. by rewrite Hv, Fv. }
  split_and!.
  - exact Hparties.
  - intros key p' x sent_at Hkey. rewrite Hparties in Hkey.
    destruct (PartyManager.parties self !! key) as [p|]; [|done]. cbn in Hkey.
    injection Hkey as <-. cbn. split.
    + intros Hx. apply map_lookup_filter_Some in Hx as [_ Hlive]. cbn in Hlive. lia.
    + intros Hx. apply map_lookup_filter_Some in Hx as [_ Hlive]. cbn in Hlive. lia.
  - intros x party_id Hx. rewrite Hindex, Hx. split.
    + match goal with |- context [bool_decide ?P] => destruct (bool_decide P) end;
        [by right|by left].
    + decide_goal Hex.
      * split; [intros _|done].
        apply Exists_exists in Hex as ([key p] & Hin & [sent_at Hsent] & Hid).
        apply elem_of_map_to_list in Hin. cbn in *.
        apply map_lookup_filter_Some in Hsent as [Hsent Hlt]. cbn in Hlt.
        exists key, p, sent_at. split_and!; [done|congruence|done|lia].
      * split; [done|]. intros (key & p & sent_at & Hkey & Hid & Hsent & Hlt).
        exfalso. apply Hex. apply Exists_exists. exists (key, p). split.
        -- by apply elem_of_map_to_list.
        -- cbn. split; [|congruence]. exists sent_at.
           apply map_lookup_filter_Some. split; [done|]. cbn. lia.
  - intros x Hx. rewrite Hindex, Hx. by decide_goal Hex.
  - by rewrite Hi.
  - by rewrite Hm.
  - by rewrite Hn.
  - rewrite Hd, Fd, Fr, orb_true_iff, bool_decide_eq_true, Exists_exists. split.
    + intros [([key p] & Hin & Hexp)|Hdirty]; [right|by left].
      apply elem_of_map_to_list in Hin. cbn in Hexp.
      destruct Hexp as [Hexp|Hexp]; apply Hexpired in Hexp as (x & sent_at & Hx & Hlt);
        exists key, p, x, sent_at; (split; [done|]); [left|right]; (split; [done|lia]).
    + intros [Hdirty|(key & p & x & sent_at & Hkey & Hold)]; [by right|left].
      exists (key, p). split; [by apply elem_of_map_to_list|]. cbn.
      destruct Hold as [[Hx Hlt]|[Hx Hlt]]; [left|right]; apply Hexpired;
        exists x, sent_at; (split; [done|lia]).
  - intros Hlive.
    assert (Hnone : ∀ key p, PartyManager.parties self !! key = Some p →
              Party.expired_at ((now_ms key).1 - T) (Party.invites p) = ∅ ∧
              Party.expired_at ((now_ms key).2 - T) (Party.join_requests p) = ∅).
    { intros key p Hkey. split.
      - destruct (decide (Party.expired_at ((now_ms key).1 - T) (Party.invites p) = ∅))
          as [|Hne]; [done|].
        apply Hexpired in Hne as (x & sent_at & Hx & Hlt).
        destruct (Hlive key p x sent_at Hkey) as [Hle _]. specialize (Hle Hx). lia.
      - destruct (decide (Party.expired_at ((now_ms key).2 - T) (Party.join_requests p) = ∅))
          as [|Hne]; [done|].
        apply Hexpired in Hne as (x & sent_at & Hx & Hlt).
        destruct (Hlive key p x sent_at Hkey) as [_ Hle]. specialize (Hle Hx). lia. }
    assert (Hd1 : d1 = false).
    { rewrite Fr. apply bool_decide_eq_false_2. rewrite Exists_exists.
      intros ([key p] & Hin & Hexp). apply elem_of_map_to_list in Hin. cbn in Hexp.
      destruct (Hnone key p Hin) as [H1 H2]. by destruct Hexp. }
    apply registry_eq.
    + apply map_eq. intros key. rewrite Hparties.
      destruct (PartyManager.parties self !! key) as [p|] eqn:Hkey; [|done]. cbn.
      destruct (Hnone key p Hkey) as [H1 H2].
      rewrite (live_at_all _ _ H1), (live_at_all _ _ H2). by destruct p.
    + by rewrite Hi.
    + apply map_eq. intros x. rewrite Hindex. decide_goal Hex; [|done].
      apply Exists_exists in Hex as ([key p] & Hin & [sent_at Hsent] & _).
      apply elem_of_map_to_list in Hin. cbn in Hsent.
      destruct (Hnone key p Hin) as [H1 _]. by rewrite H1, lookup_empty in Hsent.
    + by rewrite Hm.
    + by rewrite Hn.
    + by rewrite Hd, Hd1, Fd.
Qed.

(** ** Rebuilding the indexes (party_manager.py, [_rebuild_indexes] and
       [load_all]) *)

Section Rebuild.
Context `{PyRuntime}.

Lemma index_members (party_id : UUID) (l : list UUID) (self : PartyManager.t) :
  let r :=
    foldl (λ self member_id,
             PartyManager.set_player_to_party
               (<[member_id := party_id]> (PartyManager.player_to_party self)) self)
          self l in
  (∀ x, PartyManager.player_to_party r !! x =
          if bool_decide (x ∈ l) then Some party_id
          else PartyManager.player_to_party self !! x) ∧
  PartyManager.parties r = PartyManager.parties self ∧
  PartyManager.player_invites r = PartyManager.player_invites self ∧
  PartyManager.last_marker_positions r = PartyManager.last_marker_positions self ∧
  PartyManager.player_names r = PartyManager.player_names self ∧
  PartyManager._dirty r = PartyManager._dirty self.
Proof.
  revert self. induction l as [|y l IH]; intros self r; subst r.
  - cbn [foldl]. split_and!; try done; intros x; by rewrite bool_decide_eq_false_2 by set_solver.
  - cbn [foldl].
    destruct (IH (PartyManager.set_player_to_party
                    (<[y := party_id]> (PartyManager.player_to_party self)) self))
      as (Hi & Hp & Hv & Hm & Hn & Hd).
    split_and!; try done. intros x. rewrite Hi. cbn.
    destruct (decide (x ∈ l)) as [Hin|Hnot].
    + rewrite (bool_decide_eq_true_2 _ Hin). by rewrite bool_decide_eq_true_2 by set_solver.
    + rewrite (bool_decide_eq_false_2 _ Hnot).
      destruct (decide (x = y)) as [->|Hne].
      * rewrite lookup_insert_eq. by rewrite bool_decide_eq_true_2 by set_solver.
      * rewrite lookup_insert_ne by done. by rewrite bool_decide_eq_false_2 by set_solver.
Qed.

Lemma index_invites (party_id : UUID) (l : list UUID) (self : PartyManager.t) :
  let r :=
    foldl (λ self invited_id,
             PartyManager.set_player_invites
               (<[invited_id := party_id]> (PartyManager.player_invites self)) self)
          self l in
  (∀ x, PartyManager.player_invites r !! x =
          if bool_decide (x ∈ l) then Some party_id
          else PartyManager.player_invites self !! x) ∧
  PartyManager.parties r = PartyManager.parties self ∧
  PartyManager.player_to_party r = PartyManager.player_to_party self ∧
  PartyManager.last_marker_positions r = PartyManager.last_marker_positions self ∧
  PartyManager.player_names r = PartyManager.player_names self ∧
  PartyManager._dirty r = PartyManager._dirty self.
Proof.
  revert self. induction l as [|y l IH]; intros self r; subst r.
  - cbn [foldl]. split_and!; try done; intros x; by rewrite bool_decide_eq_false_2 by set_solver.
  - cbn [foldl].
    destruct (IH (PartyManager.set_player_invites
                    (<[y := party_id]> (PartyManager.player_invites self)) self))
      as (Hi & Hp & Hv & Hm & Hn & Hd).
    split_and!; try done. intros x. rewrite Hi. cbn.
    destruct (decide (x ∈ l)) as [Hin|Hnot].
    + rewrite (bool_decide_eq_true_2 _ Hin). by rewrite bool_decide_eq_true_2 by set_solver.
    + rewrite (bool_decide_eq_false_2 _ Hnot).
      destruct (decide (x = y)) as [->|Hne].
      * rewrite lookup_insert_eq. by rewrite bool_decide_eq_true_2 by set_solver.
      * rewrite lookup_insert_ne by done. by rewrite bool_decide_eq_false_2 by set_solver.
Qed.

(** One round of the loop: the party is repaired as [from_dict] repairs it,
    short of the filter on [roles], and indexed. *)
Lemma rebuild_party_step (self : PartyManager.t) (changed : bool) (key : UUID)
    (party : Party.t) :
  let members :=
    if bool_decide (Party.leader party ∉ Party.members party)
    then {[Party.leader party]} ∪ Party.members party else Party.members party in
  let repaired :=
    Party.set_roles (<[Party.leader party := PartyRole.LEADER]> (Party.roles party))
      (Party.set_members members party) in
  let r := PartyManager.rebuild_party (self, changed) (key, party) in
  PartyManager.parties r.1 = <[key := repaired]> (PartyManager.parties self) ∧
  (∀ x, PartyManager.player_to_party r.1 !! x =
          if bool_decide (x ∈ members) then Some (Party.id party)
          else PartyManager.player_to_party self !! x) ∧
  (∀ x, PartyManager.player_invites r.1 !! x =
          if bool_decide (is_Some (Party.invites party !! x)) then Some (Party.id party)
          else PartyManager.player_invites self !! x) ∧
  PartyManager.last_marker_positions r.1 = PartyManager.last_marker_positions self ∧
  PartyManager.player_names r.1 = PartyManager.player_names self ∧
  PartyManager._dirty r.1 = PartyManager._dirty self ∧
  r.2 = changed || bool_decide (Party.leader party ∉ Party.members party)
                || bool_decide (Party.roles party !! Party.leader party ≠ Some PartyRole.LEADER).
Proof.
  intros members repaired r.
  assert (Hr : r =
    (foldl (λ self invited_id,
              PartyManager.set_player_invites
                (<[invited_id := Party.id party]> (PartyManager.player_invites self)) self)
       (foldl (λ self member_id,
                 PartyManager.set_player_to_party
                   (<[member_id := Party.id party]> (PartyManager.player_to_party self)) self)
          (PartyManager.store key repaired self) (set_iter members))
       (map_to_list (Party.invites party)).*1,
     changed || bool_decide (Party.leader party ∉ Party.members party)
             || bool_decide (Party.roles party !! Party.leader party ≠ Some PartyRole.LEADER))).
  { subst r repaired members. unfold PartyManager.rebuild_party.
    destruct (decide (Party.leader party ∉ Party.members party)) as [Hl|Hl];
      [rewrite !(bool_decide_eq_true_2 _ Hl)|rewrite !(bool_decide_eq_false_2 _ Hl)];
      cbv beta iota zeta; cbn [Party.roles Party.leader Party.set_members Party.members
                                 Party.id Party.set_roles Party.invites];
      (destruct (decide (Party.roles party !! Party.leader party ≠ Some PartyRole.LEADER))
        as [Hr|Hr];
       [rewrite !(bool_decide_eq_true_2 _ Hr)|rewrite !(bool_decide_eq_false_2 _ Hr)]);
      rewrite ?orb_true_r, ?orb_false_r; try reflexivity.
    all: f_equal; f_equal; try (by destruct party). }
  rewrite Hr. cbn [fst snd]. clear Hr r.
  set (s1 := PartyManager.store key repaired self).
  destruct (index_members (Party.id party) (set_iter members) s1) as (Mi & Mp & Mv & Mm & Mn & Md).
  destruct (index_invites (Party.id party) (map_to_list (Party.invites party)).*1
              (foldl (λ self member_id,
                        PartyManager.set_player_to_party
                          (<[member_id := Party.id party]> (PartyManager.player_to_party self))
                          self) s1 (set_iter members)))
    as (Vv & Vp & Vi & Vm & Vn & Vd).
  split_and!.
  - by rewrite Vp, Mp.
  - intros x. rewrite Vi, Mi. subst s1. cbn.
    apply (f_equal (λ b : bool, if b then Some (Party.id party)
                                else PartyManager.player_to_party self !! x)).
    apply bool_decide_ext. apply elem_of_set_iter.
  - intros x. rewrite Vv, Mv. subst s1. cbn.
    apply (f_equal (λ b : bool, if b then Some (Party.id party)
                                else PartyManager.player_invites self !! x)).
    apply bool_decide_ext. rewrite list_elem_of_fmap. split.
    + intros ([k v] & -> & Hin). apply elem_of_map_to_list in Hin. by exists v.
    + intros [v Hv]. exists (x, v). split; [done|]. by apply elem_of_map_to_list.
  - by rewrite Vm, Mm.
  - by rewrite Vn, Mn.
  - by rewrite Vd, Md.
  - done.
Qed.

Lemma rebuild_fold (l : list (UUID * Party.t)) (self : PartyManager.t) (changed : bool) :
  NoDup l.*1 →
  let r := foldl PartyManager.rebuild_party (self, changed) l in
  (∀ k, PartyManager.parties r.1 !! k =
          match (list_to_map l : gmap UUID Party.t) !! k with
          | Some p =>
              Some (Party.set_roles (<[Party.leader p := PartyRole.LEADER]> (Party.roles p))
                      (Party.set_members
                         (if bool_decide (Party.leader p ∉ Party.members p)
                          then {[Party.leader p]} ∪ Party.members p else Party.members p) p))
          | None => PartyManager.parties self !! k
          end) ∧
  (∀ x party_id,
     PartyManager.player_to_party r.1 !! x = Some party_id →
     (∃ kp, kp ∈ l ∧ Party.id kp.2 = party_id ∧
            (x = Party.leader kp.2 ∨ x ∈ Party.members kp.2)) ∨
     PartyManager.player_to_party self !! x = Some party_id) ∧
  (∀ x, (is_Some (PartyManager.player_to_party self !! x) ∨
         ∃ kp, kp ∈ l ∧ (x = Party.leader kp.2 ∨ x ∈ Party.members kp.2)) →
        is_Some (PartyManager.player_to_party r.1 !! x)) ∧
  (∀ x party_id,
     PartyManager.player_invites r.1 !! x = Some party_id →
     (∃ kp, kp ∈ l ∧ Party.id kp.2 = party_id ∧ is_Some (Party.invites kp.2 !! x)) ∨
     PartyManager.player_invites self !! x = Some party_id) ∧
  (∀ x, (is_Some (PartyManager.player_invites self !! x) ∨
         ∃ kp, kp ∈ l ∧ is_Some (Party.invites kp.2 !! x)) →
        is_Some (PartyManager.player_invites r.1 !! x)) ∧
  PartyManager.last_marker_positions r.1 = PartyManager.last_marker_positions self ∧
  PartyManager.player_names r.1 = PartyManager.player_names self ∧
  PartyManager._dirty r.1 = PartyManager._dirty self ∧
  r.2 = changed ||
        bool_decide
          (Exists (λ kp : UUID * Party.t,
                     Party.leader kp.2 ∉ Party.members kp.2 ∨
                     Party.roles kp.2 !! Party.leader kp.2 ≠ Some PartyRole.LEADER) l).
Proof.
  revert self changed. induction l as [|[k p] l IH]; intros self changed Hnodup r.
  - subst r. cbn [foldl fst snd]. split_and!; try done.
    + intros x pid Hx. by right.
    + intros x [Hx|(kp & Hin & _)]; [done|]. by apply elem_of_nil in Hin.
    + intros x pid Hx. by right.
    + intros x [Hx|(kp & Hin & _)]; [done|]. by apply elem_of_nil in Hin.
    + rewrite bool_decide_eq_false_2; [by rewrite orb_false_r|].
      intros Hex. by apply Exists_nil in Hex.
  - apply NoDup_cons in Hnodup as [Hk Hnodup]. subst r. cbn [foldl].
    destruct (rebuild_party_step self changed k p) as (Sp & Si & Sv & Sm & Sn & Sd & Sr).
    destruct (PartyManager.rebuild_party (self, changed) (k, p)) as [s1 c1].
    cbn [fst snd] in Sp, Si, Sv, Sm, Sn, Sd, Sr.
    destruct (IH s1 c1 Hnodup) as (Ip & Iis & Iic & Ivs & Ivc & Im & In & Id & Ir).
    assert (Hmem : ∀ x,
      x ∈ (if bool_decide (Party.leader p ∉ Party.members p)
           then {[Party.leader p]} ∪ Party.members p else Party.members p)
      ↔ x = Party.leader p ∨ x ∈ Party.members p).
    { intros x. destruct (decide (Party.leader p ∉ Party.members p)) as [Hl|Hl].
      - rewrite (bool_decide_eq_true_2 _ Hl). set_solver.
      - rewrite (bool_decide_eq_false_2 _ Hl). apply dec_stable in Hl. set_solver. }
    split_and!.
    + intros k'. rewrite Ip, Sp, list_to_map_cons.
      destruct (decide (k' = k)) as [->|Hne].
      * rewrite (not_elem_of_list_to_map_1 _ _ Hk). by rewrite !lookup_insert_eq.
      * by rewrite !lookup_insert_ne.
    + intros x pid Hx. apply Iis in Hx as [(kp & Hin & Hid & Hx)|Hx].
      * left. exists kp. split; [by apply list_elem_of_further|done].
      * rewrite Si in Hx. revert Hx. decide_goal Hin.
        -- intros [= <-]. left. exists (k, p). split; [apply list_elem_of_here|].
           split; [done|]. by apply Hmem.
        -- intros Hx. by right.
    + intros x Hx. apply Iic. destruct Hx as [Hx|(kp & Hin & Hx)].
      * left. rewrite Si. by decide_goal Hin.
      * apply elem_of_cons in Hin as [->|Hin]; [|right; by exists kp].
        left. rewrite Si. rewrite bool_decide_eq_true_2; [done|]. by apply Hmem.
    + intros x pid Hx. apply Ivs in Hx as [(kp & Hin & Hid & Hx)|Hx].
      * left. exists kp. split; [by apply list_elem_of_further|done].
      * rewrite Sv in Hx. revert Hx. decide_goal Hin.
        -- intros [= <-]. left. exists (k, p). split; [apply list_elem_of_here|done].
        -- intros Hx. by right.
    + intros x Hx. apply Ivc. destruct Hx as [Hx|(kp & Hin & Hx)].
      * left. rewrite Sv. by decide_goal Hin.
      * apply elem_of_cons in Hin as [->|Hin]; [|right; by exists kp].
        left. rewrite Sv. by rewrite bool_decide_eq_true_2.
    + by rewrite Im.
    + by rewrite In.
    + by rewrite Id.
    + rewrite Ir, Sr. rewrite <-!orb_assoc. f_equal.
      destruct (decide (Party.leader p ∉ Party.members p)) as [H1|H1];
        [rewrite (bool_decide_eq_true_2 _ H1)|rewrite (bool_decide_eq_false_2 _ H1)];
        (destruct (decide (Party.roles p !! Party.leader p ≠ Some PartyRole.LEADER))
          as [H2|H2];
         [rewrite (bool_decide_eq_true_2 _ H2)|rewrite (bool_decide_eq_false_2 _ H2)]); cbn.
      * symmetry. apply bool_decide_eq_true_2. apply Exists_cons_hd. by left.
      * symmetry. apply bool_decide_eq_true_2. apply Exists_cons_hd. by left.
      * symmetry. apply bool_decide_eq_true_2. apply Exists_cons_hd. by right.
      * apply bool_decide_ext. rewrite Exists_cons. cbn [fst snd]. tauto.
Qed.

End Rebuild.

Lemma rebuild_indexes_spec `{PyRuntime} (self : PartyManager.t) :
  let self' := PartyManager._rebuild_indexes self in
  (∀ key,
     PartyManager.parties self' !! key =
       (λ p, Party.set_roles (<[Party.leader p := PartyRole.LEADER]> (Party.roles p))
               (Party.set_members
                  (if bool_decide (Party.leader p ∉ Party.members p)
                   then {[Party.leader p]} ∪ Party.members p else Party.members p) p))
         <$> PartyManager.parties self !! key) ∧
  Invariant.index_sound self' ∧
  Invariant.index_complete self' ∧
  Invariant.invites_sound self' ∧
  (∀ key p x, PartyManager.parties self' !! key = Some p → is_Some (Party.invites p !! x) →
              is_Some (PartyManager.player_invites self' !! x)) ∧
  PartyManager.last_marker_positions self' = PartyManager.last_marker_positions self ∧
  PartyManager.player_names self' = PartyManager.player_names self ∧
  (PartyManager._dirty self' = true ↔
   PartyManager._dirty self = true ∨
   ∃ key p, PartyManager.parties self !! key = Some p ∧
            (Party.leader p ∉ Party.members p ∨
             Party.roles p !! Party.leader p ≠ Some PartyRole.LEADER)).
Proof.
  intros self'.
  set (self0 := PartyManager.set_player_invites ∅ (PartyManager.set_player_to_party ∅ self)).
  pose proof (rebuild_fold (map_to_list (PartyManager.parties self)) self0 false
                (NoDup_fst_map_to_list _)) as Hfold.
  cbv zeta in Hfold. rewrite list_to_map_to_list in Hfold.
  assert (Hself' : ∃ s1 c1,
    foldl PartyManager.rebuild_party (self0, false) (map_to_list (PartyManager.parties self))
      = (s1, c1) ∧
    self' = if c1 then PartyManager.mark_dirty s1 else s1).
  { subst self'. unfold PartyManager._rebuild_indexes. cbv zeta. fold self0.
    change (PartyManager.parties self0) with (PartyManager.parties self).
    destruct (foldl _ _ _) as [s1 c1]. by exists s1, c1. }
  destruct Hself' as (s1 & c1 & Hs1 & Hself'). rewrite Hs1 in Hfold. cbn [fst snd] in Hfold.
  destruct Hfold as (Fp & Fis & Fic & Fvs & Fvc & Fm & Fn & Fd & Fr). cbn [orb] in Fr.
  assert (Hfields :
    PartyManager.parties self' = PartyManager.parties s1 ∧
    PartyManager.player_to_party self' = PartyManager.player_to_party s1 ∧
    PartyManager.player_invites self' = PartyManager.player_invites s1 ∧
    PartyManager.last_marker_positions self' = PartyManager.last_marker_positions s1 ∧
    PartyManager.player_names self' = PartyManager.player_names s1 ∧
    PartyManager._dirty self' = c1 || PartyManager._dirty s1).
  { rewrite Hself'. by destruct c1. }
  destruct Hfields as (Hp & Hi & Hv & Hm & Hn & Hd). clearbody self'. clear Hself' Hs1.
  assert (Hparties : ∀ key,
     PartyManager.parties self' !! key =
       (λ p, Party.set_roles (<[Party.leader p := PartyRole.LEADER]> (Party.roles p))
               (Party.set_members
                  (if bool_decide (Party.leader p ∉ Party.members p)
                   then {[Party.leader p]} ∪ Party.members p else Party.members p) p))
         <$> PartyManager.parties self !! key).
  { intros key. rewrite Hp, Fp. change (PartyManager.parties self0) with (PartyManager.parties self).
    by destruct (PartyManager.parties self !! key). }
  assert (Hmem : ∀ p x,
    x ∈ (if bool_decide (Party.leader p ∉ Party.members p)
         then {[Party.leader p]} ∪ Party.members p else Party.members p)
    ↔ x = Party.leader p ∨ x ∈ Party.members p).
  { intros p x. destruct (decide (Party.leader p ∉ Party.members p)) as [Hl|Hl].
    - rewrite (bool_decide_eq_true_2 _ Hl). set_solver.
    - rewrite (bool_decide_eq_false_2 _ Hl). apply dec_stable in Hl. set_solver. }
  split_and!.
  - exact Hparties.
  - intros x pid Hx. rewrite Hi in Hx. apply Fis in Hx as [([k p] & Hin & Hid & Hx)|Hx];
      [|subst self0; cbn in Hx; by rewrite lookup_empty in Hx].
    apply elem_of_map_to_list in Hin. cbn in *. eexists k, _. split_and!.
    + rewrite Hparties, Hin. reflexivity.
    + done.
    + cbn. by apply Hmem.
  - intros key p' x Hkey Hx. rewrite Hparties in Hkey.
    destruct (PartyManager.parties self !! key) as [p|] eqn:Hin; [|done].
    cbn in Hkey. injection Hkey as <-. cbn in Hx. rewrite Hi. apply Fic. right.
    exists (key, p). split; [by apply elem_of_map_to_list|]. cbn. by apply Hmem.
  - intros x pid Hx. rewrite Hv in Hx. apply Fvs in Hx as [([k p] & Hin & Hid & Hx)|Hx];
      [|subst self0; cbn in Hx; by rewrite lookup_empty in Hx].
    apply elem_of_map_to_list in Hin. cbn in *. eexists k, _. split_and!.
    + rewrite Hparties, Hin. reflexivity.
    + done.
    + done.
  - intros key p' x Hkey Hx. rewrite Hparties in Hkey.
    destruct (PartyManager.parties self !! key) as [p|] eqn:Hin; [|done].
    cbn in Hkey. injection Hkey as <-. cbn in Hx. rewrite Hv. apply Fvc. right.
    exists (key, p). split; [by apply elem_of_map_to_list|done].
  - by rewrite Hm, Fm.
  - by rewrite Hn, Fn.
  - rewrite Hd, Fd, Fr, orb_true_iff, bool_decide_eq_true, Exists_exists. split.
    + intros [([key p] & Hin & Hbad)|Hdirty]; [right|by left].
      apply elem_of_map_to_list in Hin. by exists key, p.
    + intros [Hdirty|(key & p & Hkey & Hbad)]; [by right|left].
      exists (key, p). split; [by apply elem_of_map_to_list|done].
Qed.

(** X8. [_rebuild_indexes] repairs invariant 1 and the first half of
    invariant 2 in every party (the leader is added to [members] and given
    the role [LEADER]; nothing else of a party changes) and builds both
    indexes from the parties alone: every [player_to_party] entry leads to a
    party that has the player as a member, every member has an entry, every
    [player_invites] entry leads to a party that holds the invite, and every
    invited player has an entry. The registry is marked dirty exactly when a
    party needed a repair. When parties are stored under their own [id] and
    no player is a member of two of them, [player_to_party] is exact. *)
Theorem rebuild_indexes_effect `{PyRuntime} (self : PartyManager.t) :
  let self' := PartyManager._rebuild_indexes self in
  (∀ key,
     PartyManager.parties self' !! key =
       (λ p, Party.set_roles (<[Party.leader p := PartyRole.LEADER]> (Party.roles p))
               (Party.set_members
                  (if bool_decide (Party.leader p ∉ Party.members p)
                   then {[Party.leader p]} ∪ Party.members p else Party.members p) p))
         <$> PartyManager.parties self !! key) ∧
  Invariant.every_party
    (λ p, Invariant.leader_is_member p ∧ Invariant.leader_has_role p) self' ∧
  Invariant.index_sound self' ∧
  Invariant.index_complete self' ∧
  Invariant.invites_sound self' ∧
  (∀ key p x, PartyManager.parties self' !! key = Some p → is_Some (Party.invites p !! x) →
              is_Some (PartyManager.player_invites self' !! x)) ∧
  (PartyManager._dirty self' = true ↔
   PartyManager._dirty self = true ∨
   ∃ key p, PartyManager.parties self !! key = Some p ∧
            (Party.leader p ∉ Party.members p ∨
             Party.roles p !! Party.leader p ≠ Some PartyRole.LEADER)) ∧
  (Invariant.keyed_by_id self →
   (∀ key1 key2 p1 p2 x,
      PartyManager.parties self' !! key1 = Some p1 →
      PartyManager.parties self' !! key2 = Some p2 →
      x ∈ Party.members p1 → x ∈ Party.members p2 → key1 = key2) →
   Invariant.index_exact self').
Proof.
  intros self'.
  destruct (rebuild_indexes_spec self) as (Hp & Hsound & Hcomplete & Hvs & Hvc & _ & _ & Hd).
  fold self' in Hp, Hsound, Hcomplete, Hvs, Hvc, Hd.
  split_and!; try done.
  - intros key p' Hkey. rewrite Hp in Hkey.
    destruct (PartyManager.parties self !! key) as [p|]; [|done].
    cbn in Hkey. injection Hkey as <-.
    unfold Invariant.leader_is_member, Invariant.leader_has_role. cbn. split.
    + destruct (decide (Party.leader p ∉ Party.members p)) as [Hl|Hl].
      * rewrite (bool_decide_eq_true_2 _ Hl). set_solver.
      * rewrite (bool_decide_eq_false_2 _ Hl). by apply dec_stable in Hl.
    + apply lookup_insert_eq.
  - intros Hkeyed Hdisjoint.
    assert (Hkeyed' : Invariant.keyed_by_id self').
    { intros key p' Hkey. rewrite Hp in Hkey.
      destruct (PartyManager.parties self !! key) as [p|] eqn:Hin; [|done].
      cbn in Hkey. injection Hkey as <-. cbn. by apply Hkeyed. }
    intros x pid. split.
    + intros Hx. apply Hsound in Hx as (key & p & Hkey & Hid & Hx).
      exists p. split; [|done]. by rewrite <-Hid, (Hkeyed' key p Hkey).
    + intros (p & Hkey & Hx).
      destruct (Hcomplete pid p x Hkey Hx) as [pid' Hpid'].
      destruct (Hsound x pid' Hpid') as (key' & p' & Hkey' & Hid' & Hx').
      rewrite (Hkeyed' key' p' Hkey') in Hid'. subst key'.
      by rewrite (Hdisjoint pid pid' p p' x Hkey Hkey' Hx Hx').
Qed.

Section Load.
Context `{PyRuntime}.

Lemma from_dict_repaired (now : Z) (data : list (string * PyVal)) (p : Party.t) :
  Party.from_dict now data = Ok (Some p) →
  Invariant.leader_is_member p ∧ Invariant.leader_has_role p ∧
  Invariant.roles_within_members p.
Proof.
  unfold Party.from_dict. intros Hdecode.
  destruct (Py._parse_uuid (Py.get "id" data)) as [party_id|]; [|done].
  destruct (Py._parse_uuid (Py.get "leader" data)) as [leader_id|]; [|done].
  repeat (apply bind_Ok in Hdecode as (? & _ & Hdecode); cbn beta zeta in Hdecode).
  injection Hdecode as <-.
  match goal with
  | |- context [Party.set_members _ ?q] => exact (from_dict_repair q)
  end.
Qed.

Lemma load_entries_sound (now : Z) (entries : list PyVal) (acc parties : gmap UUID Party.t) :
  PartyStorage.load_entries now entries acc = Ok parties →
  ∀ k q, parties !! k = Some q →
         acc !! k = Some q ∨ ∃ d, Party.from_dict now d = Ok (Some q) ∧ Party.id q = k.
Proof.
  revert acc. induction entries as [|e entries IH]; intros acc Hload k q Hq.
  - cbn in Hload. injection Hload as <-. by left.
  - destruct e as [| | | | | |d]; cbn in Hload; try (by apply (IH acc Hload)).
    destruct (Party.from_dict now d) as [[p|]|] eqn:Hd; cbn in Hload; [| |done].
    + destruct (IH _ Hload k q Hq) as [Hacc|Hnew]; [|by right].
      destruct (decide (k = Party.id p)) as [->|Hne].
      * rewrite lookup_insert_eq in Hacc. injection Hacc as <-. right. by exists d.
      * rewrite lookup_insert_ne in Hacc by done. by left.
    + by apply (IH acc Hload).
Qed.

Lemma load_sound (now : Z) (file : PartyStorage.file_state) (parties : gmap UUID Party.t)
    (names : gmap UUID string) :
  PartyStorage.load now file = Ok (parties, names) →
  ∀ k q, parties !! k = Some q →
         Party.id q = k ∧ Invariant.leader_is_member q ∧ Invariant.leader_has_role q ∧
         Invariant.roles_within_members q.
Proof.
  intros Hload k q Hq.
  assert (Hfrom : ∃ d, Party.from_dict now d = Ok (Some q) ∧ Party.id q = k).
  { destruct file as [| |payload]; cbn in Hload; try (injection Hload as <- <-; done).
    destruct payload as [| | | | |entries|payload]; cbn in Hload;
      try (injection Hload as <- <-; done).
    - apply bind_Ok in Hload as (ps & Hps & Hload). injection Hload as <- <-.
      destruct (load_entries_sound now entries ∅ ps Hps k q Hq) as [Hacc|Hnew]; [done|done].
    - apply bind_Ok in Hload as (entries & _ & Hload).
      apply bind_Ok in Hload as (ps & Hps & Hload). injection Hload as <- <-.
      destruct (load_entries_sound now entries ∅ ps Hps k q Hq) as [Hacc|Hnew]; [done|done]. }
  destruct Hfrom as (d & Hd & Hid). split; [done|]. by apply (from_dict_repaired now d).
Qed.

End Load.

(** X9. Start-up. After [load_all], whatever the file holds and whatever the
    registry held before: the registry is not dirty; its parties and names
    are those [PartyStorage.load] returned (none when it raised); every party
    is stored under its own [id] and has its leader among its members with
    the role [LEADER] and no role entries outside [members]; and the indexes
    agree with the parties as in X8. *)
Theorem load_all_of_storage `{PyRuntime} (now : Z) (file : PartyStorage.file_state)
    (self : PartyManager.t) :
  let self' := PartyManager.load_all (PartyStorage.load now file) self in
  PartyManager._dirty self' = false ∧
  (∀ parties names,
     PartyStorage.load now file = Ok (parties, names) →
     PartyManager.parties self' = parties ∧ PartyManager.player_names self' = names) ∧
  (PartyStorage.load now file = Raised →
     PartyManager.parties self' = ∅ ∧ PartyManager.player_names self' = ∅) ∧
  Invariant.keyed_by_id self' ∧
  Invariant.every_party
    (λ p, Invariant.leader_is_member p ∧ Invariant.leader_has_role p ∧
          Invariant.roles_within_members p) self' ∧
  Invariant.index_sound self' ∧
  Invariant.index_complete self' ∧
  Invariant.invites_sound self'.
Proof.
  intros self'.
  set (loaded := match PartyStorage.load now file with Ok r => r | Raised => (∅, ∅) end).
  set (self1 := PartyManager.set_dirty false
                  (PartyManager.set_player_names loaded.2
                     (PartyManager.set_parties loaded.1 self))).
  assert (Hself' : self' = PartyManager._rebuild_indexes self1).
  { subst self' self1 loaded. unfold PartyManager.load_all.
    by destruct (PartyStorage.load now file) as [[ps ns]|]. }
  assert (Hloaded : ∀ k q, loaded.1 !! k = Some q →
            Party.id q = k ∧ Invariant.leader_is_member q ∧ Invariant.leader_has_role q ∧
            Invariant.roles_within_members q).
  { subst loaded. destruct (PartyStorage.load now file) as [[ps ns]|] eqn:Hload.
    - cbn. by apply (load_sound now file ps ns).
    - cbn. intros k q Hq. by rewrite lookup_empty in Hq. }
  destruct (rebuild_indexes_spec self1) as (Hp & Hsound & Hcomplete & Hvs & _ & _ & Hn & Hd).
  rewrite <-Hself' in Hp, Hsound, Hcomplete, Hvs, Hn, Hd.
  change (PartyManager.parties self1) with loaded.1 in Hp, Hd.
  change (PartyManager.player_names self1) with loaded.2 in Hn.
  change (PartyManager._dirty self1) with false in Hd.
  assert (Hparties : PartyManager.parties self' = loaded.1).
  { apply map_eq. intros key. rewrite Hp.
    destruct (loaded.1 !! key) as [p|] eqn:Hkey; [|done]. cbn. f_equal.
    destruct (Hloaded key p Hkey) as (_ & Hlead & Hrole & _).
    rewrite bool_decide_eq_false_2 by (intros Hn'; by apply Hn').
    rewrite (insert_id _ _ _ Hrole). by destruct p. }
  clearbody self'. split_and!.
  - apply not_true_is_false. intros Hdirty.
    apply Hd in Hdirty as [?|(key & p & Hkey & Hbad)]; [done|].
    destruct (Hloaded key p Hkey) as (_ & Hlead & Hrole & _). by destruct Hbad.
  - intros ps ns Hload. subst loaded. rewrite Hload in Hparties, Hn. by cbn in *.
  - intros Hload. subst loaded. rewrite Hload in Hparties, Hn. by cbn in *.
  - intros key p Hkey. rewrite Hparties in Hkey.
    by destruct (Hloaded key p Hkey) as (? & ? & ? & ?).
  - intros key p Hkey. rewrite Hparties in Hkey.
    by destruct (Hloaded key p Hkey) as (? & ? & ? & ?).
  - done.
  - done.
  - done.
Qed.

(** ** Saving and loading (storage.py, [PartyStorage.save] and
       [PartyStorage.load]) *)

Section SaveLoad.
Context `{PyRuntime}.
Hypothesis uuid_parse_str : ∀ u : UUID, uuid_parse (uuid_str u) = Some u.

Lemma from_dict_to_dict_same (now : Z) (p : Party.t) :
  Invariant.leader_is_member p → Invariant.leader_has_role p →
  Invariant.roles_within_members p →
  Party.name p = VNone ∨ Py.truthy (Party.name p) = true →
  Party.from_dict now (Party.to_dict p) = Ok (Some p).
Proof.
  intros Hin Hrole Hwithin Hname. rewrite (from_dict_to_dict uuid_parse_str). cbv zeta.
  unfold Invariant.leader_is_member, Invariant.leader_has_role, Invariant.roles_within_members
    in *.
  destruct p as [pid leader members invites jr home created name pub roles banned
                 tp tk td color icon allies ldr cd lrd ach seen].
  cbn [Party.id Party.leader Party.members Party.invites Party.join_requests Party.home
       Party.created_at Party.name Party.is_public Party.roles Party.banned_players
       Party.total_play_time_ms Party.total_kills Party.total_deaths Party.color Party.icon
       Party.allies Party.last_daily_reward Party.consecutive_days Party.last_reward_date
       Party.achievements Party.last_seen] in *.
  rewrite bool_decide_eq_false_2 by tauto.
  do 2 f_equal. f_equal.
  - destruct Hname as [->| ->]; done.
  - rewrite (insert_id _ _ _ Hrole). apply map_filter_id.
    intros k r Hr. apply Hwithin. by exists r.
Qed.

Lemma load_entries_saved (now : Z) (ps : list Party.t) (acc : gmap UUID Party.t) :
  Forall (λ p, Party.from_dict now (Party.to_dict p) = Ok (Some p)) ps →
  PartyStorage.load_entries now ((λ party, VDict (Party.to_dict party)) <$> ps) acc
  = Ok (foldl (λ parties kv, <[kv.1 := kv.2]> parties) acc ((λ p, (Party.id p, p)) <$> ps)).
Proof.
  revert acc. induction ps as [|p ps IH]; intros acc Hps; [done|].
  apply Forall_cons in Hps as [Hp Hps]. cbn. rewrite Hp. cbn. by apply IH.
Qed.

Lemma load_names_saved (l : list (UUID * string)) (acc : gmap UUID string) :
  Forall (λ kv, kv.2 ≠ "" ∧ Py.strip kv.2 = kv.2) l →
  foldl PartyStorage.load_name acc ((λ kv : UUID * string, (uuid_str kv.1, VStr kv.2)) <$> l)
  = foldl (λ names kv, <[kv.1 := kv.2]> names) acc l.
Proof.
  revert acc. induction l as [|[k n] l IH]; intros acc Hl; [done|].
  apply Forall_cons in Hl as [[Hn Hstrip] Hl]. cbn in *.
  rewrite <-(IH _ Hl). f_equal. unfold PartyStorage.load_name. cbn.
  rewrite uuid_parse_str, Hstrip.
  destruct (String.eqb_spec n ""); [done|done].
Qed.

End SaveLoad.

(** [strip] on white space outside the ASCII range: a name between a
    no-break space (U+00A0, the bytes C2 A0) and an ideographic space
    (U+3000, the bytes E3 80 80) is stripped to the name; a no-break space
    inside a name stays; and U+00A1 (C2 A1) is no white space. *)
Example strip_unicode_white_space :
  Py.strip (String "194" (String "160" "Bob") +:+ String "227" (String "128" (String "128" "")))
  = "Bob" ∧
  Py.strip (" Bob" +:+ String "194" (String "160" "B "))
  = "Bob" +:+ String "194" (String "160" "B") ∧
  Py.strip (String "194" (String "161" "Bob")) = String "194" (String "161" "Bob").
Proof. split_and!; vm_compute; reflexivity. Qed.

(** The document that [save] builds from a list of parties, read by [load]:
    every party is stored under its [id], a later one replacing an earlier
    one with the same [id]. *)
Lemma save_load_values `{PyRuntime} (now : Z) (values : list Party.t)
    (names : gmap UUID string) :
  (∀ u : UUID, uuid_parse (uuid_str u) = Some u) →
  Forall (λ p, Invariant.leader_is_member p ∧ Invariant.leader_has_role p ∧
               Invariant.roles_within_members p ∧
               (Party.name p = VNone ∨ Py.truthy (Party.name p) = true)) values →
  (∀ player_id name, names !! player_id = Some name → name ≠ "" ∧ Py.strip name = name) →
  PartyStorage.load now (PartyStorage.Parsed (PartyStorage.save values names))
  = Ok (foldl (λ parties kv, <[kv.1 := kv.2]> parties) ∅ ((λ p, (Party.id p, p)) <$> values),
        names).
Proof.
  intros Hlaw Hparties Hnames.
  unfold PartyStorage.save, PartyStorage.load.
  change (Py.get_default "player_names" (VDict []) ?payload)
    with (VDict ((λ kv : UUID * string, (uuid_str kv.1, VStr kv.2))
                   <$> filter (λ kv : UUID * string, kv.2 ≠ "") (map_to_list names))).
  change (Py.get_default "parties" (VList []) ?payload)
    with (VList ((λ party, VDict (Party.to_dict party)) <$> values)).
  cbn [Py.iter mbind result_bind].
  assert (Hsaved : Forall (λ p, Party.from_dict now (Party.to_dict p) = Ok (Some p)) values).
  { eapply Forall_impl; [exact Hparties|]. intros p (H1 & H2 & H3 & H4).
    by apply from_dict_to_dict_same. }
  rewrite (load_entries_saved now values ∅ Hsaved). cbn [mbind result_bind].
  do 2 f_equal.
  rewrite filter_all.
  - rewrite load_names_saved.
    + rewrite foldl_insert_union by apply NoDup_fst_map_to_list.
      rewrite (right_id_L ∅ (∪)). apply list_to_map_to_list.
    + done.
    + apply Forall_forall. intros [k n] Hin. apply elem_of_map_to_list in Hin.
      by apply (Hnames k n).
  - apply Forall_forall. intros [k n] Hin. apply elem_of_map_to_list in Hin.
    by apply (Hnames k n).
Qed.

(** The parties of a registry, stored again under their [id]s. *)
Lemma stored_values (self : PartyManager.t) (values : list Party.t) :
  values ≡ₚ PartyManager.all_parties self →
  Invariant.keyed_by_id self →
  foldl (λ parties kv, <[kv.1 := kv.2]> parties) ∅ ((λ p, (Party.id p, p)) <$> values)
  = PartyManager.parties self.
Proof.
  intros Hvalues Hkeyed.
  assert (Hpairs : (λ p, (Party.id p, p)) <$> values
                   ≡ₚ map_to_list (PartyManager.parties self)).
  { rewrite Hvalues. unfold PartyManager.all_parties. rewrite <-list_fmap_compose.
    rewrite <-(list_fmap_id (map_to_list (PartyManager.parties self))) at 2.
    apply eq_subrelation; [apply _|]. apply list_fmap_ext. intros i [k p] Hi.
    apply list_elem_of_lookup_2, elem_of_map_to_list in Hi. cbn.
    by rewrite (Hkeyed k p Hi). }
  assert (Hnodup : NoDup ((λ p, (Party.id p, p)) <$> values).*1).
  { rewrite Hpairs. apply NoDup_fst_map_to_list. }
  rewrite (foldl_insert_union _ _ Hnodup), (right_id_L ∅ (∪)).
  rewrite (list_to_map_proper _ _ Hnodup Hpairs). apply list_to_map_to_list.
Qed.

(** X10. What [save] writes, [load] reads back. Take a registry whose parties
    are stored under their own [id], have their leader among their members
    with the role [LEADER], no role entries outside [members] and a name that
    is absent or not empty, and whose player names are not empty and have no
    white space at either end, that is, [name.strip() == name], the white
    space being Unicode's. Then loading the document that [save] writes
    for it (the parties in any order) returns exactly its parties and its
    player names, provided [UUID(str(u)) == u]. *)
Theorem save_then_load `{PyRuntime} (now : Z) (self : PartyManager.t) (values : list Party.t) :
  (∀ u : UUID, uuid_parse (uuid_str u) = Some u) →
  values ≡ₚ PartyManager.all_parties self →
  Invariant.keyed_by_id self →
  Invariant.every_party
    (λ p, Invariant.leader_is_member p ∧ Invariant.leader_has_role p ∧
          Invariant.roles_within_members p ∧
          (Party.name p = VNone ∨ Py.truthy (Party.name p) = true)) self →
  (∀ player_id name,
     PartyManager.player_names self !! player_id = Some name →
     name ≠ "" ∧ Py.strip name = name) →
  PartyStorage.load now
    (PartyStorage.Parsed (PartyStorage.save values (PartyManager.player_names self)))
  = Ok (PartyManager.parties self, PartyManager.player_names self).
Proof.
  intros Hlaw Hvalues Hkeyed Hparties Hnames.
  rewrite save_load_values; [|done| |done].
  - by rewrite (stored_values self values).
  - apply Forall_forall. intros p Hp. rewrite Hvalues in Hp.
    unfold PartyManager.all_parties in Hp. apply list_elem_of_fmap in Hp as ([k q] & -> & Hin).
    apply elem_of_map_to_list in Hin. by apply (Hparties k q).
Qed.

(** The registry of the sample party [{A, B, C}], saved and loaded. *)
Lemma save_then_load_witness :
  PartyStorage.load 0
    (PartyStorage.Parsed
       (PartyStorage.save (PartyManager.all_parties Sample.trio)
          (PartyManager.player_names Sample.trio)))
  = Ok (PartyManager.parties Sample.trio, PartyManager.player_names Sample.trio).
Proof.
  assert (Hstored : PartyManager.parties Sample.trio
                    = {[Sample.P := Sample.party_of Sample.trio]}).
  { vm_compute. reflexivity. }
  apply (@save_then_load Ref.runtime 0 Sample.trio (PartyManager.all_parties Sample.trio)).
  - exact ref_parse_str.
  - reflexivity.
  - intros key p Hkey. rewrite Hstored in Hkey.
    apply lookup_singleton_Some in Hkey as [<- <-]. vm_compute. reflexivity.
  - intros key p Hkey. rewrite Hstored in Hkey.
    apply lookup_singleton_Some in Hkey as [<- <-].
    assert (Hall : Invariant.all (Sample.party_of Sample.trio)).
    { apply invariant_all_decide;
        solve [ vm_compute; reflexivity | apply (bool_decide_unpack _); vm_compute; exact I ]. }
    destruct Hall as (H1 & H2 & H3 & _). split_and!; try done. left. vm_compute. reflexivity.
  - apply (bool_decide_unpack
             (map_Forall (λ _ name, name ≠ "" ∧ Py.strip name = name)
                (PartyManager.player_names Sample.trio))).
    vm_compute. exact I.
Defined.

(** ** The player index (party_manager.py, [player_to_party]) *)

Lemma not_in_party (self : PartyManager.t) (x : UUID) :
  Invariant.index_exact self →
  PartyManager.is_in_party self x = false →
  PartyManager.player_to_party self !! x = None.
Proof.
  intros Hexact Hnot. destruct (PartyManager.player_to_party self !! x) as [pid|] eqn:Hx; [|done].
  destruct (proj1 (Hexact x pid) Hx) as (p & Hp & Hin).
  unfold PartyManager.is_in_party, PartyManager.get_player_party in Hnot.
  rewrite Hx, Hp in Hnot. unfold Party.is_member in Hnot.
  by rewrite bool_decide_eq_true_2 in Hnot.
Qed.

Lemma members_same (parties parties' : gmap UUID Party.t) (pid y : UUID) :
  Party.members <$> parties' !! pid = Party.members <$> parties !! pid →
  (∃ p, parties' !! pid = Some p ∧ y ∈ Party.members p)
  ↔ ∃ p, parties !! pid = Some p ∧ y ∈ Party.members p.
Proof.
  intros Hmem.
  destruct (parties' !! pid) as [p'|], (parties !! pid) as [p|]; cbn in Hmem; try done.
  injection Hmem as Hmem. split; intros (q & [= <-] & Hq); eexists; (split; [done|]).
  - by rewrite <-Hmem.
  - by rewrite Hmem.
Qed.

(** The calls that change no member set and no index entry. *)
Lemma index_exact_same (self self' : PartyManager.t) :
  Invariant.index_exact self →
  (∀ pid, Party.members <$> PartyManager.parties self' !! pid
          = Party.members <$> PartyManager.parties self !! pid) →
  PartyManager.player_to_party self' = PartyManager.player_to_party self →
  Invariant.index_exact self'.
Proof.
  intros Hexact Hmem Hidx x pid. rewrite Hidx, (Hexact x pid).
  symmetry. by apply members_same.
Qed.

(** A player who is in no party joins the party stored under [party], or
    founds it. *)
Lemma index_exact_join (self self' : PartyManager.t) (party x : UUID) (ms : gset UUID) :
  Invariant.index_exact self →
  PartyManager.is_in_party self x = false →
  Party.members <$> PartyManager.parties self !! party = Some ms ∨
    (PartyManager.parties self !! party = None ∧ ms = ∅) →
  Party.members <$> PartyManager.parties self' !! party = Some ({[x]} ∪ ms) →
  (∀ pid, pid ≠ party →
          Party.members <$> PartyManager.parties self' !! pid
          = Party.members <$> PartyManager.parties self !! pid) →
  PartyManager.player_to_party self' = <[x := party]> (PartyManager.player_to_party self) →
  Invariant.index_exact self'.
Proof.
  intros Hexact Hnot Hold Hnew Hother Hidx y pid. rewrite Hidx.
  pose proof (not_in_party self x Hexact Hnot) as Hx.
  destruct (decide (pid = party)) as [->|Hpid].
  - destruct (PartyManager.parties self' !! party) as [p'|] eqn:Hp'; [|done].
    cbn in Hnew. injection Hnew as Hnew.
    destruct (decide (y = x)) as [->|Hy].
    + rewrite lookup_insert_eq. split; [intros _|done]. exists p'. split; [done|].
      rewrite Hnew. set_solver.
    + rewrite lookup_insert_ne by done. rewrite (Hexact y party). split.
      * intros (p & Hp & Hin). exists p'. split; [done|]. rewrite Hnew.
        destruct Hold as [Hold|[Hold _]]; [|by rewrite Hold in Hp].
        rewrite Hp in Hold. cbn in Hold. injection Hold as <-. set_solver.
      * intros (q & [= <-] & Hin). rewrite Hnew in Hin.
        destruct Hold as [Hold|[_ ->]]; [|set_solver].
        destruct (PartyManager.parties self !! party) as [p|]; [|done].
        cbn in Hold. injection Hold as <-. exists p. split; [done|set_solver].
  - specialize (Hother pid Hpid).
    rewrite (members_same _ _ pid y Hother), <-(Hexact y pid).
    destruct (decide (y = x)) as [->|Hy].
    + rewrite lookup_insert_eq, Hx. split; [intros [= ->]; done|done].
    + by rewrite lookup_insert_ne.
Qed.

(** A member of the party stored under [party] leaves it; the party stays, or
    goes when it was the last member. *)
Lemma index_exact_leave (self self' : PartyManager.t) (party x : UUID) (ms : gset UUID) :
  Invariant.index_exact self →
  Party.members <$> PartyManager.parties self !! party = Some ms →
  x ∈ ms →
  Party.members <$> PartyManager.parties self' !! party = Some (ms ∖ {[x]}) ∨
    (PartyManager.parties self' !! party = None ∧ ms ∖ {[x]} = ∅) →
  (∀ pid, pid ≠ party →
          Party.members <$> PartyManager.parties self' !! pid
          = Party.members <$> PartyManager.parties self !! pid) →
  PartyManager.player_to_party self' = delete x (PartyManager.player_to_party self) →
  Invariant.index_exact self'.
Proof.
  intros Hexact Hold Hx Hnew Hother Hidx y pid. rewrite Hidx.
  destruct (PartyManager.parties self !! party) as [p|] eqn:Hp; [|done].
  cbn in Hold. injection Hold as <-.
  assert (Hxp : PartyManager.player_to_party self !! x = Some party).
  { apply Hexact. by exists p. }
  destruct (decide (pid = party)) as [->|Hpid].
  - destruct (decide (y = x)) as [->|Hy].
    + rewrite lookup_delete_eq. split; [done|]. intros (q & Hq & Hin).
      destruct Hnew as [Hnew|[Hnew _]]; [|by rewrite Hnew in Hq].
      rewrite Hq in Hnew. cbn in Hnew. injection Hnew as Hnew. rewrite Hnew in Hin. set_solver.
    + rewrite lookup_delete_ne by done. rewrite (Hexact y party). split.
      * intros (q & Hq & Hin). rewrite Hp in Hq. injection Hq as <-.
        destruct Hnew as [Hnew|[_ Hnew]]; [|set_solver].
        destruct (PartyManager.parties self' !! party) as [p'|]; [|done].
        cbn in Hnew. injection Hnew as Hnew. exists p'. split; [done|]. rewrite Hnew. set_solver.
      * intros (q & Hq & Hin).
        destruct Hnew as [Hnew|[Hnew _]]; [|by rewrite Hnew in Hq].
        rewrite Hq in Hnew. cbn in Hnew. injection Hnew as Hnew. rewrite Hnew in Hin.
        exists p. split; [done|set_solver].
  - specialize (Hother pid Hpid).
    rewrite (members_same _ _ pid y Hother), <-(Hexact y pid).
    destruct (decide (y = x)) as [->|Hy].
    + rewrite lookup_delete_eq, Hxp. split; [done|]. intros [= ->]. done.
    + by rewrite lookup_delete_ne.
Qed.

(** The party stored under [party] is disbanded. *)
Lemma index_exact_disband (self self' : PartyManager.t) (party : UUID) (obj : Party.t) :
  Invariant.index_exact self →
  PartyManager.parties self !! party = Some obj →
  PartyManager.parties self' = delete party (PartyManager.parties self) →
  (∀ y, PartyManager.player_to_party self' !! y =
          if bool_decide (y ∈ Party.members obj ∧
                          PartyManager.player_to_party self !! y = Some party)
          then None else PartyManager.player_to_party self !! y) →
  Invariant.index_exact self'.
Proof.
  intros Hexact Hobj Hparties Hidx y pid. rewrite Hidx, Hparties.
  destruct (decide (pid = party)) as [->|Hpid].
  - rewrite lookup_delete_eq. split; [|by intros (q & [=] & _)].
    decide_goal Hy; [done|]. intros Hyp. exfalso. apply Hy. split; [|done].
    destruct (proj1 (Hexact y party) Hyp) as (q & Hq & Hin). congruence.
  - rewrite lookup_delete_ne by done. rewrite <-(Hexact y pid).
    decide_goal Hy; [|done]. destruct Hy as [_ Hy]. rewrite Hy. split; [done|]. by intros [= ->].
Qed.

Lemma members_insert_same (parties : gmap UUID Party.t) (party : UUID) (obj obj' : Party.t) :
  parties !! party = Some obj →
  Party.members obj' = Party.members obj →
  ∀ pid, Party.members <$> <[party := obj']> parties !! pid = Party.members <$> parties !! pid.
Proof.
  intros Hobj Hmem pid. destruct (decide (pid = party)) as [->|Hne].
  - rewrite lookup_insert_eq, Hobj. cbn. by rewrite Hmem.
  - by rewrite lookup_insert_ne.
Qed.

Lemma members_insert_other (parties : gmap UUID Party.t) (party : UUID) (obj' : Party.t) :
  ∀ pid, pid ≠ party →
         Party.members <$> <[party := obj']> parties !! pid = Party.members <$> parties !! pid.
Proof. intros pid Hne. by rewrite lookup_insert_ne. Qed.

Lemma members_delete_other (parties : gmap UUID Party.t) (party : UUID) :
  ∀ pid, pid ≠ party →
         Party.members <$> delete party parties !! pid = Party.members <$> parties !! pid.
Proof. intros pid Hne. by rewrite lookup_delete_ne. Qed.

Lemma record_player_name_index (self : PartyManager.t) (player : Player.t) :
  PartyManager.player_to_party (PartyManager.record_player_name self player)
  = PartyManager.player_to_party self.
Proof. unfold PartyManager.record_player_name. by case_bool_decide. Qed.

Section Index.
Context `{PyRuntime}.

Lemma create_party_index (now : Z) (party_id : UUID) (self : PartyManager.t)
    (leader : Player.t) :
  Invariant.index_exact self →
  PartyManager.parties self !! party_id = None →
  Invariant.index_exact (PartyManager.create_party now party_id self leader).2.
Proof.
  intros Hexact Hfresh. unfold PartyManager.create_party.
  destruct (PartyManager.is_in_party self (Player.unique_id leader)) eqn:Hin; [done|]. cbn [snd].
  apply (index_exact_join self _ party_id (Player.unique_id leader) ∅); try done.
  - by right.
  - cbn. rewrite record_player_name_parties. cbn. rewrite lookup_insert_eq. cbn.
    done.
  - intros pid Hne. cbn. rewrite record_player_name_parties. cbn. by rewrite lookup_insert_ne.
  - cbn. by rewrite record_player_name_index.
Qed.

Lemma invite_player_index (cfg : Config.t) (now : Z) (self self' : PartyManager.t)
    (party player_id : UUID) (b : bool) :
  Invariant.index_exact self →
  PartyManager.invite_player cfg now self party player_id = Some (b, self') →
  Invariant.index_exact self'.
Proof.
  intros Hexact. unfold PartyManager.invite_player.
  destruct (PartyManager.deref self party) as [obj|] eqn:Hobj; [|done]. cbn [mbind option_bind].
  unfold Party.clean_expired_invites. cbn zeta.
  set (cutoff := now - Config.invite_expiration_ms cfg).
  set (obj1 := Party.set_invites (Party.live_at cutoff (Party.invites obj)) obj).
  set (self1 := foldl _ _ _).
  assert (Hself1 : PartyManager.parties self1 = <[party := obj1]> (PartyManager.parties self) ∧
                   PartyManager.player_to_party self1 = PartyManager.player_to_party self).
  { unfold self1. by destruct (drop_expired_frame (Party.id obj1) (set_iter
      (dom (Party.expired_at cutoff (Party.invites obj)))) (PartyManager.store party obj1 self))
      as (-> & -> & _). }
  destruct Hself1 as [Hps1 Hidx1].
  assert (Hexact1 : Invariant.index_exact self1).
  { apply (index_exact_same self); [done| |done]. rewrite Hps1.
    by apply (members_insert_same _ party obj). }
  destruct (Party.has_invite obj1 player_id); [by intros [= _ <-]|].
  destruct (_ <=? _); [by intros [= _ <-]|].
  intros [= _ <-]. apply (index_exact_same self); [done| |done].
  cbn. rewrite Hps1, insert_insert_eq. by apply (members_insert_same _ party obj).
Qed.

Lemma add_member_index (self self' : PartyManager.t) (party x : UUID) (obj : Party.t) :
  Invariant.keyed_by_id self →
  Invariant.index_exact self →
  PartyManager.deref self party = Some obj →
  PartyManager.is_in_party self x = false →
  PartyManager.parties self' = <[party := Party.add_member obj x]> (PartyManager.parties self) →
  PartyManager.player_to_party self'
    = <[x := Party.id (Party.add_member obj x)]> (PartyManager.player_to_party self) →
  Invariant.index_exact self'.
Proof.
  intros Hkeyed Hexact Hobj Hnot Hps Hidx.
  apply (index_exact_join self _ party x (Party.members obj)); try done.
  - left. unfold PartyManager.deref in Hobj. by rewrite Hobj.
  - by rewrite Hps, lookup_insert_eq.
  - intros pid Hne. rewrite Hps. by rewrite lookup_insert_ne.
  - rewrite Hidx. change (Party.id (Party.add_member obj x)) with (Party.id obj).
    by rewrite (Hkeyed party obj Hobj).
Qed.

Lemma accept_invite_index (cfg : Config.t) (now : Z) (self self' : PartyManager.t)
    (player : Player.t) (party : UUID) (b : bool) :
  Invariant.keyed_by_id self →
  Invariant.index_exact self →
  PartyManager.accept_invite cfg now self player party = Some (b, self') →
  Invariant.index_exact self'.
Proof.
  intros Hkeyed Hexact Hrun.
  destruct (PartyManager.deref self party) as [obj|] eqn:Hobj;
    [|by unfold PartyManager.accept_invite in Hrun; rewrite Hobj in Hrun].
  destruct (Party.invites obj !! Player.unique_id player) as [sent_at|] eqn:Hsent.
  - rewrite (accept_invite_invited cfg now self player party obj sent_at Hobj Hsent) in Hrun.
    cbv zeta in Hrun.
    destruct (_ <? _).
    + injection Hrun as _ <-. apply (index_exact_same self); [done| |done].
      cbn. by apply (members_insert_same _ party obj).
    + destruct (_ <=? _); [by injection Hrun as _ <-|].
      case_bool_decide as Hban; [by injection Hrun as _ <-|].
      destruct (PartyManager.is_in_party _ _) eqn:Hin; [by injection Hrun as _ <-|].
      injection Hrun as _ <-.
      apply (add_member_index self _ party (Player.unique_id player) obj); try done.
      * cbn. by rewrite record_player_name_parties.
      * cbn. by rewrite record_player_name_index.
  - unfold PartyManager.accept_invite in Hrun. rewrite Hobj in Hrun.
    cbn [mbind option_bind] in Hrun. rewrite (has_invite_false _ _ Hsent) in Hrun.
    by injection Hrun as _ <-.
Qed.

Lemma leave_party_index (online : UUID → bool) (self : PartyManager.t) (player_id : UUID) :
  Invariant.keyed_by_id self →
  Invariant.index_exact self →
  Invariant.index_exact (PartyManager.leave_party online self player_id).2.
Proof.
  intros Hkeyed Hexact.
  destruct (PartyManager.player_to_party self !! player_id) as [party|] eqn:Hindex;
    [|by unfold PartyManager.leave_party; rewrite Hindex].
  destruct (PartyManager.deref self party) as [obj|] eqn:Hobj;
    [|by unfold PartyManager.leave_party; rewrite Hindex, Hobj].
  pose proof (Hkeyed party obj Hobj) as Hid.
  assert (Hin : player_id ∈ Party.members obj).
  { destruct (proj1 (Hexact player_id party) Hindex) as (q & Hq & Hin).
    unfold PartyManager.deref in Hobj. congruence. }
  destruct (decide (Party.members obj ∖ {[player_id]} = ∅)) as [Hlast|Hrest].
  - destruct (leave_party_last online self player_id party obj Hindex Hobj Hid Hlast)
      as (_ & Hps & Hidx & _).
    apply (index_exact_leave self _ party player_id (Party.members obj)); try done.
    + unfold PartyManager.deref in Hobj. by rewrite Hobj.
    + right. split; [|done]. by rewrite Hps, lookup_delete_eq.
    + rewrite Hps. apply members_delete_other.
  - destruct (leave_party_remaining online self player_id party obj Hindex Hobj Hrest)
      as (obj' & _ & Hps & Hidx & _ & _ & Hmem & _).
    apply (index_exact_leave self _ party player_id (Party.members obj)); try done.
    + unfold PartyManager.deref in Hobj. by rewrite Hobj.
    + left. rewrite Hps, lookup_insert_eq. cbn. by rewrite Hmem.
    + rewrite Hps. apply members_insert_other.
Qed.

Lemma kick_player_index (self self' : PartyManager.t) (party player_id : UUID) (b : bool) :
  Invariant.keyed_by_id self →
  Invariant.index_exact self →
  PartyManager.kick_player self party player_id = Some (b, self') →
  Invariant.index_exact self'.
Proof.
  intros Hkeyed Hexact. unfold PartyManager.kick_player.
  destruct (PartyManager.deref self party) as [obj|] eqn:Hobj; [|done]. cbn [mbind option_bind].
  pose proof (Hkeyed party obj Hobj) as Hid.
  case_bool_decide as Hin; [by intros [= _ <-]|].
  set (obj1 := Party.remove_member obj player_id).
  set (self1 := PartyManager.mark_dirty _).
  assert (Hexact1 : Invariant.index_exact self1).
  { apply (index_exact_leave self _ party player_id (Party.members obj)); try done.
    - unfold PartyManager.deref in Hobj. by rewrite Hobj.
    - left. subst self1. cbn. by rewrite lookup_insert_eq.
    - subst self1. cbn. apply members_insert_other. }
  destruct (bool_decide (Party.members obj1 = ∅)); [|by intros [= _ <-]].
  intros [= _ <-].
  assert (Hstored : PartyManager.parties self1 !! Party.id obj1 = Some obj1).
  { change (Party.id obj1) with (Party.id obj). rewrite Hid. apply lookup_insert_eq. }
  destruct (disband_party_stored self1 (Party.id obj1) obj1 Hstored) as (_ & Hps & Hidx & _).
  by apply (index_exact_disband self1 _ (Party.id obj1) obj1).
Qed.

Lemma add_player_to_party_index (cfg : Config.t) (self self' : PartyManager.t)
    (player : Player.t) (party : UUID) (b : bool) :
  Invariant.keyed_by_id self →
  Invariant.index_exact self →
  PartyManager.add_player_to_party cfg self player party = Some (b, self') →
  Invariant.index_exact self'.
Proof.
  intros Hkeyed Hexact. unfold PartyManager.add_player_to_party.
  destruct (PartyManager.deref self party) as [obj|] eqn:Hobj; [|done]. cbn [mbind option_bind].
  destruct (PartyManager.is_in_party _ _) eqn:Hin; [by intros [= _ <-]|].
  destruct (_ <=? _); [by intros [= _ <-]|].
  intros [= _ <-].
  apply (add_member_index self _ party (Player.unique_id player) obj); try done.
  - cbn. by rewrite record_player_name_parties.
  - cbn. by rewrite record_player_name_index.
Qed.

Lemma request_to_join_index (now : Z) (self self' : PartyManager.t)
    (requester_id target_party : UUID) (b : bool) :
  Invariant.index_exact self →
  PartyManager.request_to_join now self requester_id target_party = Some (b, self') →
  Invariant.index_exact self'.
Proof.
  intros Hexact. unfold PartyManager.request_to_join.
  destruct (PartyManager.deref self target_party) as [obj|] eqn:Hobj; [|done].
  cbn [mbind option_bind].
  case_bool_decide as Hban; [by intros [= _ <-]|].
  destruct (Party.has_join_request _ _); [by intros [= _ <-]|].
  intros [= _ <-]. apply (index_exact_same self); [done| |done].
  cbn. by apply (members_insert_same _ target_party obj).
Qed.

Lemma accept_join_request_index (cfg : Config.t) (self self' : PartyManager.t)
    (target_party : UUID) (requester : Player.t) (b : bool) :
  Invariant.keyed_by_id self →
  Invariant.index_exact self →
  PartyManager.accept_join_request cfg self target_party requester = Some (b, self') →
  Invariant.index_exact self'.
Proof.
  intros Hkeyed Hexact. unfold PartyManager.accept_join_request.
  destruct (PartyManager.deref self target_party) as [obj|] eqn:Hobj; [|done].
  cbn [mbind option_bind].
  destruct (negb _); [by intros [= _ <-]|].
  set (obj1 := Party.remove_join_request obj (Player.unique_id requester)).
  set (self1 := PartyManager.mark_dirty _).
  apply add_player_to_party_index.
  - intros key p Hkey. subst self1. cbn in Hkey.
    destruct (decide (key = target_party)) as [->|Hne].
    + rewrite lookup_insert_eq in Hkey. injection Hkey as <-. by apply (Hkeyed target_party obj).
    + rewrite lookup_insert_ne in Hkey by done. by apply Hkeyed.
  - apply (index_exact_same self); [done| |done].
    subst self1. cbn. by apply (members_insert_same _ target_party obj).
Qed.

Lemma deny_join_request_index (self self' : PartyManager.t)
    (target_party requester_id : UUID) (b : bool) :
  Invariant.index_exact self →
  PartyManager.deny_join_request self target_party requester_id = Some (b, self') →
  Invariant.index_exact self'.
Proof.
  intros Hexact. unfold PartyManager.deny_join_request.
  destruct (PartyManager.deref self target_party) as [obj|] eqn:Hobj; [|done].
  cbn [mbind option_bind].
  destruct (negb _); [by intros [= _ <-]|].
  intros [= _ <-]. apply (index_exact_same self); [done| |done].
  cbn. by apply (members_insert_same _ target_party obj).
Qed.

Lemma ban_index (self self' : PartyManager.t) (party target_id : UUID) :
  Invariant.index_exact self →
  (∀ obj, PartyManager.deref self party = Some obj → target_id ∈ Party.members obj) →
  PartyManager.ban self party target_id = Some self' →
  Invariant.index_exact self'.
Proof.
  intros Hexact Hguard. unfold PartyManager.ban.
  destruct (PartyManager.deref self party) as [obj|] eqn:Hobj; [|done]. cbn [mbind option_bind].
  intros [= <-].
  apply (index_exact_leave self _ party target_id (Party.members obj)); try done.
  - unfold PartyManager.deref in Hobj. by rewrite Hobj.
  - by apply Hguard.
  - left. cbn. by rewrite lookup_insert_eq.
  - cbn. apply members_insert_other.
Qed.

Lemma disband_party_index (self : PartyManager.t) (party_id : UUID) :
  Invariant.index_exact self →
  Invariant.index_exact (PartyManager.disband_party self party_id).2.
Proof.
  intros Hexact.
  destruct (PartyManager.parties self !! party_id) as [obj|] eqn:Hobj.
  - destruct (disband_party_stored self party_id obj Hobj) as (_ & Hps & Hidx & _).
    by apply (index_exact_disband self _ party_id obj).
  - by rewrite disband_party_absent.
Qed.

(** One call keeps the index exact. *)
Lemma step_keeps_index (cfg : Config.t) (c : Registry.call) (self self' : PartyManager.t)
    (b : bool) :
  Invariant.keyed_by_id self →
  Invariant.index_exact self →
  Registry.index_guard self (Registry.what c) →
  Registry.step cfg c self = Some (b, self') →
  Invariant.index_exact self'.
Proof.
  intros Hkeyed Hexact Hguard. unfold Registry.step.
  destruct c as [o now online]. cbn [Registry.what Registry.now Registry.online] in *.
  destruct o; cbn [Registry.index_guard] in Hguard.
  - pose proof (create_party_index now party_id self leader Hexact Hguard) as Hcreate.
    destruct (PartyManager.create_party now party_id self leader) as [? ?].
    by intros [= _ <-].
  - by apply invite_player_index.
  - by apply accept_invite_index.
  - pose proof (leave_party_index online self player_id Hkeyed Hexact) as Hleave.
    destruct (PartyManager.leave_party online self player_id) as [[? ?] ?].
    by intros [= _ <-].
  - by apply kick_player_index.
  - by apply request_to_join_index.
  - by apply accept_join_request_index.
  - by apply deny_join_request_index.
  - by apply add_player_to_party_index.
  - destruct (PartyManager.ban self party target_id) as [self1|] eqn:Hban; [|done].
    cbn [mbind option_bind]. intros [= _ <-].
    apply (ban_index self _ party target_id); [done| |done].
    by apply (guard_deref (P := λ obj, target_id ∈ Party.members obj)).
  - pose proof (disband_party_index self party_id Hexact) as Hdisband.
    destruct (PartyManager.disband_party self party_id) as [? ?].
    by intros [= _ <-].
Qed.

End Index.

Lemma index_exact_empty : Invariant.index_exact PartyManager.empty.
Proof.
  intros x pid. cbn. rewrite !lookup_empty. split; [done|]. by intros (p & [=] & _).
Qed.

Lemma index_exact_unique (self : PartyManager.t) :
  Invariant.index_exact self →
  (∀ player_id,
     PartyManager.is_in_party self player_id = true ↔
     ∃ key p, PartyManager.parties self !! key = Some p ∧ player_id ∈ Party.members p) ∧
  (∀ key1 key2 p1 p2 player_id,
     PartyManager.parties self !! key1 = Some p1 →
     PartyManager.parties self !! key2 = Some p2 →
     player_id ∈ Party.members p1 → player_id ∈ Party.members p2 → key1 = key2).
Proof.
  intros Hexact. split.
  - intros x. unfold PartyManager.is_in_party, PartyManager.get_player_party. split.
    + destruct (PartyManager.player_to_party self !! x) as [pid|] eqn:Hx; [|done].
      destruct (proj1 (Hexact x pid) Hx) as (p & Hp & Hin). intros _. by exists pid, p.
    + intros (key & p & Hp & Hin).
      rewrite (proj2 (Hexact x key) (ex_intro _ p (conj Hp Hin))), Hp.
      unfold Party.is_member. by apply bool_decide_eq_true_2.
  - intros key1 key2 p1 p2 x Hp1 Hp2 Hx1 Hx2.
    pose proof (proj2 (Hexact x key1) (ex_intro _ p1 (conj Hp1 Hx1))) as H1.
    pose proof (proj2 (Hexact x key2) (ex_intro _ p2 (conj Hp2 Hx2))) as H2.
    congruence.
Qed.

(** X11. One party per player. Start from a registry that satisfies the
    registry invariants and whose [player_to_party] is exact, and make calls as
    the command handlers make them ([guard]), with fresh identifiers for new
    parties and bans of members only ([index_guard]). Then after every call
    [player_to_party] is exact; [is_in_party] answers [True] exactly for the
    members of the stored parties; and no player is a member of two
    parties. *)
Theorem handled_calls_keep_index_exact `{PyRuntime} (cfg : Config.t)
    (calls : list Registry.call) (self : PartyManager.t) (states : list PartyManager.t) :
  Invariant.registry self →
  Invariant.index_exact self →
  Registry.handled cfg calls self →
  Registry.run cfg calls self = Some states →
  Forall (λ after_call,
            Invariant.index_exact after_call ∧
            (∀ player_id,
               PartyManager.is_in_party after_call player_id = true ↔
               ∃ key p, PartyManager.parties after_call !! key = Some p ∧
                        player_id ∈ Party.members p) ∧
            (∀ key1 key2 p1 p2 player_id,
               PartyManager.parties after_call !! key1 = Some p1 →
               PartyManager.parties after_call !! key2 = Some p2 →
               player_id ∈ Party.members p1 → player_id ∈ Party.members p2 →
               key1 = key2)) states.
Proof.
  revert self states. induction calls as [|c calls IH]; intros self states Hinv Hexact Hcalls Hrun.
  - cbn in Hrun. injection Hrun as <-. constructor.
  - cbn in Hrun, Hcalls. destruct Hcalls as (Hguard & Hindex & Hrest).
    destruct (Registry.step cfg c self) as [[b self1]|] eqn:Hstep; [|done].
    cbn in Hrun, Hrest.
    destruct (Registry.run cfg calls self1) as [states1|] eqn:Hrun1; [|done].
    cbn in Hrun. injection Hrun as <-.
    assert (Hinv1 : Invariant.registry self1) by by apply (step_preserves cfg c self self1 b).
    assert (Hexact1 : Invariant.index_exact self1).
    { apply (step_keeps_index cfg c self self1 b); try done. by destruct Hinv as (_ & _ & ?). }
    constructor.
    + split; [done|]. by apply index_exact_unique.
    + by apply (IH self1).
Qed.

(** On the sample calls: [alice] creates a party, [bob] joins, [alice]
    leaves. *)
Lemma handled_calls_keep_index_exact_witness :
  ∃ states,
    Registry.run Config.defaults Sample.leader_leaves PartyManager.empty = Some states ∧
    Forall (λ after_call, Invariant.index_exact after_call) states.
Proof.
  destruct (Registry.run Config.defaults Sample.leader_leaves PartyManager.empty)
    as [states|] eqn:Hrun; [|by vm_compute in Hrun].
  exists states. split; [done|].
  eapply Forall_impl.
  - apply (handled_calls_keep_index_exact Config.defaults Sample.leader_leaves
             PartyManager.empty states).
    + exact registry_empty.
    + exact index_exact_empty.
    + apply (bool_decide_unpack _). vm_compute. exact I.
    + exact Hrun.
  - cbn. by intros after_call [? _].
Defined.

(** ** Cooldowns (party_manager.py, [is_on_command_cooldown],
       [remaining_command_cooldown], [update_command_cooldown] and
       [_cleanup_memory]) *)

Lemma remaining_le (cooldown_seconds elapsed_ms : Z) :
  0 < Z.max 0 (cooldown_seconds - elapsed_ms `div` 1000) ↔ elapsed_ms < 1000 * cooldown_seconds.
Proof.
  pose proof (Z.div_mod elapsed_ms 1000 ltac:(lia)) as Hdm.
  pose proof (Z.mod_pos_bound elapsed_ms 1000 ltac:(lia)) as Hmod.
  lia.
Qed.

(** X12. Cooldowns. After [update_command_cooldown] at time [t0] the player is
    on command cooldown exactly while the configured number of seconds is
    positive and the clock is before [t0 + 1000 * cooldown_seconds], also
    when the clock runs backwards; the remaining time lies between 0 and the
    configured number once the clock has reached [t0]; other players and the
    teleport cooldown are not affected; a player who never used a command is
    not on cooldown. The same holds of the teleport cooldown. *)
Theorem cooldown_window (cooldown_seconds t0 : Z) (self : PartyManager.cooldowns)
    (player_id : UUID) :
  let used := PartyManager.update_command_cooldown t0 self player_id in
  let teleported := PartyManager.update_teleport_cooldown t0 self player_id in
  (∀ now, PartyManager.is_on_command_cooldown cooldown_seconds now used player_id = true
          ↔ 0 < cooldown_seconds ∧ now < t0 + 1000 * cooldown_seconds) ∧
  (∀ now, PartyManager.is_on_teleport_cooldown cooldown_seconds now teleported player_id = true
          ↔ 0 < cooldown_seconds ∧ now < t0 + 1000 * cooldown_seconds) ∧
  (∀ now, t0 ≤ now →
          0 ≤ PartyManager.remaining_command_cooldown cooldown_seconds now used player_id
            ≤ Z.max 0 cooldown_seconds ∧
          0 ≤ PartyManager.remaining_teleport_cooldown cooldown_seconds now teleported player_id
            ≤ Z.max 0 cooldown_seconds) ∧
  (∀ now other, other ≠ player_id →
     PartyManager.is_on_command_cooldown cooldown_seconds now used other
     = PartyManager.is_on_command_cooldown cooldown_seconds now self other ∧
     PartyManager.is_on_teleport_cooldown cooldown_seconds now teleported other
     = PartyManager.is_on_teleport_cooldown cooldown_seconds now self other) ∧
  (∀ now,
     (PartyManager.last_command_use_ms self !! player_id = None →
      PartyManager.is_on_command_cooldown cooldown_seconds now self player_id = false) ∧
     (PartyManager.last_teleport_ms self !! player_id = None →
      PartyManager.is_on_teleport_cooldown cooldown_seconds now self player_id = false)) ∧
  (∀ now, PartyManager.is_on_teleport_cooldown cooldown_seconds now used player_id
          = PartyManager.is_on_teleport_cooldown cooldown_seconds now self player_id ∧
          PartyManager.is_on_command_cooldown cooldown_seconds now teleported player_id
          = PartyManager.is_on_command_cooldown cooldown_seconds now self player_id).
Proof.
  cbn zeta. split_and!.
  - intros now. unfold PartyManager.is_on_command_cooldown, PartyManager.remaining_command_cooldown.
    cbn. rewrite lookup_insert_eq.
    destruct (Z.leb_spec cooldown_seconds 0) as [Hle|Hlt]; [split; [done|lia]|].
    rewrite Z.ltb_lt, remaining_le. lia.
  - intros now.
    unfold PartyManager.is_on_teleport_cooldown, PartyManager.remaining_teleport_cooldown.
    cbn. rewrite lookup_insert_eq.
    destruct (Z.leb_spec cooldown_seconds 0) as [Hle|Hlt]; [split; [done|lia]|].
    rewrite Z.ltb_lt, remaining_le. lia.
  - intros now Hnow.
    unfold PartyManager.remaining_command_cooldown, PartyManager.remaining_teleport_cooldown.
    cbn. rewrite !lookup_insert_eq.
    assert (0 ≤ (now - t0) `div` 1000) by (apply Z.div_pos; lia). lia.
  - intros now other Hother.
    unfold PartyManager.is_on_command_cooldown, PartyManager.remaining_command_cooldown,
      PartyManager.is_on_teleport_cooldown, PartyManager.remaining_teleport_cooldown. cbn.
    by rewrite !lookup_insert_ne.
  - intros now.
    unfold PartyManager.is_on_command_cooldown, PartyManager.remaining_command_cooldown,
      PartyManager.is_on_teleport_cooldown, PartyManager.remaining_teleport_cooldown.
    split; intros ->; by destruct (_ <=? _).
  - done.
Qed.

(** X13. [_cleanup_memory] forgets the uses older than an hour. When the
    configured cooldown is at most 3600 seconds this changes no answer: from
    the time of the cleanup on, every player is on cooldown, and has the same
    time remaining, exactly as without the cleanup. *)
Theorem cleanup_memory_keeps_cooldowns (cooldown_seconds now : Z) (online_ids : gset UUID)
    (timers : PartyManager.cooldowns) (self : PartyManager.t) :
  cooldown_seconds ≤ 3600 →
  let timers' := (PartyManager._cleanup_memory now online_ids timers self).1 in
  ∀ later player_id, now ≤ later →
    PartyManager.is_on_command_cooldown cooldown_seconds later timers' player_id
      = PartyManager.is_on_command_cooldown cooldown_seconds later timers player_id ∧
    PartyManager.is_on_teleport_cooldown cooldown_seconds later timers' player_id
      = PartyManager.is_on_teleport_cooldown cooldown_seconds later timers player_id ∧
    PartyManager.remaining_command_cooldown cooldown_seconds later timers' player_id
      = PartyManager.remaining_command_cooldown cooldown_seconds later timers player_id ∧
    PartyManager.remaining_teleport_cooldown cooldown_seconds later timers' player_id
      = PartyManager.remaining_teleport_cooldown cooldown_seconds later timers player_id.
Proof.
  intros Hcd timers' later x Hlater. subst timers'.
  assert (Hrem : ∀ entries : gmap UUID Z,
    match filter (λ kv : UUID * Z, now - 60 * 60 * 1000 ≤ kv.2) entries !! x with
    | Some last_used => Z.max 0 (cooldown_seconds - (later - last_used) `div` 1000)
    | None => 0
    end =
    match entries !! x with
    | Some last_used => Z.max 0 (cooldown_seconds - (later - last_used) `div` 1000)
    | None => 0
    end).
  { intros entries. destruct (entries !! x) as [last_used|] eqn:Hx.
    - destruct (decide (now - 60 * 60 * 1000 ≤ last_used)) as [Hkeep|Hdrop].
      + by rewrite (map_lookup_filter_Some_2 _ _ x last_used Hx Hkeep).
      + rewrite (proj2 (map_lookup_filter_None _ _ x)).
        * assert (3600 ≤ (later - last_used) `div` 1000); [|lia].
          apply Z.div_le_lower_bound; lia.
        * right. intros v Hv. rewrite Hx in Hv. injection Hv as <-. done.
    - rewrite (proj2 (map_lookup_filter_None _ _ x)); [done|]. by left. }
  unfold PartyManager.is_on_command_cooldown, PartyManager.is_on_teleport_cooldown,
    PartyManager.remaining_command_cooldown, PartyManager.remaining_teleport_cooldown,
    PartyManager._cleanup_memory. cbn.
  by rewrite !Hrem.
Qed.

(** A command cooldown of 3 seconds survives the hourly cleanup. *)
Lemma cleanup_memory_keeps_cooldowns_witness :
  let timers := PartyManager.mk_cooldowns {[Sample.A := 1000; Sample.B := 4000000]} ∅ in
  let timers' := (PartyManager._cleanup_memory 4001000 ∅ timers PartyManager.empty).1 in
  PartyManager.last_command_use_ms timers' !! Sample.A = None ∧
  PartyManager.is_on_command_cooldown 3 4002000 timers' Sample.B
    = PartyManager.is_on_command_cooldown 3 4002000 timers Sample.B.
Proof.
  intros timers timers'. split.
  - vm_compute. reflexivity.
  - apply (cleanup_memory_keeps_cooldowns 3 4001000 ∅ timers PartyManager.empty ltac:(lia)
             4002000 Sample.B ltac:(lia)).
Defined.

(** ** Achievements (achievement_manager.py, [check] and [_try_unlock]) *)

Section Unlock.
Context `{PyRuntime} `{PyNumbers}.
Variable online : UUID → bool.
Variable _achievements : list (string * PartyAchievement.t).

Lemma reward_calls (achievement : PartyAchievement.t) (members : list UUID) :
  Forall (λ call,
            match call with
            | PartyAchievementManager.send_message member _
            | PartyAchievementManager.give_exp member _ =>
                online member = true ∧ member ∈ members
            end)
         (flat_map (PartyAchievementManager.reward online achievement) members).
Proof.
  induction members as [|m members IH]; [constructor|].
  cbn [flat_map]. apply Forall_app. split.
  - unfold PartyAchievementManager.reward. destruct (online m) eqn:Hm; [|constructor].
    destruct (String.eqb _ _); repeat constructor; try done; set_solver.
  - eapply Forall_impl; [exact IH|]. intros [member ?|member ?]; set_solver.
Qed.

(** A sequence of [_try_unlock] calls. *)
Lemma try_unlock_steps (steps : list (string * bool)) (st : Party.t * list PartyAchievementManager.call) :
  let st' :=
    foldl (λ st step, PartyAchievementManager._try_unlock online _achievements st step.1 step.2)
          st steps in
  st'.1 = Party.set_achievements (Party.achievements st'.1) st.1 ∧
  Party.achievements st.1 ⊆ Party.achievements st'.1 ∧
  (∀ achievement_id,
     achievement_id ∈ Party.achievements st'.1 →
     (achievement_id ∈ Party.achievements st.1) ∨
     ((achievement_id, true) ∈ steps ∧
      is_Some (PartyAchievementManager.get _achievements achievement_id))) ∧
  (∃ extra,
     st'.2 = st.2 ++ extra ∧
     Forall (λ call,
               match call with
               | PartyAchievementManager.send_message member _
               | PartyAchievementManager.give_exp member _ =>
                   online member = true ∧ member ∈ Party.members st.1
               end) extra ∧
     (Party.achievements st'.1 = Party.achievements st.1 → extra = [])) ∧
  (∀ p2 calls2,
     Party.achievements st'.1 ⊆ Party.achievements p2 →
     foldl (λ st step, PartyAchievementManager._try_unlock online _achievements st step.1 step.2)
           (p2, calls2) steps = (p2, calls2)).
Proof.
  revert st. induction steps as [|[achievement_id condition] steps IH]; intros st st'.
  - subst st'. cbn. split_and!; try done.
    + by destruct st as [[] ?].
    + intros ? ?. by left.
    + exists []. by rewrite app_nil_r.
  - subst st'. cbn [foldl fst snd].
    set (st1 := PartyAchievementManager._try_unlock online _achievements st achievement_id
                  condition).
    assert (Hstep :
      (st1 = st ∧
       (condition = false ∨ (achievement_id ∈ Party.achievements st.1) ∨
        PartyAchievementManager.get _achievements achievement_id = None)) ∨
      (∃ achievement,
         condition = true ∧ (achievement_id ∉ Party.achievements st.1) ∧
         PartyAchievementManager.get _achievements achievement_id = Some achievement ∧
         st1 = (Party.unlock_achievement st.1 achievement_id,
                st.2 ++ flat_map (PartyAchievementManager.reward online achievement)
                          (set_iter (Party.members st.1))))).
    { subst st1. unfold PartyAchievementManager._try_unlock. destruct st as [party calls].
      cbn [fst snd]. destruct condition; cbn [negb orb].
      - unfold Party.has_achievement. case_bool_decide as Hhas.
        + left. split; [done|]. right. by left.
        + destruct (PartyAchievementManager.get _achievements achievement_id)
            as [achievement|] eqn:Hget.
          * right. by exists achievement.
          * left. split; [done|]. right. by right.
      - left. split; [done|]. by left. }
    clearbody st1.
    destruct (IH st1) as (Hframe & Hgrow & Hnew & (extra & Hcalls & Honline & Hquiet) & Hagain).
    destruct Hstep as [[-> Hsettled]|(achievement & Hcond & Hnot & Hget & ->)].
    + split_and!; try done.
      * intros a Ha. destruct (Hnew a Ha) as [?|[Hin ?]]; [by left|right].
        split; [by apply list_elem_of_further|done].
      * by exists extra.
      * intros p2 calls2 Hsub.
        assert (Hnoop : PartyAchievementManager._try_unlock online _achievements (p2, calls2)
                          achievement_id condition = (p2, calls2)).
        { unfold PartyAchievementManager._try_unlock.
          destruct Hsettled as [->|[Hin|Hnone]]; [done| |].
          - unfold Party.has_achievement. rewrite bool_decide_eq_true_2 by set_solver.
            by rewrite orb_true_r.
          - rewrite Hnone. by destruct (_ || _). }
        rewrite Hnoop. by apply Hagain.
    + cbn [fst snd] in Hframe, Hgrow, Hnew, Hcalls, Honline, Hquiet, Hagain.
      cbn [Party.unlock_achievement Party.set_achievements Party.achievements Party.members]
        in Hgrow, Hnew, Honline, Hquiet.
      split_and!.
      * rewrite Hframe. by destruct st as [[] ?].
      * set_solver.
      * intros a Ha. destruct (Hnew a Ha) as [Hold|[Hin ?]].
        -- apply elem_of_union in Hold as [->%elem_of_singleton|Hold]; [right|by left].
           split; [rewrite Hcond; apply list_elem_of_here|by rewrite Hget].
        -- right. split; [by apply list_elem_of_further|done].
      * eexists. split; [rewrite Hcalls, <-app_assoc; reflexivity|]. split.
        -- apply Forall_app. split; [|done].
           eapply Forall_impl; [apply reward_calls|].
           intros [member ?|member ?]; rewrite elem_of_set_iter; done.
        -- intros Hsame. exfalso. apply Hnot. rewrite <-Hsame. set_solver.
      * intros p2 calls2 Hsub.
        assert (Hnoop : PartyAchievementManager._try_unlock online _achievements (p2, calls2)
                          achievement_id condition = (p2, calls2)).
        { unfold PartyAchievementManager._try_unlock. unfold Party.has_achievement.
          rewrite bool_decide_eq_true_2 by set_solver. by rewrite orb_true_r. }
        rewrite Hnoop. by apply Hagain.
Qed.

(** [check] as the sequence of [_try_unlock] calls it makes. *)
Lemma check_steps (config : PyVal) (party : Party.t) :
  let run steps :=
    foldl (λ st step, PartyAchievementManager._try_unlock online _achievements st step.1 step.2)
          (party, []) steps in
  let member_count := Z.of_nat (size (Party.members party)) in
  let first :=
    [ ("party_started", 1 <=? member_count); ("team_player", 5 <=? member_count) ] in
  let second full :=
    [ ("full_house", full);
      ("dedicated", 36000000 <=? Party.total_play_time_ms party);
      ("veteran", 180000000 <=? Party.total_play_time_ms party);
      ("first_blood", 10 <=? Party.total_kills party);
      ("slayer", 100 <=? Party.total_kills party) ] in
  let last :=
    [ ("consistent", 7 <=? Party.consecutive_days party);
      ("devoted", 30 <=? Party.consecutive_days party) ] in
  PartyAchievementManager.check online _achievements config party =
    match PartyAchievementManager.int_ge member_count
            (EuphoriaPartiesPlugin.get_config config "party.max-members" (VInt 8)) with
    | Raised => (run first, false)
    | Ok full =>
        if 0 <? Party.total_deaths party then
          match int_truediv (Party.total_kills party) (Party.total_deaths party) with
          | None => (run (first ++ second full), false)
          | Some kd_ratio =>
              (run (first ++ second full ++ [("survivor", PrimFloat.leb 2 kd_ratio)] ++ last),
               true)
          end
        else (run (first ++ second full ++ last), true)
    end.
Proof.
  intros run member_count first second last. unfold PartyAchievementManager.check.
  cbv zeta. fold member_count.
  destruct (PartyAchievementManager.int_ge member_count _) as [full|]; [|done].
  destruct (try_unlock_steps (first ++ second full) (party, [])) as (Hframe & _).
  cbn [foldl fst snd app first second] in Hframe.
  set (st := PartyAchievementManager._try_unlock _ _ _ "slayer" _) in *.
  assert (Hdeaths : Party.total_deaths st.1 = Party.total_deaths party) by by rewrite Hframe.
  assert (Hdays : ∀ st' : Party.t * list PartyAchievementManager.call,
            st'.1 = Party.set_achievements (Party.achievements st'.1) st.1 →
            Party.consecutive_days st'.1 = Party.consecutive_days party).
  { intros st' ->. cbn. by rewrite Hframe. }
  rewrite Hdeaths. destruct (0 <? Party.total_deaths party).
  - destruct (int_truediv _ _) as [kd_ratio|]; [|done].
    rewrite (Hdays (PartyAchievementManager._try_unlock online _achievements st "survivor"
                      (PrimFloat.leb 2 kd_ratio))).
    + done.
    + by destruct (try_unlock_steps [("survivor", PrimFloat.leb 2 kd_ratio)] st) as (? & _).
  - rewrite (Hdays st); [done|]. by destruct st as [[] ?].
Qed.

End Unlock.

(** X14. Achievements are unlocked once. [check] changes nothing of a party
    but [achievements], which only grows, and only by identifiers
    registered with the manager; it calls [send_message] and [give_exp] on
    members of the party who are online only, and on nobody when it unlocks
    nothing; and a second [check] of the party it leaves unlocks nothing,
    makes no call, and returns or raises as the first did. *)
Theorem check_unlocks_once `{PyRuntime} `{PyNumbers} (online : UUID → bool)
    (_achievements : list (string * PartyAchievement.t)) (config : PyVal) (party : Party.t) :
  let r := PartyAchievementManager.check online _achievements config party in
  let party' := r.1.1 in
  let calls := r.1.2 in
  party' = Party.set_achievements (Party.achievements party') party ∧
  Party.achievements party ⊆ Party.achievements party' ∧
  (∀ achievement_id,
     achievement_id ∈ Party.achievements party' →
     achievement_id ∈ Party.achievements party ∨
     is_Some (PartyAchievementManager.get _achievements achievement_id)) ∧
  Forall (λ call,
            match call with
            | PartyAchievementManager.send_message member _
            | PartyAchievementManager.give_exp member _ =>
                online member = true ∧ member ∈ Party.members party
            end) calls ∧
  (Party.achievements party' = Party.achievements party → calls = []) ∧
  PartyAchievementManager.check online _achievements config party' = (party', [], r.2).
Proof.
  intros r party' calls.
  assert (Hrun : ∃ steps returned,
    r = (foldl (λ st step,
                  PartyAchievementManager._try_unlock online _achievements st step.1 step.2)
               (party, []) steps, returned) ∧
    ∀ p2, p2 = Party.set_achievements (Party.achievements p2) party →
          PartyAchievementManager.check online _achievements config p2
          = (foldl (λ st step,
                      PartyAchievementManager._try_unlock online _achievements st step.1 step.2)
                   (p2, []) steps, returned)).
  { subst r. rewrite check_steps. cbv zeta.
    assert (Hsame : ∀ p2, p2 = Party.set_achievements (Party.achievements p2) party →
              Party.members p2 = Party.members party ∧
              Party.total_play_time_ms p2 = Party.total_play_time_ms party ∧
              Party.total_kills p2 = Party.total_kills party ∧
              Party.total_deaths p2 = Party.total_deaths party ∧
              Party.consecutive_days p2 = Party.consecutive_days party).
    { intros p2 ->. done. }
    destruct (PartyAchievementManager.int_ge _ _) as [full|] eqn:Hfull.
    - destruct (0 <? Party.total_deaths party) eqn:Hdeaths.
      + destruct (int_truediv _ _) as [kd_ratio|] eqn:Hkd.
        * eexists _, _. split; [reflexivity|]. intros p2 Hp2.
          destruct (Hsame p2 Hp2) as (Hm & Hp & Hk & Hd & Hc).
          rewrite check_steps. cbv zeta. by rewrite Hm, Hp, Hk, Hd, Hc, Hfull, Hdeaths, Hkd.
        * eexists _, _. split; [reflexivity|]. intros p2 Hp2.
          destruct (Hsame p2 Hp2) as (Hm & Hp & Hk & Hd & Hc).
          rewrite check_steps. cbv zeta. by rewrite Hm, Hp, Hk, Hd, Hfull, Hdeaths, Hkd.
      + eexists _, _. split; [reflexivity|]. intros p2 Hp2.
        destruct (Hsame p2 Hp2) as (Hm & Hp & Hk & Hd & Hc).
        rewrite check_steps. cbv zeta. by rewrite Hm, Hp, Hk, Hd, Hc, Hfull, Hdeaths.
    - eexists _, _. split; [reflexivity|]. intros p2 Hp2.
      destruct (Hsame p2 Hp2) as (Hm & Hp & Hk & Hd & Hc).
      rewrite check_steps. cbv zeta. by rewrite Hm, Hfull. }
  destruct Hrun as (steps & returned & Hr & Hagain).
  destruct (try_unlock_steps online _achievements steps (party, []))
    as (Hframe & Hgrow & Hnew & (extra & Hcalls & Honline & Hquiet) & Hnoop).
  subst party' calls. rewrite Hr. cbn [fst snd] in *.
  split_and!; try done.
  - intros a Ha. destruct (Hnew a Ha) as [?|[_ ?]]; [by left|by right].
  - by rewrite Hcalls.
  - intros Hsame. by rewrite Hcalls, (Hquiet Hsame).
  - rewrite (Hagain _ Hframe). by rewrite Hnoop.
Qed.

(** ** Leaderboards (leaderboard_manager.py) *)

Section Ranking.
Context {A : Type} (key : A → Z).

Lemma insert_reverse_perm (x : A) (l : list A) : Py.insert_reverse key x l ≡ₚ x :: l.
Proof.
  induction l as [|y l IH]; [done|]. cbn. destruct (key y <=? key x); [done|].
  rewrite IH. apply Permutation_swap.
Qed.

Lemma sorted_reverse_perm (l : list A) : Py.sorted_reverse key l ≡ₚ l.
Proof.
  induction l as [|x l IH]; [done|]. cbn. rewrite insert_reverse_perm. by rewrite IH.
Qed.

Lemma insert_reverse_sorted (x : A) (l : list A) :
  StronglySorted (λ a b, key b ≤ key a) l →
  StronglySorted (λ a b, key b ≤ key a) (Py.insert_reverse key x l).
Proof.
  induction 1 as [|y l Hsorted IH Hall]; cbn; [repeat constructor|].
  destruct (Z.leb_spec (key y) (key x)) as [Hle|Hlt].
  - constructor; [by constructor|]. constructor; [done|].
    eapply Forall_impl; [exact Hall|]. cbn. lia.
  - constructor; [done|]. rewrite insert_reverse_perm. constructor; [lia|done].
Qed.

Lemma sorted_reverse_sorted (l : list A) :
  StronglySorted (λ a b, key b ≤ key a) (Py.sorted_reverse key l).
Proof.
  induction l as [|x l IH]; cbn; [constructor|]. by apply insert_reverse_sorted.
Qed.

Lemma top_ranking (values : list A) (limit : Z) :
  let top := Py.slice_to limit (Py.sorted_reverse key values) in
  top ⊆+ values ∧
  (0 ≤ limit → length top = Nat.min (Z.to_nat limit) (length values)) ∧
  (∀ i j p q, (i ≤ j)%nat → top !! i = Some p → top !! j = Some q → key q ≤ key p) ∧
  (∀ p q, p ∈ top → q ∈ values → q ∉ top → key q ≤ key p).
Proof.
  intros top.
  assert (Htake : ∃ n, top = take n (Py.sorted_reverse key values) ∧
                       (0 ≤ limit → n = Z.to_nat limit)).
  { subst top. unfold Py.slice_to. destruct (Z.leb_spec 0 limit).
    - by eexists.
    - eexists. split; [done|lia]. }
  destruct Htake as (n & -> & Hn).
  pose proof (sorted_reverse_sorted values) as Hsorted.
  pose proof (sorted_reverse_perm values) as Hperm.
  split_and!.
  - transitivity (Py.sorted_reverse key values).
    + apply sublist_submseteq, sublist_take.
    + by apply Permutation_submseteq.
  - intros Hlimit. rewrite length_take, (Hn Hlimit). by rewrite (Permutation_length Hperm).
  - intros i j p q Hij Hp Hq.
    apply lookup_take_Some in Hp as [Hp _]. apply lookup_take_Some in Hq as [Hq _].
    destruct (decide (i = j)) as [->|Hne]; [by simplify_eq|].
    rewrite <-(take_drop j (Py.sorted_reverse key values)) in Hsorted.
    apply (StronglySorted_app_1_elem_of _ _ _ p q Hsorted).
    + apply list_elem_of_lookup. exists i. apply lookup_take_Some. split; [done|lia].
    + apply list_elem_of_lookup. exists 0%nat. rewrite lookup_drop. by rewrite Nat.add_0_r.
  - intros p q Hp Hq Hnot.
    apply (elem_of_Permutation_proper _ _ _ Hperm) in Hq.
    rewrite <-(take_drop n (Py.sorted_reverse key values)) in Hq, Hsorted.
    apply elem_of_app in Hq as [Hq|Hq]; [done|].
    by apply (StronglySorted_app_1_elem_of _ _ _ p q Hsorted).
Qed.

End Ranking.

(** X15. Leaderboards. For [top_by_kills], [top_by_playtime],
    [top_by_members] and [top_by_achievements]: the result holds parties of
    the registry only, each as often as the registry does at most; it has
    [min(limit, number of parties)] entries for a limit that is not
    negative; it is in descending order of the key; and no party left out
    has a larger key than a party listed. *)
Theorem leaderboard_ranking (values : list Party.t) (limit : Z)
    (top : list Party.t → Z → list Party.t) (key : Party.t → Z) :
  (top, key) ∈
    [ (PartyLeaderboardManager.top_by_kills, Party.total_kills);
      (PartyLeaderboardManager.top_by_playtime, Party.total_play_time_ms);
      (PartyLeaderboardManager.top_by_members,
       λ party, Z.of_nat (size (Party.members party)));
      (PartyLeaderboardManager.top_by_achievements,
       λ party, Z.of_nat (size (Party.achievements party))) ] →
  top values limit ⊆+ values ∧
  (0 ≤ limit → length (top values limit) = Nat.min (Z.to_nat limit) (length values)) ∧
  (∀ i j p q, (i ≤ j)%nat → top values limit !! i = Some p → top values limit !! j = Some q →
              key q ≤ key p) ∧
  (∀ p q, p ∈ top values limit → q ∈ values → q ∉ top values limit → key q ≤ key p).
Proof.
  intros Hin. repeat (apply elem_of_cons in Hin as [[= -> ->]|Hin]; [apply top_ranking|]).
  by apply elem_of_nil in Hin.
Qed.

(** Four parties with 1, 5, 5 and 0 kills: the top three are the second, the
    third and the first. *)
Lemma leaderboard_ranking_witness :
  let values :=
    [ Party.set_total_kills 1 (Party.create 1 0 1);
      Party.set_total_kills 5 (Party.create 2 0 1);
      Party.set_total_kills 5 (Party.create 3 0 1);
      Party.set_total_kills 0 (Party.create 4 0 1) ] in
  Party.id <$> PartyLeaderboardManager.top_by_kills values 3 = [2%N; 3%N; 1%N] ∧
  length (PartyLeaderboardManager.top_by_kills values 3) = 3%nat.
Proof.
  intros values. split; [vm_compute; reflexivity|].
  destruct (leaderboard_ranking values 3 PartyLeaderboardManager.top_by_kills Party.total_kills)
    as (_ & Hlen & _).
  - apply list_elem_of_here.
  - by rewrite Hlen.
Defined.

(** ** Choosing the storage backend (storage.py, [MySQLPartyStorage.__init__],
       [_resolve_storage_provider] and [create_storage]) *)

Lemma substring_take (n : nat) (s : string) :
  list_ascii_of_string (String.substring 0 n s) = take n (list_ascii_of_string s).
Proof.
  revert n. induction s as [|c s IH]; intros [|n]; cbn; try done. by rewrite IH.
Qed.

Lemma length_list_ascii (s : string) : length (list_ascii_of_string s) = String.length s.
Proof. induction s as [|c s IH]; cbn; [done|]. by rewrite IH. Qed.

Lemma strip_non_word_chars (s : string) :
  Forall (λ c, MySQLPartyStorage.word_char c = true)
    (list_ascii_of_string (MySQLPartyStorage.strip_non_word s)).
Proof.
  induction s as [|c s IH]; cbn; [constructor|].
  destruct (MySQLPartyStorage.word_char c) eqn:Hc; [|done]. cbn. by constructor.
Qed.

Lemma string_app_list (s1 s2 : string) :
  list_ascii_of_string (s1 +:+ s2) = list_ascii_of_string s1 ++ list_ascii_of_string s2.
Proof.
  induction s1 as [|c s1 IH]; [done|].
  change (String c s1 +:+ s2) with (String c (s1 +:+ s2)). cbn. by rewrite IH.
Qed.

(** The prefix of the table names: what [__init__] makes of [table_prefix]. *)
Lemma normalized_prefix_spec (table_prefix : string) :
  let stripped := MySQLPartyStorage.strip_non_word table_prefix in
  let cut := if (MySQLPartyStorage.MAX_TABLE_PREFIX_LENGTH <? String.length stripped)%nat
             then String.substring 0 MySQLPartyStorage.MAX_TABLE_PREFIX_LENGTH stripped
             else stripped in
  let prefix := if String.eqb cut "" then "euphoria_"%string else cut in
  (1 ≤ String.length prefix ≤ 32)%nat ∧
  Forall (λ c, MySQLPartyStorage.word_char c = true) (list_ascii_of_string prefix) ∧
  (prefix = stripped ∨ prefix = String.substring 0 32 stripped ∨
   (prefix = "euphoria_"%string ∧ stripped = ""%string)).
Proof.
  intros stripped cut prefix.
  assert (Hcut : (String.length cut ≤ 32)%nat ∧
                 Forall (λ c, MySQLPartyStorage.word_char c = true) (list_ascii_of_string cut) ∧
                 (cut = stripped ∨ (cut = String.substring 0 32 stripped ∧ cut ≠ ""%string))).
  { subst cut. unfold MySQLPartyStorage.MAX_TABLE_PREFIX_LENGTH.
    destruct (Nat.ltb_spec 32 (String.length stripped)) as [Hlong|Hshort].
    - split_and!.
      + rewrite <-length_list_ascii, substring_take, length_take. lia.
      + rewrite substring_take. apply Forall_take, strip_non_word_chars.
      + right. split; [done|]. intros Hempty.
        apply (f_equal String.length) in Hempty.
        rewrite <-length_list_ascii, substring_take, length_take, length_list_ascii in Hempty.
        change (String.length "") with 0%nat in Hempty. lia.
    - split_and!; [lia|apply strip_non_word_chars|by left]. }
  destruct Hcut as (Hlen & Hchars & Hfrom). clearbody cut.
  subst prefix. destruct (String.eqb_spec cut "") as [Hempty|Hfull].
  - split_and!; [cbn; lia|cbn; lia|by repeat constructor|].
    right. right. split; [done|]. destruct Hfrom as [<-|[_ ?]]; done.
  - split_and!; [|done|done|].
    + destruct cut; [done|cbn; lia].
    + destruct Hfrom as [->|[-> _]]; [by left|right; by left].
Qed.

(** The object [__init__] builds when it does not raise. *)
Lemma mysql_init_ok (available : bool) (host : string) (port : Z) (database : string)
    (username : string) (password : string) (table_prefix : string) (connect_timeout : Z)
    (storage : MySQLPartyStorage.t) :
  MySQLPartyStorage.__init__ available host port database username password table_prefix
    connect_timeout = Ok storage →
  available = true ∧ database ≠ "" ∧ username ≠ "" ∧
  ∃ prefix,
    (1 ≤ String.length prefix ≤ 32)%nat ∧
    Forall (λ c, MySQLPartyStorage.word_char c = true) (list_ascii_of_string prefix) ∧
    (prefix = MySQLPartyStorage.strip_non_word table_prefix ∨
     prefix = String.substring 0 32 (MySQLPartyStorage.strip_non_word table_prefix) ∨
     (prefix = "euphoria_" ∧ MySQLPartyStorage.strip_non_word table_prefix = "")) ∧
    storage =
      MySQLPartyStorage.mk (prefix +:+ "parties") (prefix +:+ "player_names") host port
        username password database
        (if connect_timeout <? 1 then MySQLPartyStorage.DEFAULT_CONNECT_TIMEOUT
         else connect_timeout).
Proof.
  unfold MySQLPartyStorage.__init__. destruct available; [|done]. cbn [negb].
  destruct (String.eqb_spec database "") as [|Hdb]; [done|].
  destruct (String.eqb_spec username "") as [|Huser]; [done|]. cbn [orb].
  intros [= <-]. split_and!; try done.
  destruct (normalized_prefix_spec table_prefix) as (Hlen & Hchars & Hfrom).
  cbv zeta in Hlen, Hchars, Hfrom. by eexists.
Qed.

(** What [create_storage] relies on. *)
Lemma mysql_init_fields (available : bool) (host : string) (port : Z) (database : string)
    (username : string) (password : string) (table_prefix : string) (connect_timeout : Z)
    (storage : MySQLPartyStorage.t) :
  MySQLPartyStorage.__init__ available host port database username password table_prefix
    connect_timeout = Ok storage →
  available = true ∧ database ≠ "" ∧ username ≠ "" ∧
  Forall (λ c, MySQLPartyStorage.word_char c = true)
    (list_ascii_of_string (MySQLPartyStorage._table_name storage)) ∧
  Forall (λ c, MySQLPartyStorage.word_char c = true)
    (list_ascii_of_string (MySQLPartyStorage._names_table storage)) ∧
  1 ≤ MySQLPartyStorage.connection_timeout storage ∧
  MySQLPartyStorage.port storage = port ∧
  MySQLPartyStorage.user storage = username ∧
  MySQLPartyStorage.database storage = database.
Proof.
  intros Hinit.
  apply mysql_init_ok in Hinit as (Havail & Hdb & Huser & prefix & _ & Hchars & _ & ->).
  cbn. split_and!; try done.
  - rewrite string_app_list. apply Forall_app. split; [done|by repeat constructor].
  - rewrite string_app_list. apply Forall_app. split; [done|by repeat constructor].
  - unfold MySQLPartyStorage.DEFAULT_CONNECT_TIMEOUT. destruct (Z.ltb_spec connect_timeout 1); lia.
Qed.

(** X16. Whenever [MySQLPartyStorage(...)] gets as far as [_ensure_schema()],
    the connector is available, the database and user names are not empty,
    the connection timeout is at least 1 (the configured one when that is at
    least 1, else 5), and both table names consist of characters of
    [[a-zA-Z0-9_]] only: they are the configured prefix with every other
    character removed, cut to 32 characters, or [euphoria_] when nothing is
    left of it, followed by [parties] and [player_names]. *)
Theorem mysql_table_names (available : bool) (host : string) (port : Z) (database : string)
    (username : string) (password : string) (table_prefix : string) (connect_timeout : Z)
    (storage : MySQLPartyStorage.t) :
  MySQLPartyStorage.__init__ available host port database username password table_prefix
    connect_timeout = Ok storage →
  available = true ∧ database ≠ "" ∧ username ≠ "" ∧
  (∃ prefix,
     MySQLPartyStorage._table_name storage = prefix +:+ "parties" ∧
     MySQLPartyStorage._names_table storage = prefix +:+ "player_names" ∧
     (1 ≤ String.length prefix ≤ 32)%nat ∧
     Forall (λ c, MySQLPartyStorage.word_char c = true) (list_ascii_of_string prefix) ∧
     (prefix = MySQLPartyStorage.strip_non_word table_prefix ∨
      prefix = String.substring 0 32 (MySQLPartyStorage.strip_non_word table_prefix) ∨
      (prefix = "euphoria_" ∧ MySQLPartyStorage.strip_non_word table_prefix = ""))) ∧
  Forall (λ c, MySQLPartyStorage.word_char c = true)
    (list_ascii_of_string (MySQLPartyStorage._table_name storage)) ∧
  Forall (λ c, MySQLPartyStorage.word_char c = true)
    (list_ascii_of_string (MySQLPartyStorage._names_table storage)) ∧
  1 ≤ MySQLPartyStorage.connection_timeout storage ∧
  (1 ≤ connect_timeout → MySQLPartyStorage.connection_timeout storage = connect_timeout) ∧
  MySQLPartyStorage.host storage = host ∧ MySQLPartyStorage.port storage = port ∧
  MySQLPartyStorage.user storage = username ∧
  MySQLPartyStorage.password storage = password ∧
  MySQLPartyStorage.database storage = database.
Proof.
  intros Hinit.
  apply mysql_init_ok in Hinit
    as (Havail & Hdb & Huser & prefix & Hlen & Hchars & Hfrom & ->).
  cbn. split_and!; try done.
  - by exists prefix.
  - rewrite string_app_list. apply Forall_app. split; [done|by repeat constructor].
  - rewrite string_app_list. apply Forall_app. split; [done|by repeat constructor].
  - unfold MySQLPartyStorage.DEFAULT_CONNECT_TIMEOUT. destruct (Z.ltb_spec connect_timeout 1); lia.
  - intros Hpos. by destruct (Z.ltb_spec connect_timeout 1); [lia|].
Qed.

(** A prefix that tries to close the quoted table name. *)
Lemma mysql_table_names_witness :
  ∃ storage,
    MySQLPartyStorage.__init__ true "127.0.0.1" 3306 "euphoria_parties" "root" ""
      "eu`ph; DROP TABLE x; --" 0 = Ok storage ∧
    MySQLPartyStorage._table_name storage = "euphDROPTABLExparties" ∧
    1 ≤ MySQLPartyStorage.connection_timeout storage.
Proof.
  eexists. split; [vm_compute; reflexivity|]. split; [reflexivity|].
  eapply (mysql_table_names true "127.0.0.1" 3306 "euphoria_parties" "root" ""
            "eu`ph; DROP TABLE x; --" 0).
  vm_compute. reflexivity.
Defined.

(** X17. The provider [_resolve_storage_provider] returns is [json] or [mysql],
    and it is [mysql] whenever [storage.mysql.enabled] is truthy.
    [create_storage] returns the JSON backend when the provider is [json] or
    the connector is missing, and returns the MySQL backend only when the
    provider is [mysql], the constructor succeeded and [_ensure_schema()]
    returned: then the port lies in 1..65535, the timeout is at least 1, the
    user and database names are not empty, and the table names consist of
    characters of [[a-zA-Z0-9_]] only. *)
Theorem create_storage_choice `{PyRuntime} (available : bool)
    (ensure_schema : MySQLPartyStorage.t → bool) (config : PyVal) :
  let provider := Storage._resolve_storage_provider config in
  let enabled :=
    Py.truthy (EuphoriaPartiesPlugin.get_config config "storage.mysql.enabled" (VBool false)) in
  (provider = "json" ∨ provider = "mysql") ∧
  (enabled = true → provider = "mysql") ∧
  (provider = "json" → Storage.create_storage available ensure_schema config = Storage.Json) ∧
  (available = false → Storage.create_storage available ensure_schema config = Storage.Json) ∧
  (∀ storage,
     Storage.create_storage available ensure_schema config = Storage.MySQL storage →
     provider = "mysql" ∧ available = true ∧ ensure_schema storage = true ∧
     1 ≤ MySQLPartyStorage.port storage ≤ 65535 ∧
     1 ≤ MySQLPartyStorage.connection_timeout storage ∧
     MySQLPartyStorage.user storage ≠ "" ∧ MySQLPartyStorage.database storage ≠ "" ∧
     Forall (λ c, MySQLPartyStorage.word_char c = true)
       (list_ascii_of_string (MySQLPartyStorage._table_name storage)) ∧
     Forall (λ c, MySQLPartyStorage.word_char c = true)
       (list_ascii_of_string (MySQLPartyStorage._names_table storage))).
Proof.
  intros provider enabled.
  assert (Hprovider : (provider = "json" ∨ provider = "mysql") ∧
                      (enabled = true → provider = "mysql")).
  { subst provider enabled. unfold Storage._resolve_storage_provider. cbv zeta.
    destruct (Py.truthy _).
    - cbn. split; [by right|done].
    - match goal with
      | |- context [if negb (String.eqb ?p "json" || String.eqb ?p "mysql") then _ else _] =>
          destruct (String.eqb_spec p "json") as [->|Hj];
          [|destruct (String.eqb_spec p "mysql") as [->|Hm]]
      end; cbn; (split; [auto|done]). }
  destruct Hprovider as [Hvalues Henabled].
  assert (Hcreate : ∀ storage,
    Storage.create_storage available ensure_schema config = Storage.MySQL storage →
    provider = "mysql" ∧ ensure_schema storage = true ∧
    1 ≤ MySQLPartyStorage.port storage ≤ 65535 ∧
    ∃ host port database username password table_prefix connect_timeout,
      MySQLPartyStorage.__init__ available host port database username password table_prefix
        connect_timeout = Ok storage).
  { intros storage. unfold Storage.create_storage. cbv zeta. fold provider.
    destruct (String.eqb_spec provider "mysql") as [Hmysql|Hother]; [|done]. cbn [negb].
    match goal with
    | |- match MySQLPartyStorage.__init__ ?a ?h ?p ?d ?u ?w ?t ?c with _ => _ end = _ → _ =>
        destruct (MySQLPartyStorage.__init__ a h p d u w t c) as [built|] eqn:Hinit; [|done];
        set (port := p) in *
    end.
    destruct (ensure_schema built) eqn:Hschema; [|done]. intros [= <-].
    split_and!; try done.
    - destruct (mysql_init_fields _ _ _ _ _ _ _ _ _ Hinit) as (_ & _ & _ & _ & _ & _ & -> & _).
      subst port. destruct (Py.int _) as [n|]; cbn.
      + destruct (Z.ltb_spec n 1); cbn; [lia|]. destruct (Z.ltb_spec 65535 n); lia.
      + lia.
    - destruct (mysql_init_fields _ _ _ _ _ _ _ _ _ Hinit) as (_ & _ & _ & _ & _ & _ & -> & _).
      subst port. destruct (Py.int _) as [n|]; cbn.
      + destruct (Z.ltb_spec n 1); cbn; [lia|]. destruct (Z.ltb_spec 65535 n); lia.
      + lia.
    - by repeat eexists. }
  split_and!; try done.
  - intros Hjson. unfold Storage.create_storage. cbv zeta. fold provider. by rewrite Hjson.
  - intros Hunavailable.
    destruct (Storage.create_storage available ensure_schema config) as [|storage]; [done|].
    destruct (Hcreate storage eq_refl) as (_ & _ & _ & (h & p & d & u & w & t & c & Hinit)).
    destruct (mysql_init_fields _ _ _ _ _ _ _ _ _ Hinit) as (? & _). congruence.
  - intros storage Hc.
    destruct (Hcreate storage Hc) as (Hmysql & Hschema & Hport & (h & p & d & u & w & t & c & Hinit)).
    destruct (mysql_init_fields _ _ _ _ _ _ _ _ _ Hinit)
      as (Havail & Hdb & Huser & Ht1 & Ht2 & Htimeout & _ & -> & ->).
    split_and!; try done; lia.
Qed.

(** ** Invites of two parties for one player (party_manager.py, [invite_player]
       and [get_pending_invite]) *)

Section Pending.
Context `{PyRuntime}.

(** A successful [invite_player]. *)
Lemma invite_player_accepted (cfg : Config.t) (now : Z) (self self' : PartyManager.t)
    (party x : UUID) :
  PartyManager.invite_player cfg now self party x = Some (true, self') →
  ∃ obj,
    PartyManager.parties self !! party = Some obj ∧
    PartyManager.parties self' =
      <[party := Party.invite_player now
                   (Party.set_invites
                      (Party.live_at (now - Config.invite_expiration_ms cfg) (Party.invites obj))
                      obj) x]> (PartyManager.parties self) ∧
    PartyManager.player_invites self' !! x = Some (Party.id obj).
Proof.
  unfold PartyManager.invite_player, PartyManager.deref. intros Hcall.
  destruct (PartyManager.parties self !! party) as [obj|] eqn:Hobj; [|done].
  cbn in Hcall. exists obj. split; [done|].
  match type of Hcall with
  | context [foldl ?f ?s ?l] =>
      destruct (drop_expired_frame (Party.id obj) l s) as (Hp & Hi & Hm & Hn & Hd);
      set (self1 := foldl f s l) in *
  end.
  destruct (Party.has_invite _ x); [done|].
  destruct (_ <=? _); [done|].
  injection Hcall as <-. cbn. rewrite Hp. cbn. split.
  - by rewrite insert_insert_eq.
  - by rewrite lookup_insert_eq.
Qed.

End Pending.

(** X18. The later invite replaces the pending one. When a party invites a
    player and then another party invites the same player, both calls
    returning [True]: [get_pending_invite] returns the second party, which
    is all that [/party accept] looks at; the first party still holds its
    invite, and until that invite has expired the first party cannot invite
    the player again ([invite_player] returns [False]). *)
Theorem later_invite_replaces_pending `{PyRuntime} (cfg : Config.t) (now1 now2 : Z)
    (self self1 self2 : PartyManager.t) (first second player_id : UUID) :
  Invariant.keyed_by_id self →
  first ≠ second →
  PartyManager.invite_player cfg now1 self first player_id = Some (true, self1) →
  PartyManager.invite_player cfg now2 self1 second player_id = Some (true, self2) →
  (∃ q, PartyManager.get_pending_invite self2 player_id = (Some q, self2) ∧
        PartyManager.parties self2 !! second = Some q ∧
        Party.invites q !! player_id = Some now2) ∧
  (∃ p, PartyManager.parties self2 !! first = Some p ∧
        Party.invites p !! player_id = Some now1) ∧
  (∀ now3, now3 - now1 ≤ Config.invite_expiration_ms cfg →
     ∃ self3, PartyManager.invite_player cfg now3 self2 first player_id = Some (false, self3) ∧
              (PartyManager.get_pending_invite self3 player_id).1
              = PartyManager.parties self3 !! second).
Proof.
  intros Hkeyed Hne Hfirst Hsecond.
  apply invite_player_accepted in Hfirst as (p & Hp & Hparties1 & Hpending1).
  apply invite_player_accepted in Hsecond as (q & Hq & Hparties2 & Hpending2).
  assert (Hq0 : PartyManager.parties self !! second = Some q).
  { by rewrite Hparties1, lookup_insert_ne in Hq. }
  pose proof (Hkeyed second q Hq0) as Hid. rewrite Hid in Hpending2.
  split_and!.
  - eexists. split_and!.
    + unfold PartyManager.get_pending_invite. rewrite Hpending2, Hparties2, lookup_insert_eq.
      reflexivity.
    + by rewrite Hparties2, lookup_insert_eq.
    + cbn. by rewrite lookup_insert_eq.
  - eexists. split.
    + rewrite Hparties2, lookup_insert_ne, Hparties1 by done. by rewrite lookup_insert_eq.
    + cbn. by rewrite lookup_insert_eq.
  - intros now3 Hfresh.
    unfold PartyManager.invite_player, PartyManager.deref.
    rewrite Hparties2, lookup_insert_ne, Hparties1, lookup_insert_eq by done. cbn.
    match goal with
    | |- context [foldl ?f ?s ?l] =>
        destruct (drop_expired_frame (Party.id p) l s) as (Hp3 & Hi3 & Hm3 & Hn3 & Hd3);
        pose proof (drop_expired_index (Party.id p) l s player_id) as Hx3;
        set (self3 := foldl f s l) in *
    end.
    assert (Hlive : Party.live_at (now3 - Config.invite_expiration_ms cfg)
                      (<[player_id := now1]>
                         (Party.live_at (now1 - Config.invite_expiration_ms cfg) (Party.invites p)))
                    !! player_id = Some now1).
    { unfold Party.live_at at 1. apply map_lookup_filter_Some. split.
      - by rewrite lookup_insert_eq.
      - cbn. lia. }
    unfold Party.has_invite. cbn. rewrite Hlive.
    rewrite bool_decide_eq_true_2 by done.
    eexists. split; [reflexivity|].
    unfold PartyManager.get_pending_invite.
    rewrite Hx3, bool_decide_eq_false_2.
    + cbn. rewrite Hpending2, Hp3. cbn. rewrite lookup_insert_ne by done.
      rewrite Hparties2, lookup_insert_eq. reflexivity.
    + cbn. rewrite Hpending2. intros [_ [= Hsame]].
      rewrite (Hkeyed first p Hp) in Hsame. by apply Hne.
Qed.

(** [alice] and [bob] each lead a party and invite [carol], one minute
    apart. *)
Lemma later_invite_replaces_pending_witness :
  ∃ self self1 self2 q,
    PartyManager.invite_player Config.defaults 1000 self 1%N Sample.C = Some (true, self1) ∧
    PartyManager.invite_player Config.defaults 61000 self1 2%N Sample.C = Some (true, self2) ∧
    PartyManager.get_pending_invite self2 Sample.C = (Some q, self2) ∧
    Party.leader q = Sample.B.
Proof.
  set (self := (PartyManager.create_party 0 2%N
                  (PartyManager.create_party 0 1%N PartyManager.empty Sample.alice).2
                  Sample.bob).2).
  destruct (PartyManager.invite_player Config.defaults 1000 self 1%N Sample.C)
    as [[[] self1]|] eqn:H1; [|by vm_compute in H1..].
  destruct (PartyManager.invite_player Config.defaults 61000 self1 2%N Sample.C)
    as [[[] self2]|] eqn:H2; [|exfalso..].
  - assert (Hkeyed : Invariant.keyed_by_id self).
    { apply (bool_decide_unpack (map_Forall (λ key p, Party.id p = key) (PartyManager.parties self))).
      vm_compute. exact I. }
    destruct (later_invite_replaces_pending Config.defaults 1000 61000 self self1 self2
                1%N 2%N Sample.C Hkeyed ltac:(done) H1 H2) as ((q & Hpending & Hq & _) & _).
    exists self, self1, self2, q. split_and!; try done.
    assert (Hself2 : self2 = (default (true, self) (
       r ← PartyManager.invite_player Config.defaults 1000 self 1%N Sample.C;
       PartyManager.invite_player Config.defaults 61000 r.2 2%N Sample.C)).2).
    { rewrite H1. cbn. by rewrite H2. }
    rewrite Hself2 in Hq. vm_compute in Hq. by injection Hq as <-.
  - assert (H3 : (r ← PartyManager.invite_player Config.defaults 1000 self 1%N Sample.C;
                  PartyManager.invite_player Config.defaults 61000 r.2 2%N Sample.C) = Some (false, self2)).
    { rewrite H1. cbn. by rewrite H2. }
    by vm_compute in H3.
  - assert (H3 : (r ← PartyManager.invite_player Config.defaults 1000 self 1%N Sample.C;
                  PartyManager.invite_player Config.defaults 61000 r.2 2%N Sample.C) = None).
    { rewrite H1. cbn. by rewrite H2. }
    by vm_compute in H3.
Defined.

(** ** Disbanding a party whose members are all offline (party_manager.py,
       [check_party_cleanup] and [disband_party]) *)

Lemma existsb_false {A} (f : A → bool) (l : list A) :
  existsb f l = false ↔ ∀ x, x ∈ l → f x = false.
Proof.
  induction l as [|y l IH]; cbn.
  - split; [|done]. intros _ x Hx. by apply elem_of_nil in Hx.
  - rewrite orb_false_iff, IH. split.
    + intros [Hy Hl] x Hx. apply elem_of_cons in Hx as [->|Hx]; [done|by apply Hl].
    + intros Hall. split; [apply Hall; left|intros x Hx; apply Hall; by right].
Qed.

Lemma filter_none {A} (f : A → bool) (l : list A) :
  (∀ x, x ∈ l → f x = false) → List.filter f l = [].
Proof.
  induction l as [|y l IH]; intros Hall; [done|]. cbn.
  rewrite (Hall y) by left. apply IH. intros x Hx. apply Hall. by right.
Qed.

(** X19. Disbanding when all are offline. [check_party_cleanup] changes
    nothing when the option is off, when the party is not stored, or when a
    member of the party is online. Otherwise the party is removed; in a
    registry whose [player_to_party] is exact none of its members is in a
    party afterwards, no pending invite leads to it, the entries of other
    players and the invites of other parties are as before, and
    [player_to_party] is still exact. *)
Theorem check_party_cleanup_effect `{PyRuntime} (disband_when_all_offline : bool)
    (online : UUID → bool) (self : PartyManager.t) (party_id : UUID) :
  Invariant.index_exact self →
  let self' :=
    PartyManager.check_party_cleanup disband_when_all_offline online self party_id in
  (disband_when_all_offline = false → self' = self) ∧
  (PartyManager.parties self !! party_id = None → self' = self) ∧
  (∀ party member_id,
     PartyManager.parties self !! party_id = Some party →
     member_id ∈ Party.members party → online member_id = true → self' = self) ∧
  (∀ party,
     disband_when_all_offline = true →
     PartyManager.parties self !! party_id = Some party →
     (∀ member_id, member_id ∈ Party.members party → online member_id = false) →
     PartyManager.online_party_member_count online party = 0 ∧
     PartyManager.parties self' = delete party_id (PartyManager.parties self) ∧
     (∀ member_id, member_id ∈ Party.members party →
                   PartyManager.is_in_party self' member_id = false) ∧
     (∀ x, x ∉ Party.members party →
           PartyManager.player_to_party self' !! x = PartyManager.player_to_party self !! x) ∧
     (∀ x, PartyManager.player_invites self' !! x ≠ Some party_id) ∧
     (∀ x other, other ≠ party_id →
        PartyManager.player_invites self !! x = Some other →
        PartyManager.player_invites self' !! x = Some other) ∧
     PartyManager._dirty self' = true) ∧
  Invariant.index_exact self'.
Proof.
  intros Hexact self'. subst self'. unfold PartyManager.check_party_cleanup.
  destruct disband_when_all_offline; cbn [negb]; [|by split_and!].
  destruct (PartyManager.parties self !! party_id) as [party|] eqn:Hparty; [|by split_and!].
  destruct (existsb online (set_iter (Party.members party))) eqn:Hany; cbn [negb].
  - split_and!; try done. intros p Htrue [= <-] Hoff.
    apply not_false_iff_true in Hany. destruct Hany. apply existsb_false.
    intros x Hx. apply Hoff. by apply elem_of_set_iter.
  - pose proof (proj1 (existsb_false _ _) Hany) as Hoff.
    destruct (disband_party_stored self party_id party Hparty) as (_ & Hp & Hidx & Hinv & Hd).
    cbv zeta in Hp, Hidx, Hinv, Hd.
    set (self' := (PartyManager.disband_party self party_id).2) in *.
    assert (Hexact' : Invariant.index_exact self').
    { by apply (index_exact_disband self self' party_id party). }
    split_and!; try done.
    + intros p x [= <-] Hx Hon. rewrite Hoff in Hon; [done|by apply elem_of_set_iter].
    + intros p _ [= <-] _. split_and!; try done.
      * unfold PartyManager.online_party_member_count. by rewrite filter_none.
      * intros x Hx. unfold PartyManager.is_in_party, PartyManager.get_player_party.
        rewrite Hidx. rewrite bool_decide_eq_true_2; [done|]. split; [done|].
        apply Hexact. by exists party.
      * intros x Hx. rewrite Hidx. rewrite bool_decide_eq_false_2; [done|]. by intros [? _].
      * intros x. rewrite Hinv. case_bool_decide as Hx; [done|]. by intros Heq.
      * intros x other Hother Hx. rewrite Hinv, Hx. by rewrite bool_decide_eq_false_2 by congruence.
Qed.

(** [alice]'s party, with nobody online. *)
Lemma check_party_cleanup_effect_witness :
  let self := (PartyManager.create_party 0 Sample.P PartyManager.empty Sample.alice).2 in
  let self' := PartyManager.check_party_cleanup true (λ _, false) self Sample.P in
  PartyManager.is_in_party self Sample.A = true ∧
  PartyManager.is_in_party self' Sample.A = false ∧
  PartyManager.parties self' = delete Sample.P (PartyManager.parties self).
Proof.
  intros self self'.
  assert (Hexact : Invariant.index_exact self).
  { apply create_party_index; [apply index_exact_empty|done]. }
  destruct (check_party_cleanup_effect true (λ _, false) self Sample.P Hexact)
    as (_ & _ & _ & Hgone & _).
  destruct (Hgone (Party.create Sample.P 0 Sample.A)) as (_ & Hparties & Hmembers & _);
    [done|vm_compute; reflexivity|done|].
  split_and!.
  - vm_compute. reflexivity.
  - apply Hmembers. apply (bool_decide_unpack _). vm_compute. exact I.
  - exact Hparties.
Defined.

(** ** Saving and starting again (party_manager.py, [save_all], [load_all],
       [reload] and [shutdown]) *)

(** A checkable form of [index_exact], to establish it on sample data. *)
Lemma index_exact_decide (self : PartyManager.t) :
  map_Forall (λ x pid, x ∈ default ∅ (Party.members <$> PartyManager.parties self !! pid))
    (PartyManager.player_to_party self) →
  map_Forall (λ pid p, set_Forall (λ x, PartyManager.player_to_party self !! x = Some pid)
                         (Party.members p))
    (PartyManager.parties self) →
  Invariant.index_exact self.
Proof.
  intros Hsound Hcomplete x pid. split.
  - intros Hx. specialize (Hsound x pid Hx). cbn in Hsound.
    destruct (PartyManager.parties self !! pid) as [p|]; [by exists p|].
    by apply elem_of_empty in Hsound.
  - intros (p & Hp & Hx). by apply (Hcomplete pid p Hp x Hx).
Qed.

(** X20. Nothing is lost over a restart or a reload. Take a registry as in
    X10 whose [player_to_party] is exact. [save_all(force=True)] passes its
    parties and names to the storage backend; when [load_all] then reads the
    document written, into whatever registry, the parties, the player names
    and [player_to_party] are as they were, the registry is not dirty, and
    [player_invites] is rebuilt from the invites the parties hold. *)
Theorem restart_keeps_registry `{PyRuntime} (now : Z)
    (storage_save : list Party.t → gmap UUID string → bool)
    (self start : PartyManager.t) :
  (∀ u : UUID, uuid_parse (uuid_str u) = Some u) →
  Invariant.keyed_by_id self →
  Invariant.every_party
    (λ p, Invariant.leader_is_member p ∧ Invariant.leader_has_role p ∧
          Invariant.roles_within_members p ∧
          (Party.name p = VNone ∨ Py.truthy (Party.name p) = true)) self →
  (∀ player_id name,
     PartyManager.player_names self !! player_id = Some name →
     name ≠ "" ∧ Py.strip name = name) →
  Invariant.index_exact self →
  ∃ values names,
    (PartyManager.save_all storage_save self true).2 = [(values, names)] ∧
    let file := PartyStorage.Parsed (PartyStorage.save values names) in
    let self' := PartyManager.load_all (PartyStorage.load now file) start in
    PartyManager.parties self' = PartyManager.parties self ∧
    PartyManager.player_names self' = PartyManager.player_names self ∧
    PartyManager.player_to_party self' = PartyManager.player_to_party self ∧
    PartyManager._dirty self' = false ∧
    Invariant.invites_sound self' ∧
    (∀ key p x, PartyManager.parties self !! key = Some p → is_Some (Party.invites p !! x) →
                is_Some (PartyManager.player_invites self' !! x)).
Proof.
  intros Hlaw Hkeyed Hparties Hnames Hexact.
  exists (PartyManager.all_parties self), (PartyManager.player_names self). split.
  { unfold PartyManager.save_all. cbn. by destruct (storage_save _ _). }
  intros file self'. subst file self'.
  rewrite save_load_values; [|done| |done].
  2: { apply Forall_forall. intros p Hp. unfold PartyManager.all_parties in Hp.
       apply list_elem_of_fmap in Hp as ([k q] & -> & Hin).
       apply elem_of_map_to_list in Hin. by apply (Hparties k q). }
  rewrite (stored_values self (PartyManager.all_parties self)) by done.
  unfold PartyManager.load_all.
  set (self1 := PartyManager.set_dirty false
                  (PartyManager.set_player_names (PartyManager.player_names self)
                     (PartyManager.set_parties (PartyManager.parties self) start))).
  destruct (rebuild_indexes_spec self1) as (Hp & Hsound & Hcomplete & Hvs & Hvc & _ & Hn & Hd).
  set (self' := PartyManager._rebuild_indexes self1) in *.
  change (PartyManager.parties self1) with (PartyManager.parties self) in Hp, Hd.
  change (PartyManager.player_names self1) with (PartyManager.player_names self) in Hn.
  change (PartyManager._dirty self1) with false in Hd.
  assert (Hsame : PartyManager.parties self' = PartyManager.parties self).
  { apply map_eq. intros key. rewrite Hp.
    destruct (PartyManager.parties self !! key) as [p|] eqn:Hkey; [|done]. cbn. f_equal.
    destruct (Hparties key p Hkey) as (Hlead & Hrole & _).
    rewrite bool_decide_eq_false_2 by (intros Hn'; by apply Hn').
    rewrite (insert_id _ _ _ Hrole). by destruct p. }
  split_and!; try done.
  - apply map_eq. intros x.
    destruct (PartyManager.player_to_party self' !! x) as [pid|] eqn:Hx.
    + destruct (Hsound x pid Hx) as (key & p & Hkey & Hid & Hmember).
      rewrite Hsame in Hkey. rewrite (Hkeyed key p Hkey) in Hid. subst key.
      symmetry. apply Hexact. by exists p.
    + destruct (PartyManager.player_to_party self !! x) as [pid|] eqn:Hx0; [|done].
      apply Hexact in Hx0 as (p & Hkey & Hmember). rewrite <-Hsame in Hkey.
      destruct (Hcomplete pid p x Hkey Hmember) as [? Hsome]. congruence.
  - apply not_true_is_false. intros Hdirty.
    apply Hd in Hdirty as [?|(key & p & Hkey & Hbad)]; [done|].
    destruct (Hparties key p Hkey) as (Hlead & Hrole & _). by destruct Hbad.
  - intros key p x Hkey. rewrite <-Hsame in Hkey. by apply (Hvc key p x).
Qed.

(** The registry of the sample party [{A, B, C}], saved and loaded into an
    empty registry. *)
Lemma restart_keeps_registry_witness :
  ∃ values names,
    (PartyManager.save_all (λ _ _, true) Sample.trio true).2 = [(values, names)] ∧
    PartyManager.player_to_party
      (PartyManager.load_all
         (PartyStorage.load 0 (PartyStorage.Parsed (PartyStorage.save values names)))
         PartyManager.empty)
    = PartyManager.player_to_party Sample.trio.
Proof.
  assert (Hstored : PartyManager.parties Sample.trio
                    = {[Sample.P := Sample.party_of Sample.trio]}).
  { vm_compute. reflexivity. }
  destruct (@restart_keeps_registry Ref.runtime 0 (λ _ _, true) Sample.trio PartyManager.empty)
    as (values & names & Hcall & _ & _ & Hindex & _).
  - exact ref_parse_str.
  - intros key p Hkey. rewrite Hstored in Hkey.
    apply lookup_singleton_Some in Hkey as [<- <-]. vm_compute. reflexivity.
  - intros key p Hkey. rewrite Hstored in Hkey.
    apply lookup_singleton_Some in Hkey as [<- <-].
    assert (Hall : Invariant.all (Sample.party_of Sample.trio)).
    { apply invariant_all_decide;
        solve [ vm_compute; reflexivity | apply (bool_decide_unpack _); vm_compute; exact I ]. }
    destruct Hall as (H1 & H2 & H3 & _). split_and!; try done. left. vm_compute. reflexivity.
  - apply (bool_decide_unpack
             (map_Forall (λ _ name, name ≠ "" ∧ Py.strip name = name)
                (PartyManager.player_names Sample.trio))).
    vm_compute. exact I.
  - apply index_exact_decide; apply (bool_decide_unpack _); vm_compute; exact I.
  - exists values, names. split; [exact Hcall|exact Hindex].
Defined.

(** ** Reading the configuration (__init__.py, [get_config]) *)

Lemma split_segment (key : string) :
  Forall (λ c, c ≠ "."%char) (list_ascii_of_string key) →
  Py.split "." key = [key] ∧
  ∀ path, Py.split "." (key +:+ "." +:+ path) = key :: Py.split "." path.
Proof.
  induction key as [|c key IH]; intros Hkey.
  - split; [done|]. intros path. done.
  - cbn [list_ascii_of_string] in Hkey. apply Forall_cons in Hkey as [Hc Hkey].
    destruct (IH Hkey) as [IH1 IH2]. split.
    + cbn. destruct (Ascii.eqb_spec c "."); [done|]. by rewrite IH1.
    + intros path. change (String c key +:+ "." +:+ path) with (String c (key +:+ "." +:+ path)).
      cbn [Py.split]. destruct (Ascii.eqb_spec c "."); [done|]. by rewrite IH2.
Qed.

(** X21. [get_config] resolves a dotted path one segment at a time. For a key
    without a dot, [get_config(key, default)] is the value stored under the
    key when the configuration is a dict that has the key, and [default]
    otherwise; [get_config(key + "." + path, default)] is
    [get_config(path, default)] read in the value stored under the key, and
    [default] when the key is missing or the configuration is not a dict. A
    stored [None] is returned as it is, not replaced by [default]. *)
Theorem get_config_path (config : PyVal) (key path : string) (dflt : PyVal) :
  Forall (λ c, c ≠ "."%char) (list_ascii_of_string key) →
  EuphoriaPartiesPlugin.get_config config key dflt =
    match config with
    | VDict d => default dflt (Py.get_opt key d)
    | _ => dflt
    end ∧
  EuphoriaPartiesPlugin.get_config config (key +:+ "." +:+ path) dflt =
    match config with
    | VDict d =>
        match Py.get_opt key d with
        | Some v => EuphoriaPartiesPlugin.get_config v path dflt
        | None => dflt
        end
    | _ => dflt
    end.
Proof.
  intros Hkey. destruct (split_segment key Hkey) as [Hone Hmore].
  unfold EuphoriaPartiesPlugin.get_config. rewrite Hone, Hmore. cbn. split.
  - by destruct config.
  - by destruct config.
Qed.

(** [storage.mysql.port] in a configuration that sets it to [None]. *)
Lemma get_config_path_witness :
  EuphoriaPartiesPlugin.get_config
    (VDict [("storage", VDict [("mysql", VDict [("port", VNone)])])])
    "storage.mysql.port" (VInt 3306) = VNone.
Proof.
  destruct (get_config_path
              (VDict [("storage", VDict [("mysql", VDict [("port", VNone)])])])
              "storage" "mysql.port" (VInt 3306)) as [_ Hpath].
  - repeat constructor; discriminate.
  - exact Hpath.
Defined.

(** ** Player names (party_manager.py, [record_player_name] and
       [get_player_name]) *)

(** X22. Names are remembered. For a player who is online [get_player_name]
    returns the current name and remembers it: asked again when the player
    is offline it returns that name. After [record_player_name] it returns
    the recorded name for the player offline. For an offline player without
    a recorded name it returns the first eight characters of the
    identifier and changes nothing. [get_player_name] changes nothing but
    [player_names] and never marks the registry dirty, while
    [record_player_name] marks it dirty exactly when the name is new. *)
Theorem player_names_remembered (get_player : UUID → option Player.t) (self : PartyManager.t)
    (player : Player.t) (player_id : UUID) :
  let offline : UUID → option Player.t := λ _, None in
  let asked := PartyManager.get_player_name get_player self player_id in
  let recorded := PartyManager.record_player_name self player in
  (get_player player_id = Some player →
     asked.1 = Player.name player ∧
     (PartyManager.get_player_name offline asked.2 player_id).1 = Player.name player) ∧
  (PartyManager.get_player_name offline recorded (Player.unique_id player)).1
    = Player.name player ∧
  (get_player player_id = None → PartyManager.player_names self !! player_id = None →
     asked = (String.substring 0 8 (uuid_str player_id), self)) ∧
  asked.2 = PartyManager.set_player_names (PartyManager.player_names asked.2) self ∧
  (∀ other, other ≠ player_id →
     PartyManager.player_names asked.2 !! other = PartyManager.player_names self !! other) ∧
  recorded = PartyManager.set_dirty (PartyManager._dirty recorded)
               (PartyManager.set_player_names (PartyManager.player_names recorded) self) ∧
  (PartyManager._dirty recorded = true ↔
   PartyManager._dirty self = true ∨
   PartyManager.player_names self !! Player.unique_id player ≠ Some (Player.name player)).
Proof.
  intros offline asked recorded. subst offline asked recorded.
  unfold PartyManager.get_player_name, PartyManager.record_player_name. split_and!.
  - intros ->. cbn. by rewrite lookup_insert_eq.
  - cbn. case_bool_decide as Hname.
    + cbn. by rewrite lookup_insert_eq.
    + by rewrite Hname.
  - by intros -> ->.
  - destruct (get_player player_id); cbn; [done|by destruct self].
  - intros other Hother. destruct (get_player player_id); cbn; [|done].
    by rewrite lookup_insert_ne.
  - case_bool_decide; cbn; [done|by destruct self].
  - case_bool_decide as Hname; cbn.
    + split; [by right|done].
    + split; [by left|]. by intros [?|?].
Qed.

(** ** Messages to a party (party_manager.py, [broadcast_to_party] and
       [online_party_member_count]) *)

(** X23. [broadcast_to_party] sends the message once to every member who is
    online and to nobody else, and [online_party_member_count] is the number
    of players it reaches: between 0 and the number of members, and 0
    exactly when no member is online. *)
Theorem broadcast_reaches_online_members `{PyRuntime} (online : UUID → bool) (party : Party.t) :
  let recipients := PartyManager.broadcast_to_party online party in
  let count := PartyManager.online_party_member_count online party in
  NoDup recipients ∧
  (∀ x, x ∈ recipients ↔ x ∈ Party.members party ∧ online x = true) ∧
  count = Z.of_nat (length recipients) ∧
  0 ≤ count ≤ Z.of_nat (size (Party.members party)) ∧
  (count = 0 ↔ ∀ x, x ∈ Party.members party → online x = false).
Proof.
  intros recipients count. subst recipients count.
  unfold PartyManager.broadcast_to_party, PartyManager.online_party_member_count.
  assert (Hnodup : NoDup (set_iter (Party.members party))).
  { rewrite set_iter_perm. apply NoDup_elements. }
  assert (Hlen : length (set_iter (Party.members party)) = size (Party.members party)).
  { by rewrite set_iter_perm. }
  assert (Hin : ∀ x, x ∈ List.filter online (set_iter (Party.members party))
                     ↔ x ∈ Party.members party ∧ online x = true).
  { intros x. rewrite <-elem_of_set_iter. rewrite !list_elem_of_In. apply filter_In. }
  split_and!.
  - revert Hnodup. generalize (set_iter (Party.members party)). intros l Hl.
    induction Hl as [|y l Hy Hl IH]; cbn; [constructor|].
    destruct (online y); [|done]. constructor; [|done].
    rewrite list_elem_of_In, filter_In, <-list_elem_of_In. by intros [? _].
  - done.
  - done.
  - lia.
  - pose proof (List.filter_length_le online (set_iter (Party.members party))). lia.
  - split.
    + intros Hzero x Hx. destruct (online x) eqn:Hon; [|done].
      assert (Hx' : x ∈ List.filter online (set_iter (Party.members party))) by by apply Hin.
      destruct (List.filter online (set_iter (Party.members party))); [|done].
      by apply elem_of_nil in Hx'.
    + intros Hoff.
      destruct (List.filter online (set_iter (Party.members party))) as [|y l] eqn:Hl; [done|].
      assert (Hy : y ∈ y :: l) by left. apply Hin in Hy as [Hy Hon].
      by rewrite (Hoff y Hy) in Hon.
Qed.

(** ** Play time (party_manager.py, [_update_playtime]) *)

Section Playtime.
Context `{PyRuntime} `{PyNumbers}.
Variable config : PyVal.
Variable online : UUID → bool.
Variable _achievements : list (string * PartyAchievement.t).

(** What [check] leaves of a party, and whom it calls. *)
Lemma check_frame (party : Party.t) :
  let r := PartyAchievementManager.check online _achievements config party in
  r.1.1 = Party.set_achievements (Party.achievements r.1.1) party ∧
  Party.achievements party ⊆ Party.achievements r.1.1 ∧
  Forall (λ call,
            match call with
            | PartyAchievementManager.send_message member _
            | PartyAchievementManager.give_exp member _ =>
                online member = true ∧ member ∈ Party.members party
            end) r.1.2.
Proof.
  intros r.
  assert (Hrun : ∃ steps returned,
    r = (foldl (λ st step,
                  PartyAchievementManager._try_unlock online _achievements st step.1 step.2)
               (party, []) steps, returned)).
  { subst r. rewrite check_steps. cbv zeta.
    destruct (PartyAchievementManager.int_ge _ _) as [full|]; [|by eexists _, _].
    destruct (0 <? Party.total_deaths party); [|by eexists _, _].
    destruct (int_truediv _ _); by eexists _, _. }
  destruct Hrun as (steps & returned & ->).
  destruct (try_unlock_steps online _achievements steps (party, []))
    as (Hframe & Hgrow & _ & (extra & Hcalls & Honline & _) & _).
  cbn [fst snd] in *. split_and!; try done. by rewrite Hcalls.
Qed.

Lemma any_online (party : Party.t) :
  existsb online (set_iter (Party.members party)) = true
  ↔ ∃ x, x ∈ Party.members party ∧ online x = true.
Proof.
  rewrite existsb_exists. split.
  - intros (x & Hx & Hon). exists x. by rewrite <-elem_of_set_iter, list_elem_of_In.
  - intros (x & Hx & Hon). exists x. by rewrite <-list_elem_of_In, elem_of_set_iter.
Qed.

Lemma playtime_fold (l : list (UUID * Party.t)) (self : PartyManager.t)
    (calls : list PartyAchievementManager.call) (updated running : bool) :
  NoDup l.*1 →
  let r := foldl (PartyManager.playtime_party config online _achievements)
             (self, calls, updated, running) l in
  PartyManager.player_to_party r.1.1.1 = PartyManager.player_to_party self ∧
  PartyManager.player_invites r.1.1.1 = PartyManager.player_invites self ∧
  PartyManager.last_marker_positions r.1.1.1 = PartyManager.last_marker_positions self ∧
  PartyManager.player_names r.1.1.1 = PartyManager.player_names self ∧
  PartyManager._dirty r.1.1.1 = PartyManager._dirty self ∧
  (∀ key, key ∉ l.*1 →
          PartyManager.parties r.1.1.1 !! key = PartyManager.parties self !! key) ∧
  (∀ key p, (key, p) ∈ l →
     PartyManager.parties r.1.1.1 !! key = PartyManager.parties self !! key ∨
     ∃ p', PartyManager.parties r.1.1.1 !! key = Some p' ∧ (p' = Party.set_achievements (Party.achievements p')
                    (Party.set_total_play_time_ms (Party.total_play_time_ms p + 60000) p) ∧
              Party.achievements p ⊆ Party.achievements p' ∧
              ∃ x, x ∈ Party.members p ∧ online x = true)) ∧
  (∃ made, r.1.1.2 = calls ++ made ∧
     Forall (λ call,
               match call with
               | PartyAchievementManager.send_message member _
               | PartyAchievementManager.give_exp member _ => online member = true
               end) made) ∧
  (running = false → r = (self, calls, updated, running)) ∧
  (r.2 = true →
     running = true ∧
     (∀ key p, (key, p) ∈ l →
        if existsb online (set_iter (Party.members p))
        then ∃ p', PartyManager.parties r.1.1.1 !! key = Some p' ∧ (p' = Party.set_achievements (Party.achievements p')
                    (Party.set_total_play_time_ms (Party.total_play_time_ms p + 60000) p) ∧
              Party.achievements p ⊆ Party.achievements p' ∧
              ∃ x, x ∈ Party.members p ∧ online x = true)
        else PartyManager.parties r.1.1.1 !! key = PartyManager.parties self !! key) ∧
     r.1.2 = updated || existsb (λ entry, existsb online (set_iter (Party.members entry.2))) l).
Proof.
  revert self calls updated running.
  induction l as [|[key party] l IH]; intros self calls updated running Hnodup r.
  - subst r. cbn. split_and!; try done.
    + intros ? ? Hin. by apply elem_of_nil in Hin.
    + exists []. by rewrite app_nil_r.
    + intros ->. split_and!; [done| |by rewrite orb_false_r].
      intros ? ? Hin. by apply elem_of_nil in Hin.
  - cbn [fmap list_fmap fst] in Hnodup. apply NoDup_cons in Hnodup as [Hfresh Hnodup].
    subst r. cbn [foldl].
    set (st1 := PartyManager.playtime_party config online _achievements
                  (self, calls, updated, running) (key, party)).
    assert (Hstep :
      (st1 = (self, calls, updated, running) ∧
       (running = false ∨ existsb online (set_iter (Party.members party)) = false)) ∨
      (∃ p' made (returned : bool),
         running = true ∧ existsb online (set_iter (Party.members party)) = true ∧
         (p' = Party.set_achievements (Party.achievements p')
                    (Party.set_total_play_time_ms (Party.total_play_time_ms party + 60000) party) ∧
              Party.achievements party ⊆ Party.achievements p' ∧
              ∃ x, x ∈ Party.members party ∧ online x = true) ∧
         Forall (λ call,
                   match call with
                   | PartyAchievementManager.send_message member _
                   | PartyAchievementManager.give_exp member _ => online member = true
                   end) made ∧
         st1 = (PartyManager.store key p' self, calls ++ made,
                if returned then true else updated, returned))).
    { subst st1. unfold PartyManager.playtime_party.
      destruct running; cbn [negb]; [|left; by split; [|left]].
      destruct (existsb online (set_iter (Party.members party))) eqn:Hany;
        [|left; by split; [|right]].
      right.
      destruct (check_frame (Party.add_play_time party 60000)) as (Hframe & Hgrow & Hcalls).
      destruct (PartyAchievementManager.check online _achievements config
                  (Party.add_play_time party 60000)) as [[p' made] returned].
      cbn [fst snd] in *. exists p', made, returned.
      split; [done|]. split; [done|].
      split; [split_and!; [exact Hframe|exact Hgrow|by apply any_online]|].
      split; [|done].
      eapply Forall_impl; [exact Hcalls|]. by intros [? ?|? ?] [? _]. }
    clearbody st1.
    destruct Hstep as [[-> Hskip]|(p' & made & returned & -> & Hany & Hplayed & Hmade & ->)].
    + destruct (IH self calls updated running Hnodup)
        as (H1 & H2 & H3 & H4 & H5 & Hout & Hin & Hcalls & Hstop & Hrun).
      cbv zeta in *. split_and!; try done.
      * intros k Hk. apply Hout. cbn in Hk. set_solver.
      * intros k p Hkp. apply elem_of_cons in Hkp as [[= -> ->]|Hkp]; [|by apply Hin].
        left. by apply Hout.
      * intros Hr. destruct (Hrun Hr) as (Hrunning & Hall & Hupdated).
        destruct Hskip as [->|Hoff]; [done|].
        split_and!; [done| |].
        -- intros k p Hkp. apply elem_of_cons in Hkp as [[= -> ->]|Hkp]; [|by apply Hall].
           rewrite Hoff. by apply Hout.
        -- cbn [existsb snd]. by rewrite Hoff, Hupdated.
    + destruct (IH (PartyManager.store key p' self) (calls ++ made)
                  (if returned then true else updated) returned Hnodup)
        as (H1 & H2 & H3 & H4 & H5 & Hout & Hin & Hcalls & Hstop & Hrun).
      cbv zeta in *. split_and!; try done.
      * intros k Hk. rewrite Hout by (cbn in Hk; set_solver).
        cbn. rewrite lookup_insert_ne; [done|]. cbn in Hk. set_solver.
      * intros k p Hkp. apply elem_of_cons in Hkp as [[= -> ->]|Hkp].
        -- right. exists p'. split; [|done]. rewrite Hout by done. cbn.
           by rewrite lookup_insert_eq.
        -- destruct (Hin k p Hkp) as [Hsame|Hnew]; [left|by right].
           rewrite Hsame. cbn. rewrite lookup_insert_ne; [done|].
           intros <-. apply Hfresh. apply list_elem_of_fmap. by exists (key, p).
      * destruct Hcalls as (made' & -> & Hmade'). exists (made ++ made').
        split; [by rewrite app_assoc|]. by apply Forall_app.
      * intros Hr. destruct (Hrun Hr) as (-> & Hall & Hupdated).
        split_and!; [done| |].
        -- intros k p Hkp. apply elem_of_cons in Hkp as [[= -> ->]|Hkp].
           ++ rewrite Hany. exists p'. split; [|done]. rewrite Hout by done. cbn.
              by rewrite lookup_insert_eq.
           ++ specialize (Hall k p Hkp).
              destruct (existsb online (set_iter (Party.members p))); [done|].
              rewrite Hall. cbn. rewrite lookup_insert_ne; [done|].
              intros <-. apply Hfresh. apply list_elem_of_fmap. by exists (key, p).
        -- cbn [existsb snd]. rewrite Hany, Hupdated. by rewrite !orb_true_r.
Qed.

End Playtime.

(** X24. Play time. [_update_playtime] changes nothing of the registry but the
    parties and the dirty flag, and nothing of a party but its play time and
    its achievements, which only grow. A party without a member online is
    left as it is; a party with a member online gains 60000 ms, at most
    once. When [_update_playtime] returns, every party with a member online
    has gained 60000 ms, and the registry is marked dirty exactly when there
    is such a party; when it raises (in [check]) the dirty flag is left as it
    was, whatever was changed before. Calls are made on online players
    only. *)
Theorem update_playtime_effect `{PyRuntime} `{PyNumbers} (config : PyVal) (online : UUID → bool)
    (_achievements : list (string * PartyAchievement.t)) (entries : list (UUID * Party.t))
    (self : PartyManager.t) :
  entries ≡ₚ map_to_list (PartyManager.parties self) →
  let r := PartyManager._update_playtime config online _achievements entries self in
  let self' := r.1.1 in
  PartyManager.player_to_party self' = PartyManager.player_to_party self ∧
  PartyManager.player_invites self' = PartyManager.player_invites self ∧
  PartyManager.last_marker_positions self' = PartyManager.last_marker_positions self ∧
  PartyManager.player_names self' = PartyManager.player_names self ∧
  (∀ key, PartyManager.parties self !! key = None → PartyManager.parties self' !! key = None) ∧
  (∀ key p,
     PartyManager.parties self !! key = Some p →
     ∃ p', PartyManager.parties self' !! key = Some p' ∧
           p' = Party.set_achievements (Party.achievements p')
                  (Party.set_total_play_time_ms (Party.total_play_time_ms p') p) ∧
           Party.achievements p ⊆ Party.achievements p' ∧
           (Party.total_play_time_ms p' = Party.total_play_time_ms p ∨
            Party.total_play_time_ms p' = Party.total_play_time_ms p + 60000) ∧
           ((∀ x, x ∈ Party.members p → online x = false) → p' = p) ∧
           (r.2 = true → (∃ x, x ∈ Party.members p ∧ online x = true) →
            Party.total_play_time_ms p' = Party.total_play_time_ms p + 60000)) ∧
  Forall (λ call,
            match call with
            | PartyAchievementManager.send_message member _
            | PartyAchievementManager.give_exp member _ => online member = true
            end) r.1.2 ∧
  (r.2 = true →
     (PartyManager._dirty self' = true ↔
      PartyManager._dirty self = true ∨
      ∃ key p x, PartyManager.parties self !! key = Some p ∧ x ∈ Party.members p ∧
                 online x = true)) ∧
  (r.2 = false → PartyManager._dirty self' = PartyManager._dirty self).
Proof.
  intros Hentries r self'.
  assert (Hnodup : NoDup entries.*1).
  { rewrite Hentries. apply NoDup_fst_map_to_list. }
  assert (Hin : ∀ key p, (key, p) ∈ entries ↔ PartyManager.parties self !! key = Some p).
  { intros key p. rewrite Hentries. apply elem_of_map_to_list. }
  destruct (playtime_fold config online _achievements entries self [] false true Hnodup)
    as (H1 & H2 & H3 & H4 & H5 & Hout & Hparty & (made & Hcalls & Hmade) & _ & Hrun).
  cbv zeta in *. subst r self'. unfold PartyManager._update_playtime.
  destruct (foldl (PartyManager.playtime_party config online _achievements) (self, [], false, true)
              entries) as [[[s calls] updated] running].
  cbn [fst snd] in *.
  assert (Hs : ∀ key, PartyManager.parties
                        (if running && updated then PartyManager.mark_dirty s else s) !! key
                      = PartyManager.parties s !! key).
  { intros key. by destruct (running && updated). }
  assert (Hoff : ∀ p, (∀ x, x ∈ Party.members p → online x = false) →
                      ¬ ∃ x, x ∈ Party.members p ∧ online x = true).
  { intros p Hall (x & Hx & Hon). by rewrite (Hall x Hx) in Hon. }
  split_and!.
  - by destruct (running && updated).
  - by destruct (running && updated).
  - by destruct (running && updated).
  - by destruct (running && updated).
  - intros key Hkey. rewrite Hs, Hout; [done|].
    intros Hk. apply list_elem_of_fmap in Hk as ([k p] & -> & Hkp).
    apply Hin in Hkp. cbn in Hkey. congruence.
  - intros key p Hkey. rewrite Hs.
    destruct (Hparty key p (proj2 (Hin key p) Hkey)) as [Hsame|(p' & Hp' & Hframe & Hgrow & Hon)].
    + exists p. rewrite Hsame. split_and!; try done.
      * by destruct p.
      * by left.
      * intros Hr Hon. destruct (Hrun Hr) as (_ & Hall & _).
        specialize (Hall key p (proj2 (Hin key p) Hkey)).
        rewrite (proj2 (any_online online p) Hon) in Hall.
        destruct Hall as (p' & Hp' & Hframe & _). rewrite Hsame, Hkey in Hp'.
        injection Hp' as <-. by rewrite Hframe at 1.
    + assert (Htotal : Party.total_play_time_ms p' = Party.total_play_time_ms p + 60000)
        by by rewrite Hframe.
      exists p'. split_and!; try done.
      * by rewrite Htotal.
      * by right.
      * intros Hall. by destruct (Hoff p Hall).
  - by rewrite Hcalls.
  - intros ->. destruct (Hrun eq_refl) as (_ & _ & ->). cbn [orb andb].
    assert (Hany : existsb (λ entry : UUID * Party.t,
                              existsb online (set_iter (Party.members entry.2))) entries = true
                   ↔ ∃ key p x, PartyManager.parties self !! key = Some p ∧
                                x ∈ Party.members p ∧ online x = true).
    { rewrite existsb_exists. split.
      - intros ([key p] & Hkp & Hon). apply list_elem_of_In, Hin in Hkp.
        apply any_online in Hon as (x & Hx & Hon). by exists key, p, x.
      - intros (key & p & x & Hkey & Hx & Hon). exists (key, p). split.
        + by apply list_elem_of_In, Hin.
        + apply any_online. by exists x. }
    destruct (existsb _ entries).
    + cbn. split; [|done]. intros _. right. by apply Hany.
    + rewrite H5. split; [by left|]. intros [?|Hex]; [done|]. by apply Hany in Hex.
  - intros ->. done.
Qed.

(** [alice] and [bob] are in the sample party and [bob] is online: the party
    gains a minute. *)
Lemma update_playtime_effect_witness :
  let online : UUID → bool := λ x, bool_decide (x = Sample.B) in
  let r := @PartyManager._update_playtime Ref.runtime Ref.numbers (VDict []) online
             PartyAchievementManager._register_defaults
             (map_to_list (PartyManager.parties Sample.pair)) Sample.pair in
  r.2 = true ∧
  ∃ p', PartyManager.parties r.1.1 !! Sample.P = Some p' ∧
        Party.total_play_time_ms p' = 60000.
Proof.
  intros online r.
  assert (Hreturned : r.2 = true) by (vm_compute; reflexivity).
  split; [exact Hreturned|].
  destruct (@update_playtime_effect Ref.runtime Ref.numbers (VDict []) online
              PartyAchievementManager._register_defaults
              (map_to_list (PartyManager.parties Sample.pair)) Sample.pair
              (reflexivity _))
    as (_ & _ & _ & _ & _ & Hparty & _).
  destruct (Hparty Sample.P (Sample.party_of Sample.pair)) as (p' & Hp' & _ & _ & _ & _ & Hgain).
  - vm_compute. reflexivity.
  - exists p'. split; [exact Hp'|]. rewrite Hgain.
    + vm_compute. reflexivity.
    + exact Hreturned.
    + exists Sample.B. split; [|reflexivity].
      apply (bool_decide_unpack _). vm_compute. exact I.
Defined.

(** ** Alliances (__init__.py, [_party_ally]) *)

(** What [ally_add] and [ally_remove] store. *)
Lemma ally_add_stored (self : PartyManager.t) (party target_party : UUID) (p q : Party.t) :
  party ≠ target_party →
  PartyManager.parties self !! party = Some p →
  PartyManager.parties self !! target_party = Some q →
  PartyManager.ally_add self party target_party =
    Some (PartyManager.mark_dirty
            (PartyManager.set_parties
               (<[target_party := Party.set_allies ({[Party.id p]} ∪ Party.allies q) q]>
                  (<[party := Party.set_allies ({[Party.id q]} ∪ Party.allies p) p]>
                     (PartyManager.parties self))) self)).
Proof.
  intros Hne Hp Hq. unfold PartyManager.ally_add, PartyManager.deref. rewrite Hp, Hq. cbn.
  rewrite lookup_insert_ne by done. rewrite Hq. cbn. reflexivity.
Qed.

Lemma ally_remove_stored (self : PartyManager.t) (party target_party : UUID) (p q : Party.t) :
  party ≠ target_party →
  PartyManager.parties self !! party = Some p →
  PartyManager.parties self !! target_party = Some q →
  PartyManager.ally_remove self party target_party =
    Some (PartyManager.mark_dirty
            (PartyManager.set_parties
               (<[target_party := Party.set_allies (Party.allies q ∖ {[Party.id p]}) q]>
                  (<[party := Party.set_allies (Party.allies p ∖ {[Party.id q]}) p]>
                     (PartyManager.parties self))) self)).
Proof.
  intros Hne Hp Hq. unfold PartyManager.ally_remove, PartyManager.deref. rewrite Hp, Hq. cbn.
  rewrite lookup_insert_ne by done. rewrite Hq. cbn. reflexivity.
Qed.

(** Writing the [allies] of two parties keeps the alliances mutual when the
    two sets are changed by each other's key, in the same way. *)
Lemma allies_mutual_update (self : PartyManager.t) (k1 k2 : UUID) (p q : Party.t)
    (a1 a2 : gset UUID) :
  Invariant.allies_mutual self →
  k1 ≠ k2 →
  PartyManager.parties self !! k1 = Some p →
  PartyManager.parties self !! k2 = Some q →
  (∀ k, k ≠ k2 → (k ∈ a1 ↔ k ∈ Party.allies p)) →
  (∀ k, k ≠ k1 → (k ∈ a2 ↔ k ∈ Party.allies q)) →
  (k2 ∈ a1 ↔ k1 ∈ a2) →
  Invariant.allies_mutual
    (PartyManager.mark_dirty
       (PartyManager.set_parties
          (<[k2 := Party.set_allies a2 q]>
             (<[k1 := Party.set_allies a1 p]> (PartyManager.parties self))) self)).
Proof.
  intros Hmutual Hne Hp Hq H1 H2 H12 key1 key2 p1 p2. cbn.
  intros Hk1 Hk2.
  assert (Hlook : ∀ key r,
    <[k2 := Party.set_allies a2 q]>
      (<[k1 := Party.set_allies a1 p]> (PartyManager.parties self)) !! key = Some r →
    ∃ r0, PartyManager.parties self !! key = Some r0 ∧
          Party.allies r = (if decide (key = k2) then a2
                            else if decide (key = k1) then a1 else Party.allies r0)).
  { intros key r Hr. destruct (decide (key = k2)) as [->|Hn2].
    - rewrite lookup_insert_eq in Hr. injection Hr as <-. by exists q.
    - rewrite lookup_insert_ne in Hr by done. destruct (decide (key = k1)) as [->|Hn1].
      + rewrite lookup_insert_eq in Hr. injection Hr as <-. by exists p.
      + rewrite lookup_insert_ne in Hr by done. by exists r. }
  destruct (Hlook key1 p1 Hk1) as (r1 & Hr1 & ->).
  destruct (Hlook key2 p2 Hk2) as (r2 & Hr2 & ->).
  pose proof (Hmutual key1 key2 r1 r2 Hr1 Hr2) as Hm.
  repeat case_decide; simplify_eq; try done.
  - rewrite H2 by done. by apply (Hmutual k2 key2 q r2).
  - rewrite H1 by done. by apply (Hmutual k1 key2 p r2).
  - rewrite H2 by done. by apply (Hmutual key1 k2 r1 q).
  - rewrite H1 by done. by apply (Hmutual key1 k1 r1 p).
Qed.

(** X25. Alliances are mutual. In a registry whose parties are stored under
    their own [id] and whose alliances are mutual, [/party ally add] between
    two different stored parties makes each the ally of the other and
    [/party ally remove] makes neither the ally of the other; both keep the
    alliances mutual, mark the registry dirty, and change nothing but the
    [allies] of the two parties; and removing an alliance that was added,
    between parties not allied before, leaves every party as it was. *)
Theorem alliances_mutual (self : PartyManager.t) (party target_party : UUID)
    (p q : Party.t) :
  Invariant.keyed_by_id self →
  Invariant.allies_mutual self →
  party ≠ target_party →
  PartyManager.parties self !! party = Some p →
  PartyManager.parties self !! target_party = Some q →
  ∃ added removed,
    PartyManager.ally_add self party target_party = Some added ∧
    PartyManager.ally_remove self party target_party = Some removed ∧
    Invariant.allies_mutual added ∧ Invariant.allies_mutual removed ∧
    PartyManager._dirty added = true ∧ PartyManager._dirty removed = true ∧
    (∃ p' q',
       PartyManager.parties added
         = <[target_party := q']> (<[party := p']> (PartyManager.parties self)) ∧
       p' = Party.set_allies ({[target_party]} ∪ Party.allies p) p ∧
       q' = Party.set_allies ({[party]} ∪ Party.allies q) q) ∧
    (∃ p' q',
       PartyManager.parties removed
         = <[target_party := q']> (<[party := p']> (PartyManager.parties self)) ∧
       p' = Party.set_allies (Party.allies p ∖ {[target_party]}) p ∧
       q' = Party.set_allies (Party.allies q ∖ {[party]}) q) ∧
    added = PartyManager.set_dirty true (PartyManager.set_parties (PartyManager.parties added) self) ∧
    removed
      = PartyManager.set_dirty true (PartyManager.set_parties (PartyManager.parties removed) self) ∧
    ((target_party ∉ Party.allies p) →
     ∃ undone, PartyManager.ally_remove added party target_party = Some undone ∧
               PartyManager.parties undone = PartyManager.parties self).
Proof.
  intros Hkeyed Hmutual Hne Hp Hq.
  pose proof (Hkeyed party p Hp) as Hidp. pose proof (Hkeyed target_party q Hq) as Hidq.
  rewrite (ally_add_stored self party target_party p q Hne Hp Hq).
  rewrite (ally_remove_stored self party target_party p q Hne Hp Hq).
  rewrite Hidp, Hidq.
  eexists _, _. split; [reflexivity|]. split; [reflexivity|].
  split_and!; try done.
  - apply allies_mutual_update; try done; set_solver.
  - apply allies_mutual_update; try done; set_solver.
  - by eexists _, _.
  - by eexists _, _.
  - intros Hnew.
    rewrite (ally_remove_stored _ party target_party
               (Party.set_allies ({[target_party]} ∪ Party.allies p) p)
               (Party.set_allies ({[party]} ∪ Party.allies q) q) Hne); [|cbn..].
    + eexists. split; [reflexivity|]. cbn. rewrite Hidp, Hidq.
      assert (Hq' : party ∉ Party.allies q).
      { intros Hin. apply Hnew. by apply (Hmutual party target_party p q). }
      assert (H1 : ({[target_party]} ∪ Party.allies p) ∖ {[target_party]} = Party.allies p)
        by set_solver.
      assert (H2 : ({[party]} ∪ Party.allies q) ∖ {[party]} = Party.allies q) by set_solver.
      rewrite H1, H2.
      apply map_eq. intros key.
      destruct (decide (key = target_party)) as [->|Hn2].
      * rewrite lookup_insert_eq, Hq. by destruct q.
      * rewrite lookup_insert_ne by done. destruct (decide (key = party)) as [->|Hn1].
        -- rewrite lookup_insert_eq, Hp. by destruct p.
        -- by rewrite !lookup_insert_ne.
    + rewrite lookup_insert_ne by done. by rewrite lookup_insert_eq.
    + by rewrite lookup_insert_eq.
Qed.

(** [alice]'s party and [bob]'s party form an alliance. *)
Lemma alliances_mutual_witness :
  ∃ added,
    PartyManager.ally_add Sample.requested Sample.P Sample.Q = Some added ∧
    Invariant.allies_mutual added.
Proof.
  assert (Hkeyed : Invariant.keyed_by_id Sample.requested).
  { apply (bool_decide_unpack
             (map_Forall (λ key p, Party.id p = key) (PartyManager.parties Sample.requested))).
    vm_compute. exact I. }
  assert (Hnone : map_Forall (λ _ p, Party.allies p = ∅) (PartyManager.parties Sample.requested)).
  { apply (bool_decide_unpack _). vm_compute. exact I. }
  assert (Hmutual : Invariant.allies_mutual Sample.requested).
  { intros key1 key2 p1 p2 H1 H2. rewrite (Hnone key1 p1 H1), (Hnone key2 p2 H2). set_solver. }
  destruct (alliances_mutual Sample.requested Sample.P Sample.Q
              (Sample.party_of Sample.requested)
              (default (Party.create 0 0 0) (PartyManager.deref Sample.requested Sample.Q))
              Hkeyed Hmutual)
    as (added & removed & Hadd & _ & Hadded & _).
  - done.
  - vm_compute. reflexivity.
  - vm_compute. reflexivity.
  - exists added. split; [exact Hadd|exact Hadded].
Defined.

(** ** Friendly fire (__init__.py, [on_actor_damage]) *)

Lemma get_player_party_exact (self : PartyManager.t) (x : UUID) (p : Party.t) :
  Invariant.index_exact self →
  Invariant.keyed_by_id self →
  PartyManager.get_player_party self x = Some p ↔
  PartyManager.parties self !! Party.id p = Some p ∧ x ∈ Party.members p.
Proof.
  intros Hexact Hkeyed. unfold PartyManager.get_player_party. split.
  - destruct (PartyManager.player_to_party self !! x) as [pid|] eqn:Hx; [|done].
    intros Hp. pose proof (Hkeyed pid p Hp) as ->. split; [done|].
    apply Hexact in Hx as (p' & Hp' & Hmember). congruence.
  - intros [Hp Hmember].
    assert (Hx : PartyManager.player_to_party self !! x = Some (Party.id p)).
    { apply Hexact. by exists p. }
    by rewrite Hx.
Qed.

(** X26. Friendly fire. In a registry whose [player_to_party] is exact and
    whose parties are stored under their own [id], [on_actor_damage] cancels
    the event exactly when the option is on and victim and attacker are
    players who are members of the same party; otherwise it leaves the event
    as it found it and sends nothing. The attacker alone is sent the notice,
    and with a positive cooldown only if at least that long has passed since
    the time recorded for the attacker, which is then set to the current
    time; no other record changes. *)
Theorem friendly_fire_cancelled (prevent : bool) (cooldown_ms now : Z)
    (party_manager : PartyManager.t) (notices : gmap UUID Z) (is_cancelled : bool)
    (victim attacker : option UUID) :
  Invariant.index_exact party_manager →
  Invariant.keyed_by_id party_manager →
  let r := Plugin.on_actor_damage prevent cooldown_ms now party_manager notices is_cancelled
             victim attacker in
  let same_party :=
    ∃ v a key p, victim = Some v ∧ attacker = Some a ∧
                 PartyManager.parties party_manager !! key = Some p ∧
                 v ∈ Party.members p ∧ a ∈ Party.members p in
  (prevent = true ∧ same_party → r.1.1 = true) ∧
  (¬ (prevent = true ∧ same_party) → r = (is_cancelled, notices, [])) ∧
  (∀ a, a ∈ r.2 →
        attacker = Some a ∧
        (0 < cooldown_ms →
         cooldown_ms ≤ now - default 0 (notices !! a) ∧ r.1.2 = <[a := now]> notices)) ∧
  (r.2 = [] → r.1.2 = notices) ∧
  (prevent = true ∧ same_party →
   ∀ a, attacker = Some a →
        (cooldown_ms ≤ 0 ∨ cooldown_ms ≤ now - default 0 (notices !! a)) → r.2 = [a]).
Proof.
  intros Hexact Hkeyed r same_party.
  assert (Hcases :
    (¬ (prevent = true ∧ same_party) ∧ r = (is_cancelled, notices, [])) ∨
    (prevent = true ∧ same_party ∧
     ∃ a, attacker = Some a ∧
          r = if Z.max 0 cooldown_ms <=? 0 then (true, notices, [a])
              else if Z.max 0 cooldown_ms <=? now - default 0 (notices !! a)
                   then (true, <[a := now]> notices, [a])
                   else (true, notices, []))).
  { subst r same_party. unfold Plugin.on_actor_damage.
    destruct prevent; cbn [negb]; [|left; split; [by intros [? _]|done]].
    destruct victim as [v|]; [|left; split; [by intros [_ (? & ? & ? & ? & ? & _)]|done]].
    destruct attacker as [a|];
      [|left; split; [by intros [_ (? & ? & ? & ? & ? & ? & _)]|done]].
    destruct (PartyManager.get_player_party party_manager v) as [vp|] eqn:Hv.
    - apply get_player_party_exact in Hv as [Hvp Hvm]; [|done..].
      destruct (PartyManager.get_player_party party_manager a) as [ap|] eqn:Ha.
      + apply get_player_party_exact in Ha as [Hap Ham]; [|done..].
        case_bool_decide as Hid.
        * left. split; [|done].
          intros [_ (v' & a' & key & p & [= <-] & [= <-] & Hp & Hv' & Ha')].
          apply Hid.
          assert (Hkv : PartyManager.player_to_party party_manager !! v = Some key).
          { apply Hexact. by exists p. }
          assert (Hka : PartyManager.player_to_party party_manager !! a = Some key).
          { apply Hexact. by exists p. }
          assert (Hkv' : PartyManager.player_to_party party_manager !! v = Some (Party.id vp)).
          { apply Hexact. by exists vp. }
          assert (Hka' : PartyManager.player_to_party party_manager !! a = Some (Party.id ap)).
          { apply Hexact. by exists ap. }
          congruence.
        * right. split; [done|]. split.
          -- exists v, a, (Party.id vp), vp. split_and!; try done.
             rewrite <-Hid in Hvp. rewrite Hap in Hvp. by injection Hvp as <-.
          -- exists a. split; [done|]. reflexivity.
      + left. split; [|done].
        intros [_ (v' & a' & key & p & [= <-] & [= <-] & Hp & Hv' & Ha')].
        assert (Hsome : PartyManager.get_player_party party_manager a = Some p).
        { apply get_player_party_exact; [done..|]. by rewrite (Hkeyed key p Hp). }
        congruence.
    - left. split; [|done].
      intros [_ (v' & a' & key & p & [= <-] & [= <-] & Hp & Hv' & Ha')].
      assert (Hsome : PartyManager.get_player_party party_manager v = Some p).
      { apply get_player_party_exact; [done..|]. by rewrite (Hkeyed key p Hp). }
      congruence. }
  clearbody r.
  destruct Hcases as [[Hnot ->]|(Hprevent & Hsame & a & -> & ->)].
  - split_and!; try done.
    intros a Ha. by apply elem_of_nil in Ha.
  - destruct (Z.leb_spec (Z.max 0 cooldown_ms) 0) as [Hzero|Hpos].
    + split_and!; try done.
      * intros Hnot. by destruct Hnot.
      * intros a' Ha'. apply list_elem_of_singleton in Ha' as ->. split; [done|lia].
      * intros _ a' [= <-] _. done.
    + destruct (Z.leb_spec (Z.max 0 cooldown_ms) (now - default 0 (notices !! a)))
        as [Hdue|Hearly].
      * split_and!; try done.
        -- intros Hnot. by destruct Hnot.
        -- intros a' Ha'. apply list_elem_of_singleton in Ha' as ->. split; [done|].
           intros _. split; [lia|done].
        -- intros _ a' [= <-] _. done.
      * split_and!; try done.
        -- intros Hnot. by destruct Hnot.
        -- intros a' Ha'. by apply elem_of_nil in Ha'.
        -- intros _ a' [= <-] [?|?]; lia.
Qed.

(** [alice] hits [bob], who is in her party. *)
Lemma friendly_fire_cancelled_witness :
  (Plugin.on_actor_damage true 1500 5000 Sample.pair ∅ false (Some Sample.B) (Some Sample.A)).1.1
  = true.
Proof.
  assert (Hexact : Invariant.index_exact Sample.pair).
  { apply index_exact_decide; apply (bool_decide_unpack _); vm_compute; exact I. }
  assert (Hkeyed : Invariant.keyed_by_id Sample.pair).
  { apply (bool_decide_unpack
             (map_Forall (λ key p, Party.id p = key) (PartyManager.parties Sample.pair))).
    vm_compute. exact I. }
  destruct (friendly_fire_cancelled true 1500 5000 Sample.pair ∅ false (Some Sample.B)
              (Some Sample.A) Hexact Hkeyed) as (Hcancel & _).
  apply Hcancel. split; [done|].
  exists Sample.B, Sample.A, Sample.P, (Sample.party_of Sample.pair).
  split_and!; done.
Defined.

(** ** Kills and deaths (__init__.py, [on_actor_death] and
       [on_player_death]) *)

(** X27. Kills and deaths are counted for the party of the player. A kill by
    a player in a party adds one to [total_kills] of that party, and a death
    of a player in a party adds one to [total_deaths]; besides, only the
    achievements of that party may grow, and no other party and no index
    changes. A player without a party changes nothing. The registry is
    marked dirty when the handler returns; when [check] raises, the counter
    is changed and the dirty flag is not. After a death the player is set to
    respawn at the party home exactly when the option is on, the party has a
    home and the handler returned. *)
Theorem kills_and_deaths_counted `{PyRuntime} `{PyNumbers} (config : PyVal)
    (online : UUID → bool) (_achievements : list (string * PartyAchievement.t))
    (respawn_at_home : bool) (party_manager : PartyManager.t)
    (pending : gmap UUID LocationData.t) (player : UUID) :
  let killed :=
    Plugin.on_actor_death config online _achievements party_manager (Some player) in
  let died :=
    Plugin.on_player_death config online _achievements respawn_at_home party_manager pending
      player in
  (PartyManager.get_player_party party_manager player = None →
     killed = (party_manager, [], true) ∧ died = (party_manager, pending, [], true)) ∧
  Plugin.on_actor_death config online _achievements party_manager None
    = (party_manager, [], true) ∧
  (∀ party_id party,
     PartyManager.player_to_party party_manager !! player = Some party_id →
     PartyManager.parties party_manager !! party_id = Some party →
     (∃ party',
        PartyManager.parties killed.1.1 = <[party_id := party']> (PartyManager.parties party_manager) ∧
        party' = Party.set_achievements (Party.achievements party')
                   (Party.set_total_kills (Party.total_kills party + 1) party) ∧
        Party.achievements party ⊆ Party.achievements party') ∧
     (∃ party',
        PartyManager.parties died.1.1.1 = <[party_id := party']> (PartyManager.parties party_manager) ∧
        party' = Party.set_achievements (Party.achievements party')
                   (Party.set_total_deaths (Party.total_deaths party + 1) party) ∧
        Party.achievements party ⊆ Party.achievements party') ∧
     killed.1.1 = PartyManager.set_dirty (PartyManager._dirty killed.1.1)
                    (PartyManager.set_parties (PartyManager.parties killed.1.1) party_manager) ∧
     died.1.1.1 = PartyManager.set_dirty (PartyManager._dirty died.1.1.1)
                    (PartyManager.set_parties (PartyManager.parties died.1.1.1) party_manager) ∧
     PartyManager._dirty killed.1.1 = killed.2 || PartyManager._dirty party_manager ∧
     PartyManager._dirty died.1.1.1 = died.2 || PartyManager._dirty party_manager ∧
     died.1.1.2 =
       match Party.home party with
       | Some home => if respawn_at_home && died.2 then <[player := home]> pending else pending
       | None => pending
       end).
Proof.
  intros killed died. split_and!.
  - subst killed died. unfold PartyManager.get_player_party, Plugin.on_actor_death,
      Plugin.on_player_death, PartyManager.deref.
    destruct (PartyManager.player_to_party party_manager !! player) as [party_id|]; [|done].
    by intros ->.
  - done.
  - intros party_id party Hindex Hparty. subst killed died.
    unfold Plugin.on_actor_death, Plugin.on_player_death, PartyManager.deref.
    rewrite Hindex, Hparty.
    destruct (check_frame config online _achievements (Party.increment_kills party))
      as (Hk1 & Hk2 & _).
    destruct (check_frame config online _achievements (Party.increment_deaths party))
      as (Hd1 & Hd2 & _).
    destruct (PartyAchievementManager.check online _achievements config
                (Party.increment_kills party)) as [[pk ck] rk].
    destruct (PartyAchievementManager.check online _achievements config
                (Party.increment_deaths party)) as [[pd cd] rd].
    cbn [fst snd] in *.
    assert (Hhome : Party.home pd = Party.home party) by by rewrite Hd1.
    rewrite Hhome.
    split_and!.
    + exists pk. by destruct rk.
    + exists pd. destruct rd; [|done]. by destruct (Party.home party), respawn_at_home.
    + destruct rk; cbn; by destruct party_manager.
    + destruct rd; [|cbn; by destruct party_manager].
      destruct (Party.home party), respawn_at_home; cbn; by destruct party_manager.
    + by destruct rk.
    + destruct rd; [|done]. by destruct (Party.home party), respawn_at_home.
    + destruct rd; [|by destruct (Party.home party), respawn_at_home].
      by destruct (Party.home party), respawn_at_home.
Qed.

(** ** Finding a player by name (__init__.py, [_find_member_id_by_name],
       [_find_requester_id] and [_find_banned_player_id]) *)

Section Lookup.
Context `{PyRuntime}.
Variable lower : string → string.
Variable get_player : UUID → option Player.t.
Variable player_names : gmap UUID string.

(** The loop and the fallback, over any list of identifiers. *)
Lemma find_or_parse (ids : list UUID) (listed : UUID → bool) (token : string) :
  (∀ x, listed x = true ↔ x ∈ ids) →
  let normalized := lower (Py.strip token) in
  let found :=
    match List.find (Plugin.name_matches lower get_player player_names normalized) ids with
    | Some id => Some id
    | None =>
        match uuid_parse token with
        | None => None
        | Some parsed => if listed parsed then Some parsed else None
        end
    end in
  (∀ x, found = Some x → x ∈ ids) ∧
  (∀ x, x ∈ ids → Plugin.name_matches lower get_player player_names normalized x = true →
        ∃ y, found = Some y ∧
             Plugin.name_matches lower get_player player_names normalized y = true) ∧
  ((∀ x, x ∈ ids → Plugin.name_matches lower get_player player_names normalized x = false) →
   found = match uuid_parse token with
           | Some parsed => if listed parsed then Some parsed else None
           | None => None
           end).
Proof.
  intros Hlisted normalized found. subst found.
  destruct (List.find _ ids) as [id|] eqn:Hfind.
  - apply find_some in Hfind as [Hin Hmatch]. apply list_elem_of_In in Hin.
    split_and!.
    + by intros x [= <-].
    + intros x _ _. by exists id.
    + intros Hnone. by rewrite (Hnone id Hin) in Hmatch.
  - split_and!.
    + intros x. destruct (uuid_parse token) as [parsed|]; [|done].
      destruct (listed parsed) eqn:Hparsed; [|done]. intros [= <-]. by apply Hlisted.
    + intros x Hx Hmatch. apply list_elem_of_In in Hx.
      by rewrite (find_none _ _ Hfind x Hx) in Hmatch.
    + done.
Qed.

End Lookup.

(** X28. The three lookups return players of the party only:
    [_find_member_id_by_name] a member, [_find_requester_id] a player with a
    join request, [_find_banned_player_id] a banned player. A player whose
    online name or recorded name, in lower case, is the token, stripped and
    in lower case, is preferred to the reading of the token as an
    identifier: when there is one, a player with such a name is returned;
    when there is none, the result is the identifier the token spells if
    that is in the set, and [None] otherwise. This holds whatever
    [str.lower()] makes of a name. *)
Theorem find_ids_in_party `{PyRuntime} (lower : string → string)
    (get_player : UUID → option Player.t)
    (player_names : gmap UUID string) (requesters : list UUID) (party : Party.t)
    (token : string) :
  let normalized := lower (Py.strip token) in
  let matches := Plugin.name_matches lower get_player player_names normalized in
  let member := Plugin._find_member_id_by_name lower get_player player_names party token in
  let banned := Plugin._find_banned_player_id lower get_player player_names party token in
  let requester :=
    Plugin._find_requester_id lower get_player player_names requesters party token in
  ((∀ x, member = Some x → x ∈ Party.members party) ∧
   (∀ x, x ∈ Party.members party → matches x = true →
         ∃ y, member = Some y ∧ matches y = true) ∧
   ((∀ x, x ∈ Party.members party → matches x = false) →
    member = match uuid_parse token with
             | Some parsed =>
                 if bool_decide (parsed ∈ Party.members party) then Some parsed else None
             | None => None
             end)) ∧
  ((∀ x, banned = Some x → x ∈ Party.banned_players party) ∧
   (∀ x, x ∈ Party.banned_players party → matches x = true →
         ∃ y, banned = Some y ∧ matches y = true) ∧
   ((∀ x, x ∈ Party.banned_players party → matches x = false) →
    banned = match uuid_parse token with
             | Some parsed =>
                 if bool_decide (parsed ∈ Party.banned_players party) then Some parsed else None
             | None => None
             end)) ∧
  (requesters ≡ₚ (map_to_list (Party.join_requests party)).*1 →
   (∀ x, requester = Some x → is_Some (Party.join_requests party !! x)) ∧
   (∀ x, is_Some (Party.join_requests party !! x) → matches x = true →
         ∃ y, requester = Some y ∧ matches y = true) ∧
   ((∀ x, is_Some (Party.join_requests party !! x) → matches x = false) →
    requester = match uuid_parse token with
                | Some parsed =>
                    if bool_decide (is_Some (Party.join_requests party !! parsed))
                    then Some parsed else None
                | None => None
                end)).
Proof.
  intros normalized matches member banned requester. split_and!.
  - destruct (find_or_parse lower get_player player_names (set_iter (Party.members party))
                (λ x, bool_decide (x ∈ Party.members party)) token) as (H1 & _).
    { intros x. by rewrite bool_decide_eq_true, elem_of_set_iter. }
    intros x Hx. apply elem_of_set_iter. by apply H1.
  - destruct (find_or_parse lower get_player player_names (set_iter (Party.members party))
                (λ x, bool_decide (x ∈ Party.members party)) token) as (_ & H2 & _).
    { intros x. by rewrite bool_decide_eq_true, elem_of_set_iter. }
    intros x Hx. apply H2. by apply elem_of_set_iter.
  - destruct (find_or_parse lower get_player player_names (set_iter (Party.members party))
                (λ x, bool_decide (x ∈ Party.members party)) token) as (_ & _ & H3).
    { intros x. by rewrite bool_decide_eq_true, elem_of_set_iter. }
    intros Hnone. apply H3. intros x Hx. apply Hnone. by apply elem_of_set_iter.
  - destruct (find_or_parse lower get_player player_names (set_iter (Party.banned_players party))
                (λ x, bool_decide (x ∈ Party.banned_players party)) token) as (H1 & _).
    { intros x. by rewrite bool_decide_eq_true, elem_of_set_iter. }
    intros x Hx. apply elem_of_set_iter. by apply H1.
  - destruct (find_or_parse lower get_player player_names (set_iter (Party.banned_players party))
                (λ x, bool_decide (x ∈ Party.banned_players party)) token) as (_ & H2 & _).
    { intros x. by rewrite bool_decide_eq_true, elem_of_set_iter. }
    intros x Hx. apply H2. by apply elem_of_set_iter.
  - destruct (find_or_parse lower get_player player_names (set_iter (Party.banned_players party))
                (λ x, bool_decide (x ∈ Party.banned_players party)) token) as (_ & _ & H3).
    { intros x. by rewrite bool_decide_eq_true, elem_of_set_iter. }
    intros Hnone. apply H3. intros x Hx. apply Hnone. by apply elem_of_set_iter.
  - intros Hkeys.
    assert (Hin : ∀ x, x ∈ requesters ↔ is_Some (Party.join_requests party !! x)).
    { intros x. rewrite Hkeys. split.
      - intros Hx. apply list_elem_of_fmap in Hx as ([k v] & -> & Hkv).
        apply elem_of_map_to_list in Hkv. by exists v.
      - intros [v Hv]. apply list_elem_of_fmap. exists (x, v).
        split; [done|by apply elem_of_map_to_list]. }
    destruct (find_or_parse lower get_player player_names requesters
                (λ x, bool_decide (is_Some (Party.join_requests party !! x))) token)
      as (H1 & H2 & H3).
    { intros x. by rewrite bool_decide_eq_true, Hin. }
    split_and!.
    + intros x Hx. apply Hin. by apply H1.
    + intros x Hx. apply H2. by apply Hin.
    + intros Hnone. apply H3. intros x Hx. apply Hnone. by apply Hin.
Qed.
